(* ===== verification/_CoqProject ===== *)
-Q . S2P
Prelude.v
JsNumber.v
JsString.v
ArraySort.v
Venue.v
Selection.v
RouteOrder.v
Clock.v
Timing.v
RouteOverlay.v
VenueCache.v
MapData.v
TastePicker.v
TasteCatalog.v
Map2D.v
Drawer.v
Controls.v
HexOverlay.v
Map3D.v
Simple3D.v
Instant.v
Enhanced3D.v
MapViewClean.v
Google3D.v
Itinerary.v
Chatbot.v
Navigation.v
Page.v
Planner.v
