(* ===== verification/Prelude.v ===== *)
(** * Culturis: a verification development

    The development models the client of Culturis
    ([src/culturis-studio/src]), a React application that plans walks
    through the cultural venues of a city: the route planner
    ([components/RoutePlanner.js]) selects venues from a pool, orders
    them into a walk, times every stop on a running clock and shows the
    itinerary; the map page ([components/PaintMyMapPage.js]) shares the
    tastes, the location and the route between the planner, the chat
    panel ([components/ChatbotPanel.js]) and the navigation panel
    ([components/NavigationPanel.js]); the route overlay
    ([components/RouteOverlay.js]) reorders and measures the route it
    draws; the venue cache hook ([hooks/useVenueCache.js]) loads the
    venues of a location through an in-memory cache, and the heat-map
    hook ([hooks/useMapData.js]) the insights of a grid of hexagons;
    the taste picker ([components/TasteSeedPicker.js]) and the hook
    [hooks/useTasteSelection.js] select the tastes everything starts
    from, and the hook [hooks/useTasteCatalog.js] loads, searches and
    extends the catalog of tastes (no component calls the two hooks);
    the 2D map view ([components/Simple2DMapView.js]) loads the venues
    of the selected tastes from the backend, or generates them, and
    renders the venue drawer ([components/VenueDrawer.js]); the 3D
    view [components/True3DMapView.js] (imported by no page) shows
    fixed venues on a Mapbox map with the map controls
    ([components/MapControls.js]); the CSS 3D view
    [components/Simple3DMapView.js], the enhanced Mapbox view
    [components/Enhanced3DMapView.js] and the instant preview
    [components/InstantMapView.js] are other views no page imports,
    as is the Leaflet view [components/MapView_clean.js], which draws
    the heat-map hook's data with the map controls and the drawer, and
    the Google Maps 3D view [components/GoogleMaps3DView.js], which
    loads the Google Maps API and shows a satellite map;
    and
    the hexagon overlay ([components/HexHeatOverlay.js], imported by no
    view) draws the hexagons of the heat-map hook.

    ** The program and its model

    - Effects (this file): code that can throw returns a [Result]; reads
      of [Math.random()] and of the wall clock are reads of two
      arbitrary streams indexed by counters, threaded by the state monad
      [M World] (notation [x <- m ;; k] in [culturis_scope]).  Theorems
      quantify over the streams, so they hold for every random source
      and every clock.  The file also holds the shared list, option and
      [Result] lemmas and the hint database [culturis].
    - JavaScript numbers ([JsNumber.v]): floating-point values are
      IEEE-754 binary64 ([Binary64], on the executable [SpecFloat]);
      integer-valued results ([Math.round], [Math.floor], [%], clock
      arithmetic) are [JsInt], an integer in [Z], [NaN] or an infinity,
      with [NaN] contagion.  [Math.sin], [cos], [atan2], [pow] are the
      class [JsMath]: the engine's, left abstract.
    - JavaScript strings ([JsString.v]): [includes], [toLowerCase],
      [split], [join], [Number], [toString], [padStart],
      [replace(/\s+/g, '_')], the comparison of [sort()] and
      [Number.prototype.toFixed], on strings of bytes; [trim], [Number]
      and [replace] know the white space of ECMA-262 (the ASCII one and
      the Unicode spaces, U+FEFF, U+2028 and U+2029, as UTF-8 bytes).
    - [Array.prototype.sort] ([ArraySort.v]): the class [ArraySort] of
      what ECMA-262 guarantees (for any comparator a permutation, with
      exceptions propagated; for a comparator consistent by a key, the
      array sorted by that key), and V8's algorithm for short arrays as
      the instance [V8Sort.v8_sort], proved to meet both
      ([timSort_perm], [timSort_sorted]).
    - Data ([Venue.v], Module [Venue]): venues, preferences, route stops,
      planned routes and tastes; a field the object may lack is an
      [option].
    - Planner: [Selection.v] (Module [VenueSelection]:
      [prioritizeVenuesByFocus], [calculateWeightedAffinity], lines 31-54
      of [generateRoute], the stable sort as [sort_desc]); [RouteOrder.v]
      ([optimizeVenueOrder], its [while] loop [orderLoop] on fuel);
      [Clock.v] ([addMinutes], [formatDuration]); [Timing.v]
      ([getEstimatedTime], [getEstimatedTravelTime],
      [generateVenueNotes], the [map] callback of lines 61-98 as
      [routeDetails], the total); [Itinerary.v] (the abstract itinerary
      on absolute minutes); [Planner.v] (the state of [RoutePlanner],
      [generateRoute], the events of its render as [handle], the step
      relation [planner_step] and its reachable states).
    - Route overlay ([RouteOverlay.v]): [calculateOptimalRoute] over any
      [ArraySort], the Haversine [calculateDistance] over any [JsMath],
      [calculateRouteMetrics] (its [for] loop and a reference on legs),
      the polyline and markers, the state hooks and layer refs, and the
      effect re-run after every commit ([overlay_run]).
    - Venue cache ([VenueCache.v]): [createVenueCacheKey],
      [filtersToApiParams], [fetchVenues] (a response or a failure is an
      input), [generateMockVenues], and the hook's state ([CacheState],
      the [Map] of [cacheRef] a [gmap string]) with [loadVenues] split at
      its [await]: an event [Settle] resumes the call of a controller;
      a controller is aborted when a later load replaced it.
    - Heat map ([MapData.v]): [generateHexGrid], [createCacheKey],
      [fetchHexInsights], and [generateHeatData] as a state machine over
      its [await]s: the call starts every hexagon's request; an event
      settles a request, the [Promise.all] of a batch, or a 100 ms
      timeout; the previous call's controller is aborted.
    - Taste selection ([TastePicker.v]): Module [TasteSelection] is the
      hook, with the identity of its selection array deciding when the
      change callback runs; Module [TastePicker] is the picker as a
      state machine over the arrivals of the catalog, the trending
      tastes and the remote searches, the 300 ms debounce timer and the
      user's inputs, with [view] for what a render shows; Fuse.js's
      search is a parameter.
    - Taste catalog ([TasteCatalog.v], Module [TasteCatalog]): the
      catalog and trending effects, the local and remote searches
      ([searchRemoteQloo] reads [Date.now()] from the clock stream and
      rethrows the [Error] value [unavailable]), [searchTastes] with
      the [remoteTastes] updates it queues, and the queries on the
      catalog object; the events form [catalog_step].
    - 2D map view ([Map2D.v], Module [Map2D]): the venue effect with
      its [isFetchingRef] guard and dependencies as [commit], the
      settling of the backend request ([settle]) with the fallback
      generator [generateFallbackVenues] (five draws of the random
      stream per venue, the engine's [Math.cos], [Math.sin] and sort),
      the markers' colors and emoji, and the click handlers.
    - Venue drawer ([Drawer.v], Module [VenueDrawer]): the drag state,
      the [document] listeners of a mouse drag as the closures of the
      render that added them ([Captured]), the touch handlers and the
      footer toggle ([drawer_step]), what a render shows ([view]), and
      the props the 2D map passes ([map2d_drawer_props]).
    - Map controls ([Controls.v], Module [MapControls]): the filters
      object as a [gmap string FVal] of JavaScript values, the filter
      and open-now toggles, the count of truthy filters, and every
      button, with the parent of [True3DMapView.js] storing what they
      hand it; [filters_equiv] (same truthy values) is an
      [Equivalence] the count and the toggles respect ([Proper]
      instances), so [rewrite] works up to it.
    - Hexagon overlay ([HexOverlay.v], Module [HexOverlay]): the path,
      color, opacity and tooltip of a hexagon ([createHexagon]), and a
      commit ([overlay_commit]) running the redrawing effect when the
      identities of its dependencies changed, then the effect that
      creates the layer group at mount, in their order in the source.
    - 3D map view ([Map3D.v], Module [True3D]): the camera, the fixed
      venues, the Mapbox status and the map controls' parent state
      ([T3State]); a commit runs the render's effects when their
      dependencies changed and then the render their updates cause
      ([commit]); the clicks and the map's callbacks are available on
      the screen that renders them ([screen], [t3_step]); the map
      controls are [MapControls.controls_step].
    - CSS 3D view ([Simple3D.v], Module [Simple3D]): the same camera
      record, fixed venues, and the clicks ([s3_step]).
    - Enhanced Mapbox view ([Enhanced3D.v], Module [Enhanced3D]): the
      random generator, and a render ([effects_pass]) with the
      identities of the props ([Ident]: a default array is [Fresh] at
      every render), which records whether it scheduled another.
    - Instant preview ([Instant.v], Module [InstantMap]): the two
      intervals as tick events and their updaters ([instant_step]).
    - Leaflet view ([MapViewClean.v], Module [CleanMap]): the view's
      hooks, [isGeneratingRef], its pending 500 ms timeouts and
      [.finally] callbacks, with the heat-map hook's [HeatState] as a
      field: the effects and the timeouts call
      [MapData.generateHeatData] on it, and the hook's settlements are
      events of the view ([mv_step]); a commit runs the recentering
      effect and, when the tastes array changed, the heat effect
      ([commit], which settles: [commit_idem]).
    - Google Maps 3D view ([Google3D.v], Module [Google3D]): the view's
      hooks and refs, with [mapRef.current] set by a commit exactly when
      it renders the map's [div]; [initializeMap] up to its [await] and
      its continuation ([resume_init]), run when the module-level API
      promise settles ([settle_api]); the 5 s and 100 ms timeouts as
      events ([g_step]); the key from the environment is a parameter.
    - Chat panel ([Chatbot.v]): [handleSubmit] as a state machine over
      its awaits (the pending request keeps the values its closure
      captured), the backend's answers as inputs, every local handler
      and [mockExtractTastes].
    - Navigation panel ([Navigation.v]): the suggestion filter, the
      coordinate search on a plain object, and the handlers with their
      [setTimeout] callbacks as pending timers.
    - Map page ([Page.v]): the page's state and handlers, and the wiring
      of the three panels in the map layout.

    ** What the theorems show

    - Planner: the invariant [planner_inv] holds in every reachable
      state ([planner_inv_reachable]); a planned route visits the
      selected venues in the order [optimizeVenueOrder] returns for
      them, one stop each, numbered from 1 ([planRoute_shape]); with
      a fixed clock its times are those of the abstract itinerary
      ([planRoute_clock]); selection keeps the venues of highest
      affinity plus focus boost ([selectVenues_top]), its sort is the
      one every stable sort returns ([sortedVenues_characterization]),
      and it throws exactly on a typeless venue under
      a non-diverse focus ([selectVenues_total]); the ordering loop
      terminates on its fuel and returns a permutation
      ([orderLoop_terminates], [optimizeVenueOrder_perm]); clock
      strings add modulo a day ([addMinutes_clock]) and break when the
      narrow no-break space of current browsers separates the period
      ([addMinutes_nbsp]); dwell and
      travel times are bounded ([getEstimatedTime_bounds],
      [getEstimatedTravelTime_bounds]).
    - Chat and page: the chat panel's invariant over every message
      sequence ([chat_run_inv]); what a stop replacement does and keeps
      ([handleVenueReplacement_update], [handleVenueReplacement_nodup]);
      a stale closure overwriting a newer route
      ([chat_replacement_overwrites]); the navigation search and its
      stale suggestion click ([locationSearch_result],
      [suggestion_search_stale]).
    - Route overlay: the result of [calculateOptimalRoute] for every
      engine ([calculateOptimalRoute_spec]) and, on venues whose
      affinities are more than five points apart, the six of highest
      affinity in decreasing order ([calculateOptimalRoute_top]);
      elsewhere the comparator is
      inconsistent ([compareVenues_cycle]) and V8's route depends on the
      input order ([optimal_route_input_order]); the metrics loop
      computes the reference and throws exactly on a missing coordinate
      ([calculateRouteMetrics_reference], [calculateRouteMetrics_throws]);
      marker labels ([createVenueMarkers_labels]); the effect never
      settles with two or more venues ([overlay_never_settles]).
    - Venue cache: the hook's invariant over every sequence of calls and
      settlements ([cache_run_inv]); load, settle and look up is a round
      trip, for the key's ids and filters in any order
      ([load_settle_roundtrip], [createVenueCacheKey_perm]); venue ids
      read back their indices ([entity_id_roundtrip]); a failure is
      cached as mock venues ([failure_cached]); clearing the tastes
      leaves the request in flight to show stale venues
      ([stale_after_clear]).
    - Heat map: the hook's invariant over every sequence of events
      ([heat_run_inv]); with every request settled, [ceil(n / 10)]
      rounds of the batch loop publish the whole grid and clear
      [loading] ([generateHeatData_completes]); every request starts at
      once ([generateHeatData_starts_all]); the grid has [(2g + 1)^2]
      hexagons ([generateHexGrid_size]), whose ids collide at zoom 19
      around Times Square ([hex_ids_collide]); a cluster without a score makes the lift
      [NaN] ([insight_lift_nan]).
    - Taste selection: selections stay free of duplicate ids and only
      selections of [minSelections] tastes are handed on
      ([picker_run_inv]); a slow remote search overwrites the results
      of a later query ([stale_search_results]); the trending fallback
      ([trending_fallback]); add then remove in the hook is a round
      trip ([addTaste_removeTaste]).
    - 2D map view: tastes changed during a request are never fetched
      ([taste_change_not_requested]); the fallback venues are well
      formed for every random source and engine
      ([generateFallbackVenues_shape]), and the generator's types exist
      exactly when every taste has a name ([relevantVenueTypes_ok]);
      the fetch flag matches the request in flight
      ([map_run_inv]); a marker of affinity 70 is drawn as a medium
      match ([venueColor_70]).
    - Venue drawer: a mouse drag does nothing where the same touch drag
      moves the drawer ([mouse_drag_inert]); the drawer of the 2D map
      never shows, whatever is clicked ([map2d_drawer_never_shown]).
    - Map controls: a chip clicked twice gives back the filters up to
      [filters_equiv] and the same count ([handleFilterSelect_twice]);
      the filters keep three keys at most, so the badge never counts
      more than three ([controls_run_keys]).
    - Hexagon overlay: the redrawing effect runs before the layer
      group exists, so nothing is drawn until a dependency changes
      ([overlay_mount_draws_nothing]); a hexagon with a [NaN] lift is
      drawn grey with opacity [NaN] and a "NaN%" tooltip
      ([nan_hexagon]).
    - 3D map view: a commit settles after one re-render
      ([commit_settles]); a pan or a marker's [flyTo] is undone by the
      next commit ([pan_reverted]); the venues are generated once,
      around the first center ([venues_generated_once]); the tilt stays
      an integer of [[0, 65]] ([pitch_bounds]); after a Mapbox error the
      fallback map is permanent ([fallback_permanent]); closing the
      popup leaves the route mode stuck ([route_mode_stuck]).
    - CSS 3D view: its tilt stays an integer of [[0, 80]]
      ([css_pitch_bounds]).
    - Enhanced Mapbox view: the render loop stops exactly when both
      array props are given, and otherwise every render draws 80 random
      numbers and schedules another ([render_loop]); a marker's color
      is drawn independently of its affinity ([marker_color_random]).
    - Instant preview: the countdown shows "-0.1" at its eleventh tick
      ([countdown_shows_negative]) and stops at its twelfth
      ([countdown_stops]).
    - Leaflet view: composed with the hook, the view never runs two
      heat-map calls, so it never aborts one of its own
      ([one_generation]); the hook's error, and so the error page, is
      set only by the [catch] of [generateHeatData], which the model's
      inputs never reach ([error_page_unreachable]: only a [null] taste
      or centre throws there); the 2D or 3D mode is the one of the
      first render ([mode_fixed]); after a pan the view's centre and
      zoom snap back while the heat map is drawn around the panned
      centre ([pan_heat_elsewhere]).
    - Google Maps 3D view: the map is never created nor shown
      ([google_map_never_created]); after a timely load the loader
      shows 70% for good ([loader_stuck_at_70]); a load failure is
      reported as slowness after 5 s ([failure_message_replaced]).
    - Taste catalog: the hook's invariant over every sequence of events
      ([catalog_run_inv]); what a resolved search returns and records
      ([searchTastes_remote_recorded]) and exactly when it rejects
      ([searchTastes_rejects]); an entity without an id is recorded
      again by every search, under a new [Date.now()] id
      ([remote_tastes_duplicate]); a category named after a member of
      [Object.prototype] finds that member
      ([getTastesByCategory_inherited]).

    ** Bounds and fuel

    [orderLoop] receives as fuel the number of venues to place; every
    round places one, so [orderLoop_terminates] shows the fuel is never
    exhausted.  The binary search of V8's insertion sort receives the
    length of the sorted prefix, the width of its first window; every
    step narrows the window, so [bsearch_fuel] shows that any larger
    fuel gives the same result and [bsearch_sorted] that the search
    ends at the place of the pivot.  The sign of the double of an
    integer difference, which decides V8's comparisons, is checked by
    evaluation on [[-2000, 2000]] ([ltb_of_Z_zero]); affinities are
    percentages, and [calculateOptimalRoute_top] takes them in
    [[-1000, 1000]].  [JsString.digits] recurses
    on [log2 n + 1] steps, which bounds its decimal digits.  Integers
    of the planner (minutes, hours, affinities, counts) are kept in [Z],
    far below [2^53], where binary64 integer arithmetic is exact;
    genuine fractions are [Binary64].

    ** Not modelled

    Rendering (JSX, CSS, icons, Leaflet, Mapbox and Google Maps layers,
    which are third-party SDKs), the browser's [toLocaleTimeString] (an
    arbitrary clock stream), the HTTP requests (their answers are
    inputs), [Number::toString] beyond [10^21] (a parameter), the
    Fuse.js search (a parameter), the Mapbox style URLs of the 3D view
    and of the enhanced view (their literals are cut at [mapbox:] in
    the source), [GoogleMapsSimple.js] and [GoogleMapsTest.js] and
    [NumberedMarkers] (SDK calls; the Leaflet view receives a marker's
    venue as its number), the Google Maps SDK (its map is the record of
    the options the 3D view passes),
    and the Leaflet interaction controller of the 2D view (SDK calls
    and timers on the map object); the project
    manifest lists
    every component with its status.  The heat-map loop needs no fuel:
    it is a state machine whose events a theorem supplies, and
    [generateHeatData_completes] shows that [ceil(n / 10)] rounds end
    it. *)
From Stdlib Require Import List ZArith Lia Permutation Sorted RelationClasses.
From Stdlib Require String.
Import ListNotations.

(** ** Exceptions and the effect monad

    JavaScript code can throw; the planner's code throws a [TypeError]
    when it reads a property of [undefined] (a venue without a [type]);
    the hooks rethrow an [Error] with a message of their own.  A
    computation that may throw returns a [Result]. *)

Inductive Exn : Type :=
| TypeError
| Error (message : String.string).

Inductive Result (A : Type) : Type :=
| Ok (a : A)
| Throw (e : Exn).
Arguments Ok {A} a.
Arguments Throw {A} e.

Definition res_bind {A B} (r : Result A) (k : A -> Result B) : Result B :=
  match r with Ok a => k a | Throw e => Throw e end.

Definition res_fmap {A B} (f : A -> B) (r : Result A) : Result B :=
  res_bind r (fun a => Ok (f a)).

(** [Array.prototype.map] with a callback that may throw: the first
    exception aborts the whole map. *)
Fixpoint res_map {A B} (f : A -> Result B) (l : list A) : Result (list B) :=
  match l with
  | [] => Ok []
  | x :: xs => res_bind (f x) (fun y => res_bind (res_map f xs) (fun ys => Ok (y :: ys)))
  end.

(** A loop whose body may throw, over the values it iterates on: the
    first exception ends the loop. *)
Fixpoint res_foldl {A B} (f : B -> A -> Result B) (l : list A) (b : B) : Result B :=
  match l with
  | [] => Ok b
  | x :: xs => res_bind (f b x) (res_foldl f xs)
  end.

(** The planner also reads the wall clock ([new Date()]) and draws random
    numbers ([Math.random()]).  Both are reads from an environment
    stream indexed by counters that the computation threads: [M W A]
    is the state monad over such counters [W], with exceptions.  The
    state survives an exception, as JavaScript's global state does. *)

Definition M (W A : Type) : Type := W -> Result A * W.

Definition m_ret {W A} (a : A) : M W A := fun s => (Ok a, s).
Definition m_throw {W A} (e : Exn) : M W A := fun s => (Throw e, s).
Definition m_lift {W A} (r : Result A) : M W A := fun s => (r, s).
Definition m_bind {W A B} (m : M W A) (k : A -> M W B) : M W B :=
  fun s => match m s with
           | (Ok a, s') => k a s'
           | (Throw e, s') => (Throw e, s')
           end.

Declare Scope culturis_scope.
Delimit Scope culturis_scope with culturis.
Notation "x <- m ;; k" := (m_bind m (fun x => k))
  (at level 65, m at next level, right associativity) : culturis_scope.
Notation "'ret' a" := (m_ret a) (at level 10) : culturis_scope.
Open Scope culturis_scope.

(** [l.map((x, i) => ...)] with a body in [M], indices from [i]. *)
Fixpoint m_mapi {W A B} (f : nat -> A -> M W B) (i : nat) (l : list A) : M W (list B) :=
  match l with
  | [] => m_ret []
  | x :: xs => m_bind (f i x) (fun y => m_bind (m_mapi f (S i) xs) (fun ys => m_ret (y :: ys)))
  end.

(** The pure counterpart of [m_mapi]. *)
Fixpoint mapi_from {A B} (g : nat -> A -> B) (i : nat) (l : list A) : list B :=
  match l with
  | [] => []
  | x :: xs => g i x :: mapi_from g (S i) xs
  end.

(** A decision of [NoDup] by a boolean equality. *)
Fixpoint nodupb {A} (eqb : A -> A -> bool) (l : list A) : bool :=
  match l with
  | [] => true
  | x :: xs => negb (existsb (eqb x) xs) && nodupb eqb xs
  end.

(** [try { m } catch (e) { h(e) }]. *)
Definition m_catch {W A} (m : M W A) (h : Exn -> M W A) : M W A :=
  fun s => match m s with
           | (Throw e, s') => h e s'
           | r => r
           end.

(** The environment the planner reads: the [n]-th call of
    [Math.random()] returns [random_stream n] and the [n]-th reading of
    the wall clock returns [clock_stream n]; [World] counts the reads so
    far.  A theorem quantified over the streams holds for every random
    source and every clock. *)
Record World : Type := mkWorld { draws : nat; ticks : nat }.

Section Environment.
Context {R T : Type} (random_stream : nat -> R) (clock_stream : nat -> T).

Definition Math_random : M World R :=
  fun w => (Ok (random_stream (draws w)), mkWorld (S (draws w)) (ticks w)).

Definition read_clock : M World T :=
  fun w => (Ok (clock_stream (ticks w)), mkWorld (draws w) (S (ticks w))).
End Environment.

(** ** List helpers shared by the components *)

(** [arr.splice(i, 1)]: the array without its [i]-th element. *)
Fixpoint remove_nth {A} (i : nat) (l : list A) : list A :=
  match l, i with
  | [], _ => []
  | _ :: xs, O => xs
  | x :: xs, S j => x :: remove_nth j xs
  end.

(** [arr[arr.length - 1]]: the last element, [undefined] when empty. *)
Fixpoint last_error {A} (l : list A) : option A :=
  match l with
  | [] => None
  | [x] => Some x
  | _ :: xs => last_error xs
  end.

(** ** A stable sort by decreasing key *)

Section StableSort.

Context {A : Type} (key : A -> Z).
Local Open Scope Z_scope.

(** Insert [x] before the first element whose key is not greater than
    its own: [x] precedes the equal-key elements that follow it in the
    input. *)
Fixpoint insert_desc (x : A) (l : list A) : list A :=
  match l with
  | [] => [x]
  | y :: ys => if key y <=? key x then x :: y :: ys else y :: insert_desc x ys
  end.

Fixpoint sort_desc (l : list A) : list A :=
  match l with
  | [] => []
  | x :: xs => insert_desc x (sort_desc xs)
  end.

Definition desc (x y : A) : Prop := key y <= key x.

(** The elements of key [z], in order. *)
Definition with_key (z : Z) (l : list A) : list A :=
  filter (fun x => key x =? z) l.

End StableSort.

(** [lia] after turning [x / c] and [x mod c] into their defining
    equations. *)
Ltac lia_divmod := Z.div_mod_to_equations; lia.

(** Case analysis on every [if] and [match] of the goal: the guards of
    an event handler. *)
Ltac case_ifs :=
  repeat match goal with
  | |- context [if ?b then _ else _] => destruct b
  | |- context [match ?x with _ => _ end] => destruct x
  end.

Create HintDb culturis.
Create Rewrite HintDb culturis_rw.

Lemma res_map_length {A B} (f : A -> Result B) (l : list A) ys :
  res_map f l = Ok ys -> length ys = length l.
Proof.
  revert ys; induction l as [|x xs IH]; intros ys H; cbn in H.
  - now injection H as <-.
  - destruct (f x) as [y|e]; [|discriminate]. cbn in H.
    destruct (res_map f xs) as [zs|e] eqn:E; [|discriminate].
    injection H as <-. cbn. f_equal. now apply IH.
Qed.

Lemma remove_nth_perm {A} (l : list A) (i : nat) (x : A) :
  nth_error l i = Some x -> Permutation l (x :: remove_nth i l).
Proof.
  revert i. induction l as [|y ys IH]; intros [|i] H; cbn in *; try discriminate.
  - injection H as ->. reflexivity.
  - eapply perm_trans; [apply perm_skip, (IH i H)|apply perm_swap].
Qed.

Lemma remove_nth_length {A} (l : list A) (i : nat) :
  i < length l -> length (remove_nth i l) = pred (length l).
Proof.
  revert i. induction l as [|y ys IH]; intros [|i] H; cbn in *; try lia.
  rewrite IH by lia. destruct ys; cbn in *; lia.
Qed.

Lemma res_map_ok_iff {A B} (f : A -> Result B) (l : list A) :
  (exists ys, res_map f l = Ok ys) <-> Forall (fun x => exists y, f x = Ok y) l.
Proof.
  induction l as [|x xs IH]; cbn.
  - split; [constructor|eauto].
  - rewrite Forall_cons_iff, <- IH. split.
    + intros [ys H]. destruct (f x) as [y|e]; [|discriminate]. cbn in H.
      destruct (res_map f xs) as [zs|e]; [|discriminate]. eauto.
    + intros [[y Hy] [zs Hzs]]. rewrite Hy, Hzs. cbn. eauto.
Qed.

Lemma res_map_pair_fst {A B} (g : A -> Result B) (l : list A) r :
  res_map (fun x => res_bind (g x) (fun b => Ok (x, b))) l = Ok r -> map fst r = l.
Proof.
  revert r; induction l as [|x xs IH]; intros r H; cbn in H.
  - now injection H as <-.
  - destruct (g x) as [b|e]; [|discriminate]. cbn in H.
    destruct (res_map _ xs) as [zs|e] eqn:E; [|discriminate].
    injection H as <-. cbn. f_equal. now apply IH.
Qed.

Lemma StronglySorted_app_inv {A} (R : A -> A -> Prop) (l1 l2 : list A) :
  StronglySorted R (l1 ++ l2) ->
  StronglySorted R l1 /\ StronglySorted R l2 /\
  (forall a b, In a l1 -> In b l2 -> R a b).
Proof.
  induction l1 as [|x xs IH]; cbn; intros H.
  - repeat split; [constructor|exact H|contradiction].
  - apply StronglySorted_inv in H as [Hs Hall]. destruct (IH Hs) as (H1 & H2 & H12).
    rewrite Forall_forall in Hall. repeat split.
    + constructor; [exact H1|]. apply Forall_forall. intros y Hy. apply Hall, in_or_app; now left.
    + exact H2.
    + intros a b [<-|Ha] Hb; [apply Hall, in_or_app; now right|now apply H12].
Qed.

Lemma Permutation_filter {A} (f : A -> bool) (l1 l2 : list A) :
  Permutation l1 l2 -> Permutation (filter f l1) (filter f l2).
Proof.
  induction 1 as [|x l1 l2 _ IH|x y l|l1 l2 l3 _ IH1 _ IH2]; cbn.
  - constructor.
  - destruct (f x); [now apply perm_skip|exact IH].
  - destruct (f x), (f y); try constructor; reflexivity.
  - now rewrite IH1.
Qed.

Lemma ForallOrdPairs_impl {A} (R S : A -> A -> Prop) (l : list A) :
  (forall a b, R a b -> S a b) -> ForallOrdPairs R l -> ForallOrdPairs S l.
Proof.
  intros HRS. induction 1 as [|a l Hall Hl IH]; constructor; [|exact IH].
  exact (Forall_impl _ (HRS a) Hall).
Qed.

Lemma StronglySorted_app {A} (R : A -> A -> Prop) (l1 l2 : list A) :
  StronglySorted R l1 -> StronglySorted R l2 ->
  (forall a b, In a l1 -> In b l2 -> R a b) -> StronglySorted R (l1 ++ l2).
Proof.
  induction l1 as [|x xs IH]; cbn; intros H1 H2 H12; [exact H2|].
  apply StronglySorted_inv in H1 as [Hs Hall]. constructor.
  - apply IH; [exact Hs|exact H2|intros a b Ha Hb; apply H12; [now right|exact Hb]].
  - apply Forall_app. split; [exact Hall|].
    apply Forall_forall. intros b Hb. apply H12; [now left|exact Hb].
Qed.

Lemma StronglySorted_rev {A} (R : A -> A -> Prop) (l : list A) :
  StronglySorted R l -> StronglySorted (fun a b => R b a) (rev l).
Proof.
  induction l as [|x xs IH]; cbn; intros H; [constructor|].
  apply StronglySorted_inv in H as [Hs Hall]. rewrite Forall_forall in Hall.
  apply StronglySorted_app; [now apply IH|repeat constructor|].
  intros a b Ha [<-|[]]. apply Hall. now apply in_rev.
Qed.

Lemma StronglySorted_weaken {A} (R S : A -> A -> Prop) (l : list A) :
  (forall a b, R a b -> S a b) -> StronglySorted R l -> StronglySorted S l.
Proof.
  intros HRS. induction 1 as [|x xs Hs IH Hall]; constructor; [exact IH|].
  exact (Forall_impl _ (HRS x) Hall).
Qed.

(** The element at a valid index splits the list. *)
Lemma skipn_nth {A} (l : list A) (n : nat) (d : A) :
  (n < length l)%nat -> skipn n l = nth n l d :: skipn (S n) l.
Proof.
  revert l; induction n as [|n IH]; intros [|x l] H; cbn in *; try lia; [reflexivity|].
  apply IH. lia.
Qed.

Lemma firstn_S_nth {A} (l : list A) (n : nat) (d : A) :
  (n < length l)%nat -> firstn (S n) l = firstn n l ++ [nth n l d].
Proof.
  revert l; induction n as [|n IH]; intros [|x l] H; cbn in *; try lia; [reflexivity|].
  f_equal. apply IH. lia.
Qed.

Lemma skipn_cons_inv {A} (l : list A) (i : nat) (x : A) (r : list A) :
  skipn i l = x :: r -> nth_error l i = Some x /\ skipn (S i) l = r.
Proof.
  revert l; induction i as [|i IH]; intros [|y ys] H; cbn in *; try discriminate.
  - injection H as -> ->. split; reflexivity.
  - now apply IH.
Qed.

(** ** The stable sort *)

Section StableSortFacts.

Context {A : Type} (key : A -> Z).
Local Open Scope Z_scope.

Lemma insert_desc_perm (x : A) (l : list A) :
  Permutation (insert_desc key x l) (x :: l).
Proof.
  induction l as [|y ys IH]; cbn; [reflexivity|].
  destruct (key y <=? key x); [reflexivity|].
  eapply perm_trans; [apply perm_skip, IH|apply perm_swap].
Qed.

Lemma sort_desc_perm (l : list A) : Permutation (sort_desc key l) l.
Proof.
  induction l as [|x xs IH]; cbn; [reflexivity|].
  rewrite insert_desc_perm. now apply perm_skip.
Qed.

Lemma insert_desc_sorted (x : A) (l : list A) :
  Sorted (desc key) l -> Sorted (desc key) (insert_desc key x l).
Proof.
  induction 1 as [|y ys Hs IH Hhd]; cbn; [repeat constructor|].
  destruct (key y <=? key x) eqn:E.
  - constructor; [now constructor|]. constructor. unfold desc; lia.
  - constructor; [exact IH|].
    destruct ys as [|w ws]; cbn; [constructor; unfold desc; lia|].
    inversion Hhd; subst.
    destruct (key w <=? key x); constructor; unfold desc in *; lia.
Qed.

Lemma sort_desc_sorted (l : list A) : Sorted (desc key) (sort_desc key l).
Proof. induction l; cbn; [constructor|now apply insert_desc_sorted]. Qed.

Lemma desc_trans : Transitive (desc key).
Proof. intros x y z; unfold desc; lia. Qed.

Lemma sort_desc_strongly_sorted (l : list A) :
  StronglySorted (desc key) (sort_desc key l).
Proof. apply Sorted_StronglySorted; [apply desc_trans|apply sort_desc_sorted]. Qed.

(** Inserting [x] skips only elements of greater key, so among the
    elements of [x]'s key it comes first. *)
Lemma with_key_insert_desc (z : Z) (x : A) (l : list A) :
  with_key key z (insert_desc key x l) =
  if key x =? z then x :: with_key key z l else with_key key z l.
Proof.
  unfold with_key. induction l as [|y ys IH]; cbn.
  - now destruct (key x =? z).
  - destruct (key y <=? key x) eqn:E; cbn.
    + reflexivity.
    + rewrite IH. destruct (key y =? z) eqn:Ey, (key x =? z) eqn:Ex; try reflexivity.
      apply Z.eqb_eq in Ey, Ex. apply Z.leb_gt in E. lia.
Qed.

Lemma with_key_sort_desc (z : Z) (l : list A) :
  with_key key z (sort_desc key l) = with_key key z l.
Proof.
  induction l as [|x xs IH]; cbn -[with_key]; [reflexivity|].
  rewrite with_key_insert_desc, IH. cbn. reflexivity.
Qed.

Lemma with_key_cons_self (x : A) (l : list A) :
  with_key key (key x) (x :: l) = x :: with_key key (key x) l.
Proof. cbn. now rewrite Z.eqb_refl. Qed.

Lemma with_key_In (z : Z) (x : A) (l : list A) :
  In x (with_key key z l) <-> In x l /\ key x = z.
Proof. unfold with_key. rewrite filter_In. now rewrite Z.eqb_eq. Qed.

(** The head of a strongly sorted list has the greatest key. *)
Lemma strongly_sorted_head_max (x y : A) (l : list A) :
  StronglySorted (desc key) (x :: l) -> In y (x :: l) -> key y <= key x.
Proof.
  intros Hs [->|Hin]; [lia|].
  apply StronglySorted_inv in Hs as [_ Hall].
  rewrite Forall_forall in Hall. exact (Hall y Hin).
Qed.

Lemma sorted_same_head_key (x y : A) (r1 r2 : list A) :
  StronglySorted (desc key) (x :: r1) -> StronglySorted (desc key) (y :: r2) ->
  (forall z, with_key key z (x :: r1) = with_key key z (y :: r2)) ->
  key x = key y.
Proof.
  intros H1 H2 Heq.
  assert (Hy : In y (x :: r1)).
  { apply (with_key_In (key y)). rewrite Heq. apply with_key_In. split; [now left|reflexivity]. }
  assert (Hx : In x (y :: r2)).
  { apply (with_key_In (key x)). rewrite <- Heq. apply with_key_In. split; [now left|reflexivity]. }
  pose proof (strongly_sorted_head_max _ _ _ H1 Hy).
  pose proof (strongly_sorted_head_max _ _ _ H2 Hx). lia.
Qed.

(** Two lists sorted by decreasing key with the same elements of every
    key, in the same order, are equal. *)
Lemma sorted_with_key_eq (s1 s2 : list A) :
  StronglySorted (desc key) s1 -> StronglySorted (desc key) s2 ->
  (forall z, with_key key z s1 = with_key key z s2) -> s1 = s2.
Proof.
  revert s2; induction s1 as [|x r1 IH]; intros [|y r2] H1 H2 Heq.
  - reflexivity.
  - specialize (Heq (key y)). rewrite with_key_cons_self in Heq. discriminate.
  - specialize (Heq (key x)). rewrite with_key_cons_self in Heq. discriminate.
  - pose proof (sorted_same_head_key _ _ _ _ H1 H2 Heq) as Hk.
    pose proof (Heq (key x)) as Hx.
    rewrite with_key_cons_self in Hx. cbn in Hx. rewrite Hk, Z.eqb_refl in Hx.
    injection Hx as <- _.
    f_equal. apply IH; [now inversion H1|now inversion H2|].
    intros z. specialize (Heq z). cbn in Heq.
    destruct (key x =? z); [now injection Heq|exact Heq].
Qed.

Lemma with_key_none (z : Z) (l : list A) :
  Forall (fun b => z <> key b) l -> with_key key z l = [].
Proof.
  unfold with_key. induction 1 as [|b l Hb Hl IH]; cbn; [reflexivity|].
  destruct (key b =? z) eqn:E; [apply Z.eqb_eq in E; congruence|exact IH].
Qed.

(** With pairwise distinct keys, every key selects at most one element. *)
Lemma with_key_distinct (z : Z) (l : list A) :
  ForallOrdPairs (fun a b => key a <> key b) l -> (length (with_key key z l) <= 1)%nat.
Proof.
  induction 1 as [|a l Hall Hl IH]; unfold with_key; cbn [filter]; [cbn; lia|].
  destruct (key a =? z) eqn:E; [|exact IH].
  apply Z.eqb_eq in E. subst z.
  enough (Hn : with_key key (key a) l = []) by (unfold with_key in Hn; rewrite Hn; cbn; lia).
  now apply with_key_none.
Qed.

(** A list sorted by decreasing key whose keys are pairwise distinct is
    the stable sort of any permutation of it. *)
Lemma sorted_distinct_sort_desc (l r : list A) :
  ForallOrdPairs (fun a b => key a <> key b) l -> Permutation r l ->
  StronglySorted (desc key) r -> r = sort_desc key l.
Proof.
  intros Hd Hp Hs. apply (sorted_with_key_eq r (sort_desc key l) Hs (sort_desc_strongly_sorted l)).
  intros z. rewrite with_key_sort_desc.
  assert (Hp' : Permutation (with_key key z r) (with_key key z l)) by (now apply Permutation_filter).
  pose proof (with_key_distinct z l Hd) as Hle.
  destruct (with_key key z l) as [|x [|y t]] eqn:E; cbn in Hle; [|clear Hle|lia].
  - now apply Permutation_nil.
  - now apply Permutation_length_1_inv.
Qed.

End StableSortFacts.

Lemma last_error_snoc {A} (l : list A) (x : A) : last_error (l ++ [x]) = Some x.
Proof.
  induction l as [|y l IH]; [reflexivity|]. cbn [app].
  destruct (l ++ [x]) as [|a l0] eqn:E; [destruct l; discriminate|exact IH].
Qed.

Lemma last_error_In {A} (l : list A) (x : A) : last_error l = Some x -> In x l.
Proof.
  induction l as [|y [|z r] IH]; cbn; intros H; try discriminate.
  - injection H as ->. now left.
  - right. now apply IH.
Qed.

(** Renaming one value of a duplicate-free list to a fresh one keeps
    it duplicate-free. *)
Lemma NoDup_map_rename {A} (eqb : A -> A -> bool) (a b : A) (l : list A) :
  (forall x y, eqb x y = true <-> x = y) ->
  NoDup l -> ~ In b l -> NoDup (map (fun x => if eqb x a then b else x) l).
Proof.
  intros Heq Hnd Hb. induction Hnd as [|x l Hx Hnd IH]; cbn; [constructor|].
  assert (Hb' : ~ In b l) by (intros H; apply Hb; now right).
  constructor; [|now apply IH].
  intros Hin. apply in_map_iff in Hin as (y & Hy & Hyl).
  destruct (eqb x a) eqn:Exa, (eqb y a) eqn:Eya.
  - apply Heq in Exa, Eya. subst. contradiction.
  - subst. contradiction.
  - subst. apply Hb. now left.
  - subst. contradiction.
Qed.

Lemma In_firstn {A} (n : nat) (l : list A) (x : A) : In x (firstn n l) -> In x l.
Proof. intros H. rewrite <- (firstn_skipn n l). apply in_or_app. now left. Qed.

Lemma NoDup_map_filter {A B} (f : A -> B) (p : A -> bool) (l : list A) :
  NoDup (map f l) -> NoDup (map f (filter p l)).
Proof.
  induction l as [|a l IH]; cbn; intros H; [constructor|].
  inversion H as [|b l' Hnotin Hnd]; subst.
  destruct (p a); cbn; [constructor|]; auto.
  intros Hin. apply Hnotin. apply in_map_iff in Hin as (x & Hx & Hxl).
  apply filter_In in Hxl as [Hxl _]. rewrite <- Hx. now apply in_map.
Qed.

Lemma NoDup_firstn {A} (n : nat) (l : list A) : NoDup l -> NoDup (firstn n l).
Proof. intros Hnd. rewrite <- (firstn_skipn n l) in Hnd. now apply NoDup_app_remove_r in Hnd. Qed.

(** Two lists sorted by an antisymmetric relation that are permutations
    of each other are equal: a sort with a consistent comparator has one
    result. *)
Lemma StronglySorted_perm_eq {A} (R : A -> A -> Prop) (l1 l2 : list A) :
  (forall x y, R x y -> R y x -> x = y) ->
  StronglySorted R l1 -> StronglySorted R l2 -> Permutation l1 l2 -> l1 = l2.
Proof.
  intros Hanti. revert l2; induction l1 as [|a l1 IH]; intros l2 H1 H2 Hp.
  - symmetry. now apply Permutation_nil.
  - destruct l2 as [|b l2]; [apply Permutation_length in Hp; discriminate|].
    apply StronglySorted_inv in H1 as [S1 F1]. apply StronglySorted_inv in H2 as [S2 F2].
    rewrite Forall_forall in F1, F2.
    assert (Hab : a = b).
    { destruct (Permutation_in _ Hp (in_eq a l1)) as [->|Ha]; [reflexivity|].
      destruct (Permutation_in _ (Permutation_sym Hp) (in_eq b l2)) as [->|Hb]; [reflexivity|].
      apply Hanti; [apply F1, Hb|apply F2, Ha]. }
    subst b. f_equal. apply IH; [exact S1|exact S2|exact (Permutation_cons_inv Hp)].
Qed.

(** What [m_mapi] returns, seen through [h], when each call's result
    seen through [h] depends on the index and the element only. *)
Lemma m_mapi_map {W A B C} (f : nat -> A -> M W B) (h : B -> C) (g : nat -> A -> C)
    (l : list A) (i : nat) (w w' : W) (ys : list B) :
  (forall k x w1 y w2, f k x w1 = (Ok y, w2) -> h y = g k x) ->
  m_mapi f i l w = (Ok ys, w') -> map h ys = mapi_from g i l.
Proof.
  intros Hf. revert i w w' ys; induction l as [|x l IH]; intros i w w' ys H.
  - cbn in H. injection H as <- _. reflexivity.
  - cbn [m_mapi] in H. unfold m_bind at 1 in H. destruct (f i x w) as [[y|e] w1] eqn:E; [|discriminate].
    unfold m_bind in H. destruct (m_mapi f (S i) l w1) as [[zs|e] w2] eqn:E2; [|discriminate].
    cbn in H. injection H as <- _. cbn. rewrite (Hf _ _ _ _ _ E). f_equal. exact (IH _ _ _ _ E2).
Qed.

Lemma m_mapi_ok {W A B} (f : nat -> A -> M W B) (l : list A) (i : nat) (w : W) :
  (forall k x w1, exists y w2, f k x w1 = (Ok y, w2)) -> exists ys w', m_mapi f i l w = (Ok ys, w').
Proof.
  intros Hf. revert i w; induction l as [|x l IH]; intros i w; [exists [], w; reflexivity|].
  cbn [m_mapi]. unfold m_bind at 1. destruct (Hf i x w) as (y & w1 & ->).
  unfold m_bind. destruct (IH (S i) w1) as (ys & w2 & ->). exists (y :: ys), w2. reflexivity.
Qed.

(** A map whose callback returns after [k] draws of [Math.random]
    returns after [k] draws per element. *)
Lemma m_mapi_draws {A B} (f : nat -> A -> M World B) (k : nat) (l : list A) (i : nat) (w : World) :
  (forall j x w1, exists y, f j x w1 = (Ok y, mkWorld (k + draws w1) (ticks w1))) ->
  exists ys, m_mapi f i l w = (Ok ys, mkWorld (k * length l + draws w) (ticks w)).
Proof.
  intros Hf. revert i w; induction l as [|x l IH]; intros i w.
  - exists []. cbn. rewrite Nat.mul_0_r. destruct w; reflexivity.
  - cbn [m_mapi]. unfold m_bind at 1. destruct (Hf i x w) as (y & ->).
    unfold m_bind. destruct (IH (S i) (mkWorld (k + draws w) (ticks w))) as (ys & ->).
    exists (y :: ys). unfold m_ret. cbn [draws ticks length]. rewrite Nat.mul_succ_r. f_equal. f_equal. lia.
Qed.

(** What every call of the callback returns, the map's elements are. *)
Lemma m_mapi_Forall {W A B} (f : nat -> A -> M W B) (Q : B -> Prop) (l : list A) (i : nat) (w w' : W) (ys : list B) :
  (forall j x w1 y w2, f j x w1 = (Ok y, w2) -> Q y) ->
  m_mapi f i l w = (Ok ys, w') -> Forall Q ys.
Proof.
  intros Hf. revert i w ys; induction l as [|x l IH]; intros i w ys; cbn [m_mapi].
  - unfold m_ret. intros E. injection E as <- _. constructor.
  - unfold m_bind at 1. destruct (f i x w) as [[y|e] w1] eqn:E1; [|discriminate].
    unfold m_bind. destruct (m_mapi f (S i) l w1) as [[ys'|e] w2] eqn:E2; [|discriminate].
    unfold m_ret. intros E. injection E as <- ->. constructor; [exact (Hf _ _ _ _ _ E1)|exact (IH _ _ _ E2)].
Qed.

Lemma m_mapi_length {W A B} (f : nat -> A -> M W B) (l : list A) (i : nat) (w w' : W) (ys : list B) :
  m_mapi f i l w = (Ok ys, w') -> length ys = length l.
Proof.
  revert i w ys; induction l as [|x l IH]; intros i w ys; cbn [m_mapi].
  - unfold m_ret. intros E. now injection E as <- _.
  - unfold m_bind at 1. destruct (f i x w) as [[y|e] w1]; [|discriminate].
    unfold m_bind. destruct (m_mapi f (S i) l w1) as [[ys'|e] w2] eqn:E2; [|discriminate].
    unfold m_ret. intros E. injection E as <- ->. cbn. f_equal. exact (IH _ _ _ E2).
Qed.

(** A map whose callback throws exactly on the elements outside [P],
    whatever the state, returns exactly when every element is in [P]. *)
Lemma m_mapi_ok_iff {W A B} (f : nat -> A -> M W B) (P : A -> Prop) (l : list A) (i : nat) (w : W) :
  (forall k x w1, (exists y w2, f k x w1 = (Ok y, w2)) <-> P x) ->
  (exists ys w', m_mapi f i l w = (Ok ys, w')) <-> Forall P l.
Proof.
  intros Hf. revert i w; induction l as [|x l IH]; intros i w; cbn [m_mapi].
  - split; [constructor|intros _; exists [], w; reflexivity].
  - rewrite Forall_cons_iff, <- (Hf i x w). unfold m_bind at 1.
    destruct (f i x w) as [[y|e] w1] eqn:E; [|split; [intros (? & ? & [=])|intros [(? & ? & [=]) _]]].
    rewrite <- (IH (S i) w1). unfold m_bind. destruct (m_mapi f (S i) l w1) as [[ys|e] w2].
    + split; [intros _; split; do 2 eexists; reflexivity|intros _; exists (y :: ys), w2; reflexivity].
    + split; [intros (? & ? & [=])|intros [_ (? & ? & [=])]].
Qed.

Lemma length_mapi_from {A B} (g : nat -> A -> B) (i : nat) (l : list A) :
  length (mapi_from g i l) = length l.
Proof. revert i; induction l; intros i; cbn; auto. Qed.

(** Values computed from the position [(i, j)] of each element of a
    list of lists, by a function whose value determines the position,
    are distinct. *)
Lemma NoDup_indexed {A E B} (ents : A -> list E) (p : nat -> nat -> E -> B) (ls : list A) (s : nat) :
  (forall i j e i' j' e', p i j e = p i' j' e' -> i = i' /\ j = j') ->
  NoDup (concat (mapi_from (fun i x => mapi_from (fun j e => p i j e) 0 (ents x)) s ls)).
Proof.
  intros Hp.
  assert (Hin : forall (i k : nat) (xs : list E) (b : B), In b (mapi_from (fun j e => p i j e) k xs) ->
                exists j e, b = p i j e /\ k <= j).
  { intros i k xs; revert k; induction xs as [|x xs IH]; intros k b Hb; cbn in Hb; [easy|].
    destruct Hb as [<-|Hb]; [exists k, x; split; [reflexivity|lia]|].
    destruct (IH (S k) b Hb) as (j & e & -> & Hj). exists j, e. split; [reflexivity|lia]. }
  assert (Hrow : forall (i k : nat) (xs : list E), NoDup (mapi_from (fun j e => p i j e) k xs)).
  { intros i k xs; revert k; induction xs as [|x xs IH]; intros k; cbn; constructor; [|apply IH].
    intros Hb. destruct (Hin i (S k) xs _ Hb) as (j & e & Heq & Hj). apply Hp in Heq. lia. }
  assert (Hall : forall (s' : nat) (ls' : list A) (b : B),
            In b (concat (mapi_from (fun i x => mapi_from (fun j e => p i j e) 0 (ents x)) s' ls')) ->
            exists i j e, b = p i j e /\ s' <= i).
  { intros s' ls'; revert s'; induction ls' as [|x ls' IH]; intros s' b Hb; cbn in Hb; [easy|].
    apply in_app_or in Hb as [Hb|Hb].
    - destruct (Hin s' 0 (ents x) b Hb) as (j & e & -> & _). exists s', j, e. split; [reflexivity|lia].
    - destruct (IH (S s') b Hb) as (i & j & e & -> & Hi). exists i, j, e. split; [reflexivity|lia]. }
  revert s; induction ls as [|x ls IH]; intros s; cbn; [constructor|].
  apply NoDup_app; [apply Hrow|apply IH|].
  intros b Hb1 Hb2. destruct (Hin s 0 (ents x) b Hb1) as (j & e & -> & _).
  destruct (Hall (S s) ls _ Hb2) as (i & j' & e' & Heq & Hi). apply Hp in Heq. lia.
Qed.

Lemma Permutation_filter_bool {A} (p : A -> bool) (l1 l2 : list A) :
  Permutation l1 l2 -> Permutation (filter p l1) (filter p l2).
Proof.
  induction 1 as [|x l1 l2 _ IH|x y l|l1 l2 l3 _ IH1 _ IH2]; cbn.
  - constructor.
  - destruct (p x); [now apply perm_skip|exact IH].
  - destruct (p x), (p y); try apply perm_swap; try apply perm_skip; reflexivity.
  - exact (perm_trans IH1 IH2).
Qed.

Lemma nodupb_NoDup {A} (eqb : A -> A -> bool) (l : list A) :
  (forall x, eqb x x = true) -> nodupb eqb l = true -> NoDup l.
Proof.
  intros Hrefl. induction l as [|x xs IH]; cbn; intros H; [constructor|].
  apply andb_prop in H as [Hx Hxs]. constructor; [|now apply IH].
  intros Hin. assert (Hex : existsb (eqb x) xs = true) by (apply existsb_exists; eauto).
  now rewrite Hex in Hx.
Qed.

(** ** Loops that may throw *)

Lemma res_foldl_ext {A B} (f g : B -> A -> Result B) (l : list A) (b : B) :
  (forall b' a, In a l -> f b' a = g b' a) -> res_foldl f l b = res_foldl g l b.
Proof.
  revert b; induction l as [|a l IH]; intros b Hfg; cbn; [reflexivity|].
  rewrite (Hfg b a (or_introl eq_refl)). destruct (g b a); cbn; [|reflexivity].
  apply IH. intros b' a' Ha'. apply Hfg. now right.
Qed.

Lemma res_foldl_map {A A' B} (f : B -> A' -> Result B) (g : A -> A') (l : list A) (b : B) :
  res_foldl f (map g l) b = res_foldl (fun b' a => f b' (g a)) l b.
Proof.
  revert b; induction l as [|a l IH]; intros b; cbn; [reflexivity|].
  destruct (f b (g a)); cbn; [apply IH|reflexivity].
Qed.

(** A loop whose body fails exactly on the values outside [P], whatever
    its accumulator, finishes exactly when every value is in [P]. *)
Lemma res_foldl_ok_iff {A B} (f : B -> A -> Result B) (P : A -> Prop) (l : list A) (b : B) :
  (forall b' a, (exists c, f b' a = Ok c) <-> P a) ->
  (exists c, res_foldl f l b = Ok c) <-> Forall P l.
Proof.
  intros Hf. revert b; induction l as [|a l IH]; intros b; cbn.
  - split; [constructor|eauto].
  - rewrite Forall_cons_iff, <- (Hf b a). split.
    + destruct (f b a) as [c|e] eqn:E; cbn; [|intros [? [=]]].
      intros H. split; [eauto|]. now apply (IH c).
    + intros [[c E] Hl]. rewrite E. cbn. now apply IH.
Qed.

Lemma res_fmap_ok {A B} (f : A -> B) (r : Result A) (b : B) :
  res_fmap f r = Ok b <-> exists a, r = Ok a /\ b = f a.
Proof.
  destruct r as [a|e]; cbn; split.
  - intros [= <-]. eauto.
  - intros (a' & [= <-] & ->). reflexivity.
  - discriminate.
  - intros (a' & [=] & _).
Qed.

Lemma Forall_existsb_false {A} (p : A -> bool) (l : list A) :
  Forall (fun x => p x = false) l <-> existsb p l = false.
Proof.
  induction l as [|x l IH]; cbn; [split; auto|].
  rewrite Forall_cons_iff, IH, Bool.orb_false_iff. reflexivity.
Qed.

Lemma mapi_from_const {A B} (g : A -> B) (i : nat) (l : list A) :
  mapi_from (fun _ x => g x) i l = map g l.
Proof. revert i; induction l as [|x l IH]; intros i; cbn; [reflexivity|now rewrite IH]. Qed.

(** A property every step of a loop keeps holds at its end. *)
Lemma fold_left_preserve {A B} (P : A -> Prop) (f : A -> B -> A) (l : list B) (a : A) :
  (forall a b, P a -> P (f a b)) -> P a -> P (fold_left f l a).
Proof. intros Hf. revert a; induction l as [|b l IH]; intros a Ha; cbn; auto. Qed.

Lemma fold_left_preserve_Forall {A B} (P : A -> Prop) (Q : B -> Prop) (f : A -> B -> A) (l : list B) (a : A) :
  (forall a b, Q b -> P a -> P (f a b)) -> Forall Q l -> P a -> P (fold_left f l a).
Proof. intros Hf Hl. revert a; induction Hl as [|b l Hb _ IH]; intros a Ha; cbn; auto. Qed.
Lemma res_foldl_preserve {A B} (P : B -> Prop) (f : B -> A -> Result B) (l : list A) (b c : B) :
  (forall b a c, P b -> f b a = Ok c -> P c) -> P b -> res_foldl f l b = Ok c -> P c.
Proof.
  intros Hf. revert b; induction l as [|a l IH]; intros b Hb; cbn; [congruence|].
  destruct (f b a) as [c'|e] eqn:E; cbn; [|discriminate]. apply IH. exact (Hf _ _ _ Hb E).
Qed.

Lemma length_flat_map_const {A B} (f : A -> list B) (l : list A) (k : nat) :
  (forall x, length (f x) = k) -> length (flat_map f l) = length l * k.
Proof. intros Hf. induction l as [|x l IH]; cbn; [reflexivity|]. rewrite length_app, Hf, IH. lia. Qed.

(** Filtering on a projection commutes with the projection. *)
Lemma map_filter_proj {A B} (f : A -> B) (p : B -> bool) (l : list A) :
  map f (filter (fun x => p (f x)) l) = filter p (map f l).
Proof. induction l as [|x l IH]; cbn; [reflexivity|]. destruct (p (f x)); cbn; now rewrite IH. Qed.

Lemma Forall_filter_bool {A} (P : A -> Prop) (p : A -> bool) (l : list A) :
  Forall P l -> Forall P (filter p l).
Proof. rewrite !Forall_forall. intros H x Hx. apply filter_In in Hx as [Hx _]. auto. Qed.

Lemma firstn_add {A} (n m : nat) (l : list A) :
  firstn (n + m) l = firstn n l ++ firstn m (skipn n l).
Proof. revert l; induction n as [|n IH]; intros [|x l]; cbn; rewrite ?firstn_nil; auto. now rewrite IH. Qed.

(** A boolean property checked on the integers [[lo, lo + n)] holds on
    each of them: finite domains are decided by evaluation. *)
Lemma forallb_Z_range (f : Z -> bool) (lo : Z) (n : nat) :
  forallb f (map (fun i => (lo + Z.of_nat i)%Z) (seq 0 n)) = true ->
  forall k, (lo <= k < lo + Z.of_nat n)%Z -> f k = true.
Proof.
  intros Hf k Hk. rewrite forallb_forall in Hf. apply Hf, in_map_iff.
  exists (Z.to_nat (k - lo)). split; [lia|]. apply in_seq. lia.
Qed.

#[export] Hint Resolve remove_nth_perm sort_desc_perm sort_desc_sorted : culturis.
#[export] Hint Rewrite @with_key_sort_desc @with_key_insert_desc : culturis_rw.
