(* ===== verification/JsNumber.v ===== *)
(** * JavaScript numbers

    JavaScript has one numeric type, IEEE-754 binary64.  The planner
    uses it in two ways, and this file models both:

    - [Binary64]: genuine floating-point values (coordinates, the
      multipliers [0.7], [1.2], ... of [getEstimatedTime], popularity
      scores), modelled by the Standard Library's executable IEEE-754
      specification [SpecFloat] at [prec = 53], [emax = 1024], so that
      [45 * 0.7] evaluates here exactly as in the browser;
    - [JsInt]: integer-valued numbers, [NaN] and the infinities, which
      is all that [Math.round], [Math.floor], [%] and the clock
      arithmetic of [addMinutes] ever produce.  An integer is kept as a
      [Z]: binary64 arithmetic on integers of magnitude below [2^53]
      is exact, and every integer of the planner (minutes in a day,
      hours, affinities) is far below that bound. *)
From S2P Require Import Prelude.
From Corelib Require Import SpecFloat.
From Stdlib Require Import ZArith Lia.
Local Open Scope Z_scope.

Module Binary64.

Definition prec : Z := 53.
Definition emax : Z := 1024.

Definition num : Type := spec_float.

(** The double nearest to an integer. *)
Definition of_Z (z : Z) : num := binary_normalize prec emax z 0 false.

(** The source literal [n/d] (e.g. [0.7] is [lit 7 10]): IEEE division
    of two exact integers is correctly rounded, so it yields the
    double nearest to the decimal literal, as the JavaScript parser
    does. *)
Definition lit (n d : Z) : num := SFdiv prec emax (of_Z n) (of_Z d).

Definition add (x y : num) : num := SFadd prec emax x y.
Definition sub (x y : num) : num := SFsub prec emax x y.
Definition mul (x y : num) : num := SFmul prec emax x y.
Definition div (x y : num) : num := SFdiv prec emax x y.
Definition sqrt (x : num) : num := SFsqrt prec emax x.

(** [x < y] and [x > y]: false as soon as one side is [NaN]. *)
Definition ltb (x y : num) : bool := SFltb x y.
Definition gtb (x y : num) : bool := SFltb y x.

(** [Object.is(x, y)], the SameValue test of React's state setters:
    [NaN] is itself, [+0] and [-0] differ.  The operations return
    canonical values, so equal numbers are equal terms. *)
Definition same_value (x y : num) : bool :=
  match x, y with
  | S754_zero a, S754_zero b => Bool.eqb a b
  | S754_infinity a, S754_infinity b => Bool.eqb a b
  | S754_nan, S754_nan => true
  | S754_finite s m e, S754_finite s' m' e' => Bool.eqb s s' && Pos.eqb m m' && Z.eqb e e'
  | _, _ => false
  end.

(** JavaScript truthiness of a number: false on [0], [-0] and [NaN]. *)
Definition truthy (x : num) : bool :=
  match x with
  | S754_zero _ | S754_nan => false
  | _ => true
  end.

(** The exact value of a finite double is [sm * 2^e]. *)
Definition signed_mantissa (s : bool) (m : positive) : Z :=
  if s then Z.neg m else Z.pos m.

(** [Math.round] on a finite double: the integer nearest to it, ties
    towards [+Infinity], i.e. [floor (x + 1/2)] computed exactly. *)
Definition round_finite (s : bool) (m : positive) (e : Z) : Z :=
  let sm := signed_mantissa s m in
  if 0 <=? e then sm * 2 ^ e
  else (2 * sm + 2 ^ (- e)) / 2 ^ (1 - e).

(** [Math.floor] on a finite double. *)
Definition floor_finite (s : bool) (m : positive) (e : Z) : Z :=
  let sm := signed_mantissa s m in
  if 0 <=? e then sm * 2 ^ e else sm / 2 ^ (- e).

(** [Math.PI]: the double nearest to [3.141592653589793], which is the
    shortest decimal that reads back as [Math.PI]. *)
Definition PI : num := lit 3141592653589793 1000000000000000.

End Binary64.

(** [Math.max(a, b)] and [Math.min(a, b)]: [NaN] when either is. *)
Definition js_max (a b : Binary64.num) : Binary64.num :=
  match a, b with
  | S754_nan, _ | _, S754_nan => S754_nan
  | _, _ => if Binary64.ltb a b then b else a
  end.

Definition js_min (a b : Binary64.num) : Binary64.num :=
  match a, b with
  | S754_nan, _ | _, S754_nan => S754_nan
  | _, _ => if Binary64.ltb b a then b else a
  end.

(** The transcendental functions of [Math].  ECMA-262 leaves their
    results implementation-approximated, so the development takes them
    as the host's: an instance of this class is a JavaScript engine's
    [Math.sin], [Math.cos], [Math.atan2] and [Math.pow]. *)
Class JsMath : Type := {
  Math_sin : Binary64.num -> Binary64.num;
  Math_cos : Binary64.num -> Binary64.num;
  Math_atan2 : Binary64.num -> Binary64.num -> Binary64.num;
  Math_pow : Binary64.num -> Binary64.num -> Binary64.num
}.

(** A stand-in engine that instantiates, at concrete inputs, the
    theorems that hold for every engine: [Math.pow(x, 2)] is [x * x], as
    in fdlibm's [pow], and its other functions return [NaN]. *)
Definition stub_math : JsMath := {|
  Math_sin := fun _ => S754_nan;
  Math_cos := fun _ => S754_nan;
  Math_atan2 := fun _ _ => S754_nan;
  Math_pow := fun x y => if Binary64.same_value y (Binary64.of_Z 2) then Binary64.mul x x else S754_nan
|}.

(** ** Integer-valued JavaScript numbers *)

Inductive JsInt : Type :=
| JInt (z : Z)
| JNaN
| JInf (neg : bool).

Module JsInt.

Definition add (x y : JsInt) : JsInt :=
  match x, y with
  | JInt a, JInt b => JInt (a + b)
  | JInf s, JInf s' => if Bool.eqb s s' then JInf s else JNaN
  | JInf s, JInt _ | JInt _, JInf s => JInf s
  | _, _ => JNaN
  end.

Definition sub (x y : JsInt) : JsInt :=
  add x (match y with JInt b => JInt (- b) | JInf s => JInf (negb s) | JNaN => JNaN end).

(** Multiplication by an integer constant, as in [(hours % 12) * 60]. *)
Definition mul_const (x : JsInt) (c : Z) : JsInt :=
  match x with
  | JInt a => JInt (a * c)
  | JNaN => JNaN
  | JInf s => if c =? 0 then JNaN else JInf (xorb s (c <? 0))
  end.

(** The remainder operator [x % c] for a positive integer constant [c]:
    truncated division, the sign of the dividend ([Z.rem]). *)
Definition rem_const (x : JsInt) (c : Z) : JsInt :=
  match x with
  | JInt a => JInt (Z.rem a c)
  | _ => JNaN
  end.

(** [Math.floor(x / c)] for a positive integer constant [c]. *)
Definition floor_div_const (x : JsInt) (c : Z) : JsInt :=
  match x with
  | JInt a => JInt (a / c)
  | other => other
  end.

(** [x === JInt c], [x > c], [x >= c] against an integer constant. *)
Definition eqb_const (x : JsInt) (c : Z) : bool :=
  match x with JInt a => a =? c | _ => false end.
Definition gtb_const (x : JsInt) (c : Z) : bool :=
  match x with JInt a => c <? a | JInf s => negb s | JNaN => false end.
Definition geb_const (x : JsInt) (c : Z) : bool :=
  match x with JInt a => c <=? a | JInf s => negb s | JNaN => false end.

(** [Math.min(c, x)] and [Math.max(c, x)] with an integer constant [c]:
    [NaN] is contagious. *)
Definition min_const (c : Z) (x : JsInt) : JsInt :=
  match x with
  | JInt a => JInt (Z.min c a)
  | JInf false => JInt c
  | JInf true => JInf true
  | JNaN => JNaN
  end.
Definition max_const (c : Z) (x : JsInt) : JsInt :=
  match x with
  | JInt a => JInt (Z.max c a)
  | JInf true => JInt c
  | JInf false => JInf false
  | JNaN => JNaN
  end.

(** [Math.round] and [Math.floor] of a double.  [-0] is identified with
    [0]: the planner only adds, compares and prints these values, and
    none of those distinguishes the two zeros. *)
Definition round (x : Binary64.num) : JsInt :=
  match x with
  | S754_zero _ => JInt 0
  | S754_infinity s => JInf s
  | S754_nan => JNaN
  | S754_finite s m e => JInt (Binary64.round_finite s m e)
  end.

Definition floor (x : Binary64.num) : JsInt :=
  match x with
  | S754_zero _ => JInt 0
  | S754_infinity s => JInf s
  | S754_nan => JNaN
  | S754_finite s m e => JInt (Binary64.floor_finite s m e)
  end.

(** An integer-valued number: not [NaN] and not infinite. *)
Definition is_int (x : JsInt) : Prop := exists z, x = JInt z.

End JsInt.

(** ** Lemmas *)

(** [Math.max(lo, Math.min(hi, x))] is [NaN] or an integer of
    [[lo, hi]]: the clamp cannot produce an infinity. *)
Lemma clamp_range (lo hi : Z) (x : JsInt) :
  lo <= hi ->
  JsInt.max_const lo (JsInt.min_const hi x) = JNaN \/
  exists z, JsInt.max_const lo (JsInt.min_const hi x) = JInt z /\ lo <= z <= hi.
Proof.
  intros Hle. destruct x as [a| |[|]]; cbn.
  - right. eexists; split; [reflexivity|lia].
  - left; reflexivity.
  - right. eexists; split; [reflexivity|lia].
  - right. eexists; split; [reflexivity|lia].
Qed.

#[export] Hint Resolve clamp_range : culturis.

(** [Object.is] is equality on the values the operations return. *)
Lemma same_value_eq (x y : Binary64.num) : Binary64.same_value x y = true -> x = y.
Proof.
  destruct x, y; cbn; try discriminate; intros E; try reflexivity;
    repeat match goal with E : (_ && _)%bool = true |- _ => apply andb_prop in E as [? ?] end;
    repeat match goal with
    | E : Bool.eqb _ _ = true |- _ => apply Bool.eqb_prop in E
    | E : Pos.eqb _ _ = true |- _ => apply Pos.eqb_eq in E
    | E : Z.eqb _ _ = true |- _ => apply Z.eqb_eq in E
    end; subst; reflexivity.
Qed.

Lemma same_value_refl (x : Binary64.num) : Binary64.same_value x x = true.
Proof. destruct x; cbn; rewrite ?Bool.eqb_reflx, ?Pos.eqb_refl, ?Z.eqb_refl; reflexivity. Qed.

#[export] Hint Resolve same_value_refl : culturis.

(** [x - x < 0] is false for every double: [x - x] is [+0] for a finite
    [x] and [NaN] otherwise. *)
Lemma ltb_sub_self (x : Binary64.num) :
  Binary64.ltb (Binary64.sub x x) (Binary64.of_Z 0) = false.
Proof.
  unfold Binary64.ltb, Binary64.sub, SFsub, SFadd, SFopp.
  destruct x as [[]|[]| |[] m e]; cbn; rewrite ?Z.min_id, ?Z.sub_diag; cbn; rewrite ?Z.pos_sub_diag; reflexivity.
Qed.

(** The sign of the double of an integer difference, on the range the
    comparators of the program produce (affinities are percentages). *)
Lemma ltb_of_Z_zero (d : Z) :
  -2000 <= d <= 2000 -> Binary64.ltb (Binary64.of_Z d) (Binary64.of_Z 0) = (d <? 0).
Proof.
  intros Hd.
  assert (H := forallb_Z_range
                 (fun k => Bool.eqb (Binary64.ltb (Binary64.of_Z k) (Binary64.of_Z 0)) (k <? 0))
                 (-2000) (Z.to_nat 4001) ltac:(vm_compute; reflexivity) d).
  rewrite Z2Nat.id in H by lia. apply Bool.eqb_prop, H. lia.
Qed.
