(* ===== verification/JsString.v ===== *)
(** * JavaScript strings

    The string operations the planner calls: [includes], [toLowerCase],
    [split] on a one-character separator, [join], [Number(s)],
    [toString] of an integer-valued number and [padStart(2, '0')].

    A JavaScript string is modelled as a Standard Library [string], a
    sequence of bytes; text outside ASCII is held as its UTF-8 bytes.
    [toLowerCase] folds ASCII letters only.  [Number(s)] is modelled on
    the strings the planner parses (clock strings): optional white
    space (ASCII and the Unicode spaces of ECMA-262, as UTF-8 bytes) around an optional sign and decimal digits, or
    [Infinity]; on strings with a fraction, an exponent or a radix
    prefix the model answers [NaN] (JavaScript would answer a number),
    and no such string reaches [addMinutes]. *)
From S2P Require Import Prelude JsNumber.
From Corelib Require Import SpecFloat.
From Stdlib Require Import List ZArith Lia String Ascii Bool.
Local Open Scope bool_scope.
Import ListNotations.
Local Open Scope Z_scope.

Module JsString.

Local Open Scope string_scope.

(** [s.includes(sub)]. *)
Fixpoint includes (s sub : string) : bool :=
  String.prefix sub s ||
  match s with
  | EmptyString => false
  | String _ s' => includes s' sub
  end.

Definition lower_ascii (c : ascii) : ascii :=
  let n := nat_of_ascii c in
  if (65 <=? n)%nat && (n <=? 90)%nat then ascii_of_nat (n + 32) else c.

(** The properties every plain object inherits from [Object.prototype]. *)
Definition object_prototype_keys : list string :=
  ["constructor"; "hasOwnProperty"; "isPrototypeOf"; "propertyIsEnumerable";
   "toString"; "valueOf"; "toLocaleString"; "__proto__"; "__defineGetter__";
   "__defineSetter__"; "__lookupGetter__"; "__lookupSetter__"]%string.

(** [s.toLowerCase()]. *)
Fixpoint toLowerCase (s : string) : string :=
  match s with
  | EmptyString => EmptyString
  | String c s' => String (lower_ascii c) (toLowerCase s')
  end.

(** [parts.join(sep)]. *)
Fixpoint join (sep : string) (l : list string) : string :=
  match l with
  | [] => ""
  | [x] => x
  | x :: xs => x ++ sep ++ join sep xs
  end.

(** [s.split(c)] for a one-character separator: every piece, empty
    ones included; [""] splits into [[""]]. *)
Fixpoint split (c : ascii) (s : string) : list string :=
  match s with
  | EmptyString => [""]
  | String d s' =>
      let rest := split c s' in
      if Ascii.eqb d c then "" :: rest
      else match rest with
           | [] => [String d ""]
           | p :: ps => String d p :: ps
           end
  end.

(** *** Decimal digits *)

Definition digit_of (c : ascii) : option Z :=
  let n := Z.of_nat (nat_of_ascii c) in
  if (48 <=? n)%Z && (n <=? 57)%Z then Some (n - 48)%Z else None.

Definition char_of_digit (d : Z) : ascii := ascii_of_nat (Z.to_nat (48 + d)%Z).

(** Digits read left to right onto an accumulator. *)
Fixpoint parse_digits (s : string) (acc : Z) : option Z :=
  match s with
  | EmptyString => Some acc
  | String c s' =>
      match digit_of c with
      | Some d => parse_digits s' (acc * 10 + d)%Z
      | None => None
      end
  end.

(** The decimal digits of [n >= 0], most significant first;
    [fuel] bounds the number of digits. *)
Fixpoint digits_aux (fuel : nat) (n : Z) (acc : string) : string :=
  match fuel with
  | O => acc
  | S f =>
      let acc' := String (char_of_digit (n mod 10)%Z) acc in
      if (n <? 10)%Z then acc' else digits_aux f (n / 10)%Z acc'
  end.

Definition digits (n : Z) : string :=
  digits_aux (S (Z.to_nat (Z.log2 n))) n "".

(** [Number.prototype.toString()] on an integer-valued number. *)
Definition toString (x : JsInt) : string :=
  match x with
  | JInt z => if (z <? 0)%Z then "-" ++ digits (- z)%Z else digits z
  | JNaN => "NaN"
  | JInf false => "Infinity"
  | JInf true => "-Infinity"
  end.

(** [s.padStart(2, '0')]. *)
Definition padStart2 (s : string) : string :=
  match String.length s with
  | 0%nat => "00"
  | 1%nat => "0" ++ s
  | _ => s
  end.

(** Every character of [s] satisfies [p]. *)
Fixpoint all_chars (p : ascii -> bool) (s : string) : bool :=
  match s with
  | EmptyString => true
  | String c s' => p c && all_chars p s'
  end.

Definition is_digit (c : ascii) : bool :=
  match digit_of c with Some _ => true | None => false end.

(** *** [Number(s)] *)

(** The white space [StringToNumber] and [String.prototype.trim] strip
    (ECMA-262 WhiteSpace and LineTerminator): TAB, LF, VT, FF, CR and
    SPACE, one byte each; U+00A0 (two UTF-8 bytes); U+1680, U+2000 to
    U+200A, U+2028, U+2029, U+202F, U+205F, U+3000 and U+FEFF (three
    UTF-8 bytes each). *)
Definition is_space (c : ascii) : bool :=
  let n := nat_of_ascii c in
  ((9 <=? n) && (n <=? 13) || (n =? 32))%nat.

Definition ws2 (a b : ascii) : bool :=
  ((nat_of_ascii a =? 194) && (nat_of_ascii b =? 160))%nat.

Definition ws3 (a b c : ascii) : bool :=
  let x := nat_of_ascii a in let y := nat_of_ascii b in let z := nat_of_ascii c in
  ((x =? 225) && (y =? 154) && (z =? 128) ||
   (x =? 226) && (y =? 128) && ((128 <=? z) && (z <=? 138) || (z =? 168) || (z =? 169) || (z =? 175)) ||
   (x =? 226) && (y =? 129) && (z =? 159) ||
   (x =? 227) && (y =? 128) && (z =? 128) ||
   (x =? 239) && (y =? 187) && (z =? 191))%nat.

(** Strips the leading white-space characters recognised by [w2] (two
    bytes) and [w3] (three bytes) besides the one-byte ones. *)
Fixpoint trim_start_by (w2 : ascii -> ascii -> bool) (w3 : ascii -> ascii -> ascii -> bool)
    (s : string) : string :=
  match s with
  | EmptyString => EmptyString
  | String c s1 =>
      if is_space c then trim_start_by w2 w3 s1 else
      match s1 with
      | EmptyString => s
      | String c2 s2 =>
          if w2 c c2 then trim_start_by w2 w3 s2 else
          match s2 with
          | EmptyString => s
          | String c3 s3 => if w3 c c2 c3 then trim_start_by w2 w3 s3 else s
          end
      end
  end.

Definition trim_start (s : string) : string := trim_start_by ws2 ws3 s.

Fixpoint rev_string (s : string) : string :=
  match s with
  | EmptyString => EmptyString
  | String c s' => rev_string s' ++ String c EmptyString
  end.

(** The end is trimmed on the reversed bytes, where a character's
    UTF-8 sequence reads backwards. *)
Definition trim_end (s : string) : string :=
  rev_string (trim_start_by (fun a b => ws2 b a) (fun a b c => ws3 c b a) (rev_string s)).

(** [s.trim()], and the trimming of [StringToNumber]. *)
Definition trim (s : string) : string := trim_end (trim_start s).

Definition unsigned_number (s : string) : option JsInt :=
  if String.eqb s "Infinity" then Some (JInf false)
  else match s with
       | EmptyString => None
       | _ => option_map JInt (parse_digits s 0%Z)
       end.

Definition Number (s : string) : JsInt :=
  match trim s with
  | EmptyString => JInt 0
  | String c rest as t =>
      let r :=
        if Ascii.eqb c "-" then
          option_map (fun x => match x with
                               | JInt z => JInt (- z)%Z
                               | JInf b => JInf (negb b)
                               | JNaN => JNaN
                               end) (unsigned_number rest)
        else if Ascii.eqb c "+" then unsigned_number rest
        else unsigned_number t in
      match r with Some x => x | None => JNaN end
  end.

(** *** Regular-expression replacement, ordering, [toFixed] *)

(** [s.replace(/\s+/g, '_')]: every maximal run of white space (the
    characters [trim] strips) becomes one underscore. *)
Definition ws_emit (in_run : bool) (r : string) : string :=
  if in_run then r else String "_" r.

Fixpoint replace_ws_aux (in_run : bool) (s : string) : string :=
  match s with
  | EmptyString => EmptyString
  | String c s1 =>
      if is_space c then ws_emit in_run (replace_ws_aux true s1) else
      match s1 with
      | EmptyString => String c (replace_ws_aux false s1)
      | String c2 s2 =>
          if ws2 c c2 then ws_emit in_run (replace_ws_aux true s2) else
          match s2 with
          | EmptyString => String c (replace_ws_aux false s1)
          | String c3 s3 =>
              if ws3 c c2 c3 then ws_emit in_run (replace_ws_aux true s3)
              else String c (replace_ws_aux false s1)
          end
      end
  end.

Definition replace_ws (s : string) : string := replace_ws_aux false s.

(** The order of [Array.prototype.sort] without a comparator on strings:
    code units compared one by one, a proper prefix first. *)
Fixpoint str_ltb (a b : string) : bool :=
  match a, b with
  | EmptyString, EmptyString => false
  | EmptyString, String _ _ => true
  | String _ _, EmptyString => false
  | String c a', String d b' =>
      if (nat_of_ascii c <? nat_of_ascii d)%nat then true
      else if (nat_of_ascii d <? nat_of_ascii c)%nat then false
      else str_ltb a' b'
  end.

Fixpoint zeros (n : nat) : string :=
  match n with O => "" | S k => String "0" (zeros k) end.

(** The digits of the integer [n >= 0] with a decimal point [f] places
    from the right, padded with zeros to one digit before the point. *)
Definition fixed_digits (f : nat) (n : Z) : string :=
  let m := digits n in
  match f with
  | O => m
  | S _ =>
      let k := String.length m in
      let m' := if (k <=? f)%nat then zeros (f + 1 - k) ++ m else m in
      let k' := String.length m' in
      substring 0 (k' - f) m' ++ "." ++ substring (k' - f) f m'
  end.

(** The integer [n] nearest to [m * 2^e * 10^f], the larger one on a
    tie, computed exactly. *)
Definition scaled_round (m : positive) (e : Z) (f : nat) : Z :=
  let num := Z.pos m * 10 ^ Z.of_nat f in
  if (0 <=? e)%Z then num * 2 ^ e else (2 * num + 2 ^ (- e)) / 2 ^ (1 - e).

(** [x.toFixed(f)] (ECMA-262, Number.prototype.toFixed): the sign, then
    [n / 10^f] for the [n] of [scaled_round].  A magnitude of at least
    [10^21] prints with [Number::toString], which the model takes as
    the parameter [big] (no such number is a coordinate). *)
Definition toFixed (big : Binary64.num -> string) (f : nat) (x : Binary64.num) : string :=
  match x with
  | S754_nan => "NaN"
  | S754_infinity s => if s then "-Infinity" else "Infinity"
  | S754_zero _ => fixed_digits f 0
  | S754_finite s m e =>
      let sign := if s then "-" else "" in
      let large := if (0 <=? e)%Z then (10 ^ 21 <=? Z.pos m * 2 ^ e)%Z
                   else (10 ^ 21 * 2 ^ (- e) <=? Z.pos m)%Z in
      if large then sign ++ big (S754_finite false m e)
      else sign ++ fixed_digits f (scaled_round m e f)
  end.

(** ** Lemmas *)

Lemma string_app_assoc (s1 s2 s3 : string) : ((s1 ++ s2) ++ s3 = s1 ++ (s2 ++ s3))%string.
Proof. induction s1 as [|c s1 IH]; cbn; [reflexivity|now rewrite IH]. Qed.

Lemma string_app_nil_r (s : string) : (s ++ "")%string = s.
Proof. induction s as [|c s IH]; cbn; [reflexivity|now rewrite IH]. Qed.

Lemma string_app_inv_l (s s1 s2 : string) : (s ++ s1 = s ++ s2)%string -> s1 = s2.
Proof. induction s as [|c s IH]; cbn; [auto|]. intros [=H]. now apply IH. Qed.

Lemma split_nonempty (c : ascii) (s : string) : split c s <> [].
Proof.
  destruct s as [|d s']; cbn; [discriminate|].
  destruct (Ascii.eqb d c); [discriminate|]. destruct (split c s'); discriminate.
Qed.

(** Splitting [s1 ++ c :: s2] where [s1] has no separator. *)
Lemma split_app_sep (c : ascii) (s1 s2 : string) :
  all_chars (fun d => negb (Ascii.eqb d c)) s1 = true ->
  split c (s1 ++ String c s2) = s1 :: split c s2.
Proof.
  induction s1 as [|d s1 IH]; cbn; intros H.
  - now rewrite Ascii.eqb_refl.
  - apply andb_prop in H as [Hd Hs]. apply negb_true_iff in Hd.
    rewrite Hd, (IH Hs). reflexivity.
Qed.

Lemma split_nosep (c : ascii) (s : string) :
  all_chars (fun d => negb (Ascii.eqb d c)) s = true -> split c s = [s].
Proof.
  induction s as [|d s IH]; cbn; intros H; [reflexivity|].
  apply andb_prop in H as [Hd Hs]. apply negb_true_iff in Hd.
  rewrite Hd, (IH Hs). reflexivity.
Qed.

Lemma all_chars_app (p : ascii -> bool) (s1 s2 : string) :
  all_chars p (s1 ++ s2) = all_chars p s1 && all_chars p s2.
Proof.
  induction s1 as [|d s1 IH]; cbn; [reflexivity|]. now rewrite IH, andb_assoc.
Qed.

Lemma all_chars_impl (p q : ascii -> bool) (s : string) :
  (forall c, p c = true -> q c = true) -> all_chars p s = true -> all_chars q s = true.
Proof.
  intros Hpq. induction s as [|d s IH]; cbn; [easy|].
  intros [Hd Hs]%andb_prop. now rewrite (Hpq d Hd), (IH Hs).
Qed.

Lemma digit_of_char (d : Z) : (0 <= d <= 9)%Z -> digit_of (char_of_digit d) = Some d.
Proof.
  intros H. assert (Hd : (d = 0 \/ d = 1 \/ d = 2 \/ d = 3 \/ d = 4 \/ d = 5 \/
                          d = 6 \/ d = 7 \/ d = 8 \/ d = 9)%Z) by lia.
  repeat destruct Hd as [->|Hd]; try reflexivity; subst; reflexivity.
Qed.

Lemma parse_digits_app (s1 s2 : string) (a : Z) :
  parse_digits (s1 ++ s2) a =
  match parse_digits s1 a with Some b => parse_digits s2 b | None => None end.
Proof.
  revert a; induction s1 as [|c s1 IH]; intros a; cbn; [reflexivity|].
  destruct (digit_of c); [apply IH|reflexivity].
Qed.

Lemma digits_aux_app (f : nat) (n : Z) (acc : string) :
  digits_aux f n acc = (digits_aux f n "" ++ acc)%string.
Proof.
  revert n acc; induction f as [|f IH]; intros n acc; cbn; [reflexivity|].
  destruct (n <? 10)%Z; [reflexivity|].
  rewrite (IH _ (String _ acc)), (IH _ (String _ "")), string_app_assoc. reflexivity.
Qed.

Lemma digits_aux_all_digits (f : nat) (n : Z) :
  (0 <= n)%Z -> all_chars is_digit (digits_aux f n "") = true.
Proof.
  revert n; induction f as [|f IH]; intros n Hn; [reflexivity|].
  cbn [digits_aux].
  assert (Hc : is_digit (char_of_digit (n mod 10)) = true)
    by (unfold is_digit; rewrite digit_of_char by (pose proof (Z.mod_pos_bound n 10 ltac:(lia)); lia); reflexivity).
  destruct (n <? 10)%Z.
  - cbn [all_chars]. now rewrite Hc.
  - rewrite digits_aux_app, all_chars_app, IH by (apply Z.div_pos; lia).
    cbn [all_chars]. now rewrite Hc.
Qed.

Lemma parse_digits_aux (f : nat) (n : Z) :
  (0 <= n < 2 ^ Z.of_nat f)%Z -> parse_digits (digits_aux f n "") 0 = Some n.
Proof.
  revert n; induction f as [|f IH]; intros n Hn; [cbn in Hn; assert (n = 0)%Z as -> by lia; reflexivity|].
  cbn [digits_aux]. destruct (n <? 10)%Z eqn:E.
  - apply Z.ltb_lt in E. cbn. rewrite digit_of_char by (pose proof (Z.mod_pos_bound n 10 ltac:(lia)); lia).
    f_equal. rewrite Z.mod_small by lia. lia.
  - apply Z.ltb_ge in E. rewrite digits_aux_app, parse_digits_app.
    rewrite IH.
    + cbn. rewrite digit_of_char by (pose proof (Z.mod_pos_bound n 10 ltac:(lia)); lia).
      f_equal. pose proof (Z.div_mod n 10). lia.
    + rewrite Nat2Z.inj_succ, Z.pow_succ_r in Hn by lia.
      split; [apply Z.div_pos; lia|]. apply Z.div_lt_upper_bound; lia.
Qed.

Lemma digits_all_digits (n : Z) : (0 <= n)%Z -> all_chars is_digit (digits n) = true.
Proof. apply digits_aux_all_digits. Qed.

Lemma parse_digits_digits (n : Z) : (0 <= n)%Z -> parse_digits (digits n) 0 = Some n.
Proof.
  intros Hn. apply parse_digits_aux. split; [lia|].
  rewrite Nat2Z.inj_succ, Z2Nat.id by (apply Z.log2_nonneg).
  destruct (Z.eq_dec n 0) as [->|Hne]; [reflexivity|].
  apply Z.log2_spec. lia.
Qed.

(** Distinct integers [>= 0] print differently. *)
Lemma digits_inj (m n : Z) : (0 <= m)%Z -> (0 <= n)%Z -> digits m = digits n -> m = n.
Proof.
  intros Hm Hn E. apply (f_equal (fun x => parse_digits x 0%Z)) in E.
  rewrite !parse_digits_digits in E by assumption. congruence.
Qed.

Lemma digits_nonempty (n : Z) : digits n <> EmptyString.
Proof.
  unfold digits. cbn [digits_aux]. destruct (n <? 10)%Z; [discriminate|].
  rewrite digits_aux_app. destruct (digits_aux _ _ ""); discriminate.
Qed.
Lemma digit_not_space (c : ascii) : is_digit c = true -> is_space c = false.
Proof.
  unfold is_digit, digit_of, is_space.
  destruct ((48 <=? Z.of_nat (nat_of_ascii c))%Z && (Z.of_nat (nat_of_ascii c) <=? 57)%Z) eqn:E;
    [|discriminate].
  intros _. apply andb_prop in E as [E1 E2]. apply Z.leb_le in E1, E2.
  apply orb_false_iff. split.
  - apply andb_false_iff. right. apply Nat.leb_gt. lia.
  - apply Nat.eqb_neq. lia.
Qed.

Lemma rev_string_app (s1 s2 : string) :
  rev_string (s1 ++ s2) = (rev_string s2 ++ rev_string s1)%string.
Proof.
  induction s1 as [|c s1 IH]; cbn.
  - now rewrite string_app_nil_r.
  - now rewrite IH, string_app_assoc.
Qed.

Lemma rev_string_involutive (s : string) : rev_string (rev_string s) = s.
Proof. induction s as [|c s IH]; cbn; [reflexivity|]. now rewrite rev_string_app, IH. Qed.

Lemma all_chars_rev (p : ascii -> bool) (s : string) :
  all_chars p (rev_string s) = all_chars p s.
Proof.
  induction s as [|c s IH]; cbn; [reflexivity|].
  rewrite all_chars_app, IH. cbn. now rewrite andb_true_r, andb_comm.
Qed.

(** A one-byte character other than white space: no multi-byte white
    space starts or ends with it. *)
Definition is_plain (c : ascii) : bool := negb (is_space c) && (nat_of_ascii c <? 128)%nat.

Lemma plain_not_ws (c : ascii) :
  is_plain c = true ->
  (forall d, ws2 c d = false) /\ (forall d e, ws3 c d e = false) /\
  (forall d, ws2 d c = false) /\ (forall d e, ws3 d e c = false).
Proof.
  unfold is_plain, ws2, ws3. intros [_ Hc%Nat.ltb_lt]%andb_prop. cbv zeta.
  assert (E : forall k, (128 <= k)%nat -> (nat_of_ascii c =? k)%nat = false)
    by (intros; apply Nat.eqb_neq; lia).
  assert (L : (128 <=? nat_of_ascii c)%nat = false) by (apply Nat.leb_gt; lia).
  repeat split; intros; rewrite ?L, ?E by lia; cbn [andb orb];
    rewrite ?andb_false_r, ?orb_false_r; reflexivity.
Qed.

Lemma digit_plain (c : ascii) : is_digit c = true -> is_plain c = true.
Proof.
  intros Hc. unfold is_plain. rewrite (digit_not_space c Hc). cbn.
  revert Hc. unfold is_digit, digit_of.
  destruct ((48 <=? Z.of_nat (nat_of_ascii c))%Z && (Z.of_nat (nat_of_ascii c) <=? 57)%Z) eqn:E;
    [|discriminate].
  intros _. apply andb_prop in E as [_ E2]. apply Z.leb_le in E2. apply Nat.leb_le. lia.
Qed.

Lemma trim_start_by_head (w2 : ascii -> ascii -> bool) (w3 : ascii -> ascii -> ascii -> bool)
    (c : ascii) (s : string) :
  is_space c = false -> (forall d, w2 c d = false) -> (forall d e, w3 c d e = false) ->
  trim_start_by w2 w3 (String c s) = String c s.
Proof.
  intros Hs H2 H3. cbn. rewrite Hs.
  destruct s as [|d [|e s]]; [reflexivity|now rewrite H2|now rewrite H2, H3].
Qed.

(** The first character of a string, if any, satisfies [p]. *)
Definition head_is (p : ascii -> bool) (s : string) : bool :=
  match s with EmptyString => true | String c _ => p c end.

(** [trim] leaves a string that starts and ends with a one-byte
    non-space character as it is. *)
Lemma trim_ends (s : string) :
  head_is is_plain s = true -> head_is is_plain (rev_string s) = true -> trim s = s.
Proof.
  intros Hh Ht. unfold trim, trim_end, trim_start.
  destruct s as [|c s']; [reflexivity|]. cbn [head_is] in Hh.
  pose proof (plain_not_ws c Hh) as (H2 & H3 & _).
  assert (Hsp : is_space c = false)
    by (unfold is_plain in Hh; apply andb_prop in Hh as [Hh _]; now apply negb_true_iff).
  rewrite (trim_start_by_head _ _ c s' Hsp H2 H3).
  destruct (rev_string (String c s')) as [|d r] eqn:E.
  { cbn in E. destruct (rev_string s'); discriminate. }
  cbn [head_is] in Ht.
  pose proof (plain_not_ws d Ht) as (_ & _ & H2' & H3').
  rewrite trim_start_by_head, <- E, rev_string_involutive; [reflexivity| | |].
  - unfold is_plain in Ht. apply andb_prop in Ht as [Ht _]. now apply negb_true_iff.
  - intros; apply H2'.
  - intros; apply H3'.
Qed.

Lemma head_is_all (p : ascii -> bool) (s : string) : all_chars p s = true -> head_is p s = true.
Proof. destruct s; cbn; [reflexivity|]. now intros [-> _]%andb_prop. Qed.

(** [trim] leaves a string of one-byte non-space characters as it is. *)
Lemma trim_plain (s : string) : all_chars is_plain s = true -> trim s = s.
Proof.
  intros H. apply trim_ends; apply head_is_all; [exact H|now rewrite all_chars_rev].
Qed.

Lemma trim_digits (s : string) : all_chars is_digit s = true -> trim s = s.
Proof. intros H. apply trim_plain, (all_chars_impl is_digit); [exact digit_plain|exact H]. Qed.

(** [Number] reads back what [digits] prints. *)
Lemma Number_digits_string (s : string) (n : Z) :
  all_chars is_digit s = true -> s <> EmptyString -> parse_digits s 0 = Some n ->
  Number s = JInt n.
Proof.
  intros Hd Hne Hp. unfold Number. rewrite (trim_digits s Hd).
  destruct s as [|c rest]; [congruence|].
  cbn in Hd. apply andb_prop in Hd as [Hc _].
  destruct (Ascii.eqb c "-") eqn:Em.
  { apply Ascii.eqb_eq in Em. subst. discriminate. }
  destruct (Ascii.eqb c "+") eqn:Ep.
  { apply Ascii.eqb_eq in Ep. subst. discriminate. }
  unfold unsigned_number.
  destruct (String.eqb (String c rest) "Infinity") eqn:Ei.
  { apply String.eqb_eq in Ei. injection Ei as -> _. discriminate. }
  now rewrite Hp.
Qed.
Lemma digits_plain (n : Z) :
  (0 <= n)%Z -> all_chars is_plain (digits n) = true.
Proof.
  intros Hn. apply (all_chars_impl is_digit); [exact digit_plain|now apply digits_all_digits].
Qed.

Lemma unsigned_number_digits (m : Z) :
  (0 <= m)%Z -> unsigned_number (digits m) = Some (JInt m).
Proof.
  intros Hm. unfold unsigned_number.
  pose proof (digits_all_digits m Hm) as Hd.
  destruct (String.eqb (digits m) "Infinity") eqn:Ei.
  { apply String.eqb_eq in Ei. rewrite Ei in Hd. discriminate. }
  pose proof (digits_nonempty m) as Hne.
  destruct (digits m) eqn:E; [congruence|].
  rewrite <- E, parse_digits_digits by exact Hm. reflexivity.
Qed.

Lemma Number_digits (n : Z) : (0 <= n)%Z -> Number (digits n) = JInt n.
Proof.
  intros Hn. apply Number_digits_string;
    [now apply digits_all_digits|apply digits_nonempty|now apply parse_digits_digits].
Qed.

Lemma Number_neg_digits (m : Z) :
  (0 < m)%Z -> Number ("-" ++ digits m)%string = JInt (- m).
Proof.
  intros Hm. unfold Number. rewrite trim_plain.
  - cbn -[unsigned_number digits]. rewrite unsigned_number_digits by lia. reflexivity.
  - cbn -[digits]. apply digits_plain. lia.
Qed.

Lemma Number_padStart2_digit_string (s : string) (n : Z) :
  all_chars is_digit s = true -> s <> EmptyString -> parse_digits s 0 = Some n ->
  Number (padStart2 s) = JInt n.
Proof.
  intros Hd Hne Hp. unfold padStart2.
  destruct (String.length s) as [|[|k]] eqn:El.
  - destruct s; [congruence|discriminate].
  - apply Number_digits_string; [cbn; exact Hd|discriminate|exact Hp].
  - now apply Number_digits_string.
Qed.

(** [Number] reads back every integer-valued number [toString]
    prints, [NaN] and the infinities included, with or without
    [padStart(2, '0')]: [Number(String(x)) = x] and
    [Number(String(x).padStart(2, '0')) = x]. *)
Theorem Number_toString (x : JsInt) :
  Number (toString x) = x /\ Number (padStart2 (toString x)) = x.
Proof.
  destruct x as [z| |[|]]; [|split; reflexivity..].
  unfold toString. destruct (z <? 0)%Z eqn:Ez.
  - apply Z.ltb_lt in Ez.
    rewrite Number_neg_digits, Z.opp_involutive by lia. split; [reflexivity|].
    unfold padStart2. pose proof (digits_nonempty (- z)) as Hne.
    destruct (digits (- z)) as [|c d] eqn:Ed; [congruence|].
    cbn [String.length append]. rewrite <- Ed.
    change (String "-" (digits (- z))) with ("-" ++ digits (- z))%string.
    rewrite Number_neg_digits, Z.opp_involutive by lia. reflexivity.
  - apply Z.ltb_ge in Ez. split; [now apply Number_digits|].
    apply Number_padStart2_digit_string;
      [now apply digits_all_digits|apply digits_nonempty|now apply parse_digits_digits].
Qed.

(** *** The order of strings *)

Lemma nat_of_ascii_inj (c d : ascii) : nat_of_ascii c = nat_of_ascii d -> c = d.
Proof.
  intros H. rewrite <- (ascii_nat_embedding c), <- (ascii_nat_embedding d). now f_equal.
Qed.

Lemma str_ltb_irrefl (a : string) : str_ltb a a = false.
Proof. induction a as [|c a IH]; cbn [str_ltb]; [reflexivity|]. now rewrite Nat.ltb_irrefl. Qed.

Lemma str_ltb_trans (a b c : string) :
  str_ltb a b = true -> str_ltb b c = true -> str_ltb a c = true.
Proof.
  revert b c; induction a as [|x a IH]; intros [|y b] [|z c]; cbn [str_ltb]; try easy.
  destruct (Nat.ltb_spec (nat_of_ascii x) (nat_of_ascii y)) as [Hxy|Hxy];
  destruct (Nat.ltb_spec (nat_of_ascii y) (nat_of_ascii z)) as [Hyz|Hyz];
  destruct (Nat.ltb_spec (nat_of_ascii x) (nat_of_ascii z)) as [Hxz|Hxz];
  destruct (Nat.ltb_spec (nat_of_ascii y) (nat_of_ascii x)) as [Hyx|Hyx];
  destruct (Nat.ltb_spec (nat_of_ascii z) (nat_of_ascii y)) as [Hzy|Hzy];
  destruct (Nat.ltb_spec (nat_of_ascii z) (nat_of_ascii x)) as [Hzx|Hzx];
  try lia; try easy. apply IH.
Qed.

Lemma str_ltb_total (a b : string) : a <> b -> str_ltb a b = true \/ str_ltb b a = true.
Proof.
  revert b; induction a as [|x a IH]; intros [|y b] Hne; cbn [str_ltb]; [congruence|now left|now right|].
  destruct (Nat.ltb_spec (nat_of_ascii x) (nat_of_ascii y)); [now left|].
  destruct (Nat.ltb_spec (nat_of_ascii y) (nat_of_ascii x)); [now right|].
  assert (Hxy : x = y) by (apply nat_of_ascii_inj; lia). subst y.
  apply IH. intros ->. now apply Hne.
Qed.

Lemma str_ltb_asym (a b : string) : str_ltb a b = true -> str_ltb b a = false.
Proof.
  intros Hab. destruct (str_ltb b a) eqn:Hba; [|reflexivity].
  pose proof (str_ltb_trans _ _ _ Hab Hba) as Haa. now rewrite str_ltb_irrefl in Haa.
Qed.

(** Splitting at a separator between two strings splits each. *)
Lemma split_app_sep_gen (c : ascii) (s1 s2 : string) :
  split c (s1 ++ String c s2) = (split c s1 ++ split c s2)%list.
Proof.
  induction s1 as [|d s1 IH]; cbn [split append].
  - now rewrite Ascii.eqb_refl.
  - rewrite IH. destruct (Ascii.eqb d c); [reflexivity|].
    destruct (split c s1) eqn:E; [now apply split_nonempty in E|reflexivity].
Qed.

(** The same, with the separator written as a one-character string. *)
Lemma split_app_sep_str (c : ascii) (s1 s2 : string) :
  split c (s1 ++ (String c "" ++ s2)) = (split c s1 ++ split c s2)%list.
Proof. exact (split_app_sep_gen c s1 s2). Qed.

Lemma digits_no_underscore (n : Z) :
  (0 <= n)%Z -> all_chars (fun d => negb (Ascii.eqb d "_")) (digits n) = true.
Proof.
  intros Hn. apply (all_chars_impl is_digit); [|now apply digits_all_digits].
  intros d Hd. destruct (Ascii.eqb_spec d "_") as [->|]; [discriminate|reflexivity].
Qed.

End JsString.
