(* ===== verification/ArraySort.v ===== *)
(** * [Array.prototype.sort]

    ECMA-262 fixes the result of [sort] only for a consistent
    comparator; for any comparator it guarantees a permutation of the
    array, and an exception of the comparator propagates.  The class
    [ArraySort] states these guarantees, which is all that a client
    may rely on in every engine.  Its instance [v8_sort] is the
    algorithm of V8 (Chrome, Node) on arrays shorter than 64 elements,
    which is the one run of its TimSort ([third_party/v8/builtins/
    array-sort.tq]: [CountAndMakeRun], then [BinaryInsertionSort]);
    every array this program sorts with a comparator that may be
    inconsistent has at most seven elements.

    The comparator returns a number; V8's [sortState.Compare] reads a
    [NaN] result as [0], and the algorithm only ever asks whether the
    result is negative, which [NaN] is not. *)
From S2P Require Import Prelude JsNumber.
From Corelib Require Import SpecFloat.
From Stdlib Require Import List Lia Permutation Arith Bool ZArith Sorted RelationClasses.
Import ListNotations.

(** A comparator consistent on the values satisfying [P] (ECMA-262,
    23.1.3.30.2), in the form of a sort key: [cmp(x, y) < 0] exactly
    when [y] has the smaller key, so that the comparator asks for
    decreasing keys. *)
Definition key_comparator {A : Type} (key : A -> Z) (cmp : A -> A -> Result Binary64.num)
    (P : A -> Prop) : Prop :=
  forall x y, P x -> P y ->
    exists v, cmp x y = Ok v /\ Binary64.ltb v (Binary64.of_Z 0%Z) = (key y <? key x)%Z.

Class ArraySort : Type := {
  array_sort : forall {A : Type}, (A -> A -> Result Binary64.num) -> list A -> Result (list A);
  array_sort_perm : forall (A : Type) (cmp : A -> A -> Result Binary64.num) (l r : list A),
    array_sort cmp l = Ok r -> Permutation r l;
  array_sort_total : forall (A : Type) (cmp : A -> A -> Result Binary64.num) (l : list A),
    (forall x y, In x l -> In y l -> exists v, cmp x y = Ok v) ->
    exists r, array_sort cmp l = Ok r;
  array_sort_sorted : forall (A : Type) (key : A -> Z) (cmp : A -> A -> Result Binary64.num)
      (l r : list A),
    key_comparator key cmp (fun x => In x l) -> array_sort cmp l = Ok r ->
    StronglySorted (desc key) r
}.

(** [cmp(x, y) < 0]: the comparator puts [x] before [y]. *)
Definition precedes {A : Type} (cmp : A -> A -> Result Binary64.num) (x y : A) : Prop :=
  exists v, cmp x y = Ok v /\ Binary64.ltb v (Binary64.of_Z 0%Z) = true.

Module V8Sort.

Section V8.
Context {A : Type} (cmp : A -> A -> Result Binary64.num).

(** [order < 0] for [order = sortState.Compare(x, y)]. *)
Definition order_lt (x y : A) : Result bool :=
  res_fmap (fun v => Binary64.ltb v (Binary64.of_Z 0%Z)) (cmp x y).

(** The loop of [CountAndMakeRun] after its first comparison: a
    descending run continues while [order < 0], an ascending one while
    [order >= 0]. *)
Fixpoint run_tail (desc : bool) (prev : A) (rest : list A) : Result (list A * list A) :=
  match rest with
  | [] => Ok ([], [])
  | c :: rest' =>
      res_bind (order_lt c prev) (fun lt =>
        if Bool.eqb desc lt then
          res_fmap (fun p => (c :: fst p, snd p)) (run_tail desc c rest')
        else Ok ([], rest))
  end.

(** [CountAndMakeRun(low, high)]: the longest run at the start of the
    array, strictly descending ([Compare(a[1], a[0]) < 0]) or
    non-descending, reversed in place when descending. *)
Definition countAndMakeRun (l : list A) : Result (list A * list A) :=
  match l with
  | x0 :: x1 :: rest =>
      res_bind (order_lt x1 x0) (fun desc =>
        res_fmap (fun p => let run := x0 :: x1 :: fst p in
                           (if desc then rev run else run, snd p))
          (run_tail desc x1 rest))
  | _ => Ok (l, [])
  end.

(** The binary search of [BinaryInsertionSort] for the place of
    [pivot] in the sorted prefix [pre]: [mid = left + ((right - left)
    >> 1)], and [Compare(pivot, a[mid]) < 0] moves [right] to [mid].
    The window shrinks at every step, so [length pre] steps are enough
    ([bsearch_fuel]). *)
Fixpoint bsearch (fuel : nat) (pre : list A) (pivot : A) (left right : nat) : Result nat :=
  match fuel with
  | O => Ok left
  | S fuel' =>
      if left <? right then
        let mid := left + Nat.div2 (right - left) in
        res_bind (order_lt pivot (nth mid pre pivot)) (fun lt =>
          if lt then bsearch fuel' pre pivot left mid
          else bsearch fuel' pre pivot (S mid) right)
      else Ok left
  end.

(** The shift of [a[left..start)] one place up and the store of the
    pivot at [left]. *)
Definition insert_at (i : nat) (x : A) (l : list A) : list A :=
  firstn i l ++ x :: skipn i l.

(** [BinaryInsertionSort(low, start, high)]: each element after the run
    is inserted into the sorted prefix. *)
Fixpoint binaryInsertionSort (pre rest : list A) : Result (list A) :=
  match rest with
  | [] => Ok pre
  | pivot :: rest' =>
      res_bind (bsearch (length pre) pre pivot 0 (length pre)) (fun left =>
        binaryInsertionSort (insert_at left pivot pre) rest')
  end.

(** [ArrayTimSortImpl] for fewer than 64 elements: [minRun] is the
    length itself, so the first run is extended by insertion to the
    whole array and there is nothing to merge. *)
Definition timSort (l : list A) : Result (list A) :=
  if length l <? 2 then Ok l
  else res_bind (countAndMakeRun l) (fun p => binaryInsertionSort (fst p) (snd p)).

End V8.

(** ** Lemmas *)

Section V8Facts.
Context {A : Type} (cmp : A -> A -> Result Binary64.num).

Lemma run_tail_split (desc : bool) (prev : A) (rest run tail : list A) :
  run_tail cmp desc prev rest = Ok (run, tail) -> rest = run ++ tail.
Proof.
  revert prev run tail; induction rest as [|c rest IH]; intros prev run tail H; cbn in H.
  - now injection H as <- <-.
  - destruct (order_lt cmp c prev) as [lt|e]; [|discriminate]. cbn in H.
    destruct (Bool.eqb desc lt).
    + destruct (run_tail cmp desc c rest) as [[r t]|e] eqn:E; [|discriminate].
      cbn in H. injection H as <- <-. cbn. f_equal. now apply (IH c).
    + now injection H as <- <-.
Qed.

Lemma countAndMakeRun_perm (l run tail : list A) :
  countAndMakeRun cmp l = Ok (run, tail) -> Permutation (run ++ tail) l.
Proof.
  destruct l as [|x0 [|x1 rest]]; cbn; intros H;
    try (injection H as <- <-; now rewrite app_nil_r).
  destruct (order_lt cmp x1 x0) as [desc|e]; [|discriminate]. cbn in H.
  destruct (run_tail cmp desc x1 rest) as [[r t]|e] eqn:E; [|discriminate].
  cbn in H. injection H as <- <-. rewrite (run_tail_split _ _ _ _ _ E).
  destruct desc; [|reflexivity].
  exact (Permutation_app_tail t (Permutation_sym (Permutation_rev (x0 :: x1 :: r)))).
Qed.

Lemma insert_at_perm (i : nat) (x : A) (l : list A) :
  Permutation (insert_at i x l) (x :: l).
Proof.
  unfold insert_at. rewrite <- Permutation_middle. now rewrite firstn_skipn.
Qed.

Lemma binaryInsertionSort_perm (pre rest r : list A) :
  binaryInsertionSort cmp pre rest = Ok r -> Permutation r (pre ++ rest).
Proof.
  revert pre; induction rest as [|x rest IH]; intros pre H; cbn in H.
  - injection H as <-. now rewrite app_nil_r.
  - destruct (bsearch cmp _ pre x 0 _) as [i|e]; [|discriminate]. cbn in H.
    rewrite (IH _ H), <- Permutation_middle.
    exact (Permutation_app_tail rest (insert_at_perm i x pre)).
Qed.

Lemma timSort_perm (l r : list A) : timSort cmp l = Ok r -> Permutation r l.
Proof.
  unfold timSort. destruct (length l <? 2).
  - intros H. now injection H as <-.
  - destruct (countAndMakeRun cmp l) as [[run tail]|e] eqn:E; [|discriminate]. cbn.
    intros H. rewrite (binaryInsertionSort_perm _ _ _ H). now apply countAndMakeRun_perm.
Qed.

(** The binary search ends within its window: once the fuel covers
    [right - left], more fuel changes nothing, so [length pre] is
    enough for the first call. *)
Lemma bsearch_fuel (fuel k : nat) (pre : list A) (pivot : A) (left right : nat) :
  right - left <= fuel ->
  bsearch cmp (fuel + k) pre pivot left right = bsearch cmp fuel pre pivot left right.
Proof.
  revert left right; induction fuel as [|fuel IH]; intros left right Hw.
  - destruct k; cbn [Nat.add bsearch]; [reflexivity|].
    assert (Hf : (left <? right) = false) by (apply Nat.ltb_ge; lia). now rewrite Hf.
  - cbn [Nat.add bsearch]. destruct (left <? right) eqn:Hlr; [|reflexivity].
    apply Nat.ltb_lt in Hlr.
    pose proof (Nat.lt_div2 (right - left) ltac:(lia)) as Hd.
    destruct (order_lt cmp pivot _) as [[|]|e]; cbn [res_bind]; [apply IH; lia|apply IH|reflexivity]. set (d := Nat.div2 (right - left)) in *. lia.
Qed.

(** The comparisons the sort makes are between elements of a set [P]
    that contains the whole array. *)
Variable P : A -> Prop.
Hypothesis cmp_total : forall x y, P x -> P y -> exists v, cmp x y = Ok v.

Lemma order_lt_total (x y : A) : P x -> P y -> exists b, order_lt cmp x y = Ok b.
Proof.
  intros Hx Hy. destruct (cmp_total x y Hx Hy) as [v Hv].
  unfold order_lt. rewrite Hv. cbn. eauto.
Qed.

Lemma run_tail_total (desc : bool) (prev : A) (rest : list A) :
  P prev -> Forall P rest -> exists p, run_tail cmp desc prev rest = Ok p.
Proof.
  revert prev; induction rest as [|c rest IH]; intros prev Hp Hr; cbn; [eauto|].
  apply Forall_cons_iff in Hr as [Hc Hr].
  destruct (order_lt_total c prev Hc Hp) as [lt ->]. cbn.
  destruct (Bool.eqb desc lt); [|eauto].
  destruct (IH c Hc Hr) as [p ->]. cbn. eauto.
Qed.

Lemma countAndMakeRun_total (l : list A) :
  Forall P l -> exists p, countAndMakeRun cmp l = Ok p.
Proof.
  intros Hl. destruct l as [|x0 [|x1 rest]]; cbn; eauto.
  apply Forall_cons_iff in Hl as [H0 Hl]. apply Forall_cons_iff in Hl as [H1 Hl].
  destruct (order_lt_total x1 x0 H1 H0) as [desc ->]. cbn.
  destruct (run_tail_total desc x1 rest H1 Hl) as [p ->]. cbn. eauto.
Qed.

Lemma bsearch_total (fuel : nat) (pre : list A) (pivot : A) (left right : nat) :
  Forall P pre -> P pivot -> exists i, bsearch cmp fuel pre pivot left right = Ok i.
Proof.
  intros Hpre Hpiv. revert left right; induction fuel as [|fuel IH]; intros left right; cbn [bsearch]; [eauto|].
  destruct (left <? right); [|eauto].
  assert (Hm : P (nth (left + Nat.div2 (right - left)) pre pivot)).
  { destruct (Nat.lt_ge_cases (left + Nat.div2 (right - left)) (length pre)) as [Hlt|Hge].
    - rewrite Forall_forall in Hpre. apply Hpre, nth_In, Hlt.
    - now rewrite nth_overflow. }
  destruct (order_lt_total _ _ Hpiv Hm) as [[|] ->]; cbn [res_bind]; apply IH.
Qed.

Lemma binaryInsertionSort_total (pre rest : list A) :
  Forall P pre -> Forall P rest -> exists r, binaryInsertionSort cmp pre rest = Ok r.
Proof.
  revert pre; induction rest as [|x rest IH]; intros pre Hpre Hrest; cbn; [eauto|].
  apply Forall_cons_iff in Hrest as [Hx Hrest].
  destruct (bsearch_total (length pre) pre x 0 (length pre) Hpre Hx) as [i ->]. cbn.
  apply IH; [|exact Hrest].
  apply (Permutation_Forall (Permutation_sym (insert_at_perm i x pre))).
  now constructor.
Qed.

Lemma timSort_total (l : list A) : Forall P l -> exists r, timSort cmp l = Ok r.
Proof.
  intros Hl. unfold timSort. destruct (length l <? 2); [eauto|].
  destruct (countAndMakeRun_total l Hl) as [[run tail] E]. rewrite E. cbn.
  pose proof (Permutation_Forall (Permutation_sym (countAndMakeRun_perm _ _ _ E)) Hl) as H.
  apply Forall_app in H as [Hr Ht]. now apply binaryInsertionSort_total.
Qed.

End V8Facts.

(** On a comparator consistent by a key, the array comes back sorted
    by decreasing key: [CountAndMakeRun] returns a sorted run (a
    strictly descending one reversed), the binary search finds the
    place after the elements whose key is not smaller than the pivot's,
    and the insertion keeps the prefix sorted. *)
Section V8Sorted.
Context {A : Type} (cmp : A -> A -> Result Binary64.num) (key : A -> Z) (P : A -> Prop).
Hypothesis Hkey : key_comparator key cmp P.
Local Open Scope Z_scope.

Lemma order_lt_key (x y : A) : P x -> P y -> order_lt cmp x y = Ok (key y <? key x).
Proof.
  intros Hx Hy. destruct (Hkey x y Hx Hy) as (v & Hv & Hl).
  unfold order_lt. rewrite Hv. cbn [res_fmap res_bind]. now rewrite Hl.
Qed.

(** The order of a run: strictly increasing keys for a run V8 calls
    descending, non-increasing keys otherwise. *)
Definition run_rel (d : bool) (a b : A) : Prop :=
  if d then key a < key b else key b <= key a.

Lemma run_rel_trans (d : bool) : Transitive (run_rel d).
Proof. intros a b c. unfold run_rel. destruct d; lia. Qed.

Lemma run_tail_sorted (d : bool) (prev : A) (rest run tail : list A) :
  P prev -> Forall P rest -> run_tail cmp d prev rest = Ok (run, tail) ->
  Sorted (run_rel d) (prev :: run).
Proof.
  revert prev run tail; induction rest as [|c rest IH]; intros prev run tail Hp Hr H; cbn in H.
  - injection H as <- _. repeat constructor.
  - apply Forall_cons_iff in Hr as [Hc Hr].
    rewrite (order_lt_key c prev Hc Hp) in H. cbn [res_bind] in H.
    destruct (Bool.eqb d (key prev <? key c)) eqn:Ed.
    + destruct (run_tail cmp d c rest) as [[r t]|e] eqn:E; [|discriminate].
      cbn in H. injection H as <- _. constructor; [exact (IH c r t Hc Hr E)|].
      constructor. apply Bool.eqb_prop in Ed. unfold run_rel.
      destruct d; symmetry in Ed; [apply Z.ltb_lt in Ed|apply Z.ltb_ge in Ed]; lia.
    + injection H as <- _. repeat constructor.
Qed.

Lemma countAndMakeRun_sorted (l run tail : list A) :
  Forall P l -> countAndMakeRun cmp l = Ok (run, tail) -> StronglySorted (desc key) run.
Proof.
  intros Hl. destruct l as [|x0 [|x1 rest]]; cbn [countAndMakeRun]; intros H.
  - injection H as <- _. constructor.
  - injection H as <- _. repeat constructor.
  - apply Forall_cons_iff in Hl as [H0 Hl]. apply Forall_cons_iff in Hl as [H1 Hl].
    rewrite (order_lt_key x1 x0 H1 H0) in H. cbn [res_bind] in H.
    destruct (run_tail cmp _ x1 rest) as [[r t]|e] eqn:E; [|discriminate].
    cbn [res_fmap res_bind fst snd] in H. injection H as <- _.
    pose proof (run_tail_sorted _ x1 rest r t H1 Hl E) as Hs.
    destruct (key x0 <? key x1) eqn:E0.
    + apply (StronglySorted_weaken (fun a b => run_rel true b a)); [unfold desc, run_rel; intros; lia|].
      change ((rev r ++ [x1]) ++ [x0]) with (rev (x0 :: x1 :: r)).
      apply StronglySorted_rev, Sorted_StronglySorted; [apply run_rel_trans|].
      constructor; [exact Hs|]. constructor. now apply Z.ltb_lt in E0.
    + apply (StronglySorted_weaken (run_rel false)); [unfold desc, run_rel; intros; lia|].
      apply Sorted_StronglySorted; [apply run_rel_trans|].
      constructor; [exact Hs|]. constructor. now apply Z.ltb_ge in E0.
Qed.

(** The binary search on a sorted prefix returns the place that
    separates the keys not smaller than the pivot's from the smaller
    ones, given fuel for its window. *)
Lemma bsearch_sorted (fuel : nat) (pre : list A) (pivot : A) (left right i : nat) :
  StronglySorted (desc key) pre -> Forall P pre -> P pivot ->
  (left <= right <= length pre)%nat -> (right - left <= fuel)%nat ->
  Forall (fun a => key pivot <= key a) (firstn left pre) ->
  Forall (fun a => key a < key pivot) (skipn right pre) ->
  bsearch cmp fuel pre pivot left right = Ok i ->
  Forall (fun a => key pivot <= key a) (firstn i pre) /\
  Forall (fun a => key a < key pivot) (skipn i pre).
Proof.
  intros Hs HP Hpiv. revert left right.
  induction fuel as [|fuel IH]; intros left right Hlr Hf Hl Hr H; cbn [bsearch] in H.
  { injection H as <-. replace right with left in Hr by lia. now split. }
  destruct (left <? right)%nat eqn:Elr.
  2:{ injection H as <-. apply Nat.ltb_ge in Elr. replace right with left in Hr by lia. now split. }
  apply Nat.ltb_lt in Elr.
  pose proof (Nat.lt_div2 (right - left) ltac:(lia)) as Hd2.
  set (mid := (left + Nat.div2 (right - left))%nat) in *.
  assert (Hmid : (left <= mid < right)%nat)
    by (unfold mid; revert Hd2; generalize (Nat.div2 (right - left)); intros; lia).
  clearbody mid.
  assert (Hsplit : pre = firstn mid pre ++ nth mid pre pivot :: skipn (S mid) pre)
    by (rewrite <- skipn_nth by lia; symmetry; apply firstn_skipn).
  set (x := nth mid pre pivot) in *.
  assert (Hx : P x) by (rewrite Forall_forall in HP; apply HP, nth_In; lia).
  rewrite (order_lt_key pivot x Hpiv Hx) in H. cbn [res_bind] in H.
  pose proof Hs as Hs'. rewrite Hsplit in Hs'.
  apply StronglySorted_app_inv in Hs' as (_ & Hsx & Hcross).
  apply StronglySorted_inv in Hsx as [_ Hafter]. rewrite Forall_forall in Hafter.
  destruct (key x <? key pivot) eqn:Ex.
  - apply Z.ltb_lt in Ex. apply (IH left mid); [lia|lia|exact Hl| |exact H].
    rewrite (skipn_nth pre mid pivot) by lia. fold x. constructor; [exact Ex|].
    apply Forall_forall. intros a Ha. specialize (Hafter a Ha). unfold desc in Hafter. lia.
  - apply Z.ltb_ge in Ex. apply (IH (S mid) right); [lia|lia| |exact Hr|exact H].
    rewrite (firstn_S_nth pre mid pivot) by lia. fold x.
    apply Forall_app. split; [|repeat constructor; lia].
    apply Forall_forall. intros a Ha.
    specialize (Hcross a x Ha (or_introl eq_refl)). unfold desc in Hcross. lia.
Qed.

Lemma insert_at_sorted (pre : list A) (pivot : A) (i : nat) :
  StronglySorted (desc key) pre ->
  Forall (fun a => key pivot <= key a) (firstn i pre) ->
  Forall (fun a => key a < key pivot) (skipn i pre) ->
  StronglySorted (desc key) (insert_at i pivot pre).
Proof.
  intros Hs Hl Hr. unfold insert_at. rewrite <- (firstn_skipn i pre) in Hs.
  apply StronglySorted_app_inv in Hs as (H1 & H2 & H12). rewrite Forall_forall in Hl, Hr.
  apply StronglySorted_app; [exact H1| |].
  - constructor; [exact H2|]. apply Forall_forall. intros a Ha. unfold desc. specialize (Hr a Ha). lia.
  - intros a b Ha [<-|Hb]; [unfold desc; exact (Hl a Ha)|exact (H12 a b Ha Hb)].
Qed.

Lemma binaryInsertionSort_sorted (pre rest r : list A) :
  StronglySorted (desc key) pre -> Forall P pre -> Forall P rest ->
  binaryInsertionSort cmp pre rest = Ok r -> StronglySorted (desc key) r.
Proof.
  revert pre; induction rest as [|x rest IH]; intros pre Hs Hp Hr H; cbn in H.
  - now injection H as <-.
  - apply Forall_cons_iff in Hr as [Hx Hr].
    destruct (bsearch cmp (length pre) pre x 0 (length pre)) as [i|e] eqn:E; [|discriminate].
    cbn [res_bind] in H.
    destruct (bsearch_sorted (length pre) pre x 0 (length pre) i Hs Hp Hx ltac:(lia) ltac:(lia)
                (Forall_nil _) ltac:(rewrite skipn_all; constructor) E) as [Hl Hg].
    apply (IH _ (insert_at_sorted pre x i Hs Hl Hg)); [|exact Hr|exact H].
    apply (Permutation_Forall (Permutation_sym (insert_at_perm i x pre))). now constructor.
Qed.

Lemma timSort_sorted (l r : list A) :
  Forall P l -> timSort cmp l = Ok r -> StronglySorted (desc key) r.
Proof.
  intros Hl. unfold timSort. destruct (length l <? 2)%nat eqn:E.
  - intros H. injection H as <-. apply Nat.ltb_lt in E.
    destruct l as [|x [|y l]]; cbn in E; [constructor|repeat constructor|lia].
  - destruct (countAndMakeRun cmp l) as [[run tail]|e] eqn:Ec; [|discriminate].
    cbn [res_bind fst snd].
    pose proof (Permutation_Forall (Permutation_sym (countAndMakeRun_perm _ _ _ _ Ec)) Hl) as Hrt.
    apply Forall_app in Hrt as [Hr Ht].
    apply binaryInsertionSort_sorted; [exact (countAndMakeRun_sorted l run tail Hl Ec)|exact Hr|exact Ht].
Qed.

End V8Sorted.

(** The sort depends on the comparator only through its results. *)
Section V8Ext.
Context {A : Type} (cmp1 cmp2 : A -> A -> Result Binary64.num).
Hypothesis cmp_ext : forall x y, cmp1 x y = cmp2 x y.

Lemma order_lt_ext (x y : A) : order_lt cmp1 x y = order_lt cmp2 x y.
Proof. unfold order_lt. now rewrite cmp_ext. Qed.

Lemma run_tail_ext (desc : bool) (prev : A) (rest : list A) :
  run_tail cmp1 desc prev rest = run_tail cmp2 desc prev rest.
Proof.
  revert prev; induction rest as [|c rest IH]; intros prev; cbn; [reflexivity|].
  rewrite order_lt_ext. destruct (order_lt cmp2 c prev) as [[|]|e]; cbn; now rewrite ?IH.
Qed.

Lemma bsearch_ext (fuel : nat) (pre : list A) (pivot : A) (left right : nat) :
  bsearch cmp1 fuel pre pivot left right = bsearch cmp2 fuel pre pivot left right.
Proof.
  revert left right; induction fuel as [|fuel IH]; intros left right; cbn [bsearch]; [reflexivity|].
  destruct (left <? right); [|reflexivity]. rewrite order_lt_ext.
  destruct (order_lt cmp2 _ _) as [[|]|e]; cbn [res_bind]; [apply IH|apply IH|reflexivity].
Qed.

Lemma timSort_ext (l : list A) : timSort cmp1 l = timSort cmp2 l.
Proof.
  unfold timSort. destruct (length l <? 2); [reflexivity|].
  assert (Hc : countAndMakeRun cmp1 l = countAndMakeRun cmp2 l).
  { destruct l as [|x0 [|x1 rest]]; cbn; [reflexivity|reflexivity|].
    rewrite order_lt_ext. destruct (order_lt cmp2 x1 x0) as [desc|e]; cbn; [|reflexivity].
    now rewrite run_tail_ext. }
  rewrite Hc. destruct (countAndMakeRun cmp2 l) as [[run tail]|e]; cbn; [|reflexivity].
  clear Hc. revert run; induction tail as [|x tail IH]; intros run; cbn; [reflexivity|].
  rewrite bsearch_ext. destruct (bsearch cmp2 _ _ _ _ _); cbn; [apply IH|reflexivity].
Qed.

End V8Ext.

#[export] Instance v8_sort : ArraySort := {|
  array_sort := @timSort;
  array_sort_perm := @timSort_perm;
  array_sort_total := fun A cmp l H =>
    timSort_total cmp (fun x => In x l) (fun x y => H x y) l (proj2 (Forall_forall _ l) (fun x Hx => Hx));
  array_sort_sorted := fun A key cmp l r Hk =>
    timSort_sorted cmp key (fun x => In x l) Hk l r (proj2 (Forall_forall _ l) (fun x Hx => Hx))
|}.

End V8Sort.

(** ** Inconsistent comparators *)

(** A comparator that puts [x] before [y], [y] before [z] and [z] before
    [x] admits no order of the three: in every arrangement some element
    comes after one that the comparator puts after it. *)
Lemma precedes_cycle {A : Type} (cmp : A -> A -> Result Binary64.num) (x y z d : A) (r : list A) :
  precedes cmp x y -> precedes cmp y z -> precedes cmp z x ->
  x <> y -> y <> z -> z <> x ->
  In x r -> In y r -> In z r ->
  exists i j, i < j < length r /\ precedes cmp (nth j r d) (nth i r d).
Proof.
  intros Hxy Hyz Hzx Nxy Nyz Nzx Hx Hy Hz.
  apply (In_nth r x d) in Hx as (px & Hpx & <-).
  apply (In_nth r y d) in Hy as (py & Hpy & <-).
  apply (In_nth r z d) in Hz as (pz & Hpz & <-).
  assert (px <> py) by (intros E; apply Nxy; now rewrite E).
  assert (py <> pz) by (intros E; apply Nyz; now rewrite E).
  assert (pz <> px) by (intros E; apply Nzx; now rewrite E).
  destruct (Nat.lt_ge_cases py px); [exists py, px; split; [lia|exact Hxy]|].
  destruct (Nat.lt_ge_cases pz py); [exists pz, py; split; [lia|exact Hyz]|].
  exists px, pz. split; [lia|exact Hzx].
Qed.

