(* ===== verification/Venue.v ===== *)
(** * The data model: venues, route preferences, route stops

    The JavaScript objects that flow between the planner's functions
    ([src/culturis-studio/src/components/RoutePlanner.js]), as records
    and enumerations.  A field the object may lack is an [option]
    ([None] is [undefined]); the three preference selects of the planner
    ([RoutePlanner.js], lines 366-401) offer fixed options, which become
    the constructors of [Focus], [Pace] and [Duration]. *)
From S2P Require Import Prelude JsNumber JsString.
From Stdlib Require Import List ZArith String.
Import ListNotations.

Module Venue.

(** A venue id is a number (the fallback generator of
    [Simple2DMapView.js] numbers them [1..15]) or a string (venues of
    the backend); [===] compares type and value. *)
Inductive VenueId : Type :=
| IdNum (n : Z)
| IdStr (s : string).

Definition VenueId_eq_dec (a b : VenueId) : {a = b} + {a <> b}.
Proof. decide equality; [apply Z.eq_dec | apply string_dec]. Defined.

Definition id_eqb (a b : VenueId) : bool :=
  if VenueId_eq_dec a b then true else false.

(** [venue.qloo_data]: the external enrichment; both fields may be
    absent. *)
Record QlooData : Type := {
  popularity : option Binary64.num;
  keywords : option (list string)
}.

(** A venue as the planner reads it.  [affinity] is an integer: both
    producers in the sources round it ([Math.round] in
    [Simple2DMapView.js], line 379).  [coordinates] is [[lat, lng]];
    [rating] is a star rating (the fallback generator draws it in
    [[3.5, 4.8)], line 380). *)
Record Venue : Type := {
  id : VenueId;
  name : string;
  type : option string;
  coordinates : option (Binary64.num * Binary64.num);
  affinity : Z;
  qloo_data : option QlooData;
  rating : option Binary64.num
}.

Definition with_affinity (v : Venue) (a : Z) : Venue :=
  {| id := id v; name := name v; type := type v;
     coordinates := coordinates v; affinity := a; qloo_data := qloo_data v;
     rating := rating v |}.

(** A taste the user picked or the chat extracted: [{ id, name, color }]
    ([ChatbotPanel.js], lines 252-278; [TasteSeedPicker.js]). *)
Record Taste : Type := mkTaste {
  taste_id : string;
  taste_name : string;
  taste_color : string
}.

Inductive Focus : Type := Diverse | Food | Arts | Culture.
Inductive Pace : Type := PaceQuick | Relaxed | Thorough.
Inductive Duration : Type := DurQuick | HalfDay | FullDay.

(** [routePreferences], initially [{duration: 'half-day', pace:
    'relaxed', focus: 'diverse'}] ([RoutePlanner.js], lines 19-23). *)
Record RoutePreferences : Type := {
  duration : Duration;
  pace : Pace;
  focus : Focus
}.

Definition default_preferences : RoutePreferences :=
  {| duration := HalfDay; pace := Relaxed; focus := Diverse |}.

(** A stop of a planned route: the venue (with its adjusted affinity)
    and the fields [generateRoute] adds ([RoutePlanner.js], lines
    89-97). *)
Record RouteStop : Type := {
  stop_venue : Venue;
  order : nat;
  arrivalTime : string;
  estimatedTime : JsInt;
  travelTime : JsInt;
  notes : string
}.

(** [plannedRoute] ([RoutePlanner.js], lines 105-111). *)
Record PlannedRoute : Type := {
  venues : list RouteStop;
  totalDuration : JsInt;
  startTime : string;
  endTime : string;
  preferences : RoutePreferences
}.

Lemma id_eqb_eq (a b : VenueId) : id_eqb a b = true <-> a = b.
Proof. unfold id_eqb. destruct (VenueId_eq_dec a b); split; congruence. Qed.

Lemma id_eqb_refl (a : VenueId) : id_eqb a a = true.
Proof. now apply id_eqb_eq. Qed.

End Venue.
