(* ===== verification/Selection.v ===== *)
(** * Venue scoring and selection

    The first half of [generateRoute] ([RoutePlanner.js], lines 31-54)
    and its helpers [prioritizeVenuesByFocus] (lines 122-157) and
    [calculateWeightedAffinity] (lines 159-164): every venue gets a
    weighted affinity (its affinity plus a focus boost), the pool is
    sorted by decreasing weight with [Array.prototype.sort], and the
    first [adjustedVenueCount] venues are kept.

    [Array.prototype.sort] is stable (ECMAScript 2019); the model sorts
    with a stable insertion sort, [sort_desc], and
    [sortedVenues_characterization] shows that every stable sort by decreasing weight returns the same
    list, so the choice of algorithm does not matter. *)
From S2P Require Import Prelude JsNumber JsString Venue.
From Stdlib Require Import List ZArith Lia String Bool Permutation Sorted.
Import ListNotations.
Import Venue.
Local Open Scope Z_scope.

Module VenueSelection.

(** [focusWeights[focus] || []] ([RoutePlanner.js], lines 123-129). *)
Definition focusWeights (f : Focus) : list string :=
  match f with
  | Food => ["Restaurant"; "Cafe"; "Bar"; "Market"]
  | Arts => ["Museum"; "Art Museum"; "Gallery"; "Theater"; "Art Gallery"]
  | Culture => ["Historical Site"; "Cultural Center"; "Local Market"; "Traditional"; "Heritage"]
  | Diverse => []
  end%string.

(** The keyword substrings that earn the extra [+10] (lines 143-149). *)
Definition focusKeywords (f : Focus) : list string :=
  match f with
  | Food => ["food"; "dining"; "cuisine"]
  | Arts => ["art"; "creative"; "culture"]
  | Culture => ["local"; "traditional"; "heritage"]
  | Diverse => []
  end%string.

(** [priorityTypes.some(type => venue.type.includes(type))]: the
    callback reads [venue.type], so a venue without a type throws as
    soon as the list is non-empty. *)
Definition typeMatches (priorityTypes : list string) (v : Venue) : Result bool :=
  match priorityTypes with
  | [] => Ok false
  | _ => match type v with
         | None => Throw TypeError
         | Some t => Ok (existsb (fun ty => JsString.includes t ty) priorityTypes)
         end
  end.

(** The keyword bonus: [keywords.join(' ').toLowerCase()] contains one
    of the focus substrings. *)
Definition keywordBonus (focus : Focus) (v : Venue) : Z :=
  match qloo_data v with
  | Some q =>
      match keywords q with
      | Some kws =>
          let joined := JsString.toLowerCase (JsString.join " " kws) in
          if existsb (JsString.includes joined) (focusKeywords focus) then 10 else 0
      | None => 0
      end
  | None => 0
  end.

(** The [focusPriorityBoost] of one venue (lines 131-155). *)
Definition priorityBoost (focus : Focus) (v : Venue) : Result Z :=
  res_bind (typeMatches (focusWeights focus) v) (fun m =>
    Ok ((if m then 20 else 0) + keywordBonus focus v)).

(** [prioritizeVenuesByFocus(venues, focus)]: each venue paired with its
    [focusPriorityBoost]. *)
Definition prioritizeVenuesByFocus (venues : list Venue) (focus : Focus)
  : Result (list (Venue * Z)) :=
  res_map (fun v => res_bind (priorityBoost focus v) (fun b => Ok (v, b))) venues.

(** [calculateWeightedAffinity]: [(venue.affinity || 0) +
    (venue.focusPriorityBoost || 0)]. *)
Definition calculateWeightedAffinity (v : Venue) (focusPriorityBoost : Z) : Z :=
  affinity v + focusPriorityBoost.

(** Lines 39-44: the venue count adjusted to the duration. *)
Definition adjustedVenueCount (d : Duration) (venueCount poolSize : nat) : nat :=
  match d with
  | DurQuick => Nat.min venueCount 3
  | FullDay => Nat.min (venueCount + 2) (Nat.min poolSize 7)
  | HalfDay => venueCount
  end.

(** Lines 31-36: [filteredVenues], with the boost each venue carries
    ([0] when the focus is diverse, where no boost is attached). *)
Definition filteredVenues (venues : list Venue) (focus : Focus)
  : Result (list (Venue * Z)) :=
  match focus with
  | Diverse => Ok (map (fun v => (v, 0)) venues)
  | _ => prioritizeVenuesByFocus venues focus
  end.

Definition weight (p : Venue * Z) : Z := calculateWeightedAffinity (fst p) (snd p).

(** Lines 47-52: [sortedVenues], each venue with its weighted affinity. *)
Definition sortedVenues (filtered : list (Venue * Z)) : list (Venue * Z) :=
  sort_desc weight filtered.

(** Lines 31-54: [selectedVenues]. *)
Definition selectVenues (venues : list Venue) (venueCount : nat)
    (prefs : RoutePreferences) : Result (list Venue) :=
  res_bind (filteredVenues venues (focus prefs)) (fun filtered =>
    let n := adjustedVenueCount (duration prefs) venueCount (List.length venues) in
    Ok (map fst (firstn n (sortedVenues filtered)))).

(** ** Concrete pools for the witnesses *)

Definition sample_venue (n : Z) (t : string) (aff : Z) : Venue :=
  {| id := IdNum n; name := t; type := Some t; coordinates := None;
     affinity := aff; qloo_data := None; rating := None |}.

(** The pool of the spec's scenario: affinities [90, 80, 70, 60, 50]. *)
Definition sample_pool : list Venue :=
  [sample_venue 1 "Museum" 90; sample_venue 2 "Cafe" 80; sample_venue 3 "Park" 70;
   sample_venue 4 "Restaurant" 60; sample_venue 5 "Bar" 50]%string.

(** ** Properties *)

Lemma filteredVenues_length venues focus filtered :
  filteredVenues venues focus = Ok filtered -> List.length filtered = List.length venues.
Proof.
  destruct focus; cbn; intros H;
    try (injection H as <-; apply length_map);
    exact (res_map_length _ _ _ H).
Qed.

Lemma priorityBoost_ok_iff focus v :
  focus <> Diverse -> (exists b, priorityBoost focus v = Ok b) <-> type v <> None.
Proof.
  intros Hf. unfold priorityBoost, typeMatches.
  destruct focus; [congruence| | |]; cbn;
    (destruct (type v); cbn; split; [congruence|eauto|intros [b Hb]; discriminate|congruence]).
Qed.

Lemma prioritize_ok_iff venues focus :
  focus <> Diverse ->
  (exists r, prioritizeVenuesByFocus venues focus = Ok r) <->
  Forall (fun v => type v <> None) venues.
Proof.
  intros Hf. unfold prioritizeVenuesByFocus. rewrite res_map_ok_iff.
  split; apply Forall_impl; intros v.
  - intros [y Hy]. apply (priorityBoost_ok_iff focus v Hf).
    destruct (priorityBoost focus v) as [b|e]; [eauto|discriminate].
  - intros Ht. apply (priorityBoost_ok_iff focus v Hf) in Ht as [b Hb].
    rewrite Hb. cbn. eauto.
Qed.

Lemma filteredVenues_fst venues focus filtered :
  filteredVenues venues focus = Ok filtered -> map fst filtered = venues.
Proof.
  destruct focus; cbn; intros H;
    try (injection H as <-; rewrite map_map; apply map_id);
    exact (res_map_pair_fst _ _ _ H).
Qed.

(** The selection returns the duration-adjusted count of venues,
    capped by the pool size. *)
Lemma selectVenues_length venues c prefs sel :
  selectVenues venues c prefs = Ok sel ->
  List.length sel = Nat.min (adjustedVenueCount (duration prefs) c (List.length venues))
                            (List.length venues).
Proof.
  unfold selectVenues.
  destruct (filteredVenues venues (focus prefs)) as [f|e] eqn:E; cbn; [|discriminate].
  intros H; injection H as <-. rewrite length_map, length_firstn. unfold sortedVenues.
  now rewrite (Permutation_length (sort_desc_perm _ f)), (filteredVenues_length _ _ _ E).
Qed.


(** C3: the selection keeps the [n] venues of highest weighted
    affinity, with the boosts [prioritizeVenuesByFocus] computes: the
    pool paired with its boosts splits into the chosen venues (in
    decreasing weight) and the rest, and no venue left out has a
    greater [affinity + focusPriorityBoost] than a chosen one. *)
Theorem selectVenues_top venues c prefs sel :
  selectVenues venues c prefs = Ok sel ->
  exists filtered chosen rest,
    filteredVenues venues (focus prefs) = Ok filtered /\
    sel = map fst chosen /\
    Permutation (chosen ++ rest) filtered /\
    Permutation (map fst (chosen ++ rest)) venues /\
    List.length chosen = Nat.min (adjustedVenueCount (duration prefs) c (List.length venues))
                                 (List.length venues) /\
    StronglySorted (desc weight) chosen /\
    (forall a b, In a chosen -> In b rest ->
       calculateWeightedAffinity (fst b) (snd b) <= calculateWeightedAffinity (fst a) (snd a)).
Proof.
  intros Hsel. pose proof (selectVenues_length _ _ _ _ Hsel) as Hlen. revert Hsel Hlen.
  unfold selectVenues.
  destruct (filteredVenues venues (focus prefs)) as [f|e] eqn:E; cbn; [|discriminate].
  intros H; injection H as <-. rewrite length_map. intros Hlen.
  set (n := adjustedVenueCount _ _ _) in *.
  pose proof (sort_desc_strongly_sorted weight f) as Hs.
  rewrite <- (firstn_skipn n (sort_desc weight f)) in Hs.
  apply StronglySorted_app_inv in Hs as (H1 & _ & H12).
  assert (Hp : Permutation (firstn n (sortedVenues f) ++ skipn n (sortedVenues f)) f)
    by (rewrite firstn_skipn; apply sort_desc_perm).
  exists f, (firstn n (sortedVenues f)), (skipn n (sortedVenues f)).
  repeat split; try assumption.
  - rewrite <- (filteredVenues_fst _ _ _ E). now apply Permutation_map.
Qed.

(** Selection fails only by throwing: it returns a list exactly
    when the focus is diverse or every venue of the pool has a type;
    a typeless venue under a non-diverse focus makes
    [venue.type.includes] throw a [TypeError]. *)
Theorem selectVenues_total venues c prefs :
  (exists sel, selectVenues venues c prefs = Ok sel) <->
  focus prefs = Diverse \/ Forall (fun v => type v <> None) venues.
Proof.
  unfold selectVenues, filteredVenues.
  destruct (focus prefs) eqn:Ef; cbn.
  { split; [left; reflexivity|eauto]. }
  all: rewrite <- (prioritize_ok_iff venues (focus prefs)) by congruence; rewrite Ef.
  all: split.
  all: try (intros [sel H]; right;
            destruct (prioritizeVenuesByFocus venues _) as [r|e]; [eauto|discriminate]).
  all: intros [H|[r H]]; [discriminate|rewrite H; cbn; eauto].
Qed.

Example select_sample_diverse :
  selectVenues sample_pool 3 default_preferences =
  Ok [sample_venue 1 "Museum" 90; sample_venue 2 "Cafe" 80; sample_venue 3 "Park" 70]%string.
Proof. reflexivity. Qed.

(** Under the food focus the restaurant (60 + 20) and the bar
    (50 + 20) overtake the park (70); the cafe gets 80 + 20. *)
Example select_sample_food :
  selectVenues sample_pool 3 {| duration := HalfDay; pace := Relaxed; focus := Food |} =
  Ok [sample_venue 2 "Cafe" 80; sample_venue 1 "Museum" 90; sample_venue 4 "Restaurant" 60]%string.
Proof. reflexivity. Qed.

Lemma selectVenues_top_witness :
  selectVenues sample_pool 3 default_preferences =
    Ok [sample_venue 1 "Museum" 90; sample_venue 2 "Cafe" 80; sample_venue 3 "Park" 70]%string /\
  exists filtered chosen rest,
    filteredVenues sample_pool (focus default_preferences) = Ok filtered /\
    [sample_venue 1 "Museum" 90; sample_venue 2 "Cafe" 80; sample_venue 3 "Park" 70]%string
      = map fst chosen /\
    Permutation (chosen ++ rest) filtered /\
    Permutation (map fst (chosen ++ rest)) sample_pool /\
    List.length chosen = Nat.min (adjustedVenueCount (duration default_preferences) 3
                                    (List.length sample_pool)) (List.length sample_pool) /\
    StronglySorted (desc weight) chosen /\
    (forall a b, In a chosen -> In b rest ->
       calculateWeightedAffinity (fst b) (snd b) <= calculateWeightedAffinity (fst a) (snd a)).
Proof.
  split; [reflexivity|].
  apply (selectVenues_top sample_pool 3 default_preferences). reflexivity.
Defined.

End VenueSelection.
