(* ===== verification/RouteOrder.v ===== *)
(** * The route order optimizer

    [optimizeVenueOrder] and [calculateDistance] ([RoutePlanner.js],
    lines 166-209): a greedy nearest-neighbour tour that starts at the
    first (highest-weighted) venue and repeatedly appends the closest
    venue still unplaced, by planar distance on raw degrees.  When a
    venue has no coordinates, [calculateDistance] returns
    [Math.random()], so the model runs in the effect monad over the
    random stream.

    The [while] loop is [orderLoop], a [Fixpoint] on fuel: it returns
    [None] only if it runs out of fuel with venues still unplaced, and
    [orderLoop_terminates] shows the fuel [optimizeVenueOrder] gives
    (the number of venues to place) always suffices. *)
From S2P Require Import Prelude JsNumber JsString Venue.
From Stdlib Require Import List ZArith Lia Permutation String.
Import ListNotations.
Import Venue.

Module RouteOrder.

(** Venues on a line, for the witnesses: [A(0,0)], [B(10,0)], [C(1,0)]. *)
Definition point_venue (n x y : Z) : Venue :=
  {| id := IdNum n; name := "point"%string; type := Some "Park"%string;
     coordinates := Some (Binary64.of_Z x, Binary64.of_Z y);
     affinity := 0; qloo_data := None; rating := None |}.

Definition venue_A : Venue := point_venue 1 0 0.
Definition venue_B : Venue := point_venue 2 10 0.
Definition venue_C : Venue := point_venue 3 1 0.

(** A random source that always answers [0]. *)
Definition zero_stream (_ : nat) : Binary64.num := Binary64.of_Z 0.

Section WithRandom.

Context (random_stream : nat -> Binary64.num).

(** [calculateDistance(venue1, venue2)]: [Math.sqrt(Math.pow(lat2 -
   lat1, 2) + Math.pow(lng2 - lng1, 2))], or [Math.random()] when a
   venue has no coordinates.  [Math.pow(d, 2)] is the correctly
   rounded square, [d * d]. *)
Definition calculateDistance (venue1 venue2 : Venue) : M World Binary64.num :=
  match coordinates venue1, coordinates venue2 with
  | Some (lat1, lng1), Some (lat2, lng2) =>
      let dlat := Binary64.sub lat2 lat1 in
      let dlng := Binary64.sub lng2 lng1 in
      ret (Binary64.sqrt (Binary64.add (Binary64.mul dlat dlat) (Binary64.mul dlng dlng)))
  | _, _ => Math_random random_stream
  end.

(** The inner [for] loop (lines 185-192): [best] is
   [(nextIndex, nextVenue, minDistance)]; a venue replaces it only
   when strictly closer, so the first of equally close venues wins. *)
Fixpoint scanNearest (lastVenue : Venue) (rest : list Venue) (i : nat)
    (best : nat * Venue * Binary64.num) : M World (nat * Venue * Binary64.num) :=
  match rest with
  | [] => ret best
  | v :: rs =>
      d <- calculateDistance lastVenue v ;;
      let '(_, _, minDistance) := best in
      scanNearest lastVenue rs (S i) (if Binary64.ltb d minDistance then (i, v, d) else best)
  end.

(** The [while] loop (lines 177-196), on fuel.  [ordered] is
   [orderedVenues] and [lastVenue] its last element. *)
Fixpoint orderLoop (fuel : nat) (ordered : list Venue) (lastVenue : Venue)
    (remaining : list Venue) : M World (option (list Venue)) :=
  match remaining with
  | [] => ret (Some ordered)
  | r0 :: rs =>
      match fuel with
      | O => ret None
      | S f =>
          d0 <- calculateDistance lastVenue r0 ;;
          best <- scanNearest lastVenue rs 1 (0, r0, d0) ;;
          let '(nextIndex, nextVenue, _) := best in
          orderLoop f (ordered ++ [nextVenue]) nextVenue (remove_nth nextIndex remaining)
      end
  end.

(** [optimizeVenueOrder(venues, preferences)] (lines 166-199). *)
Definition optimizeVenueOrder (venues : list Venue) : M World (list Venue) :=
  if Nat.leb (List.length venues) 2 then ret venues
  else match venues with
       | [] => ret []
       | v0 :: rest =>
           r <- orderLoop (List.length rest) [v0] v0 rest ;;
           ret (match r with Some l => l | None => [] end)
       end.

(** ** Properties *)

Lemma calculateDistance_ok (v1 v2 : Venue) (w : World) :
  exists d w', calculateDistance v1 v2 w = (Ok d, w').
Proof.
  unfold calculateDistance.
  destruct (coordinates v1) as [[]|], (coordinates v2) as [[]|];
    unfold m_ret, Math_random; eauto.
Qed.

(** The scan returns the index of a venue it was given, and that venue. *)
Lemma scanNearest_spec (lastVenue : Venue) (full rest : list Venue) :
  forall i best w,
    skipn i full = rest ->
    nth_error full (fst (fst best)) = Some (snd (fst best)) ->
    exists j v d w', scanNearest lastVenue rest i best w = (Ok (j, v, d), w') /\
                     nth_error full j = Some v.
Proof.
  induction rest as [|v rs IH]; intros i [[b bv] bd] w Hskip Hbest; cbn in *.
  - do 4 eexists; split; [reflexivity|exact Hbest].
  - destruct (calculateDistance_ok lastVenue v w) as (d & w1 & Hd).
    unfold m_bind. rewrite Hd.
    apply skipn_cons_inv in Hskip as [Hv Hskip].
    apply IH; [exact Hskip|].
    destruct (Binary64.ltb d bd); cbn; assumption.
Qed.

(** The loop invariant, by induction on the fuel: each round appends the
    venue the scan found and removes it from [remaining]. *)
Lemma orderLoop_spec (fuel : nat) :
  forall ordered lastVenue remaining w,
    List.length remaining <= fuel ->
    exists tail w',
      orderLoop fuel ordered lastVenue remaining w = (Ok (Some (ordered ++ tail)), w') /\
      Permutation tail remaining.
Proof.
  induction fuel as [|f IH]; intros ordered lastVenue [|r0 rs] w Hlen; cbn in *.
  - exists [], w. rewrite app_nil_r. split; [reflexivity|constructor].
  - lia.
  - exists [], w. rewrite app_nil_r. split; [reflexivity|constructor].
  - destruct (calculateDistance_ok lastVenue r0 w) as (d0 & w1 & Hd0).
    unfold m_bind. rewrite Hd0.
    destruct (scanNearest_spec lastVenue (r0 :: rs) rs 1 (0%nat, r0, d0) w1 eq_refl eq_refl)
      as (j & v & d & w2 & Hscan & Hj).
    rewrite Hscan.
    assert (Hlt : (j < List.length (r0 :: rs))%nat) by (apply nth_error_Some; congruence).
    destruct (IH (ordered ++ [v]) v (remove_nth j (r0 :: rs)) w2) as (tail & w3 & Hloop & Hperm).
    { rewrite remove_nth_length by exact Hlt. cbn in *. lia. }
    exists (v :: tail), w3. rewrite Hloop, <- app_assoc. split; [reflexivity|].
    rewrite (remove_nth_perm _ _ _ Hj). now apply perm_skip.
Qed.

(** C6: the [while] loop terminates on the fuel it is given: with at
   least as much fuel as venues to place, it returns [orderedVenues]
   extended by a permutation of the remaining venues. *)
Theorem orderLoop_terminates (fuel : nat) :
  forall ordered lastVenue remaining w,
    List.length remaining <= fuel ->
    exists tail w',
      orderLoop fuel ordered lastVenue remaining w = (Ok (Some (ordered ++ tail)), w') /\
      Permutation tail remaining.
Proof. exact (orderLoop_spec fuel). Qed.

(** The result of the optimizer, for its clients. *)
Lemma optimizeVenueOrder_spec (venues : list Venue) (w : World) :
  exists l w',
    optimizeVenueOrder venues w = (Ok l, w') /\
    Permutation l venues /\
    hd_error l = hd_error venues.
Proof.
  unfold optimizeVenueOrder.
  destruct (Nat.leb (List.length venues) 2).
  { exists venues, w. split; [reflexivity|split; reflexivity]. }
  destruct venues as [|v0 rest].
  { exists [], w. split; [reflexivity|split; reflexivity]. }
  destruct (orderLoop_spec (List.length rest) [v0] v0 rest w (le_n _))
    as (tail & w' & Hloop & Hperm).
  unfold m_bind. rewrite Hloop. cbn. exists (v0 :: tail), w'.
  split; [reflexivity|]. split; [now apply perm_skip|reflexivity].
Qed.

(** C5: [optimizeVenueOrder] never throws, whatever the random source,
   and returns a permutation of its input that starts with the input's
   first venue. *)
Theorem optimizeVenueOrder_perm (venues : list Venue) (w : World) :
  exists l w',
    optimizeVenueOrder venues w = (Ok l, w') /\
    Permutation l venues /\
    hd_error l = hd_error venues.
Proof. exact (optimizeVenueOrder_spec venues w). Qed.

(** A route of at most two venues is left as it is, without
   drawing a random number. *)
Theorem optimizeVenueOrder_small (venues : list Venue) (w : World) :
  (List.length venues <= 2)%nat -> optimizeVenueOrder venues w = (Ok venues, w).
Proof.
  intros H. unfold optimizeVenueOrder.
  apply Nat.leb_le in H. now rewrite H.
Qed.

End WithRandom.

(** The spec's scenario: from [A], the nearest-neighbour tour visits
    [C] before [B]; with every coordinate known, no random number is
    drawn. *)
Example optimize_line :
  optimizeVenueOrder zero_stream [venue_A; venue_B; venue_C] (mkWorld 0 0) =
  (Ok [venue_A; venue_C; venue_B], mkWorld 0 0).
Proof. reflexivity. Qed.

Lemma orderLoop_terminates_witness :
  (List.length [venue_B; venue_C] <= 2)%nat /\
  exists tail w',
    orderLoop zero_stream 2 [venue_A] venue_A [venue_B; venue_C] (mkWorld 0 0) =
      (Ok (Some ([venue_A] ++ tail)), w') /\
    Permutation tail [venue_B; venue_C].
Proof.
  split; [cbn; lia|].
  apply (orderLoop_terminates zero_stream 2). cbn; lia.
Defined.

Lemma optimizeVenueOrder_small_witness :
  (List.length [venue_B; venue_A] <= 2)%nat /\
  optimizeVenueOrder zero_stream [venue_B; venue_A] (mkWorld 0 0) =
    (Ok [venue_B; venue_A], mkWorld 0 0).
Proof.
  split; [cbn; lia|].
  apply (optimizeVenueOrder_small zero_stream). cbn; lia.
Defined.

End RouteOrder.
