(* ===== verification/Clock.v ===== *)
(** * Clock strings

    [addMinutes] and [formatDuration] ([RoutePlanner.js], lines 314-335)
    and the format [getCurrentTime] (lines 305-312) asks the browser
    for.  The planner keeps its running clock as a display string such
    as ["10:05 AM"] and re-parses it at every step: [addMinutes] splits
    the string at the space and at the colon, converts the pieces with
    [Number], adds, and prints the result in the 12-hour format.

    [clock_string t] is the string of minute [t] of the day in that
    format.  The theorems show that on such strings [addMinutes] is
    addition modulo a day, so that successive additions compose; and
    that on a string with any other separator than an ASCII space
    between the minutes and a period (the narrow no-break space U+202F
    that current browsers put there) every field is [NaN]. *)
From S2P Require Import Prelude JsNumber JsString.
From Stdlib Require Import List ZArith Lia String Ascii Bool.
Import ListNotations.
Local Open Scope Z_scope.

Module Clock.

(** Lines 315-316 of [addMinutes]: [const [timePart, period] =
    time.split(' ')] and [const [hours, mins] =
    timePart.split(':').map(Number)], with [period === 'PM'].  A missing
    array element ([mins] when [timePart] has no colon) is [undefined],
    which arithmetic turns into [NaN]. *)
Definition parseTime (time : string) : JsInt * JsInt * bool :=
  let parts := JsString.split " "%char time in
  let timePart := hd ""%string parts in
  let period := nth_error parts 1 in
  let fields := map JsString.Number (JsString.split ":"%char timePart) in
  let hours := match nth_error fields 0 with Some h => h | None => JNaN end in
  let mins := match nth_error fields 1 with Some m => m | None => JNaN end in
  let isPM := match period with Some p => String.eqb p "PM" | None => false end in
  (hours, mins, isPM).

(** Lines 319-325: the total printed back in the 12-hour format. *)
Definition formatTime (totalMinutes : JsInt) : string :=
  let newHours := JsInt.rem_const (JsInt.floor_div_const totalMinutes 60) 24 in
  let newMins := JsInt.rem_const totalMinutes 60 in
  let displayHours :=
    if JsInt.eqb_const newHours 0 then JInt 12
    else if JsInt.gtb_const newHours 12 then JsInt.sub newHours (JInt 12)
    else newHours in
  let newPeriod := if JsInt.geb_const newHours 12 then "PM"%string else "AM"%string in
  (JsString.toString displayHours ++ ":" ++
   JsString.padStart2 (JsString.toString newMins) ++ " " ++ newPeriod)%string.

(** [addMinutes(time, minutes)] (lines 314-326). *)
Definition addMinutes (time : string) (minutes : JsInt) : string :=
  let '(hours, mins, isPM) := parseTime time in
  let totalMinutes :=
    JsInt.add (JsInt.add (JsInt.add (JsInt.mul_const (JsInt.rem_const hours 12) 60) mins)
                         minutes)
              (JInt (if isPM then 12 * 60 else 0)) in
  formatTime totalMinutes.

(** [formatDuration(minutes)] (lines 328-335). *)
Definition formatDuration (minutes : JsInt) : string :=
  let hours := JsInt.floor_div_const minutes 60 in
  let mins := JsInt.rem_const minutes 60 in
  if JsInt.eqb_const hours 0 then (JsString.toString mins ++ "m")%string
  else if JsInt.eqb_const mins 0 then (JsString.toString hours ++ "h")%string
  else (JsString.toString hours ++ "h " ++ JsString.toString mins ++ "m")%string.

(** ** The 12-hour format *)

(** The hour shown for hour [h] of the day: [12] for midnight and noon. *)
Definition display_hour (h : Z) : Z :=
  if h =? 0 then 12 else if 12 <? h then h - 12 else h.

(** Minute [t] of the day, [0 <= t < 1440], as ["h:mm AM"]. *)
Definition clock_string (t : Z) : string :=
  let h := t / 60 in
  (JsString.digits (display_hour h) ++ ":" ++
   JsString.padStart2 (JsString.digits (t mod 60)) ++ " " ++
   (if (12 <=? h)%Z then "PM" else "AM"))%string.

(** A one-byte character that is neither white space nor a colon (the
    letters of [AM] and [PM]). *)
Definition no_space_or_colon (c : ascii) : bool :=
  JsString.is_plain c && negb (Ascii.eqb c ":").

(** U+202F NARROW NO-BREAK SPACE, as its UTF-8 bytes. *)
Definition narrow_nbsp : string :=
  String (ascii_of_nat 226) (String (ascii_of_nat 128) (String (ascii_of_nat 175) EmptyString)).

(** ** Lemmas *)

Lemma display_hour_range (h : Z) : 0 <= h < 24 -> 1 <= display_hour h <= 12.
Proof. unfold display_hour. destruct (h =? 0) eqn:E0, (12 <? h) eqn:E12; lia. Qed.

(** Parsing back the hour field: [(displayHours % 12) * 60] plus the
    [PM] offset is the hour of the day in minutes. *)
Lemma display_hour_rem (h : Z) :
  0 <= h < 24 ->
  Z.rem (display_hour h) 12 * 60 + (if 12 <=? h then 12 * 60 else 0) = h * 60.
Proof.
  intros Hh. unfold display_hour.
  destruct (h =? 0) eqn:E0; [apply Z.eqb_eq in E0; subst; reflexivity|].
  apply Z.eqb_neq in E0.
  destruct (12 <? h) eqn:E12.
  - apply Z.ltb_lt in E12. rewrite Z.rem_small by lia.
    replace (12 <=? h) with true by (symmetry; apply Z.leb_le; lia). lia.
  - apply Z.ltb_ge in E12. destruct (Z.eq_dec h 12) as [->|Hne]; [reflexivity|].
    rewrite Z.rem_small by lia.
    replace (12 <=? h) with false by (symmetry; apply Z.leb_gt; lia). lia.
Qed.

Lemma no_space_digits (n : Z) :
  0 <= n -> JsString.all_chars (fun d => negb (Ascii.eqb d " "%char)) (JsString.digits n) = true.
Proof.
  intros Hn. apply (JsString.all_chars_impl JsString.is_digit); [|now apply JsString.digits_all_digits].
  intros c Hc. apply negb_true_iff. destruct (Ascii.eqb c " ") eqn:E; [|reflexivity].
  apply Ascii.eqb_eq in E. now subst.
Qed.

Lemma no_colon_digits (n : Z) :
  0 <= n -> JsString.all_chars (fun d => negb (Ascii.eqb d ":"%char)) (JsString.digits n) = true.
Proof.
  intros Hn. apply (JsString.all_chars_impl JsString.is_digit); [|now apply JsString.digits_all_digits].
  intros c Hc. apply negb_true_iff. destruct (Ascii.eqb c ":") eqn:E; [|reflexivity].
  apply Ascii.eqb_eq in E. now subst.
Qed.

Lemma padStart2_preserves (p : ascii -> bool) (s : string) :
  p "0"%char = true -> JsString.all_chars p s = true -> JsString.all_chars p (JsString.padStart2 s) = true.
Proof.
  intros H0 Hs. unfold JsString.padStart2.
  destruct (String.length s) as [|[|k]]; cbn; try rewrite H0; auto.
Qed.

Lemma toString_nonneg (z : Z) : 0 <= z -> JsString.toString (JInt z) = JsString.digits z.
Proof. intros Hz. unfold JsString.toString. now replace (z <? 0) with false by (symmetry; apply Z.ltb_ge; lia). Qed.

(** Reading a clock string gives its hour field, its minute field and
    whether it is afternoon. *)
Lemma parseTime_clock (t : Z) :
  0 <= t < 1440 ->
  parseTime (clock_string t) = (JInt (display_hour (t / 60)), JInt (t mod 60), 12 <=? t / 60).
Proof.
  intros Ht.
  assert (Hh : 0 <= t / 60 < 24) by lia_divmod.
  assert (Hm : 0 <= t mod 60 < 60) by lia_divmod.
  pose proof (display_hour_range _ Hh) as Hd.
  set (D := JsString.digits (display_hour (t / 60))).
  set (P := JsString.padStart2 (JsString.digits (t mod 60))).
  set (per := if 12 <=? t / 60 then "PM"%string else "AM"%string).
  assert (Hsplit : JsString.split " " (clock_string t) = [(D ++ String ":" P)%string; per]).
  { unfold clock_string. fold D P per.
    rewrite <- (JsString.string_app_assoc D), <- JsString.string_app_assoc.
    change (" " ++ per)%string with (String " " per).
    rewrite JsString.split_app_sep.
    - rewrite JsString.string_app_assoc. f_equal.
      apply JsString.split_nosep. unfold per. now destruct (12 <=? t / 60).
    - unfold D, P. rewrite !JsString.all_chars_app, no_space_digits by lia. cbn.
      apply padStart2_preserves; [reflexivity|apply no_space_digits; lia_divmod]. }
  assert (Hcolon : JsString.split ":" (D ++ String ":" P) = [D; P]).
  { unfold D, P. rewrite JsString.split_app_sep by (apply no_colon_digits; lia). f_equal.
    apply JsString.split_nosep, padStart2_preserves; [reflexivity|apply no_colon_digits; lia_divmod]. }
  unfold parseTime. rewrite Hsplit. cbn [hd nth_error]. rewrite Hcolon. cbn [map nth_error].
  unfold D, P. rewrite JsString.Number_digits by lia_divmod.
  rewrite (JsString.Number_padStart2_digit_string _ (t mod 60));
    [|apply JsString.digits_all_digits; lia|apply JsString.digits_nonempty|
      apply JsString.parse_digits_digits; lia].
  unfold per. now destruct (12 <=? t / 60).
Qed.

(** Printing a total of [T >= 0] minutes gives the clock string of
    [T] modulo a day. *)
Lemma formatTime_total (T : Z) : 0 <= T -> formatTime (JInt T) = clock_string (T mod 1440).
Proof.
  intros HT. unfold formatTime, clock_string. cbn [JsInt.floor_div_const JsInt.rem_const].
  assert (Hh : Z.rem (T / 60) 24 = T mod 1440 / 60).
  { rewrite Z.rem_mod_nonneg by lia_divmod. lia_divmod. }
  assert (Hm : Z.rem T 60 = T mod 1440 mod 60).
  { rewrite Z.rem_mod_nonneg by lia_divmod. lia_divmod. }
  rewrite Hh, Hm.
  set (h := T mod 1440 / 60).
  assert (Hr : 0 <= h < 24) by (unfold h; lia_divmod).
  rewrite (toString_nonneg (T mod 1440 mod 60)) by lia_divmod.
  cbn [JsInt.eqb_const JsInt.gtb_const JsInt.geb_const].
  f_equal. unfold display_hour.
  destruct (h =? 0); [now rewrite toString_nonneg by lia|].
  destruct (12 <? h) eqn:E.
  - apply Z.ltb_lt in E. cbn [JsInt.sub JsInt.add]. rewrite toString_nonneg by lia_divmod. f_equal.
  - now rewrite toString_nonneg by lia_divmod.
Qed.

(** Reading, adding and printing back, on a clock string. *)
Lemma addMinutes_clock_string (t m : Z) :
  0 <= t < 1440 -> 0 <= t + m ->
  addMinutes (clock_string t) (JInt m) = clock_string ((t + m) mod 1440).
Proof.
  intros Ht Htm. unfold addMinutes. rewrite parseTime_clock by exact Ht.
  cbn [JsInt.add JsInt.mul_const JsInt.rem_const].
  rewrite <- formatTime_total by lia_divmod. f_equal. f_equal.
  assert (Hh : 0 <= t / 60 < 24) by lia_divmod.
  pose proof (display_hour_rem _ Hh). lia_divmod.
Qed.

(** On a clock string, [addMinutes] is addition modulo a day: from
    minute [t] of the day, adding [m] minutes (with [t + m >= 0]) prints
    the clock string of minute [(t + m) mod 1440]. *)
Theorem addMinutes_clock (t m : Z) :
  0 <= t < 1440 -> 0 <= t + m ->
  addMinutes (clock_string t) (JInt m) = clock_string ((t + m) mod 1440).
Proof. exact (addMinutes_clock_string t m). Qed.

(** Additions on the running clock compose: adding [a] then [b]
    non-negative minutes to a clock string is adding [a + b] at once. *)
Theorem addMinutes_compose (t a b : Z) :
  0 <= t < 1440 -> 0 <= a -> 0 <= b ->
  addMinutes (addMinutes (clock_string t) (JInt a)) (JInt b) =
  addMinutes (clock_string t) (JInt (a + b)).
Proof.
  intros Ht Ha Hb.
  rewrite !addMinutes_clock_string by lia_divmod.
  f_equal. rewrite Z.add_mod_idemp_l by lia. f_equal. lia.
Qed.

Lemma addMinutes_clock_witness :
  (0 <= 600 < 1440 /\ 0 <= 600 + 90) /\
  addMinutes (clock_string 600) (JInt 90) = clock_string ((600 + 90) mod 1440).
Proof.
  split; [lia|]. apply addMinutes_clock; lia.
Defined.

Lemma addMinutes_compose_witness :
  (0 <= 1425 < 1440 /\ 0 <= 30 /\ 0 <= 45) /\
  addMinutes (addMinutes (clock_string 1425) (JInt 30)) (JInt 45) =
  addMinutes (clock_string 1425) (JInt (30 + 45)).
Proof.
  split; [lia|]. apply addMinutes_compose; lia.
Defined.

Example addMinutes_sample : addMinutes "11:45 PM" (JInt 30) = "12:15 AM"%string.
Proof. reflexivity. Qed.

Lemma digit_string_avoids (c : ascii) (s : string) :
  JsString.is_digit c = false -> JsString.all_chars JsString.is_digit s = true ->
  JsString.all_chars (fun d => negb (Ascii.eqb d c)) s = true.
Proof.
  intros Hc. apply JsString.all_chars_impl. intros d Hd.
  apply negb_true_iff. destruct (Ascii.eqb d c) eqn:E; [|reflexivity].
  apply Ascii.eqb_eq in E. congruence.
Qed.

Lemma parse_digits_nbsp (mm p : string) (a : Z) :
  JsString.all_chars JsString.is_digit mm = true ->
  JsString.parse_digits (mm ++ narrow_nbsp ++ p) a = None.
Proof.
  revert a; induction mm as [|c mm IH]; intros a Hmm; [reflexivity|].
  cbn in Hmm. apply andb_prop in Hmm as [Hc Hmm].
  cbn. unfold JsString.is_digit in Hc. destruct (JsString.digit_of c); [|discriminate].
  now apply IH.
Qed.

Lemma head_is_app (q : ascii -> bool) (s1 s2 : string) :
  s1 <> EmptyString -> JsString.head_is q (s1 ++ s2) = JsString.head_is q s1.
Proof. destruct s1; [congruence|reflexivity]. Qed.

Lemma no_space_or_colon_plain (p : string) :
  JsString.all_chars no_space_or_colon p = true -> JsString.all_chars JsString.is_plain p = true.
Proof.
  apply JsString.all_chars_impl. intros c Hc. unfold no_space_or_colon in Hc.
  now apply andb_prop in Hc as [-> _].
Qed.

(** With digits before the U+202F and a period after it, [trim] keeps
    the string and [Number] stops at the first byte of U+202F. *)
Lemma Number_nbsp (mm p : string) :
  JsString.all_chars JsString.is_digit mm = true -> mm <> EmptyString ->
  JsString.all_chars no_space_or_colon p = true -> p <> EmptyString ->
  JsString.Number (mm ++ narrow_nbsp ++ p) = JNaN.
Proof.
  intros Hmm Hne Hp Hpne. unfold JsString.Number. rewrite JsString.trim_ends.
  3:{ rewrite !JsString.rev_string_app, JsString.string_app_assoc, head_is_app.
      - apply JsString.head_is_all. rewrite JsString.all_chars_rev.
        now apply no_space_or_colon_plain.
      - intros E. apply Hpne. now rewrite <- (JsString.rev_string_involutive p), E. }
  2:{ destruct mm as [|c mm']; [congruence|]. cbn in Hmm |- *.
      apply andb_prop in Hmm as [Hc _]. now apply JsString.digit_plain. }
  destruct mm as [|c mm']; [congruence|].
  cbn in Hmm. apply andb_prop in Hmm as [Hc Hmm'].
  cbn [append].
  destruct (Ascii.eqb c "-") eqn:Em.
  { apply Ascii.eqb_eq in Em. subst. discriminate. }
  destruct (Ascii.eqb c "+") eqn:Ep.
  { apply Ascii.eqb_eq in Ep. subst. discriminate. }
  unfold JsString.unsigned_number.
  destruct (String.eqb (String c (mm' ++ narrow_nbsp ++ p)) "Infinity") eqn:Ei.
  { apply String.eqb_eq in Ei. injection Ei as -> _. discriminate. }
  change (String c (mm' ++ narrow_nbsp ++ p)) with ((String c mm') ++ narrow_nbsp ++ p)%string.
  rewrite parse_digits_nbsp; [reflexivity|]. cbn. now rewrite Hc.
Qed.

(** C38: with a period after the minutes separated from them by any
    character other than an ASCII space, as in ["10:00\u202fAM"] (the
    narrow no-break space U+202F that [toLocaleTimeString('en-US')]
    emits in current browsers), [addMinutes] prints ["NaN:NaN AM"],
    whatever it adds: [time.split(' ')] finds no space, so the minutes
    field [Number("00\u202fAM")] is [NaN] ([Number] trims the U+202F
    only at either end), and [NaN] reaches every field. *)
Theorem addMinutes_nbsp (hh mm p : string) (x : JsInt) :
  JsString.all_chars JsString.is_digit hh = true ->
  JsString.all_chars JsString.is_digit mm = true -> mm <> EmptyString ->
  JsString.all_chars no_space_or_colon p = true -> p <> EmptyString ->
  addMinutes (hh ++ ":" ++ mm ++ narrow_nbsp ++ p) x = "NaN:NaN AM"%string.
Proof.
  intros Hh Hm Hmne Hp Hpne.
  assert (Hrest : JsString.all_chars (fun d => negb (Ascii.eqb d ":")) (mm ++ narrow_nbsp ++ p) = true).
  { rewrite !JsString.all_chars_app.
    rewrite (digit_string_avoids ":" mm) by (reflexivity || assumption). cbn.
    apply (JsString.all_chars_impl no_space_or_colon); [|exact Hp].
    intros c Hc. unfold no_space_or_colon in Hc. now apply andb_prop in Hc as [_ ->]. }
  assert (Hsp : JsString.all_chars (fun d => negb (Ascii.eqb d " ")) (hh ++ ":" ++ mm ++ narrow_nbsp ++ p) = true).
  { rewrite !JsString.all_chars_app.
    rewrite (digit_string_avoids " " hh), (digit_string_avoids " " mm)
      by (reflexivity || assumption). cbn.
    apply (JsString.all_chars_impl no_space_or_colon); [|exact Hp].
    intros c Hc. unfold no_space_or_colon, JsString.is_plain in Hc.
    apply andb_prop in Hc as [Hs _]. apply andb_prop in Hs as [Hs _].
    apply negb_true_iff. destruct (Ascii.eqb c " ") eqn:E; [|reflexivity].
    apply Ascii.eqb_eq in E. subst. discriminate. }
  unfold addMinutes, parseTime.
  rewrite (JsString.split_nosep _ _ Hsp). cbn [hd nth_error].
  change (hh ++ ":" ++ mm ++ narrow_nbsp ++ p)%string
    with (hh ++ String ":" (mm ++ narrow_nbsp ++ p))%string.
  rewrite JsString.split_app_sep by (apply digit_string_avoids; easy).
  rewrite (JsString.split_nosep _ _ Hrest). cbn [map nth_error].
  rewrite Number_nbsp by assumption.
  destruct (JsString.Number hh) as [z1| |[|]]; destruct x as [z2| |[|]]; reflexivity.
Qed.

Lemma addMinutes_nbsp_witness :
  (JsString.all_chars JsString.is_digit "10" = true /\
   JsString.all_chars JsString.is_digit "00" = true /\ "00"%string <> EmptyString /\
   JsString.all_chars no_space_or_colon "AM" = true /\ "AM"%string <> EmptyString) /\
  addMinutes ("10" ++ ":" ++ "00" ++ narrow_nbsp ++ "AM") (JInt 90) = "NaN:NaN AM"%string.
Proof.
  split; [repeat split; (reflexivity || discriminate)|].
  apply addMinutes_nbsp; (reflexivity || discriminate).
Defined.

(** Without a period, the U+202F ends the string and [Number] trims it:
    [addMinutes("10:00\u202f", 90)] is ["11:30 AM"]. *)
Example addMinutes_trailing_nbsp :
  addMinutes ("10:00" ++ narrow_nbsp) (JInt 90) = "11:30 AM"%string.
Proof. vm_compute. reflexivity. Qed.

End Clock.
