(* ===== verification/Timing.v ===== *)
(** * The timing engine

    The second half of [generateRoute] ([RoutePlanner.js], lines 60-111)
    and its helpers [getEstimatedTime] (lines 211-259),
    [getEstimatedTravelTime] (lines 261-273) and [generateVenueNotes]
    (lines 275-303).  A running clock string, initialised by the first
    reading of [getCurrentTime()], advances by the travel time to each
    venue (its arrival time) and by the time spent there.

    Dwell times multiply an integer base time by the binary64 literals
    [0.7], [1.2], ... and round with [Math.round]; they are computed
    here in [Binary64], as the browser computes them.  The lookup
    [baseTimes[venueType] || 60] is a property read on a plain object:
    a type naming a member of [Object.prototype] ([toString],
    [constructor], ...) finds a function, and the product is [NaN]. *)
From S2P Require Import Prelude JsNumber JsString Venue Clock.
From Corelib Require Import SpecFloat.
From Stdlib Require Import List ZArith Lia String Bool.
Import ListNotations.
Import Venue.

Module Timing.

(** ** Dwell time *)

(** The own properties of [baseTimes] (lines 213-225), and the lookup
    of one of them. *)
Definition baseTimes_table : list (string * Z) :=
  [("Restaurant", 90); ("Cafe", 45); ("Bar", 60); ("Art Museum", 120); ("Museum", 90);
   ("Market", 60); ("Park", 45); ("Event Venue", 120); ("Gallery", 75); ("Shop", 30);
   ("Historical Site", 60)]%string%Z.

Definition baseTimes (venueType : string) : option Z :=
  option_map snd (find (fun kv => String.eqb (fst kv) venueType) baseTimes_table).

(** [baseTimes[venueType] || 60] as a number: an own property, [60] for
    a missing one ([undefined] is falsy), [NaN] for an inherited member
    (a function or an object, truthy and not a number). *)
Definition baseTimeOf (venueType : option string) : Binary64.num :=
  match venueType with
  | None => Binary64.of_Z 60
  | Some k =>
      match baseTimes k with
      | Some b => Binary64.of_Z b
      | None => if existsb (String.eqb k) JsString.object_prototype_keys then S754_nan
                else Binary64.of_Z 60
      end
  end.

(** [paceMultipliers] and [durationMultipliers] (lines 227-238). *)
Definition paceMultiplier (p : Pace) : Binary64.num :=
  match p with
  | PaceQuick => Binary64.lit 7 10
  | Relaxed => Binary64.of_Z 1
  | Thorough => Binary64.lit 13 10
  end.

Definition durationMultiplier (d : Duration) : Binary64.num :=
  match d with
  | DurQuick => Binary64.lit 8 10
  | HalfDay => Binary64.of_Z 1
  | FullDay => Binary64.lit 12 10
  end.

(** [venue.qloo_data.popularity > 0.999] (line 246). *)
Definition veryPopular (q : QlooData) : bool :=
  match popularity q with
  | Some p => Binary64.gtb p (Binary64.lit 999 1000)
  | None => false
  end.

(** [venue.qloo_data.keywords && venue.qloo_data.keywords.length > 3]
    (line 250). *)
Definition manyKeywords (q : QlooData) : bool :=
  match keywords q with
  | Some kws => Nat.ltb 3 (List.length kws)
  | None => false
  end.

(** Lines 241-258 once the base time is known: the popularity
    adjustments, then [baseTime * paceMultipliers[pace] *
    durationMultipliers[duration]], evaluated left to right, rounded. *)
Definition dwellTime (baseTime : Binary64.num) (popular many : bool)
    (pace : Pace) (duration : Duration) : JsInt :=
  let b1 := if popular then Binary64.mul baseTime (Binary64.lit 12 10) else baseTime in
  let b2 := if many then Binary64.mul b1 (Binary64.lit 11 10) else b1 in
  JsInt.round (Binary64.mul (Binary64.mul b2 (paceMultiplier pace)) (durationMultiplier duration)).

(** [getEstimatedTime(venueType, pace, venue, duration)] (lines 211-259). *)
Definition getEstimatedTime (venueType : option string) (pace : Pace) (venue : Venue)
    (duration : Duration) : JsInt :=
  let '(popular, many) :=
    match qloo_data venue with
    | Some q => (veryPopular q, manyKeywords q)
    | None => (false, false)
    end in
  dwellTime (baseTimeOf venueType) popular many pace duration.

(** A dwell time that is an integer of [[lo, hi]]. *)
Definition int_within (lo hi : Z) (x : JsInt) : bool :=
  match x with JInt z => (lo <=? z)%Z && (z <=? hi)%Z | _ => false end.

(** ** Notes *)

(** [venue.type] where the code calls a string method on it: reading a
    method of [undefined] throws. *)
Definition typeOf (venue : Venue) : Result string :=
  match type venue with Some t => Ok t | None => Throw TypeError end.

(** [generateVenueNotes(venue, focus)] (lines 275-303).  Both object
    literals evaluate every entry before one is picked, so the entries
    that read [venue.type] run whatever the focus is. *)
Definition generateVenueNotes (venue : Venue) (focus : Focus) : Result string :=
  let kws := match qloo_data venue with
             | Some q => match keywords q with
                         | Some (k0 :: ks) => Some (k0, k0 :: ks)
                         | _ => None
                         end
             | None => None
             end in
  let pick (diverse food arts culture : string) :=
    match focus with
    | Diverse => diverse | Food => food | Arts => arts | Culture => culture
    end in
  match kws with
  | Some (k0, all) =>
      let joined := JsString.join ", " (firstn 3 all) in
      let diverse := ("Known for " ++ joined ++ " - a perfect cultural stop")%string in
      res_bind (typeOf venue) (fun t =>
        let food :=
          if JsString.includes t "Restaurant" || JsString.includes t "Cafe"
          then ("Celebrated for " ++ joined)%string
          else ("Great atmosphere featuring " ++ k0)%string in
        res_bind (typeOf venue) (fun t' =>
          let arts :=
            if JsString.includes t' "Museum" || JsString.includes t' "Art"
            then ("Features " ++ joined ++ " - don't miss it!")%string
            else ("Cultural spot known for " ++ k0)%string in
          let culture := ("Local favorite known for " ++ joined)%string in
          Ok (pick diverse food arts culture)))
  | None =>
      res_bind (typeOf venue) (fun t =>
        let diverse := ("Experience the unique atmosphere of this " ++ JsString.toLowerCase t)%string in
        let food :=
          if JsString.includes t "Restaurant" || JsString.includes t "Cafe"
          then "Perfect spot for culinary exploration"%string
          else "Great for a quick break"%string in
        let arts :=
          if JsString.includes t "Museum" || JsString.includes t "Art"
          then "Immerse yourself in the cultural offerings"%string
          else "Appreciate the creative atmosphere"%string in
        let culture :=
          ("Discover what makes this " ++ JsString.toLowerCase t ++ " special to locals")%string in
        Ok (pick diverse food arts culture))
  end.

(** ** Travel time *)

(** The default coordinates [[40.7589, -73.9851]] (lines 265-266). *)
Definition default_coordinates : Binary64.num * Binary64.num :=
  (Binary64.lit 407589 10000, Binary64.lit (-739851) 10000).

(** Lines 265-272 of [getEstimatedTravelTime]: between two venues, the
    clamped, rounded Euclidean distance in degrees times [1000], plus
    [10] minutes. *)
Definition travelMinutes (f t : Venue) : JsInt :=
  let '(lat1, lng1) := match coordinates f with Some c => c | None => default_coordinates end in
  let '(lat2, lng2) := match coordinates t with Some c => c | None => default_coordinates end in
  let dlat := Binary64.sub lat2 lat1 in
  let dlng := Binary64.sub lng2 lng1 in
  let distance := Binary64.sqrt (Binary64.add (Binary64.mul dlat dlat) (Binary64.mul dlng dlng)) in
  JsInt.max_const 5 (JsInt.min_const 30
    (JsInt.add (JsInt.round (Binary64.mul distance (Binary64.of_Z 1000))) (JInt 10))).

Section WithRandom.

Context (random_stream : nat -> Binary64.num).

(** [getEstimatedTravelTime(fromVenue, toVenue)] (lines 261-273).  The
    first branch draws a random number; [generateRoute] never takes it,
    since it calls the function only for a venue with a predecessor. *)
Definition getEstimatedTravelTime (fromVenue toVenue : option Venue) : M World JsInt :=
  match fromVenue, toVenue with
  | Some f, Some t => ret (travelMinutes f t)
  | _, _ =>
      r <- Math_random random_stream ;;
      ret (JsInt.add (JsInt.floor (Binary64.mul r (Binary64.of_Z 15))) (JInt 10))
  end.

(** [Math.floor(x)] for [x = Math.random() * k]: [Math.random()] returns
    a double of [[0, 1)], on which the product is finite and its floor
    an integer. *)
Definition floor_int (x : Binary64.num) : Z :=
  match JsInt.floor x with JInt z => z | _ => 0%Z end.

(** The affinity adjustment (lines 77-87): a very popular venue loses
    up to 9 points, but not below 70; a less popular one gains up to 7,
    but not above 95. *)
Definition adjustAffinity (venue : Venue) : M World Z :=
  match qloo_data venue with
  | Some q =>
      match popularity q with
      | Some p =>
          if Binary64.truthy p then
            if Binary64.gtb p (Binary64.lit 9999 10000) then
              r <- Math_random random_stream ;;
              ret (Z.max 70 (affinity venue - floor_int (Binary64.mul r (Binary64.of_Z 10))))
            else if Binary64.ltb p (Binary64.lit 995 1000) then
              r <- Math_random random_stream ;;
              ret (Z.min 95 (affinity venue + floor_int (Binary64.mul r (Binary64.of_Z 8))))
            else ret (affinity venue)
          else ret (affinity venue)
      | None => ret (affinity venue)
      end
  | None => ret (affinity venue)
  end.

(** The callback of [optimizedVenues.map] (lines 61-98) over the venues
    from position [index] on; [prev] is [optimizedVenues[index - 1]] and
    [currentTime] the running clock, which the callback reassigns.  The
    result is the stops and the clock after the last venue. *)
Fixpoint routeDetails (prefs : RoutePreferences) (prev : option Venue) (index : nat)
    (currentTime : string) (vs : list Venue) : M World (list RouteStop * string) :=
  match vs with
  | [] => ret ([], currentTime)
  | venue :: rest =>
      arrivalTime <-
        (match index with
         | O => ret currentTime
         | S _ => travel <- getEstimatedTravelTime prev (Some venue) ;;
                  ret (Clock.addMinutes currentTime travel)
         end) ;;
      let venueTime := getEstimatedTime (type venue) (pace prefs) venue (duration prefs) in
      let departure := Clock.addMinutes arrivalTime venueTime in
      adjustedAffinity <- adjustAffinity venue ;;
      travelTime <-
        (match index with
         | O => ret (JInt 0)
         | S _ => getEstimatedTravelTime prev (Some venue)
         end) ;;
      notes <- m_lift (generateVenueNotes venue (focus prefs)) ;;
      later <- routeDetails prefs (Some venue) (S index) departure rest ;;
      ret ({| stop_venue := with_affinity venue adjustedAffinity;
              order := S index;
              arrivalTime := arrivalTime;
              estimatedTime := venueTime;
              travelTime := travelTime;
              notes := notes |} :: fst later, snd later)
  end.

End WithRandom.

(** [routeWithDetails.reduce((total, venue) => total + venue.estimatedTime
    + venue.travelTime, 0)] (lines 101-103). *)
Definition totalTime (stops : list RouteStop) : JsInt :=
  fold_left (fun total s => JsInt.add (JsInt.add total (estimatedTime s)) (travelTime s)) stops (JInt 0).

(** A museum with no enrichment data and no coordinates, and a random
    source that always returns [0]. *)
Definition sample_museum : Venue :=
  {| id := IdNum 1; name := "City Museum"; type := Some "Museum"; coordinates := None;
     affinity := 90; qloo_data := None; rating := None |}%string.

Definition sample_park : Venue :=
  {| id := IdNum 2; name := "Riverside Park"; type := Some "Park"; coordinates := None;
     affinity := 70; qloo_data := None; rating := None |}%string.

Definition zero_random (_ : nat) : Binary64.num := Binary64.of_Z 0.

(** Venues with enrichment data: a very popular gallery of affinity
    [50] and a little-known bar of affinity [99]. *)
Definition popular_gallery : Venue :=
  {| id := IdNum 3; name := "Modern Canvas"; type := Some "Gallery"; coordinates := None;
     affinity := 50;
     qloo_data := Some {| popularity := Some (Binary64.of_Z 1); keywords := None |}; rating := None |}%string.

Definition quiet_bar : Venue :=
  {| id := IdNum 4; name := "The Local Tap"; type := Some "Bar"; coordinates := None;
     affinity := 99;
     qloo_data := Some {| popularity := Some (Binary64.lit 5 10); keywords := None |}; rating := None |}%string.

(** ** Properties *)

Lemma baseTimes_values (k : string) (b : Z) :
  baseTimes k = Some b -> In b [90; 45; 60; 120; 75; 30]%Z.
Proof.
  unfold baseTimes. destruct (find _ baseTimes_table) as [[k' b']|] eqn:E; [|discriminate].
  intros H; injection H as <-. apply find_some in E as [Hin _].
  cbn in Hin. cbn. intuition congruence.
Qed.

(** Outside the inherited members of [Object.prototype], the base time
    is one of the table's values or the default [60]. *)
Lemma baseTimeOf_cases (t : option string) :
  (forall k, t = Some k -> existsb (String.eqb k) JsString.object_prototype_keys = false) ->
  exists b, In b [90; 45; 60; 120; 75; 30]%Z /\ baseTimeOf t = Binary64.of_Z b.
Proof.
  intros Hk. destruct t as [k|]; unfold baseTimeOf.
  - destruct (baseTimes k) as [b|] eqn:E.
    + exists b. split; [now apply baseTimes_values with k|reflexivity].
    + rewrite (Hk k eq_refl). exists 60%Z. cbn. tauto.
  - exists 60%Z. cbn. tauto.
Qed.

(** Every combination of base time, popularity flags, pace and duration,
    evaluated in binary64. *)
Lemma dwellTime_table :
  forallb (fun b => forallb (fun pop => forallb (fun many =>
    forallb (fun p => forallb (fun d => int_within 17 247 (dwellTime (Binary64.of_Z b) pop many p d))
      [DurQuick; HalfDay; FullDay]) [PaceQuick; Relaxed; Thorough]) [true; false]) [true; false])
    [90; 45; 60; 120; 75; 30]%Z = true.
Proof. vm_compute. reflexivity. Qed.

(** The time spent at a venue is a whole number of minutes between
    17 (a shop, quick pace, quick tour) and 247 (an art museum or event
    venue, very popular, with many keywords, thorough pace, full day),
    for every venue whose type is not a member of [Object.prototype]. *)
Theorem getEstimatedTime_bounds (venueType : option string) (pace : Pace) (venue : Venue)
    (duration : Duration) :
  (forall k, venueType = Some k -> existsb (String.eqb k) JsString.object_prototype_keys = false) ->
  exists z, getEstimatedTime venueType pace venue duration = JInt z /\ (17 <= z <= 247)%Z.
Proof.
  intros Hk. destruct (baseTimeOf_cases venueType Hk) as (b & Hb & Hbase).
  unfold getEstimatedTime. rewrite Hbase.
  set (pm := match qloo_data venue with
             | Some q => (veryPopular q, manyKeywords q) | None => (false, false) end).
  destruct pm as [pop many].
  pose proof dwellTime_table as T.
  rewrite forallb_forall in T. specialize (T b Hb).
  rewrite forallb_forall in T. specialize (T pop ltac:(destruct pop; cbn; tauto)).
  rewrite forallb_forall in T. specialize (T many ltac:(destruct many; cbn; tauto)).
  rewrite forallb_forall in T. specialize (T pace ltac:(destruct pace; cbn; tauto)).
  rewrite forallb_forall in T. specialize (T duration ltac:(destruct duration; cbn; tauto)).
  destruct (dwellTime _ _ _ _ _) as [z| |]; cbn in T; try discriminate.
  apply andb_prop in T as [T1 T2]. apply Z.leb_le in T1, T2. eauto.
Qed.

Lemma getEstimatedTime_bounds_witness :
  (forall k, Some "Museum"%string = Some k -> existsb (String.eqb k) JsString.object_prototype_keys = false) /\
  exists z, getEstimatedTime (Some "Museum"%string) Thorough sample_museum FullDay = JInt z /\
            (17 <= z <= 247)%Z.
Proof.
  assert (H : forall k, Some "Museum"%string = Some k ->
                        existsb (String.eqb k) JsString.object_prototype_keys = false)
    by (intros k Hk; injection Hk as <-; reflexivity).
  split; [exact H|]. exact (getEstimatedTime_bounds _ Thorough sample_museum FullDay H).
Defined.

(** [45 * 0.7] is [31.499999999999996] in binary64, so a cafe at a
    quick pace takes [31] minutes, where the exact product [31.5] would
    round to [32]. *)
Example getEstimatedTime_cafe_quick :
  getEstimatedTime (Some "Cafe"%string) PaceQuick sample_museum HalfDay = JInt 31.
Proof. vm_compute. reflexivity. Qed.

(** A venue whose type names a member of [Object.prototype] gets a
    [NaN] dwell time: [baseTimes[venueType]] is an inherited function,
    truthy, and a function times a number is [NaN]. *)
Theorem getEstimatedTime_inherited (k : string) (pace : Pace) (venue : Venue) (duration : Duration) :
  In k JsString.object_prototype_keys -> getEstimatedTime (Some k) pace venue duration = JNaN.
Proof.
  intros Hk. unfold getEstimatedTime.
  assert (Hb : baseTimeOf (Some k) = S754_nan).
  { unfold baseTimeOf. cbn in Hk.
    repeat destruct Hk as [<-|Hk]; [reflexivity ..|contradiction]. }
  rewrite Hb. destruct (match qloo_data venue with Some q => _ | None => _ end) as [pop many].
  destruct pop, many, pace, duration; reflexivity.
Qed.

Lemma getEstimatedTime_inherited_witness :
  In "constructor"%string JsString.object_prototype_keys /\
  getEstimatedTime (Some "constructor"%string) Relaxed sample_museum HalfDay = JNaN.
Proof.
  assert (H : In "constructor"%string JsString.object_prototype_keys) by (cbn; auto).
  split; [exact H|]. exact (getEstimatedTime_inherited _ Relaxed sample_museum HalfDay H).
Defined.

(** Whether a note is produced depends on the type only. *)
Lemma generateVenueNotes_ok (venue : Venue) (focus : Focus) :
  (exists n, generateVenueNotes venue focus = Ok n) <-> type venue <> None.
Proof.
  unfold generateVenueNotes, typeOf.
  destruct (type venue) as [t|]; split; try congruence.
  - intros _. destruct (match qloo_data venue with Some q => _ | None => None end)
      as [[k0 all]|]; cbn; eauto.
  - intros [n Hn]. destruct (match qloo_data venue with Some q => _ | None => None end)
      as [[k0 all]|]; discriminate.
Qed.

(** [generateVenueNotes] returns a note exactly when the venue has
    a type, whatever the focus: both object literals evaluate an entry
    that reads [venue.type] before one is picked, so a typeless venue
    throws a [TypeError] even under the diverse focus. *)
Theorem generateVenueNotes_ok_iff (venue : Venue) (focus : Focus) :
  (exists n, generateVenueNotes venue focus = Ok n) <-> type venue <> None.
Proof. exact (generateVenueNotes_ok venue focus). Qed.

Section WithRandomFacts.

Context (random_stream : nat -> Binary64.num).

(** The travel time between two venues is computed without a
    random draw and is [NaN] or a whole number of minutes in [[5, 30]]. *)
Theorem getEstimatedTravelTime_bounds (f t : Venue) (w : World) :
  exists x, getEstimatedTravelTime random_stream (Some f) (Some t) w = (Ok x, w) /\
            (x = JNaN \/ exists z, x = JInt z /\ (5 <= z <= 30)%Z).
Proof.
  exists (travelMinutes f t). split; [reflexivity|]. unfold travelMinutes.
  destruct (match coordinates f with Some c => c | None => default_coordinates end) as [lat1 lng1].
  destruct (match coordinates t with Some c => c | None => default_coordinates end) as [lat2 lng2].
  apply clamp_range. lia.
Qed.

(** Between two venues the travel time is [travelMinutes], and no
    random number is drawn. *)
Lemma getEstimatedTravelTime_some (f t : Venue) (w : World) :
  getEstimatedTravelTime random_stream (Some f) (Some t) w = (Ok (travelMinutes f t), w).
Proof. reflexivity. Qed.

Lemma getEstimatedTravelTime_ok (f t : option Venue) (w : World) :
  exists x w', getEstimatedTravelTime random_stream f t w = (Ok x, w').
Proof.
  destruct f as [f|], t as [t|]; [rewrite getEstimatedTravelTime_some; eauto|..];
    unfold getEstimatedTravelTime, m_bind, m_ret, Math_random; eauto.
Qed.

Lemma adjustAffinity_ok (v : Venue) (w : World) :
  exists a w', adjustAffinity random_stream v w = (Ok a, w').
Proof.
  unfold adjustAffinity, m_bind, m_ret, Math_random.
  destruct (qloo_data v) as [q|]; [|eauto].
  destruct (popularity q) as [p|]; [|eauto].
  repeat match goal with |- context [if ?b then _ else _] => destruct b end; eauto.
Qed.

(** The travel step before a venue at position [index] never throws;
    after a predecessor it advances the clock by [travelMinutes]. *)
Lemma arrival_ok (prev : option Venue) (venue : Venue) (index : nat) (cur : string) (w : World) :
  exists a w',
    (match index with
     | O => ret cur
     | S _ => travel <- getEstimatedTravelTime random_stream prev (Some venue) ;;
              ret (Clock.addMinutes cur travel)
     end) w = (Ok a, w') /\ (index = O -> a = cur /\ w' = w) /\
    (forall p, prev = Some p -> index <> O -> a = Clock.addMinutes cur (travelMinutes p venue)).
Proof.
  destruct index as [|i].
  - exists cur, w. split; [reflexivity|split; [auto|congruence]].
  - destruct (getEstimatedTravelTime_ok prev (Some venue) w) as (x & w1 & Hx).
    unfold m_bind. rewrite Hx. cbn. exists (Clock.addMinutes cur x), w1.
    split; [reflexivity|split; [discriminate|]].
    intros p -> _. rewrite getEstimatedTravelTime_some in Hx. now injection Hx as -> _.
Qed.

Lemma travelTime_ok (prev : option Venue) (venue : Venue) (index : nat) (w : World) :
  exists x w',
    (match index with
     | O => ret (JInt 0)
     | S _ => getEstimatedTravelTime random_stream prev (Some venue)
     end) w = (Ok x, w') /\ (index = O -> x = JInt 0) /\
    (forall p, prev = Some p -> index <> O -> x = travelMinutes p venue).
Proof.
  destruct index as [|i].
  - exists (JInt 0), w. split; [reflexivity|split; [auto|congruence]].
  - destruct (getEstimatedTravelTime_ok prev (Some venue) w) as (x & w1 & Hx).
    exists x, w1. split; [exact Hx|split; [discriminate|]].
    intros p -> _. rewrite getEstimatedTravelTime_some in Hx. now injection Hx as -> _.
Qed.

(** One step of the itinerary: the arrival clock [a] and the draws
    before the note, then the note (which may throw) and the rest.  The
    first stop arrives at the starting clock with no travel; a later one
    after [travelMinutes] from its predecessor, the same value both calls
    of [getEstimatedTravelTime] return. *)
Lemma routeDetails_cons (prefs : RoutePreferences) (prev : option Venue) (index : nat)
    (cur : string) (v : Venue) (rest : list Venue) (w : World) :
  exists a aff tt w3,
    (index = O -> a = cur /\ tt = JInt 0) /\
    (forall p, prev = Some p -> index <> O ->
       a = Clock.addMinutes cur (travelMinutes p v) /\ tt = travelMinutes p v) /\
    routeDetails random_stream prefs prev index cur (v :: rest) w =
    match generateVenueNotes v (focus prefs) with
    | Ok n =>
        match routeDetails random_stream prefs (Some v) (S index)
                (Clock.addMinutes a (getEstimatedTime (type v) (pace prefs) v (duration prefs)))
                rest w3 with
        | (Ok later, w4) =>
            (Ok ({| stop_venue := with_affinity v aff; order := S index; arrivalTime := a;
                    estimatedTime := getEstimatedTime (type v) (pace prefs) v (duration prefs);
                    travelTime := tt; notes := n |} :: fst later, snd later), w4)
        | (Throw e, w4) => (Throw e, w4)
        end
    | Throw e => (Throw e, w3)
    end.
Proof.
  destruct (arrival_ok prev v index cur w) as (a & w1 & Ha & Ha0 & HaS).
  destruct (adjustAffinity_ok v w1) as (aff & w2 & Haff).
  destruct (travelTime_ok prev v index w2) as (tt & w3 & Htt & Ht0 & HtS).
  exists a, aff, tt, w3. split; [intros H; exact (conj (proj1 (Ha0 H)) (Ht0 H))|].
  split; [intros p Hp Hi; exact (conj (HaS p Hp Hi) (HtS p Hp Hi))|].
  cbn [routeDetails]. unfold m_bind at 1. rewrite Ha.
  unfold m_bind at 1. rewrite Haff. unfold m_bind at 1. rewrite Htt.
  unfold m_bind at 1, m_lift.
  destruct (generateVenueNotes v (focus prefs)) as [n|e]; [|reflexivity].
  unfold m_bind at 1.
  destruct (routeDetails random_stream prefs (Some v) (S index) _ rest w3) as [[later|e] w4];
    reflexivity.
Qed.

(** The itinerary is computed without error exactly when every
    venue has a type; a typeless venue makes [generateVenueNotes]
    throw. *)
Theorem routeDetails_ok_iff (prefs : RoutePreferences) (vs : list Venue) :
  forall prev index cur w,
    (exists r w', routeDetails random_stream prefs prev index cur vs w = (Ok r, w')) <->
    Forall (fun v => type v <> None) vs.
Proof.
  induction vs as [|v rest IH]; intros prev index cur w.
  - split; [intros _; constructor|intros _; do 2 eexists; reflexivity].
  - destruct (routeDetails_cons prefs prev index cur v rest w) as (a & aff & tt & w3 & _ & _ & ->).
    rewrite Forall_cons_iff, <- (generateVenueNotes_ok v (focus prefs)).
    destruct (generateVenueNotes v (focus prefs)) as [n|e].
    + rewrite <- (IH (Some v) (S index) (Clock.addMinutes a (getEstimatedTime (type v) (pace prefs) v (duration prefs))) w3).
      destruct (routeDetails _ _ _ _ _ rest w3) as [[later|e] w4].
      * split; eauto.
      * split; [intros (r & w' & H); discriminate|intros (_ & r & w' & H); discriminate].
    + split; [intros (r & w' & H); discriminate|intros ([n H] & _); discriminate].
Qed.

(** The shape of the itinerary, by induction on the venues. *)
Lemma routeDetails_spec (prefs : RoutePreferences) (vs : list Venue) :
  forall prev index cur w stops cur' w',
    routeDetails random_stream prefs prev index cur vs w = (Ok (stops, cur'), w') ->
    map (fun s => id (stop_venue s)) stops = map id vs /\
    map order stops = seq (S index) (List.length vs) /\
    (index = O -> hd_error (map arrivalTime stops) = option_map (fun _ => cur) (hd_error vs)).
Proof.
  induction vs as [|v rest IH]; intros prev index cur w stops cur' w' H.
  - cbn in H. injection H as <- _ _. repeat split.
  - destruct (routeDetails_cons prefs prev index cur v rest w) as (a & aff & tt & w3 & Ha & _ & Hc).
    rewrite Hc in H. destruct (generateVenueNotes v (focus prefs)) as [n|e]; [|discriminate].
    destruct (routeDetails _ _ _ _ _ rest w3) as [[later|e] w4] eqn:Hr; [|discriminate].
    injection H as <- _ _.
    destruct later as [st c].
    destruct (IH _ _ _ _ _ _ _ Hr) as (Hids & Hord & _).
    cbn. rewrite Hids, Hord. repeat split. intros ->. now rewrite (proj1 (Ha eq_refl)).
Qed.

(** The itinerary has one stop per venue, in the order given,
    numbered from [index + 1]; the first stop's arrival time is the clock
    the loop starts from. *)
Theorem routeDetails_shape (prefs : RoutePreferences) (vs : list Venue) :
  forall prev index cur w stops cur' w',
    routeDetails random_stream prefs prev index cur vs w = (Ok (stops, cur'), w') ->
    map (fun s => id (stop_venue s)) stops = map id vs /\
    map order stops = seq (S index) (List.length vs) /\
    (index = O -> hd_error (map arrivalTime stops) = option_map (fun _ => cur) (hd_error vs)).
Proof. exact (routeDetails_spec prefs vs). Qed.

(** The adjustment of a very popular venue draws one random number and
    clamps from below at [70]. *)
Lemma adjustAffinity_popular (v : Venue) (q : QlooData) (p : Binary64.num) (w : World) :
  qloo_data v = Some q -> popularity q = Some p -> Binary64.truthy p = true ->
  Binary64.gtb p (Binary64.lit 9999 10000) = true ->
  adjustAffinity random_stream v w =
    (Ok (Z.max 70 (affinity v - floor_int (Binary64.mul (random_stream (draws w)) (Binary64.of_Z 10)))),
     mkWorld (S (draws w)) (ticks w)).
Proof.
  intros Hq Hp Ht Hg. unfold adjustAffinity. rewrite Hq, Hp, Ht, Hg. reflexivity.
Qed.

(** The adjustment of a little-known venue draws one random number and
    clamps from above at [95]. *)
Lemma adjustAffinity_unpopular (v : Venue) (q : QlooData) (p : Binary64.num) (w : World) :
  qloo_data v = Some q -> popularity q = Some p -> Binary64.truthy p = true ->
  Binary64.gtb p (Binary64.lit 9999 10000) = false ->
  Binary64.ltb p (Binary64.lit 995 1000) = true ->
  adjustAffinity random_stream v w =
    (Ok (Z.min 95 (affinity v + floor_int (Binary64.mul (random_stream (draws w)) (Binary64.of_Z 8)))),
     mkWorld (S (draws w)) (ticks w)).
Proof.
  intros Hq Hp Ht Hg Hl. unfold adjustAffinity. rewrite Hq, Hp, Ht, Hg, Hl. reflexivity.
Qed.

(** The "reduction" of a very popular venue's affinity raises every
    affinity below [70] to at least [70], whatever the random draw:
    [Math.max(70, affinity - r)] is a floor, not a bound on the
    decrease. *)
Theorem adjustAffinity_raises_low (v : Venue) (q : QlooData) (p : Binary64.num) (w : World) :
  qloo_data v = Some q -> popularity q = Some p -> Binary64.truthy p = true ->
  Binary64.gtb p (Binary64.lit 9999 10000) = true ->
  (affinity v < 70)%Z ->
  exists a w', adjustAffinity random_stream v w = (Ok a, w') /\ (70 <= a)%Z /\ (affinity v < a)%Z.
Proof.
  intros Hq Hp Ht Hg Hlow. rewrite (adjustAffinity_popular v q p w Hq Hp Ht Hg).
  do 2 eexists. split; [reflexivity|]. lia.
Qed.

(** Symmetrically, the "increase" of a little-known venue's
    affinity lowers every affinity above [95] to at most [95]. *)
Theorem adjustAffinity_lowers_high (v : Venue) (q : QlooData) (p : Binary64.num) (w : World) :
  qloo_data v = Some q -> popularity q = Some p -> Binary64.truthy p = true ->
  Binary64.gtb p (Binary64.lit 9999 10000) = false ->
  Binary64.ltb p (Binary64.lit 995 1000) = true ->
  (95 < affinity v)%Z ->
  exists a w', adjustAffinity random_stream v w = (Ok a, w') /\ (a <= 95)%Z /\ (a < affinity v)%Z.
Proof.
  intros Hq Hp Ht Hg Hl Hhigh. rewrite (adjustAffinity_unpopular v q p w Hq Hp Ht Hg Hl).
  do 2 eexists. split; [reflexivity|]. lia.
Qed.

End WithRandomFacts.

(** The spec's scenario: a single museum, relaxed pace, half day, from
    10:00 AM: one stop of 90 minutes, arriving at 10:00 AM, no travel. *)
Example routeDetails_museum :
  routeDetails zero_random default_preferences None 0 "10:00 AM" [sample_museum] (mkWorld 0 0) =
  (Ok ([{| stop_venue := sample_museum; order := 1; arrivalTime := "10:00 AM";
           estimatedTime := JInt 90; travelTime := JInt 0;
           notes := "Experience the unique atmosphere of this museum" |}], "11:30 AM"),
   mkWorld 0 0)%string.
Proof. vm_compute. reflexivity. Qed.

Lemma routeDetails_shape_witness :
  match routeDetails zero_random default_preferences None 0 "10:00 AM"%string
          [sample_museum; sample_park] (mkWorld 0 0) with
  | (Ok (stops, cur'), w') =>
      map (fun s => id (stop_venue s)) stops = map id [sample_museum; sample_park] /\
      map order stops = seq 1 (List.length [sample_museum; sample_park]) /\
      (0%nat = O -> hd_error (map arrivalTime stops) =
                    option_map (fun _ => "10:00 AM"%string) (hd_error [sample_museum; sample_park]))
  | (Throw _, _) => False
  end.
Proof.
  destruct (routeDetails _ _ _ _ _ _ _) as [[[stops cur']|e] w'] eqn:E; [|vm_compute in E; discriminate].
  exact (routeDetails_shape zero_random default_preferences _ None 0 _ _ stops cur' w' E).
Defined.


Lemma adjustAffinity_raises_low_witness :
  (qloo_data popular_gallery = Some {| popularity := Some (Binary64.of_Z 1); keywords := None |} /\
   popularity {| popularity := Some (Binary64.of_Z 1); keywords := None |} = Some (Binary64.of_Z 1) /\
   Binary64.truthy (Binary64.of_Z 1) = true /\
   Binary64.gtb (Binary64.of_Z 1) (Binary64.lit 9999 10000) = true /\
   (affinity popular_gallery < 70)%Z) /\
  exists a w', adjustAffinity zero_random popular_gallery (mkWorld 0 0) = (Ok a, w') /\
               (70 <= a)%Z /\ (affinity popular_gallery < a)%Z.
Proof.
  split; [repeat split; vm_compute; reflexivity|].
  apply (adjustAffinity_raises_low zero_random popular_gallery
           {| popularity := Some (Binary64.of_Z 1); keywords := None |} (Binary64.of_Z 1));
    vm_compute; reflexivity.
Defined.

Lemma adjustAffinity_lowers_high_witness :
  (qloo_data quiet_bar = Some {| popularity := Some (Binary64.lit 5 10); keywords := None |} /\
   popularity {| popularity := Some (Binary64.lit 5 10); keywords := None |} = Some (Binary64.lit 5 10) /\
   Binary64.truthy (Binary64.lit 5 10) = true /\
   Binary64.gtb (Binary64.lit 5 10) (Binary64.lit 9999 10000) = false /\
   Binary64.ltb (Binary64.lit 5 10) (Binary64.lit 995 1000) = true /\
   (95 < affinity quiet_bar)%Z) /\
  exists a w', adjustAffinity zero_random quiet_bar (mkWorld 0 0) = (Ok a, w') /\
               (a <= 95)%Z /\ (a < affinity quiet_bar)%Z.
Proof.
  split; [repeat split; vm_compute; reflexivity|].
  apply (adjustAffinity_lowers_high zero_random quiet_bar
           {| popularity := Some (Binary64.lit 5 10); keywords := None |} (Binary64.lit 5 10));
    vm_compute; reflexivity.
Defined.

End Timing.
