(* ===== verification/RouteOverlay.v ===== *)
(** * The route overlay

    [src/culturis-studio/src/components/RouteOverlay.js]: the layer that
    [Simple2DMapView] draws over the map for the current route.  Its
    effect reorders the route's venues ([calculateOptimalRoute]: a sort
    on affinity, then on the distance to the centroid, cut to six
    venues), measures the reordered route ([calculateDistance], the
    Haversine formula, and [calculateRouteMetrics]), replaces the
    polyline and the numbered markers, and reports the result.

    The trigonometric functions are the engine's ([JsMath]) and the sort
    is any engine's [Array.prototype.sort] ([ArraySort]): the theorems
    hold for every instance, and the examples run V8's. *)
From S2P Require Import Prelude JsNumber JsString ArraySort Venue.
From Corelib Require Import SpecFloat.
From Stdlib Require Import String List ZArith Lia Bool Permutation.
Import ListNotations.
Import Venue.

Module RouteOverlay.

Section WithEngine.
Context `{JsMath} `{ArraySort}.

(** [venue.coords] is [v.coordinates] ([Simple2DMapView.js], lines
    550-553); reading [coords[0]] of a venue without coordinates throws. *)
Definition coords (v : Venue) : Result (Binary64.num * Binary64.num) :=
  match coordinates v with
  | Some c => Ok c
  | None => Throw TypeError
  end.

(** [venueList.reduce((sum, v) => sum + v.coords[k], 0) / venueList.length]
    for [k = 0, 1] (lines 32-33). *)
Definition centerOf (venueList : list Venue) : Result (Binary64.num * Binary64.num) :=
  let n := Binary64.of_Z (Z.of_nat (length venueList)) in
  res_bind (res_foldl (fun sum v => res_fmap (fun c => Binary64.add sum (fst c)) (coords v))
                      venueList (Binary64.of_Z 0)) (fun sumLat =>
  res_bind (res_foldl (fun sum v => res_fmap (fun c => Binary64.add sum (snd c)) (coords v))
                      venueList (Binary64.of_Z 0)) (fun sumLng =>
  Ok (Binary64.div sumLat n, Binary64.div sumLng n))).

(** [Math.sqrt(Math.pow(c[0] - centerLat, 2) + Math.pow(c[1] - centerLng, 2))]
    (lines 35-40). *)
Definition distFromCenter (c center : Binary64.num * Binary64.num) : Binary64.num :=
  Binary64.sqrt (Binary64.add
    (Math_pow (Binary64.sub (fst c) (fst center)) (Binary64.of_Z 2))
    (Math_pow (Binary64.sub (snd c) (snd center)) (Binary64.of_Z 2))).

(** The comparator of [calculateOptimalRoute] (lines 25-43): by
    decreasing affinity when the affinities differ by more than [5],
    otherwise by increasing distance to the centroid of the whole list. *)
Definition compareVenues (venueList : list Venue) (a b : Venue) : Result Binary64.num :=
  if (5 <? Z.abs (affinity a - affinity b))%Z then Ok (Binary64.of_Z (affinity b - affinity a))
  else res_bind (centerOf venueList) (fun center =>
       res_bind (coords a) (fun ca =>
       res_bind (coords b) (fun cb =>
       Ok (Binary64.sub (distFromCenter ca center) (distFromCenter cb center))))).

(** [calculateOptimalRoute(venueList)] (lines 21-47). *)
Definition calculateOptimalRoute (venueList : list Venue) : Result (list Venue) :=
  if length venueList <? 2 then Ok venueList
  else res_fmap (fun sorted => firstn (Nat.min 6 (length sorted)) sorted)
                (array_sort (compareVenues venueList) venueList).

(** Degrees to radians, [x * Math.PI / 180]. *)
Definition toRadians (x : Binary64.num) : Binary64.num :=
  Binary64.div (Binary64.mul x Binary64.PI) (Binary64.of_Z 180).

(** [calculateDistance(coord1, coord2)] (lines 50-63): the Haversine
    distance in metres on a sphere of radius [6371e3]. *)
Definition calculateDistance (coord1 coord2 : Binary64.num * Binary64.num) : Binary64.num :=
  let R := Binary64.of_Z 6371000 in
  let phi1 := toRadians (fst coord1) in
  let phi2 := toRadians (fst coord2) in
  let dphi := toRadians (Binary64.sub (fst coord2) (fst coord1)) in
  let dlambda := toRadians (Binary64.sub (snd coord2) (snd coord1)) in
  let half := fun x => Binary64.div x (Binary64.of_Z 2) in
  let a := Binary64.add
             (Binary64.mul (Math_sin (half dphi)) (Math_sin (half dphi)))
             (Binary64.mul (Binary64.mul (Binary64.mul (Math_cos phi1) (Math_cos phi2))
                                         (Math_sin (half dlambda)))
                           (Math_sin (half dlambda))) in
  let c := Binary64.mul (Binary64.of_Z 2)
             (Math_atan2 (Binary64.sqrt a) (Binary64.sqrt (Binary64.sub (Binary64.of_Z 1) a))) in
  Binary64.mul R c.

(** [routeVenues[i].coords]: an index past the end reads [undefined]. *)
Definition coords_at (vs : list Venue) (i : nat) : Result (Binary64.num * Binary64.num) :=
  match nth_error vs i with
  | Some v => coords v
  | None => Throw TypeError
  end.

(** The [for] loop of [calculateRouteMetrics] (lines 69-75), over
    [i = 0 .. length - 2]. *)
Definition distance_loop (vs : list Venue) : Result Binary64.num :=
  res_foldl (fun total i =>
               res_bind (coords_at vs i) (fun c1 =>
               res_bind (coords_at vs (S i)) (fun c2 =>
               Ok (Binary64.add total (calculateDistance c1 c2)))))
            (seq 0 (length vs - 1)) (Binary64.of_Z 0).

Record Metrics : Type := mkMetrics {
  distance : Binary64.num;
  time : Binary64.num
}.

(** [calculateRouteMetrics(routeVenues)] (lines 66-86): the walking time
    at 5 km/h plus 15 minutes per venue. *)
Definition calculateRouteMetrics (vs : list Venue) : Result Metrics :=
  if length vs <? 2 then Ok (mkMetrics (Binary64.of_Z 0) (Binary64.of_Z 0))
  else res_fmap (fun totalDistance =>
         let walkingTime := Binary64.mul (Binary64.div (Binary64.div totalDistance (Binary64.of_Z 1000))
                                                       (Binary64.of_Z 5)) (Binary64.of_Z 60) in
         let venueTime := Binary64.of_Z (Z.of_nat (length vs) * 15) in
         mkMetrics totalDistance (Binary64.add walkingTime venueTime))
       (distance_loop vs).

(** The reference definition of the route length: the sum, from the
    first leg on, of the Haversine distance of consecutive venues. *)
Definition legs (vs : list Venue) : list (Venue * Venue) := combine vs (tl vs).

Definition route_distance (vs : list Venue) : Result Binary64.num :=
  res_foldl (fun total '(a, b) =>
               res_bind (coords a) (fun c1 =>
               res_bind (coords b) (fun c2 =>
               Ok (Binary64.add total (calculateDistance c1 c2)))))
            (legs vs) (Binary64.of_Z 0).

(** ** Layers *)

(** [createRoutePolyline(routeVenues)] (lines 89-117): the polyline
    through [venue.coords], none for fewer than two venues.  The dash
    animation only restyles it. *)
Definition createRoutePolyline (vs : list Venue) : option (list (option (Binary64.num * Binary64.num))) :=
  if length vs <? 2 then None else Some (map coordinates vs).

Inductive MarkerKind : Type := MStart | MEnd | MWaypoint.

(** A marker of [createVenueMarkers]: its CSS class, the number in the
    badge, the position line of its popup and its venue. *)
Record Marker : Type := mkMarker {
  marker_kind : MarkerKind;
  marker_number : Z;
  marker_position : string;
  marker_venue : Venue
}.

(** The marker of the venue at [index] in a route of [n] venues (lines
    122-146). *)
Definition marker_for (n index : nat) (v : Venue) : Marker :=
  let isStart := Nat.eqb index 0 in
  let isEnd := Nat.eqb index (n - 1) in
  mkMarker (if isStart then MStart else if isEnd then MEnd else MWaypoint)
           (Z.of_nat index + 1)
           (if isStart then "Start" else if isEnd then "End"
            else ("Stop " ++ JsString.digits (Z.of_nat index))%string)
           v.

(** [createVenueMarkers(routeVenues)] (lines 120-156). *)
Definition createVenueMarkers (vs : list Venue) : list Marker :=
  map (fun p => marker_for (length vs) (fst p) (snd p)) (combine (seq 0 (length vs)) vs).

(** ** The component's state and its effect *)

(** The state hooks [route], [routeDistance], [routeTime] (lines 14-16)
    and the refs [routeLayerRef], [markersLayerRef] (lines 17-18).  A
    route array carries its identity, the number of arrays allocated
    before it, since React compares state values with [Object.is];
    [rerender] records that a setter changed the state, which schedules
    a render. *)
Record OverlayState : Type := mkOverlay {
  route : option (nat * list Venue);
  routeDistance : Binary64.num;
  routeTime : Binary64.num;
  routeLayer : option (list (option (Binary64.num * Binary64.num)));
  markersLayer : option (list Marker);
  allocated : nat;
  rerender : bool
}.

Definition initialOverlay : OverlayState :=
  mkOverlay None (Binary64.of_Z 0) (Binary64.of_Z 0) None None 0 false.

(** [setRoute(r)]: a fresh array is a new value; [null] over [null] is
    dropped. *)
Definition setRoute (r : option (list Venue)) (s : OverlayState) : OverlayState :=
  match r, route s with
  | None, None => s
  | None, Some _ =>
      mkOverlay None (routeDistance s) (routeTime s) (routeLayer s) (markersLayer s) (allocated s) true
  | Some l, _ =>
      mkOverlay (Some (allocated s, l)) (routeDistance s) (routeTime s) (routeLayer s)
                (markersLayer s) (S (allocated s)) true
  end.

(** [setRouteDistance(d)] and [setRouteTime(t)]. *)
Definition setRouteDistance (d : Binary64.num) (s : OverlayState) : OverlayState :=
  if Binary64.same_value d (routeDistance s) then s
  else mkOverlay (route s) d (routeTime s) (routeLayer s) (markersLayer s) (allocated s) true.

Definition setRouteTime (t : Binary64.num) (s : OverlayState) : OverlayState :=
  if Binary64.same_value t (routeTime s) then s
  else mkOverlay (route s) (routeDistance s) t (routeLayer s) (markersLayer s) (allocated s) true.

Definition set_layers (poly : option (list (option (Binary64.num * Binary64.num))))
    (markers : option (list Marker)) (s : OverlayState) : OverlayState :=
  mkOverlay (route s) (routeDistance s) (routeTime s) poly markers (allocated s) (rerender s).

(** The argument of [onRouteCalculated] (lines 210-214). *)
Record RouteData : Type := mkRouteData {
  data_venues : list Venue;
  data_distance : Binary64.num;
  data_time : Binary64.num
}.

(** The body of the first effect (lines 159-214).  With fewer than two
    venues it removes both layers and clears the route; otherwise it
    computes the route and its metrics, stores them, replaces the
    polyline (the old reference stays when there is no new polyline)
    and the markers, and calls [onRouteCalculated].  An exception of
    the computation escapes the effect. *)
Definition route_effect (venues : list Venue) (s : OverlayState) :
    Result (OverlayState * option RouteData) :=
  if length venues <? 2 then
    Ok (setRoute None (set_layers None None s), None)
  else
    res_bind (calculateOptimalRoute venues) (fun optimized =>
    res_bind (calculateRouteMetrics optimized) (fun metrics =>
      let s1 := setRouteTime (time metrics)
                  (setRouteDistance (distance metrics) (setRoute (Some optimized) s)) in
      let poly := match createRoutePolyline optimized with
                  | Some p => Some p
                  | None => routeLayer s1
                  end in
      Ok (set_layers poly (Some (createVenueMarkers optimized)) s1,
          Some (mkRouteData optimized (distance metrics) (time metrics))))).

(** A commit of the component: the render takes the scheduled update,
    and the effect runs again, because its dependency list (line 314)
    holds [calculateOptimalRoute], [calculateRouteMetrics],
    [createRoutePolyline] and [createVenueMarkers], which every render
    creates anew. *)
Definition overlay_commit (venues : list Venue) (s : OverlayState) :
    Result (OverlayState * option RouteData) :=
  route_effect venues
    (mkOverlay (route s) (routeDistance s) (routeTime s) (routeLayer s) (markersLayer s)
               (allocated s) false).

(** Up to [n] commits, as long as each one schedules the next; the calls
    of [onRouteCalculated] in order. *)
Fixpoint overlay_run (n : nat) (venues : list Venue) (s : OverlayState) :
    Result (OverlayState * list RouteData) :=
  match n with
  | O => Ok (s, [])
  | S n' =>
      res_bind (overlay_commit venues s) (fun '(s', out) =>
        let here := match out with Some d => [d] | None => [] end in
        if rerender s' then
          res_fmap (fun '(s'', outs) => (s'', here ++ outs)) (overlay_run n' venues s')
        else Ok (s', here))
  end.

(** The summary the component renders for a non-empty route (lines
    344-363): the number of venues, the distance in kilometres (printed
    with [toFixed(1)]) and the rounded time. *)
Definition summary (s : OverlayState) : option (nat * Binary64.num * JsInt) :=
  match route s with
  | Some (_, (_ :: _) as r) =>
      Some (length r, Binary64.div (routeDistance s) (Binary64.of_Z 1000), JsInt.round (routeTime s))
  | _ => None
  end.

End WithEngine.

(** ** Sample venues *)

(** Three venues on a north-south line in Manhattan whose affinities are
    four points apart. *)
Definition sample_venue (n aff : Z) (nm : string) (lat : Z) : Venue :=
  {| id := IdNum n; name := nm; type := None;
     coordinates := Some (Binary64.lit lat 100, Binary64.lit (-7398) 100);
     affinity := aff; qloo_data := None; rating := None |}.

Definition north := sample_venue 1 80 "North" 4076.
Definition south := sample_venue 2 84 "South" 4075.
Definition far_north := sample_venue 3 88 "Far North" 4078.

(** ** Lemmas *)

Section Facts.
Context `{JsMath} `{ArraySort}.

Definition has_coords (v : Venue) : Prop := coordinates v <> None.

Lemma coords_ok (v : Venue) : (exists c, coords v = Ok c) <-> has_coords v.
Proof.
  unfold coords, has_coords. destruct (coordinates v); split; intros Hc; eauto; try congruence.
  destruct Hc as [c [=]].
Qed.

Lemma coords_throw (v : Venue) (e : Exn) : coords v = Throw e -> coordinates v = None.
Proof. unfold coords. now destruct (coordinates v). Qed.

(** The index loop and the fold over the legs take the same steps, for
    any step. *)
Lemma loop_legs (step : Binary64.num -> Binary64.num * Binary64.num -> Binary64.num * Binary64.num -> Binary64.num)
    (vs : list Venue) (t : Binary64.num) :
  res_foldl (fun total i =>
               res_bind (coords_at vs i) (fun c1 =>
               res_bind (coords_at vs (S i)) (fun c2 => Ok (step total c1 c2))))
            (seq 0 (length vs - 1)) t =
  res_foldl (fun total '(a, b) =>
               res_bind (coords a) (fun c1 =>
               res_bind (coords b) (fun c2 => Ok (step total c1 c2))))
            (legs vs) t.
Proof.
  revert t; induction vs as [|x vs IH]; intros t; [reflexivity|].
  destruct vs as [|y rest]; [reflexivity|].
  replace (length (x :: y :: rest) - 1) with (S (length (y :: rest) - 1)) by (cbn; lia).
  cbn [seq]. rewrite <- seq_shift. cbn [map res_foldl].
  change (legs (x :: y :: rest)) with ((x, y) :: legs (y :: rest)). cbn [res_foldl].
  unfold coords_at at 1 2. cbn [nth_error].
  destruct (coords x) as [c1|e]; cbn [res_bind]; [|reflexivity].
  destruct (coords y) as [c2|e]; cbn [res_bind]; [|reflexivity].
  rewrite res_foldl_map, <- IH. apply res_foldl_ext. reflexivity.
Qed.

Lemma distance_loop_legs (vs : list Venue) : distance_loop vs = route_distance vs.
Proof. exact (loop_legs (fun total c1 c2 => Binary64.add total (calculateDistance c1 c2)) vs _). Qed.

(** Each venue of a route of at least two venues is on a leg. *)
Lemma legs_Forall (Q : Venue -> Prop) (vs : list Venue) :
  2 <= length vs ->
  Forall (fun p => Q (fst p) /\ Q (snd p)) (legs vs) <-> Forall Q vs.
Proof.
  induction vs as [|x vs IH]; cbn; [lia|]. intros Hl.
  destruct vs as [|y rest]; cbn in *; [lia|].
  change (combine (y :: rest) rest) with (legs (y :: rest)).
  rewrite Forall_cons_iff. destruct rest as [|z rest'].
  - cbn. rewrite !Forall_cons_iff. split; [intros [[Hx Hy] _]|intros (Hx & Hy & _)]; auto.
  - rewrite IH by (cbn; lia). rewrite (Forall_cons_iff Q x). cbn.
    split; [intros [[Hx Hy] Hr]; auto|intros [Hx Hr]; split; [split; [exact Hx|]|exact Hr]].
    now apply Forall_cons_iff in Hr.
Qed.

Lemma route_distance_ok (vs : list Venue) :
  2 <= length vs -> (exists d, route_distance vs = Ok d) <-> Forall has_coords vs.
Proof.
  intros Hl. rewrite <- legs_Forall by exact Hl. unfold route_distance.
  apply res_foldl_ok_iff. intros t [a b]. cbn.
  rewrite <- (coords_ok a), <- (coords_ok b).
  destruct (coords a) as [c1|e]; cbn; [|split; [intros [? [=]]|intros [[? [=]] _]]].
  destruct (coords b) as [c2|e]; cbn; [split; eauto|split; [intros [? [=]]|intros [_ [? [=]]]]].
Qed.

Lemma calculateRouteMetrics_legs (vs : list Venue) :
  calculateRouteMetrics vs =
  if length vs <? 2 then Ok (mkMetrics (Binary64.of_Z 0) (Binary64.of_Z 0))
  else res_fmap (fun d =>
         mkMetrics d (Binary64.add (Binary64.mul (Binary64.div (Binary64.div d (Binary64.of_Z 1000))
                                                               (Binary64.of_Z 5)) (Binary64.of_Z 60))
                                   (Binary64.of_Z (Z.of_nat (length vs) * 15))))
       (route_distance vs).
Proof. unfold calculateRouteMetrics. now rewrite distance_loop_legs. Qed.

Lemma calculateRouteMetrics_ok (vs : list Venue) :
  Forall has_coords vs -> exists m, calculateRouteMetrics vs = Ok m.
Proof.
  intros Hc. rewrite calculateRouteMetrics_legs. destruct (length vs <? 2) eqn:Hl; [eauto|].
  apply Nat.ltb_ge in Hl. destruct (proj2 (route_distance_ok vs Hl) Hc) as [d ->]. cbn. eauto.
Qed.

Lemma centerOf_ok (vs : list Venue) : Forall has_coords vs -> exists c, centerOf vs = Ok c.
Proof.
  intros Hc. unfold centerOf.
  assert (Hsum : forall k : Binary64.num * Binary64.num -> Binary64.num,
            exists t, res_foldl (fun sum v => res_fmap (fun c => Binary64.add sum (k c)) (coords v))
                                vs (Binary64.of_Z 0) = Ok t).
  { intros k. apply (res_foldl_ok_iff _ has_coords); [|exact Hc].
    intros t v. rewrite <- coords_ok. destruct (coords v); cbn; split; intros [? E]; eauto; discriminate. }
  destruct (Hsum fst) as [la ->]. destruct (Hsum snd) as [ln ->]. cbn. eauto.
Qed.

Lemma compareVenues_total (vs : list Venue) (a b : Venue) :
  Forall has_coords vs -> In a vs -> In b vs -> exists v, compareVenues vs a b = Ok v.
Proof.
  intros Hc Ha Hb. rewrite Forall_forall in Hc. unfold compareVenues.
  destruct (5 <? Z.abs (affinity a - affinity b))%Z; [eauto|].
  destruct (centerOf_ok vs (proj2 (Forall_forall _ _) Hc)) as [c ->].
  destruct (proj2 (coords_ok a) (Hc a Ha)) as [ca ->].
  destruct (proj2 (coords_ok b) (Hc b Hb)) as [cb ->]. cbn. eauto.
Qed.

Lemma calculateOptimalRoute_ok (vs : list Venue) :
  Forall has_coords vs -> exists r, calculateOptimalRoute vs = Ok r.
Proof.
  intros Hc. unfold calculateOptimalRoute. destruct (length vs <? 2); [eauto|].
  destruct (array_sort_total _ (compareVenues vs) vs (fun x y => compareVenues_total vs x y Hc))
    as [r ->]. cbn. eauto.
Qed.

Lemma calculateOptimalRoute_cases (vs r : list Venue) :
  calculateOptimalRoute vs = Ok r ->
  (length vs < 2 /\ r = vs) \/
  (2 <= length vs /\ exists sorted, Permutation sorted vs /\ r = firstn (Nat.min 6 (length sorted)) sorted).
Proof.
  unfold calculateOptimalRoute. destruct (length vs <? 2) eqn:Hl.
  - intros [= <-]. left. split; [now apply Nat.ltb_lt|reflexivity].
  - intros Hr. apply res_fmap_ok in Hr as (sorted & Hs & ->). right.
    split; [now apply Nat.ltb_ge|]. exists sorted. split; [eapply array_sort_perm; exact Hs|].
    reflexivity.
Qed.

(** The states of a commit: the setters leave a scheduled render
    scheduled. *)
Lemma setRouteDistance_rerender (d : Binary64.num) (s : OverlayState) :
  rerender s = true -> rerender (setRouteDistance d s) = true.
Proof. unfold setRouteDistance. now destruct (Binary64.same_value _ _). Qed.

Lemma setRouteTime_rerender (t : Binary64.num) (s : OverlayState) :
  rerender s = true -> rerender (setRouteTime t s) = true.
Proof. unfold setRouteTime. now destruct (Binary64.same_value _ _). Qed.

Lemma setRouteDistance_route (d : Binary64.num) (s : OverlayState) :
  route (setRouteDistance d s) = route s.
Proof. unfold setRouteDistance. now destruct (Binary64.same_value _ _). Qed.

Lemma setRouteTime_route (t : Binary64.num) (s : OverlayState) :
  route (setRouteTime t s) = route s.
Proof. unfold setRouteTime. now destruct (Binary64.same_value _ _). Qed.

Lemma combine_seq_nth {A} (l : list A) (m k : nat) (v : A) :
  nth_error l k = Some v -> nth_error (combine (seq m (length l)) l) k = Some (m + k, v).
Proof.
  revert m k; induction l as [|x l IH]; intros m [|k] Hk; cbn in *; try discriminate.
  - injection Hk as ->. now rewrite Nat.add_0_r.
  - rewrite (IH (S m) k Hk). now rewrite Nat.add_succ_r.
Qed.

Lemma createVenueMarkers_nth (vs : list Venue) (k : nat) (v : Venue) :
  nth_error vs k = Some v -> nth_error (createVenueMarkers vs) k = Some (marker_for (length vs) k v).
Proof.
  intros Hk. unfold createVenueMarkers. rewrite nth_error_map, (combine_seq_nth vs 0 k v Hk).
  reflexivity.
Qed.

Lemma route_effect_rerenders (venues : list Venue) (s : OverlayState) :
  2 <= length venues -> Forall has_coords venues ->
  exists s' d, route_effect venues s = Ok (s', Some d) /\ rerender s' = true.
Proof.
  intros Hl Hc. unfold route_effect.
  replace (length venues <? 2) with false by (symmetry; apply Nat.ltb_ge; lia).
  destruct (calculateOptimalRoute_ok venues Hc) as [opt Ho]. rewrite Ho. cbn [res_bind].
  assert (Hco : Forall has_coords opt).
  { destruct (calculateOptimalRoute_cases _ _ Ho) as [[_ ->]|[_ (sorted & Hp & ->)]]; [exact Hc|].
    rewrite Forall_forall in *. intros x Hx. apply Hc, (Permutation_in _ Hp), (In_firstn _ _ _ Hx). }
  destruct (calculateRouteMetrics_ok opt Hco) as [m ->]. cbn [res_bind].
  do 2 eexists. split; [reflexivity|].
  now apply setRouteTime_rerender, setRouteDistance_rerender.
Qed.

Lemma overlay_run_S (n : nat) (venues : list Venue) (s : OverlayState) :
  overlay_run (S n) venues s =
  res_bind (overlay_commit venues s) (fun '(s', out) =>
    let here := match out with Some d => [d] | None => [] end in
    if rerender s' then res_fmap (fun '(s'', outs) => (s'', here ++ outs)) (overlay_run n venues s')
    else Ok (s', here)).
Proof. reflexivity. Qed.



End Facts.

Lemma missing_coords_iff (vs : list Venue) :
  Exists (fun v => coordinates v = None) vs <-> ~ Forall has_coords vs.
Proof.
  rewrite <- Exists_Forall_neg by (intros v; unfold has_coords; destruct (coordinates v);
                                  [left; discriminate|right; congruence]).
  split; apply Exists_impl; unfold has_coords; intros v Hv; [congruence|].
  destruct (coordinates v); [contradiction Hv; discriminate|reflexivity].
Qed.


Section Properties.
Context `{JsMath} `{ArraySort}.

Lemma route_effect_short (venues : list Venue) (s : OverlayState) :
  length venues < 2 -> route_effect venues s = Ok (setRoute None (set_layers None None s), None).
Proof. intros Hl. unfold route_effect. now replace (length venues <? 2) with true by (symmetry; now apply Nat.ltb_lt). Qed.

(** C14: the overlay of a route never settles.  When the route has two
    or more venues, all with coordinates, every commit of [RouteOverlay]
    schedules another render: the effect runs after every render (its
    dependencies include functions the render creates), and it stores
    a freshly sliced array with [setRoute], which is never [Object.is]
    the previous one.  After any number of commits a render is still
    pending, and [onRouteCalculated] has been called once per commit;
    this holds for every engine and every sort. *)
Theorem overlay_never_settles (n : nat) (venues : list Venue) (s : OverlayState) :
  2 <= length venues -> Forall has_coords venues ->
  exists s' outs, overlay_run (S n) venues s = Ok (s', outs) /\ length outs = S n /\ rerender s' = true.
Proof.
  intros Hl Hc. revert s; induction n as [|n IH]; intros s;
    destruct (route_effect_rerenders venues
               (mkOverlay (route s) (routeDistance s) (routeTime s) (routeLayer s) (markersLayer s)
                          (allocated s) false) Hl Hc) as (s1 & d & E & R);
    rewrite overlay_run_S; unfold overlay_commit; rewrite E; cbn [res_bind]; rewrite R.
  - cbn. eauto.
  - destruct (IH s1) as (s2 & outs & E2 & L2 & R2). rewrite E2. cbn.
    exists s2, (d :: outs). cbn. rewrite L2. auto.
Qed.

(** With fewer than two venues the overlay settles within two
    commits, with no route, no polyline and no markers: the second
    [setRoute(null)] finds [null] and schedules nothing. *)
Theorem overlay_clears_short_route (venues : list Venue) (s : OverlayState) :
  length venues < 2 ->
  exists s', overlay_run 2 venues s = Ok (s', []) /\ rerender s' = false /\
             route s' = None /\ routeLayer s' = None /\ markersLayer s' = None.
Proof.
  intros Hl. rewrite overlay_run_S. unfold overlay_commit. rewrite route_effect_short by exact Hl.
  cbn [res_bind]. destruct (route s) as [r|] eqn:Er;
    cbn [setRoute set_layers route rerender routeLayer markersLayer]; rewrite ?Er.
  - rewrite overlay_run_S. unfold overlay_commit. rewrite route_effect_short by exact Hl. cbn. eauto 6.
  - eauto 6.
Qed.

(** Whatever the engine's sort does with its comparator: a list of
    fewer than two venues comes back as it is; otherwise the result has
    [min(6, n)] venues, all from the input, and no id twice when the
    input has none twice. *)
Theorem calculateOptimalRoute_spec (vs r : list Venue) :
  calculateOptimalRoute vs = Ok r ->
  (length vs < 2 -> r = vs) /\
  (2 <= length vs -> length r = Nat.min 6 (length vs) /\ incl r vs /\
                     (NoDup (map id vs) -> NoDup (map id r))).
Proof.
  intros Hr. destruct (calculateOptimalRoute_cases vs r Hr) as [[Hl ->]|[Hl (sorted & Hp & ->)]].
  - split; [reflexivity|lia].
  - split; [lia|]. intros _. repeat split.
    + rewrite length_firstn, (Permutation_length Hp). lia.
    + intros x Hx. apply (Permutation_in _ Hp), (In_firstn _ _ _ Hx).
    + intros Hnd. rewrite <- firstn_map. apply NoDup_firstn.
      exact (Permutation_NoDup (Permutation_map id (Permutation_sym Hp)) Hnd).
Qed.

(** On a pool whose affinities are pairwise more than five points
    apart the comparator is consistent: it orders by decreasing
    affinity ([b.affinity - a.affinity]), and a venue compared with
    itself gives [d - d], which is not negative. *)
Lemma compareVenues_key (vs : list Venue) :
  Forall has_coords vs -> Forall (fun v => -1000 <= affinity v <= 1000)%Z vs ->
  ForallOrdPairs (fun a b => 5 < Z.abs (affinity a - affinity b))%Z vs ->
  key_comparator affinity (compareVenues vs) (fun x => In x vs).
Proof.
  intros Hc Hb Hd x y Hx Hy. rewrite Forall_forall in Hb.
  destruct (ForallOrdPairs_In Hd x y Hx Hy) as [<-|Hxy].
  - destruct (compareVenues_total vs x x Hc Hx Hx) as [v Hv]. exists v. split; [exact Hv|].
    rewrite Z.ltb_irrefl. unfold compareVenues in Hv. rewrite Z.sub_diag in Hv. cbn in Hv.
    destruct (centerOf vs), (coords x); cbn in Hv; try discriminate.
    injection Hv as <-. apply ltb_sub_self.
  - assert (Hgt : (5 < Z.abs (affinity x - affinity y))%Z) by lia.
    unfold compareVenues. apply Z.ltb_lt in Hgt. rewrite Hgt.
    eexists. split; [reflexivity|].
    pose proof (Hb x Hx). pose proof (Hb y Hy).
    rewrite ltb_of_Z_zero by lia.
    destruct (Z.ltb_spec (affinity y - affinity x) 0), (Z.ltb_spec (affinity y) (affinity x)); lia.
Qed.

(** C15: on a pool of venues with coordinates whose affinities (the
    percentages the app shows) are pairwise more than five points
    apart, [calculateOptimalRoute] returns the [min(6, n)] venues of
    highest affinity in decreasing order of affinity, in every engine:
    its comparator is then consistent, and ECMA-262 fixes the result of
    [sort] for a consistent comparator. *)
Theorem calculateOptimalRoute_top (vs : list Venue) :
  Forall has_coords vs -> Forall (fun v => -1000 <= affinity v <= 1000)%Z vs ->
  ForallOrdPairs (fun a b => 5 < Z.abs (affinity a - affinity b))%Z vs ->
  calculateOptimalRoute vs = Ok (firstn (Nat.min 6 (length vs)) (sort_desc affinity vs)).
Proof.
  intros Hc Hb Hd.
  assert (Hk : ForallOrdPairs (fun a b => affinity a <> affinity b) vs)
    by (apply (ForallOrdPairs_impl (fun a b => 5 < Z.abs (affinity a - affinity b))%Z); [intros a b; lia|exact Hd]).
  unfold calculateOptimalRoute. destruct (length vs <? 2) eqn:Hl.
  - apply Nat.ltb_lt in Hl. destruct vs as [|a [|b t]]; cbn in Hl |- *; [reflexivity|reflexivity|lia].
  - destruct (array_sort_total _ (compareVenues vs) vs (fun x y => compareVenues_total vs x y Hc))
      as [r Hr].
    rewrite Hr. cbn [res_fmap res_bind].
    pose proof (array_sort_perm _ _ _ _ Hr) as Hp.
    pose proof (array_sort_sorted _ affinity _ _ _ (compareVenues_key vs Hc Hb Hd) Hr) as Hs.
    rewrite <- (sorted_distinct_sort_desc affinity vs r Hk Hp Hs), (Permutation_length Hp).
    reflexivity.
Qed.

(** C37: the metrics loop over [i = 0 .. n - 2] with index reads computes
    the reference definition: the distance is the sum of the Haversine
    lengths of the consecutive legs, added from the first leg on, and
    the time is the walking time at 5 km/h plus 15 minutes per venue. *)
Theorem calculateRouteMetrics_reference (vs : list Venue) :
  calculateRouteMetrics vs =
  if length vs <? 2 then Ok (mkMetrics (Binary64.of_Z 0) (Binary64.of_Z 0))
  else res_fmap (fun d =>
         mkMetrics d (Binary64.add (Binary64.mul (Binary64.div (Binary64.div d (Binary64.of_Z 1000))
                                                               (Binary64.of_Z 5)) (Binary64.of_Z 60))
                                   (Binary64.of_Z (Z.of_nat (length vs) * 15))))
       (route_distance vs).
Proof. exact (calculateRouteMetrics_legs vs). Qed.

(** [calculateRouteMetrics] throws exactly when the route has two or
    more venues and one of them has no coordinates. *)
Theorem calculateRouteMetrics_throws (vs : list Venue) :
  (exists e, calculateRouteMetrics vs = Throw e) <->
  2 <= length vs /\ Exists (fun v => coordinates v = None) vs.
Proof.
  rewrite calculateRouteMetrics_legs. destruct (length vs <? 2) eqn:Hl.
  - apply Nat.ltb_lt in Hl. split; [intros [e [=]]|lia].
  - apply Nat.ltb_ge in Hl. rewrite missing_coords_iff.
    transitivity (~ Forall has_coords vs); [|split; [intros Hn; split; [lia|exact Hn]|intros [_ Hn]; exact Hn]].
    rewrite <- (route_distance_ok vs Hl). destruct (route_distance vs) as [d|e]; cbn; split.
    + intros [e [=]].
    + intros Hn. exfalso. eauto.
    + intros _ [d [=]].
    + eauto.
Qed.

(** The markers number the stops [1..n] in route order, and the
    popup of an intermediate stop calls it ["Stop k"] when its badge
    shows [k + 1]: the popup counts from zero and the badge from one.
    The first marker is the start and the last the end. *)
Theorem createVenueMarkers_labels (vs : list Venue) (k : nat) (v : Venue) :
  2 <= length vs -> nth_error vs k = Some v ->
  exists mk, nth_error (createVenueMarkers vs) k = Some mk /\ marker_venue mk = v /\
    marker_number mk = (Z.of_nat k + 1)%Z /\
    (k = 0 -> marker_kind mk = MStart /\ marker_position mk = "Start"%string) /\
    (k = length vs - 1 -> marker_kind mk = MEnd /\ marker_position mk = "End"%string) /\
    (0 < k < length vs - 1 -> marker_kind mk = MWaypoint /\
       marker_position mk = ("Stop " ++ JsString.digits (marker_number mk - 1))%string).
Proof.
  intros Hl Hk. exists (marker_for (length vs) k v).
  split; [exact (createVenueMarkers_nth vs k v Hk)|]. unfold marker_for. cbn [marker_venue marker_number].
  split; [reflexivity|]. split; [reflexivity|].
  destruct (Nat.eqb_spec k 0) as [Hz|Hz]; destruct (Nat.eqb_spec k (length vs - 1)) as [Hn|Hn];
    cbn [marker_kind marker_position]; repeat (intros ? || apply conj); try lia; try reflexivity.
  do 2 f_equal. lia.
Qed.

End Properties.

Section Fdlibm.
Context `{JsMath}.

(** fdlibm's [pow], from which V8's [Math.pow] derives, returns [x * x]
    for the exponent [2]. *)
Hypothesis pow_two : forall x, Math_pow x (Binary64.of_Z 2) = Binary64.mul x x.

(** The comparator only uses [Math.pow(x, 2)]: it is the same in every
    such engine. *)
Lemma compareVenues_fdlibm (l : list Venue) (a b : Venue) :
  compareVenues l a b = @compareVenues stub_math l a b.
Proof.
  unfold compareVenues, distFromCenter. destruct (5 <? _)%Z; [reflexivity|].
  destruct (centerOf l); cbn [res_bind]; [|reflexivity].
  destruct (coords a); cbn [res_bind]; [|reflexivity].
  destruct (coords b); cbn [res_bind]; [|reflexivity].
  rewrite !pow_two. reflexivity.
Qed.


(** In V8 the route the overlay draws depends on the order in which
    the venues arrive: [north, south, far_north] and [south, far_north,
    north] both come back unchanged, one run of [CountAndMakeRun] each,
    so the same three venues give routes that start at different
    venues. *)
Example optimal_route_input_order :
  @calculateOptimalRoute _ V8Sort.v8_sort [north; south; far_north] = Ok [north; south; far_north] /\
  @calculateOptimalRoute _ V8Sort.v8_sort [south; far_north; north] = Ok [south; far_north; north].
Proof.
  unfold calculateOptimalRoute. cbn [array_sort V8Sort.v8_sort].
  rewrite !(V8Sort.timSort_ext _ _ (compareVenues_fdlibm _)). vm_compute. split; reflexivity.
Qed.

End Fdlibm.

(** ** Witnesses *)

#[local] Existing Instance stub_math.
#[local] Existing Instance V8Sort.v8_sort.

Lemma overlay_never_settles_witness :
  exists s' outs, overlay_run 3 [north; south; far_north] initialOverlay = Ok (s', outs) /\
                  length outs = 3 /\ rerender s' = true.
Proof.
  apply (overlay_never_settles 2); [cbn; lia|].
  repeat constructor; intros E; discriminate E.
Defined.

Lemma overlay_clears_short_route_witness :
  exists s', overlay_run 2 [north] initialOverlay = Ok (s', []) /\ rerender s' = false /\
             route s' = None /\ routeLayer s' = None /\ markersLayer s' = None.
Proof. apply overlay_clears_short_route. cbn. lia. Defined.

(** The three sample venues with affinities ten points apart. *)
Definition ranked_venues : list Venue :=
  [with_affinity north 70; with_affinity south 90; with_affinity far_north 80].

Lemma calculateOptimalRoute_top_witness :
  (Forall has_coords ranked_venues /\
   Forall (fun v => -1000 <= affinity v <= 1000)%Z ranked_venues /\
   ForallOrdPairs (fun a b => 5 < Z.abs (affinity a - affinity b))%Z ranked_venues) /\
  calculateOptimalRoute ranked_venues =
    Ok (firstn (Nat.min 6 (length ranked_venues)) (sort_desc affinity ranked_venues)).
Proof.
  assert (H : Forall has_coords ranked_venues /\
              Forall (fun v => -1000 <= affinity v <= 1000)%Z ranked_venues /\
              ForallOrdPairs (fun a b => 5 < Z.abs (affinity a - affinity b))%Z ranked_venues)
    by (repeat split; repeat constructor; unfold has_coords; cbn; (discriminate || lia)).
  split; [exact H|]. destruct H as (H1 & H2 & H3).
  exact (calculateOptimalRoute_top ranked_venues H1 H2 H3).
Defined.

(** In V8 the route starts at the venue of highest affinity. *)
Example ranked_route :
  calculateOptimalRoute ranked_venues =
    Ok [with_affinity south 90; with_affinity far_north 80; with_affinity north 70].
Proof. vm_compute. reflexivity. Qed.

Lemma createVenueMarkers_labels_witness :
  exists mk, nth_error (createVenueMarkers [north; south; far_north]) 1 = Some mk /\
             marker_number mk = 2%Z /\ marker_position mk = "Stop 1"%string.
Proof.
  destruct (createVenueMarkers_labels [north; south; far_north] 1 south ltac:(cbn; lia) eq_refl)
    as (mk & E & _ & N & _ & _ & W).
  exists mk. destruct (W ltac:(cbn; lia)) as [_ P]. rewrite P, N. split; [exact E|split; reflexivity].
Defined.

Lemma stub_pow_two : forall x, Math_pow x (Binary64.of_Z 2) = Binary64.mul x x.
Proof. intros x. reflexivity. Qed.


Lemma optimal_route_input_order_witness :
  (forall x, Math_pow x (Binary64.of_Z 2) = Binary64.mul x x) /\
  calculateOptimalRoute [north; south; far_north] = Ok [north; south; far_north] /\
  calculateOptimalRoute [south; far_north; north] = Ok [south; far_north; north].
Proof. split; [exact stub_pow_two|exact (optimal_route_input_order stub_pow_two)]. Defined.

End RouteOverlay.
