(* ===== verification/VenueCache.v ===== *)
(** * The venue cache hook

    [src/culturis-studio/src/hooks/useVenueCache.js]: the hook that loads
    the venues of a location for a set of tastes and filters, through an
    in-memory [Map] keyed by the rounded coordinates, the sorted taste
    ids and the active filters.  A new load aborts the one in flight
    ([AbortController]); a request that fails falls back to mock venues.

    The [Map] of [cacheRef] is a [gmap string]; the state hooks and refs
    are the record [CacheState]; [loadVenues] is split at its [await]:
    [loadVenues] runs up to the request, and the event [Settle] runs the
    rest when the request for a controller settles.  A controller is
    aborted exactly when a later [loadVenues] replaced it, which is the
    only [abort()] of the hook.  The request's URL is cut short in the
    source (line 123); the response is an input of the model.

    [Number::toString] of a double, which [toFixed] uses beyond [10^21]
    and the request parameters use for the coordinates, is the parameter
    [number_toString]. *)
From S2P Require Import Prelude JsNumber JsString ArraySort Venue.
From stdpp Require Import base list gmap strings.
From Corelib Require Import SpecFloat.
From Stdlib Require Import String Ascii List ZArith Lia Bool Permutation Sorted.
Import ListNotations.
Import Venue.

Module VenueCache.

(** ** Keys *)

Record Coords : Type := mkCoords { lat : Binary64.num; lng : Binary64.num }.

(** The value of a filter: a string, a boolean, or [null]/[undefined]. *)
Inductive FilterValue : Type :=
| FStr (s : string)
| FBool (b : bool)
| FNullish.

(** [Object.entries(filters)], in the object's order. *)
Definition Filters : Type := list (string * FilterValue).

(** [value != null && value !== false]. *)
Definition filter_kept (v : FilterValue) : bool :=
  match v with
  | FNullish | FBool false => false
  | _ => true
  end.

(** [`${value}`]. *)
Definition filter_text (v : FilterValue) : string :=
  match v with
  | FStr s => s
  | FBool true => "true"
  | FBool false => "false"
  | FNullish => "null"
  end.

Definition filter_entry (kv : string * FilterValue) : string :=
  (fst kv ++ ":" ++ filter_text (snd kv))%string.

(** [Array.prototype.sort()] on strings: its comparator is consistent, so
    every engine returns the sorted list; here by insertion. *)
Fixpoint insert_str (x : string) (l : list string) : list string :=
  match l with
  | [] => [x]
  | y :: l' => if JsString.str_ltb y x then y :: insert_str x l' else x :: l
  end.

Fixpoint sort_strings (l : list string) : list string :=
  match l with
  | [] => []
  | x :: l' => insert_str x (sort_strings l')
  end.

Section Keys.
Context (number_toString : Binary64.num -> string).

(** [createVenueCacheKey(coords, tasteIds, filters)] (lines 17-27). *)
Definition createVenueCacheKey (coords : Coords) (tasteIds : list string) (filters : Filters) : string :=
  let coordsKey := (JsString.toFixed number_toString 4 (lat coords) ++ "_" ++
                    JsString.toFixed number_toString 4 (lng coords))%string in
  let tastesKey := JsString.join "|" (sort_strings tasteIds) in
  let filtersKey := JsString.join "|"
                      (sort_strings (map filter_entry (filter (fun kv => filter_kept (snd kv)) filters))) in
  ("venues_" ++ coordsKey ++ "|" ++ tastesKey ++ "|" ++ filtersKey)%string.

End Keys.

(** [filters.k], [undefined] when absent. *)
Definition prop (filters : Filters) (k : string) : FilterValue :=
  match find (fun kv => String.eqb (fst kv) k) filters with
  | Some kv => snd kv
  | None => FNullish
  end.

Definition filter_truthy (v : FilterValue) : bool :=
  match v with
  | FStr s => negb (String.eqb s "")
  | FBool b => b
  | FNullish => false
  end.

(** [filtersToApiParams(filters)] (lines 30-70): the ['filter.tags']
    parameter it sets, if any. *)
Definition filtersToApiParams (filters : Filters) : option string :=
  let budgetTag :=
    if filter_truthy (prop filters "budget") then
      match prop filters "budget" with
      | FStr "low" => Some "urn:tag:price:inexpensive"
      | FStr "medium" => Some "urn:tag:price:moderate"
      | FStr "high" => Some "urn:tag:price:expensive"
      | _ => None
      end%string
    else None in
  if filter_truthy (prop filters "indoorOutdoor") then
    let existing := match budgetTag with Some t => t | None => "" end in
    let separator := if String.eqb existing "" then "" else "," in
    match prop filters "indoorOutdoor" with
    | FStr "outdoor" => Some (existing ++ separator ++ "urn:tag:atmosphere:outdoor")
    | FStr "indoor" => Some (existing ++ separator ++ "urn:tag:atmosphere:indoor")
    | _ => budgetTag
    end%string
  else budgetTag.

(** ** Venues of a response *)

(** An entity of a cluster of the backend's answer, and a cluster. *)
Record Entity : Type := mkEntity {
  e_name : option string;
  e_affinity : option Binary64.num;
  e_type : option string;
  e_keywords : option (list string)
}.

Record Cluster : Type := mkCluster {
  cluster_name : option string;
  lift_score : option Binary64.num;
  example_entities : option (list Entity)
}.

(** A venue of the hook. *)
Record CVenue : Type := mkCVenue {
  cv_id : string;
  cv_name : string;
  cv_coords : Binary64.num * Binary64.num;
  cv_affinity : Binary64.num;
  cv_category : string;
  cv_keywords : list string;
  cv_cluster : option string;
  cv_distance : Binary64.num;
  cv_popularity : Binary64.num;
  cv_lift : Binary64.num
}.

(** [s] as a condition: not empty. *)
Definition str_truthy (s : option string) : bool :=
  match s with Some t => negb (String.eqb t "") | None => false end.

(** [x || 0] on a number. *)
Definition num_or_zero (x : option Binary64.num) : Binary64.num :=
  match x with
  | Some v => if Binary64.truthy v then v else Binary64.of_Z 0
  | None => Binary64.of_Z 0
  end.

(** [`${prefix}_${i}_${j}`]. *)
Definition suffixed (prefix : string) (i j : nat) : string :=
  (prefix ++ "_" ++ JsString.digits (Z.of_nat i) ++ "_" ++ JsString.digits (Z.of_nat j))%string.

(** The id of an entity (line 144). *)
Definition entity_id (e : Entity) (ci ei : nat) : string :=
  if str_truthy (e_name e) then suffixed (JsString.replace_ws (default "" (e_name e))) ci ei
  else suffixed "venue" ci ei.

(** [entity.type?.split(':').pop() || 'venue'] (line 148). *)
Definition entity_category (e : Entity) : string :=
  match e_type e with
  | Some t => let c := last (JsString.split ":"%char t) "" in
              if String.eqb c "" then "venue" else c
  | None => "venue"
  end.

(** [c + (Math.random() - 0.5) * w]. *)
Definition jitter (c r w : Binary64.num) : Binary64.num :=
  Binary64.add c (Binary64.mul (Binary64.sub r (Binary64.lit 1 2)) w).

Section WithRandom.
Context (random_stream : nat -> Binary64.num).

(** The venue of entity [ei] of cluster [ci] (lines 136-154): two draws
    for the coordinates, one for the distance, one for the popularity. *)
Definition entity_venue (coords : Coords) (cl : Cluster) (ci ei : nat) (e : Entity) : M World CVenue :=
  r1 <- Math_random random_stream ;; r2 <- Math_random random_stream ;; r3 <- Math_random random_stream ;; r4 <- Math_random random_stream ;;
  ret (mkCVenue (entity_id e ci ei)
                (if str_truthy (e_name e) then default "" (e_name e) else "Unknown Venue")
                (jitter (lat coords) r1 (Binary64.lit 1 100), jitter (lng coords) r2 (Binary64.lit 1 100))
                (num_or_zero (e_affinity e))
                (entity_category e)
                (default [] (e_keywords e))
                (cluster_name cl)
                (Binary64.mul r3 (Binary64.of_Z 400))
                r4
                (num_or_zero (lift_score cl))).

(** [clusters.forEach((cluster, ci) => cluster.example_entities?.forEach(...))]. *)
Definition cluster_venues (coords : Coords) (ci : nat) (cl : Cluster) : M World (list CVenue) :=
  m_mapi (entity_venue coords cl ci) 0 (default [] (example_entities cl)).

Definition collect (coords : Coords) (clusters : list Cluster) : M World (list CVenue) :=
  vss <- m_mapi (cluster_venues coords) 0 clusters ;;
  ret (concat vss).

(** [(a, b) => b.affinity - a.affinity]. *)
Definition by_affinity (a b : CVenue) : Result Binary64.num :=
  Ok (Binary64.sub (cv_affinity b) (cv_affinity a)).

(** The mock venues (lines 74-83). *)
Definition mockVenues : list (string * string * Z) :=
  [("Local Art Gallery", "gallery", 85); ("Indie Coffee House", "cafe", 78);
   ("Vintage Record Store", "shop", 82); ("Cultural Center", "venue", 76);
   ("Artisan Bakery", "restaurant", 71); ("Underground Bar", "bar", 68);
   ("Design Studio", "studio", 73); ("Live Music Venue", "music", 80)]%string%Z.

Definition mock_id (nm : string) (index : nat) : string :=
  ("mock_" ++ JsString.replace_ws nm ++ "_" ++ JsString.digits (Z.of_nat index))%string.

Definition mock_venue (coords : Coords) (tastes : list Taste) (index : nat)
    (m : string * string * Z) : M World CVenue :=
  let '(nm, category, aff) := m in
  r1 <- Math_random random_stream ;; r2 <- Math_random random_stream ;; r3 <- Math_random random_stream ;; r4 <- Math_random random_stream ;;
  ret (mkCVenue (mock_id nm index) nm
                (jitter (lat coords) r1 (Binary64.lit 8 1000), jitter (lng coords) r2 (Binary64.lit 8 1000))
                (Binary64.of_Z aff) category (map taste_name (firstn 2 tastes))
                (Some "Local Culture") (Binary64.mul r3 (Binary64.of_Z 350)) r4 (Binary64.of_Z aff)).

(** [generateMockVenues(coords, tastes)] (lines 73-100). *)
Definition generateMockVenues (coords : Coords) (tastes : list Taste) : M World (list CVenue) :=
  m_mapi (mock_venue coords tastes) 0 mockVenues.

(** The settled request: the clusters of a successful answer
    ([data.qlooData?.qloo_json?.clusters || []]), or a failure (a status
    that is not ok, a network error, a body that is not JSON). *)
Inductive Response : Type :=
| RespData (clusters : option (list Cluster))
| RespError.

Section WithSort.
Context `{ArraySort}.

(** [fetchVenues(coords, tastes, filters)] after its [await] (lines
    125-172), for a request that was not aborted. *)
Definition fetchVenues (coords : Coords) (tastes : list Taste) (r : Response) : M World (list CVenue) :=
  match r with
  | RespData clusters =>
      m_catch (vs <- collect coords (default [] clusters) ;;
               sorted <- m_lift (array_sort by_affinity vs) ;;
               ret (firstn 20 sorted))
              (fun _ => generateMockVenues coords tastes)
  | RespError => generateMockVenues coords tastes
  end.

End WithSort.
End WithRandom.

(** ** The hook's state *)

(** A request in flight: its controller, its cache key and what the
    closure of [loadVenues] holds. *)
Record Job : Type := mkJob {
  job_controller : nat;
  job_key : string;
  job_coords : Coords;
  job_tastes : list Taste
}.

(** [venues], [loading], [error] (lines 8-10), [cacheRef] (line 13),
    [abortControllerRef] (line 14) as the number of the current
    controller among the [controllers] created so far, and the requests
    in flight. *)
Record CacheState : Type := mkCache {
  venues : list CVenue;
  loading : bool;
  error : option string;
  cache : gmap string (list CVenue);
  controllers : nat;
  current : option nat;
  pending : list Job
}.

Definition initialCache : CacheState := mkCache [] false None ∅ 0 None [].

(** [controller.signal.aborted]. *)
Definition aborted (s : CacheState) (c : nat) : bool :=
  match current s with Some c' => negb (Nat.eqb c c') | None => true end.

Definition with_venues (vs : list CVenue) (s : CacheState) : CacheState :=
  mkCache vs (loading s) (error s) (cache s) (controllers s) (current s) (pending s).

Section Hook.
Context (number_toString : Binary64.num -> string).

(** [loadVenues(coords, tastes, filters)] up to its [await] (lines
    176-209): no tastes clears the venues and returns; otherwise the
    loading flag is set, the current controller aborted and replaced,
    and a cached list is shown at once, or the request starts. *)
Definition loadVenues (coords : Coords) (tastes : list Taste) (filters : Filters) (s : CacheState) : CacheState :=
  match tastes with
  | [] => with_venues [] s
  | _ :: _ =>
      let c := controllers s in
      let key := createVenueCacheKey number_toString coords (map taste_id tastes) filters in
      match cache s !! key with
      | Some cached => mkCache cached false None (cache s) (S c) (Some c) (pending s)
      | None => mkCache (venues s) true None (cache s) (S c) (Some c)
                        (pending s ++ [mkJob c key coords tastes])
      end
  end.

(** [getCachedVenues(coords, tasteIds, filters)] (lines 246-249). *)
Definition getCachedVenues (s : CacheState) (coords : Coords) (tasteIds : list string)
    (filters : Filters) : option (list CVenue) :=
  cache s !! createVenueCacheKey number_toString coords tasteIds filters.

End Hook.

(** The request of controller [c], and the others. *)
Definition take_job (c : nat) (l : list Job) : option (Job * list Job) :=
  match find (fun j => Nat.eqb (job_controller j) c) l with
  | Some j => Some (j, filter (fun j' => negb (Nat.eqb (job_controller j') c)) l)
  | None => None
  end.

Section Events.
Context (number_toString : Binary64.num -> string) (random_stream : nat -> Binary64.num) `{ArraySort}.

(** The rest of [loadVenues] when the request of controller [c] settles
    (lines 209-231).  An aborted request rejects with an [AbortError],
    which the hook ignores; otherwise the venues (or the mock venues)
    are cached under the key and shown. *)
Definition settle (c : nat) (r : Response) (s : CacheState) : M World CacheState :=
  match take_job c (pending s) with
  | None => ret s
  | Some (j, rest) =>
      if aborted s c then
        ret (mkCache (venues s) (loading s) (error s) (cache s) (controllers s) (current s) rest)
      else
        m_catch
          (venueData <- fetchVenues random_stream (job_coords j) (job_tastes j) r ;;
           ret (mkCache venueData false (error s) (<[job_key j := venueData]> (cache s))
                        (controllers s) (current s) rest))
          (fun _ => ret (mkCache (venues s) false (Some "Failed to load venues") (cache s)
                                 (controllers s) (current s) rest))
  end.

Inductive CacheEvent : Type :=
| Load (coords : Coords) (tastes : list Taste) (filters : Filters)
| Settle (c : nat) (r : Response)
| ClearVenues
| ClearCache.

Definition cache_step (e : CacheEvent) (s : CacheState) : M World CacheState :=
  match e with
  | Load coords tastes filters => ret (loadVenues number_toString coords tastes filters s)
  | Settle c r => settle c r s
  | ClearVenues => ret (mkCache [] (loading s) None (cache s) (controllers s) (current s) (pending s))
  | ClearCache => ret (mkCache (venues s) (loading s) (error s) ∅ (controllers s) (current s) (pending s))
  end.

Fixpoint cache_run (es : list CacheEvent) (s : CacheState) : M World CacheState :=
  match es with
  | [] => ret s
  | e :: es' => s' <- cache_step e s ;; cache_run es' s'
  end.

End Events.

(** ** Reference definitions and samples *)

(** The indices an id of the form [`${prefix}_${i}_${j}`] ends with. *)
Definition parse_suffix (id : string) : option (nat * nat) :=
  match rev (JsString.split "_"%char id) with
  | b :: a :: _ =>
      match JsString.parse_digits a 0, JsString.parse_digits b 0 with
      | Some x, Some y => Some (Z.to_nat x, Z.to_nat y)
      | _, _ => None
      end
  | _ => None
  end.

(** [a <= b] in the order of [sort()]. *)
Definition str_le (a b : string) : Prop := JsString.str_ltb b a = false.

(** The invariant of the hook's state: requests in flight have distinct
    controllers, all created; [loading] is set exactly while the current
    controller's request is in flight; and no list of venues shown or
    cached repeats an id. *)
Definition cache_inv (s : CacheState) : Prop :=
  Forall (fun j => job_controller j < controllers s) (pending s) /\
  NoDup (map job_controller (pending s)) /\
  (loading s = true <-> exists j, In j (pending s) /\ current s = Some (job_controller j)) /\
  NoDup (map cv_id (venues s)) /\
  map_Forall (fun _ vs => NoDup (map cv_id vs)) (cache s).

Definition sample_coords : Coords := mkCoords (Binary64.lit 407589 10000) (Binary64.lit (-739851) 10000).
Definition sample_taste : Taste := mkTaste "jazz" "Jazz" "#8e44ad".
Definition other_taste : Taste := mkTaste "art" "Art" "#e67e22".

(** A random source that always answers [0.5], and a [Number::toString]
    for the magnitudes the samples never reach. *)
Definition half_stream (_ : nat) : Binary64.num := Binary64.lit 1 2.
Definition no_big (_ : Binary64.num) : string := "".
Definition sample_filters : Filters := [("budget", FStr "low"); ("openNow", FBool false)]%string.

(** ** Lemmas *)

(** *** The sort of strings *)

Lemma insert_str_perm (x : string) (l : list string) : Permutation (insert_str x l) (x :: l).
Proof.
  induction l as [|y l IH]; cbn; [reflexivity|].
  destruct (JsString.str_ltb y x); [|reflexivity].
  eapply perm_trans; [apply perm_skip, IH|apply perm_swap].
Qed.

Lemma sort_strings_perm (l : list string) : Permutation (sort_strings l) l.
Proof.
  induction l as [|x l IH]; cbn; [reflexivity|].
  eapply perm_trans; [apply insert_str_perm|apply perm_skip, IH].
Qed.

Lemma insert_str_sorted (x : string) (l : list string) :
  StronglySorted str_le l -> StronglySorted str_le (insert_str x l).
Proof.
  induction l as [|y l IH]; cbn; intros Hs; [repeat constructor|].
  apply StronglySorted_inv in Hs as [Hs Hy]. destruct (JsString.str_ltb y x) eqn:Eyx.
  - constructor; [now apply IH|].
    apply (Permutation_Forall (Permutation_sym (insert_str_perm x l))).
    constructor; [unfold str_le; now apply JsString.str_ltb_asym|exact Hy].
  - constructor; [now constructor|]. constructor; [exact Eyx|].
    eapply Forall_impl; [|exact Hy]. intros z Hz. unfold str_le in *.
    destruct (JsString.str_ltb z x) eqn:Ezx; [exfalso|reflexivity].
    destruct (String.eqb_spec x y) as [->|Hne]; [congruence|].
    destruct (JsString.str_ltb_total x y Hne) as [Hxy|Hyx]; [|congruence].
    pose proof (JsString.str_ltb_trans _ _ _ Ezx Hxy). congruence.
Qed.

Lemma sort_strings_sorted (l : list string) : StronglySorted str_le (sort_strings l).
Proof. induction l as [|x l IH]; cbn; [constructor|now apply insert_str_sorted]. Qed.

Lemma str_le_antisym (a b : string) : str_le a b -> str_le b a -> a = b.
Proof.
  unfold str_le. intros Hab Hba. destruct (String.eqb_spec a b) as [|Hne]; [assumption|].
  destruct (JsString.str_ltb_total a b Hne); congruence.
Qed.

(** [sort()] forgets the order of its input. *)
Lemma sort_strings_perm_eq (l1 l2 : list string) :
  Permutation l1 l2 -> sort_strings l1 = sort_strings l2.
Proof.
  intros Hp. apply (StronglySorted_perm_eq str_le); [exact str_le_antisym|apply sort_strings_sorted..|].
  eapply perm_trans; [apply sort_strings_perm|].
  eapply perm_trans; [exact Hp|]. symmetry. apply sort_strings_perm.
Qed.

(** *** Ids *)

Lemma parse_suffixed (prefix : string) (i j : nat) : parse_suffix (suffixed prefix i j) = Some (i, j).
Proof.
  unfold parse_suffix, suffixed.
  rewrite !JsString.split_app_sep_str.
  rewrite !(JsString.split_nosep _ (JsString.digits _)) by (apply JsString.digits_no_underscore; lia).
  rewrite rev_app_distr. cbn [rev app].
  rewrite !JsString.parse_digits_digits by lia. now rewrite !Nat2Z.id.
Qed.

Lemma parse_entity_id (e : Entity) (ci ei : nat) : parse_suffix (entity_id e ci ei) = Some (ci, ei).
Proof. unfold entity_id. destruct (str_truthy (e_name e)); apply parse_suffixed. Qed.

(** *** The venues of a response *)

Section FetchFacts.
Context (random_stream : nat -> Binary64.num) `{ArraySort}.

Lemma entity_venue_id (coords : Coords) (cl : Cluster) (ci ei : nat) (e : Entity) w v w' :
  entity_venue random_stream coords cl ci ei e w = (Ok v, w') -> cv_id v = entity_id e ci ei.
Proof. unfold entity_venue, m_bind, m_ret, Math_random. intros Hv. now injection Hv as <- _. Qed.

Lemma collect_ids (coords : Coords) (clusters : list Cluster) w vs w' :
  collect random_stream coords clusters w = (Ok vs, w') ->
  map cv_id vs = concat (mapi_from (fun ci cl =>
                   mapi_from (fun ei e => entity_id e ci ei) 0 (default [] (example_entities cl))) 0 clusters).
Proof.
  unfold collect, m_bind. destruct (m_mapi _ 0 clusters w) as [[vss|e] w1] eqn:E; [|discriminate].
  intros Hv. injection Hv as <- _. rewrite concat_map. f_equal.
  apply (m_mapi_map _ _ _ _ _ _ _ _ (fun k cl w2 y w3 Hy =>
           m_mapi_map _ cv_id _ _ _ _ _ _ (fun ei e w4 v w5 Hv => entity_venue_id _ _ _ _ _ _ _ _ Hv) Hy) E).
Qed.

Lemma collect_nodup (coords : Coords) (clusters : list Cluster) w vs w' :
  collect random_stream coords clusters w = (Ok vs, w') -> NoDup (map cv_id vs).
Proof.
  intros Hv. rewrite (collect_ids _ _ _ _ _ Hv).
  apply (NoDup_indexed (fun cl => default [] (example_entities cl)) (fun ci ei e => entity_id e ci ei)).
  intros i j e i' j' e' Heq. apply (f_equal parse_suffix) in Heq.
  rewrite !parse_entity_id in Heq. now injection Heq as -> ->.
Qed.

Lemma generateMockVenues_eq (coords : Coords) (tastes : list Taste) :
  generateMockVenues random_stream coords tastes = m_mapi (mock_venue random_stream coords tastes) 0 mockVenues.
Proof. reflexivity. Qed.

Lemma mock_venue_id (coords : Coords) (tastes : list Taste) (k : nat) (nm c : string) (a : Z) w1 v w2 :
  mock_venue random_stream coords tastes k (nm, c, a) w1 = (Ok v, w2) -> cv_id v = mock_id nm k.
Proof. unfold mock_venue, m_bind, m_ret, Math_random. intros Hv. now injection Hv as <- _. Qed.

Lemma mock_ids_from (coords : Coords) (tastes : list Taste) (l : list (string * string * Z)) (i : nat) w vs w' :
  m_mapi (mock_venue random_stream coords tastes) i l w = (Ok vs, w') ->
  map cv_id vs = mapi_from (fun i m => mock_id (fst (fst m)) i) i l.
Proof.
  apply m_mapi_map. intros k [[nm c] a] w1 v w2 Hv. exact (mock_venue_id _ _ _ _ _ _ _ _ _ Hv).
Qed.

Lemma generateMockVenues_nodup (coords : Coords) (tastes : list Taste) w vs w' :
  generateMockVenues random_stream coords tastes w = (Ok vs, w') -> NoDup (map cv_id vs).
Proof.
  rewrite generateMockVenues_eq. intros Hv. rewrite (mock_ids_from _ _ _ _ _ _ _ Hv).
  apply (nodupb_NoDup String.eqb); [exact String.eqb_refl|vm_compute; reflexivity].
Qed.

(** Whatever the response, the venues of a settled request have distinct
    ids. *)
Lemma fetchVenues_nodup (coords : Coords) (tastes : list Taste) (r : Response) w vs w' :
  fetchVenues random_stream coords tastes r w = (Ok vs, w') -> NoDup (map cv_id vs).
Proof.
  destruct r as [clusters|]; [|apply generateMockVenues_nodup].
  unfold fetchVenues, m_catch.
  match goal with |- context [match ?m w with _ => _ end] => destruct (m w) as [[x|e] w1] eqn:E end.
  - intros Hv. injection Hv as <- _.
    unfold m_bind at 1 in E.
    destruct (collect random_stream coords (default [] clusters) w) as [[cs|e] w2] eqn:Ec; [|discriminate].
    unfold m_bind, m_lift in E. destruct (array_sort by_affinity cs) as [sorted|e] eqn:Es; [|discriminate].
    unfold m_ret in E. injection E as <- _.
    rewrite <- firstn_map. apply NoDup_firstn.
    apply (Permutation_NoDup (Permutation_map cv_id (Permutation_sym (array_sort_perm _ _ _ _ Es)))).
    exact (collect_nodup _ _ _ _ _ Ec).
  - apply generateMockVenues_nodup.
Qed.

End FetchFacts.

(** *** The hook's state *)

Lemma take_job_some (c : nat) (l : list Job) (j : Job) (rest : list Job) :
  take_job c l = Some (j, rest) ->
  In j l /\ job_controller j = c /\ rest = filter (fun j' => negb (Nat.eqb (job_controller j') c)) l.
Proof.
  unfold take_job. destruct (find _ l) as [j'|] eqn:E; [|discriminate]. intros [= <- <-].
  apply find_some in E as [Hin Hc]. apply Nat.eqb_eq in Hc. auto.
Qed.

Lemma filter_other_controllers (l : list Job) (c : nat) :
  Forall (fun j => job_controller j < c) l ->
  filter (fun j' => negb (Nat.eqb (job_controller j') c)) l = l.
Proof.
  induction l as [|x l IH]; cbn; intros Hl; [reflexivity|].
  apply Forall_cons_iff in Hl as [Hx Hl].
  replace (Nat.eqb (job_controller x) c) with false by (symmetry; apply Nat.eqb_neq; lia).
  cbn. now rewrite IH.
Qed.

(** A request that starts after every request in flight is the one
    [take_job] finds. *)
Lemma take_job_last (l : list Job) (j : Job) :
  Forall (fun j' => job_controller j' < job_controller j) l ->
  take_job (job_controller j) (l ++ [j]) = Some (j, l).
Proof.
  intros Hl. unfold take_job.
  assert (Hf : find (fun j' => Nat.eqb (job_controller j') (job_controller j)) (l ++ [j]) = Some j).
  { induction l as [|x l IH]; cbn; [now rewrite Nat.eqb_refl|].
    apply Forall_cons_iff in Hl as [Hx Hl].
    replace (Nat.eqb (job_controller x) (job_controller j)) with false by (symmetry; apply Nat.eqb_neq; lia).
    now apply IH. }
  rewrite Hf, filter_app, (filter_other_controllers _ _ Hl). cbn. now rewrite Nat.eqb_refl, app_nil_r.
Qed.

Lemma aborted_false (s : CacheState) (c : nat) : aborted s c = false <-> current s = Some c.
Proof.
  unfold aborted. destruct (current s) as [c'|]; split; try discriminate.
  - intros H. apply negb_false_iff, Nat.eqb_eq in H. now subst.
  - intros [= ->]. now rewrite Nat.eqb_refl.
Qed.

Section StateFacts.
Context (number_toString : Binary64.num -> string) (random_stream : nat -> Binary64.num) `{ArraySort}.

Lemma generateMockVenues_ok (coords : Coords) (tastes : list Taste) w :
  exists vs w', generateMockVenues random_stream coords tastes w = (Ok vs, w').
Proof.
  rewrite generateMockVenues_eq. apply m_mapi_ok. intros k [[nm c] a] w1.
  unfold mock_venue, m_bind, m_ret, Math_random. eauto.
Qed.

(** [fetchVenues] catches every failure: it always returns venues. *)
Lemma fetchVenues_ok (coords : Coords) (tastes : list Taste) (r : Response) w :
  exists vs w', fetchVenues random_stream coords tastes r w = (Ok vs, w').
Proof.
  destruct r as [clusters|]; cbn [fetchVenues]; [|apply generateMockVenues_ok].
  unfold m_catch. match goal with |- context [match ?m w with _ => _ end] => destruct (m w) as [[x|e] w1] end;
    [eauto|apply generateMockVenues_ok].
Qed.

Lemma loadVenues_inv (coords : Coords) (tastes : list Taste) (filters : Filters) (s : CacheState) :
  cache_inv s -> cache_inv (loadVenues number_toString coords tastes filters s).
Proof.
  intros (Hlt & Hnd & Hload & Hv & Hc). unfold loadVenues.
  destruct tastes as [|t ts]; [exact (conj Hlt (conj Hnd (conj Hload (conj (NoDup_nil _) Hc))))|].
  rewrite Forall_forall in Hlt.
  destruct (cache s !! _) as [cached|] eqn:Hk; repeat split; cbn.
  - apply Forall_forall. intros j Hj. specialize (Hlt j Hj). lia.
  - exact Hnd.
  - discriminate.
  - intros (j & Hj & [= Hcur]). specialize (Hlt j Hj). lia.
  - exact (Hc _ _ Hk).
  - exact Hc.
  - apply Forall_app. split; [apply Forall_forall; intros j Hj; specialize (Hlt j Hj); lia|].
    constructor; [cbn; lia|constructor].
  - rewrite map_app. apply NoDup_app; [exact Hnd|repeat constructor; easy|].
    intros a Ha [<-|[]]. apply in_map_iff in Ha as (j & Hjc & Hj). specialize (Hlt j Hj). cbn in Hjc. lia.
  - intros _. eexists. split; [apply in_or_app; right; now left|reflexivity].
  - exact Hv.
  - exact Hc.
Qed.

Lemma settle_inv (c : nat) (r : Response) (s s' : CacheState) w w' :
  cache_inv s -> settle random_stream c r s w = (Ok s', w') -> cache_inv s'.
Proof.
  intros Hi. unfold settle. destruct (take_job c (pending s)) as [[j rest]|] eqn:Ht.
  2: { unfold m_ret. intros [= <- _]. exact Hi. }
  destruct (take_job_some _ _ _ _ Ht) as (Hj & Hjc & ->).
  destruct Hi as (Hlt & Hnd & Hload & Hv & Hc).
  assert (Hf : Forall (fun j0 => job_controller j0 < controllers s)
                 (filter (fun j' => negb (Nat.eqb (job_controller j') c)) (pending s))).
  { rewrite Forall_forall in *. intros x Hx. apply filter_In in Hx as [Hx _]. auto. }
  assert (Hout : forall j', In j' (filter (fun j' => negb (Nat.eqb (job_controller j') c)) (pending s)) ->
                 job_controller j' <> c).
  { intros j' Hj' E. apply filter_In in Hj' as [_ Hj']. rewrite E, Nat.eqb_refl in Hj'. discriminate. }
  destruct (aborted s c) eqn:Ha.
  - unfold m_ret. intros [= <- _]. repeat split; cbn; auto using NoDup_map_filter.
    + intros Hl. destruct (proj1 Hload Hl) as (j' & Hj' & Hcur). exists j'. split; [|exact Hcur].
      apply filter_In. split; [exact Hj'|]. apply negb_true_iff, Nat.eqb_neq. intros E.
      unfold aborted in Ha. rewrite Hcur, E, Nat.eqb_refl in Ha. discriminate.
    + intros (j' & Hj' & Hcur). apply Hload. exists j'. split; [|exact Hcur]. now apply filter_In in Hj' as [? _].
  - apply aborted_false in Ha.
    destruct (fetchVenues_ok (job_coords j) (job_tastes j) r w) as (d & w1 & Ed).
    unfold m_catch, m_bind. rewrite Ed. unfold m_ret. intros [= <- _].
    repeat split; cbn; auto using NoDup_map_filter; try discriminate.
    + intros (j' & Hj' & Hcur). rewrite Ha in Hcur. injection Hcur as Hcur. exfalso. now apply (Hout j' Hj').
    + exact (fetchVenues_nodup _ _ _ _ _ _ _ Ed).
    + apply map_Forall_insert_2; [exact (fetchVenues_nodup _ _ _ _ _ _ _ Ed)|exact Hc].
Qed.

Lemma settle_ok (c : nat) (r : Response) (s : CacheState) w :
  exists s' w', settle random_stream c r s w = (Ok s', w').
Proof.
  unfold settle. destruct (take_job c (pending s)) as [[j rest]|]; [|eexists; eexists; reflexivity].
  destruct (aborted s c); [eexists; eexists; reflexivity|].
  destruct (fetchVenues_ok (job_coords j) (job_tastes j) r w) as (d & w1 & Ed).
  unfold m_catch, m_bind. rewrite Ed. eexists; eexists; reflexivity.
Qed.

Lemma cache_step_inv (e : CacheEvent) (s : CacheState) w :
  cache_inv s -> exists s' w', cache_step number_toString random_stream e s w = (Ok s', w') /\ cache_inv s'.
Proof.
  intros Hi. destruct e as [coords tastes filters|c r| |]; cbn [cache_step].
  - do 2 eexists. split; [reflexivity|]. now apply loadVenues_inv.
  - destruct (settle_ok c r s w) as (s' & w' & E). exists s', w'. split; [exact E|]. exact (settle_inv _ _ _ _ _ _ Hi E).
  - do 2 eexists. split; [reflexivity|]. destruct Hi as (H1 & H2 & H3 & H4 & H5).
    exact (conj H1 (conj H2 (conj H3 (conj (NoDup_nil _) H5)))).
  - do 2 eexists. split; [reflexivity|]. destruct Hi as (H1 & H2 & H3 & H4 & H5).
    exact (conj H1 (conj H2 (conj H3 (conj H4 (map_Forall_empty _))))).
Qed.

(** Every run of the hook's events returns a state. *)
Lemma cache_run_ok (es : list CacheEvent) (s : CacheState) w :
  exists s' w', cache_run number_toString random_stream es s w = (Ok s', w').
Proof.
  revert s w; induction es as [|e es IH]; intros s w; cbn [cache_run]; [eauto|].
  assert (Hs : exists s1 w1, cache_step number_toString random_stream e s w = (Ok s1, w1)).
  { destruct e as [coords tastes filters|c r| |]; cbn [cache_step]; eauto using settle_ok. }
  destruct Hs as (s1 & w1 & E). unfold m_bind. rewrite E. apply IH.
Qed.

Lemma cache_run_app (es1 es2 : list CacheEvent) (s : CacheState) w :
  cache_run number_toString random_stream (es1 ++ es2) s w =
  match cache_run number_toString random_stream es1 s w with
  | (Ok s1, w1) => cache_run number_toString random_stream es2 s1 w1
  | (Throw e, w1) => (Throw e, w1)
  end.
Proof.
  revert s w; induction es1 as [|e es1 IH]; intros s w; [reflexivity|].
  cbn [app cache_run]. unfold m_bind.
  destruct (cache_step number_toString random_stream e s w) as [[s1|ex] w1]; [apply IH|reflexivity].
Qed.

(** The key sorts the taste ids and the filter entries before joining
    them. *)
Lemma key_perm (coords : Coords) (ids1 ids2 : list string) (f1 f2 : Filters) :
  Permutation ids1 ids2 -> Permutation f1 f2 ->
  createVenueCacheKey number_toString coords ids1 f1 = createVenueCacheKey number_toString coords ids2 f2.
Proof.
  intros Hi Hf. unfold createVenueCacheKey.
  rewrite (sort_strings_perm_eq _ _ Hi),
          (sort_strings_perm_eq _ _ (Permutation_map filter_entry (Permutation_filter_bool _ _ _ Hf))).
  reflexivity.
Qed.

Lemma fetchVenues_RespError (coords : Coords) (tastes : list Taste) :
  fetchVenues random_stream coords tastes RespError = generateMockVenues random_stream coords tastes.
Proof. reflexivity. Qed.

(** A load whose key is cached shows the cached list at once. *)
Lemma load_hit (coords : Coords) (tastes : list Taste) (filters : Filters) (s : CacheState) (v : list CVenue) :
  tastes <> [] ->
  cache s !! createVenueCacheKey number_toString coords (map taste_id tastes) filters = Some v ->
  loadVenues number_toString coords tastes filters s =
  mkCache v false None (cache s) (S (controllers s)) (Some (controllers s)) (pending s).
Proof. intros Hne Hk. destruct tastes as [|t ts]; [congruence|]. unfold loadVenues. now rewrite Hk. Qed.

(** A load that misses the cache, followed by the settling of its
    request: the venues of the response are shown and cached. *)
Lemma load_miss_settle (s : CacheState) (coords : Coords) (tastes : list Taste) (filters : Filters)
    (r : Response) w :
  cache_inv s -> tastes <> [] ->
  cache s !! createVenueCacheKey number_toString coords (map taste_id tastes) filters = None ->
  exists d w1, fetchVenues random_stream coords tastes r w = (Ok d, w1) /\
    cache_run number_toString random_stream [Load coords tastes filters; Settle (controllers s) r] s w =
    (Ok (mkCache d false None
           (<[createVenueCacheKey number_toString coords (map taste_id tastes) filters := d]> (cache s))
           (S (controllers s)) (Some (controllers s)) (pending s)), w1).
Proof.
  intros (Hlt & _) Hne Hk. destruct tastes as [|t ts]; [congruence|].
  destruct (fetchVenues_ok coords (t :: ts) r w) as (d & w1 & Ed). exists d, w1. split; [exact Ed|].
  cbn [cache_run cache_step]. unfold m_bind at 1, m_ret at 1. unfold loadVenues. rewrite Hk.
  unfold m_bind at 1. unfold settle.
  pose proof (take_job_last (pending s)
    (mkJob (controllers s) (createVenueCacheKey number_toString coords (map taste_id (t :: ts)) filters)
           coords (t :: ts)) Hlt) as Ht.
  cbn [job_controller] in Ht. cbn [pending controllers current]. rewrite Ht.
  unfold aborted. cbn [current]. rewrite Nat.eqb_refl. cbn [negb job_coords job_tastes job_key].
  unfold m_catch, m_bind. rewrite Ed. reflexivity.
Qed.

End StateFacts.

Lemma initialCache_inv : cache_inv initialCache.
Proof.
  refine (conj (Forall_nil _) (conj (NoDup_nil _) (conj _ (conj (NoDup_nil _) (map_Forall_empty _))))).
  split; [discriminate|intros (j & [] & _)].
Qed.

Section Properties.
Context (number_toString : Binary64.num -> string) (random_stream : nat -> Binary64.num) `{ArraySort}.

(** The cache key depends on the taste ids and the filters as sets:
    any order of the ids and of the filter entries gives the same key,
    since both are sorted before they are joined. *)
Theorem createVenueCacheKey_perm (coords : Coords) (ids1 ids2 : list string) (f1 f2 : Filters) :
  Permutation ids1 ids2 -> Permutation f1 f2 ->
  createVenueCacheKey number_toString coords ids1 f1 = createVenueCacheKey number_toString coords ids2 f2.
Proof. apply key_perm. Qed.

(** C9: every sequence of calls of the hook's functions and settlings of
    its requests runs without an exception and keeps the invariant: the
    requests in flight have distinct controllers; [loading] is set
    exactly while the current controller's request is in flight; no
    list of venues shown or cached repeats an id. *)
Theorem cache_run_inv (es : list CacheEvent) (s : CacheState) w :
  cache_inv s ->
  exists s' w', cache_run number_toString random_stream es s w = (Ok s', w') /\ cache_inv s'.
Proof.
  revert s w; induction es as [|e es IH]; intros s w Hi; cbn [cache_run].
  - exists s, w. split; [reflexivity|exact Hi].
  - destruct (cache_step_inv number_toString random_stream e s w Hi) as (s1 & w1 & E & Hi1).
    unfold m_bind. rewrite E. exact (IH s1 w1 Hi1).
Qed.

(** C13: a load that misses the cache stores the venues of its response
    under its key: afterwards [getCachedVenues] with the same coordinates
    and the taste ids and filters in any order returns the venues shown,
    which are those of the response, and [loading] is off. *)
Theorem load_settle_roundtrip (s s' : CacheState) (coords : Coords) (tastes : list Taste) (filters : Filters)
    (r : Response) w w' (ids' : list string) (filters' : Filters) :
  cache_inv s -> tastes <> [] ->
  cache s !! createVenueCacheKey number_toString coords (map taste_id tastes) filters = None ->
  cache_run number_toString random_stream [Load coords tastes filters; Settle (controllers s) r] s w = (Ok s', w') ->
  Permutation ids' (map taste_id tastes) -> Permutation filters' filters ->
  getCachedVenues number_toString s' coords ids' filters' = Some (venues s') /\ loading s' = false /\
  fetchVenues random_stream coords tastes r w = (Ok (venues s'), w').
Proof.
  intros Hi Hne Hk Hrun Hp Hf.
  destruct (load_miss_settle number_toString random_stream s coords tastes filters r w Hi Hne Hk)
    as (d & w1 & Ed & E). rewrite E in Hrun. injection Hrun as <- <-.
  unfold getCachedVenues. cbn [cache venues loading].
  rewrite (key_perm number_toString coords ids' (map taste_id tastes) filters' filters Hp Hf).
  split; [apply lookup_insert_eq|]. split; [reflexivity|exact Ed].
Qed.

(** The settling of an aborted request changes nothing the component
    shows or caches, and draws no random number. *)
Theorem settle_aborted (c : nat) (r : Response) (s : CacheState) w :
  aborted s c = true ->
  exists s', settle random_stream c r s w = (Ok s', w) /\ venues s' = venues s /\
    loading s' = loading s /\ error s' = error s /\ cache s' = cache s /\ current s' = current s.
Proof.
  intros Ha. unfold settle. destruct (take_job c (pending s)) as [[j rest]|].
  - rewrite Ha. eexists. split; [reflexivity|]. repeat split.
  - eexists. split; [reflexivity|]. repeat split.
Qed.

(** Clearing the tastes does not abandon the request in flight.  A
    load with no tastes only empties the list; when the earlier request
    settles, its venues are shown although the last call asked for
    none. *)
Theorem stale_after_clear (s s3 : CacheState) (coords coords' : Coords) (tastes : list Taste)
    (filters filters' : Filters) (r : Response) w w3 :
  cache_inv s -> tastes <> [] ->
  cache s !! createVenueCacheKey number_toString coords (map taste_id tastes) filters = None ->
  cache_run number_toString random_stream
    [Load coords tastes filters; Load coords' [] filters'; Settle (controllers s) r] s w = (Ok s3, w3) ->
  fetchVenues random_stream coords tastes r w = (Ok (venues s3), w3) /\ loading s3 = false.
Proof.
  intros (Hlt & _) Hne Hk Hrun. destruct tastes as [|t ts]; [congruence|].
  destruct (fetchVenues_ok random_stream coords (t :: ts) r w) as (d & w1 & Ed).
  cbn [cache_run cache_step] in Hrun.
  unfold loadVenues, with_venues, settle, m_catch, m_bind, m_ret in Hrun. rewrite Hk in Hrun.
  pose proof (take_job_last (pending s)
    (mkJob (controllers s) (createVenueCacheKey number_toString coords (map taste_id (t :: ts)) filters)
           coords (t :: ts)) Hlt) as Ht.
  cbn [job_controller] in Ht. cbn [pending controllers current venues] in Hrun. rewrite Ht in Hrun.
  unfold aborted in Hrun. cbn [current] in Hrun. rewrite Nat.eqb_refl in Hrun.
  cbn [negb job_coords job_tastes] in Hrun. rewrite Ed in Hrun.
  injection Hrun as <- <-. split; [exact Ed|reflexivity].
Qed.

(** C18: a failed request is cached as if it had succeeded.  When the
    request of a load fails, [fetchVenues] returns generated mock venues
    and [loadVenues] stores them under the key; the next load of the same
    coordinates, tastes (in any order) and filters shows the mock venues
    at once, with no error and no new request, and never retries. *)
Theorem failure_cached (s s2 : CacheState) (coords : Coords) (tastes tastes' : list Taste)
    (filters : Filters) w w2 :
  cache_inv s -> tastes <> [] ->
  cache s !! createVenueCacheKey number_toString coords (map taste_id tastes) filters = None ->
  Permutation (map taste_id tastes') (map taste_id tastes) ->
  cache_run number_toString random_stream
    [Load coords tastes filters; Settle (controllers s) RespError; Load coords tastes' filters] s w = (Ok s2, w2) ->
  generateMockVenues random_stream coords tastes w = (Ok (venues s2), w2) /\
  loading s2 = false /\ error s2 = None /\ pending s2 = pending s.
Proof.
  intros Hi Hne Hk Hp Hrun.
  destruct (load_miss_settle number_toString random_stream s coords tastes filters RespError w Hi Hne Hk)
    as (d & w1 & Ed & E).
  change [Load coords tastes filters; Settle (controllers s) RespError; Load coords tastes' filters]
    with ([Load coords tastes filters; Settle (controllers s) RespError] ++ [Load coords tastes' filters]) in Hrun.
  rewrite cache_run_app, E in Hrun. cbn [cache_run cache_step] in Hrun. unfold m_bind, m_ret in Hrun.
  assert (Hne' : tastes' <> []).
  { intros ->. apply Permutation_nil in Hp. destruct tastes; [now destruct Hne|discriminate Hp]. }
  rewrite (load_hit number_toString coords tastes' filters _ d Hne') in Hrun.
  2: { cbn [cache]. rewrite (key_perm number_toString coords _ _ filters filters Hp (Permutation_refl _)).
       apply lookup_insert_eq. }
  injection Hrun as <- <-. rewrite fetchVenues_RespError in Ed. cbn [venues loading error pending].
  split; [exact Ed|]. repeat split.
Qed.

(** The id of a venue built from an entity of the response is a
    round trip: the cluster and entity indices it ends with read back as
    the indices the entity was built from, whatever its name. *)
Theorem entity_id_roundtrip (e : Entity) (ci ei : nat) :
  parse_suffix (entity_id e ci ei) = Some (ci, ei).
Proof. apply parse_entity_id. Qed.

End Properties.

(** *** Witnesses *)

#[local] Existing Instance V8Sort.v8_sort.

Definition w0 : World := mkWorld 0 0.

Lemma createVenueCacheKey_perm_witness :
  createVenueCacheKey no_big sample_coords ["jazz"; "art"]%string sample_filters =
  createVenueCacheKey no_big sample_coords ["art"; "jazz"]%string (rev sample_filters).
Proof. apply createVenueCacheKey_perm; [apply perm_swap|apply Permutation_rev]. Defined.

Lemma cache_run_inv_witness :
  exists s' w', cache_run no_big half_stream
    [Load sample_coords [sample_taste] sample_filters; Settle 0 RespError; ClearCache] initialCache w0 = (Ok s', w') /\
    cache_inv s'.
Proof. apply cache_run_inv. exact initialCache_inv. Defined.

Lemma load_settle_roundtrip_witness :
  exists s' w', cache_run no_big half_stream
    [Load sample_coords [sample_taste; other_taste] sample_filters; Settle 0 RespError] initialCache w0 = (Ok s', w') /\
    getCachedVenues no_big s' sample_coords ["art"; "jazz"]%string (rev sample_filters) = Some (venues s') /\
    loading s' = false /\
    fetchVenues half_stream sample_coords [sample_taste; other_taste] RespError w0 = (Ok (venues s'), w').
Proof.
  destruct (cache_run_ok no_big half_stream
    [Load sample_coords [sample_taste; other_taste] sample_filters; Settle 0 RespError] initialCache w0)
    as (s' & w' & E).
  exists s', w'. split; [exact E|].
  apply (load_settle_roundtrip no_big half_stream initialCache s' sample_coords _ sample_filters RespError w0 w');
    [exact initialCache_inv|discriminate|apply lookup_empty|exact E|apply perm_swap|apply Permutation_sym, Permutation_rev].
Defined.

Lemma settle_aborted_witness :
  aborted initialCache 0 = true /\
  exists s', settle half_stream 0 RespError initialCache w0 = (Ok s', w0) /\ venues s' = venues initialCache /\
    loading s' = loading initialCache /\ error s' = error initialCache /\ cache s' = cache initialCache /\
    current s' = current initialCache.
Proof. split; [reflexivity|]. apply settle_aborted. reflexivity. Defined.

Lemma stale_after_clear_witness :
  exists s3 w3, cache_run no_big half_stream
    [Load sample_coords [sample_taste] sample_filters; Load sample_coords [] []; Settle 0 RespError]
    initialCache w0 = (Ok s3, w3) /\
    fetchVenues half_stream sample_coords [sample_taste] RespError w0 = (Ok (venues s3), w3) /\ loading s3 = false.
Proof.
  destruct (cache_run_ok no_big half_stream
    [Load sample_coords [sample_taste] sample_filters; Load sample_coords [] []; Settle 0 RespError] initialCache w0)
    as (s3 & w3 & E).
  exists s3, w3. split; [exact E|].
  exact (stale_after_clear no_big half_stream initialCache s3 sample_coords sample_coords [sample_taste]
           sample_filters [] RespError w0 w3 initialCache_inv ltac:(discriminate) (lookup_empty _) E).
Defined.

Lemma failure_cached_witness :
  exists s2 w2, cache_run no_big half_stream
    [Load sample_coords [sample_taste; other_taste] sample_filters; Settle 0 RespError;
     Load sample_coords [other_taste; sample_taste] sample_filters] initialCache w0 = (Ok s2, w2) /\
    generateMockVenues half_stream sample_coords [sample_taste; other_taste] w0 = (Ok (venues s2), w2) /\
    loading s2 = false /\ error s2 = None /\ pending s2 = [].
Proof.
  destruct (cache_run_ok no_big half_stream
    [Load sample_coords [sample_taste; other_taste] sample_filters; Settle 0 RespError;
     Load sample_coords [other_taste; sample_taste] sample_filters] initialCache w0)
    as (s2 & w2 & E).
  exists s2, w2. split; [exact E|].
  refine (failure_cached no_big half_stream initialCache s2 sample_coords [sample_taste; other_taste]
            [other_taste; sample_taste] sample_filters w0 w2 initialCache_inv _ (lookup_empty _) _ E);
    [discriminate|apply perm_swap].
Defined.

End VenueCache.
