(* ===== verification/MapData.v ===== *)
(** * The heat-map data hook

    [src/culturis-studio/src/hooks/useMapData.js]: the hook that fills
    the cultural heat map.  [generateHexGrid] lays a grid of
    [(2g + 1)^2] hexagons around the map centre; [generateHeatData]
    asks the backend for the insight of every hexagon
    ([fetchHexInsights], through a [Map] cache keyed by the rounded
    coordinates and the sorted taste ids) and publishes the results ten
    at a time, waiting 100 ms between batches.  A new call aborts the
    one in flight.

    [generateHeatData] is split at its [await]s, as a state machine: the
    call itself runs up to the first [await]; a settled request
    ([ReqSettle]) runs the rest of its [fetchHexInsights]; [Resume]
    runs the loop after [Promise.all] of the current batch has settled,
    [Timer] after the 100 ms timeout.  A [hexPromises] entry is a
    [HexPromise]: resolved with its hexagon, waiting for a request, or
    rejected with an [AbortError].  The request of a hexagon is aborted
    exactly when a later call replaced its controller.

    The zoom is an integer (Leaflet's default [zoomSnap]); the responses
    are inputs; [Number::toString] of doubles beyond [10^21], which
    [toFixed] uses, is the parameter [number_toString]. *)
From S2P Require Import Prelude JsNumber JsString Venue VenueCache.
From stdpp Require Import base list gmap strings.
From Corelib Require Import SpecFloat.
From Stdlib Require Import String List ZArith Lia Bool.
Import ListNotations.
Import Venue.

Module MapData.

(** ** The hex grid (lines 17-46) *)

(** A hexagon: [{id, coords, lift}] as the grid builds it, and
    [{...hex, lift, clusters}] once its insight is known. *)
Record Hex : Type := mkHex {
  hex_id : string;
  hex_coords : VenueCache.Coords;
  hex_lift : Binary64.num;
  hex_clusters : option (list VenueCache.Cluster)
}.

(** [Math.max(3, Math.min(8, 12 - zoom))]. *)
Definition gridSize (zoom : Z) : Z := Z.max 3 (Z.min 8 (12 - zoom)).

(** [2 ** k] for an integer [k]: a power of two, exact in binary64. *)
Definition pow2 (k : Z) : Binary64.num :=
  if (0 <=? k)%Z then Binary64.of_Z (2 ^ k) else Binary64.lit 1 (2 ^ (- k)).

(** The integers [a], [a + 1], ..., [a + n - 1]: the values a [for]
    loop's counter takes. *)
Fixpoint zrange (a : Z) (n : nat) : list Z :=
  match n with
  | O => []
  | S n' => a :: zrange (a + 1) n'
  end.

Section Keys.
Context (number_toString : Binary64.num -> string).

Definition toFixed4 (x : Binary64.num) : string := JsString.toFixed number_toString 4 x.

(** The body of the inner loop (lines 31-41).  [i % 2] is [-1] on a
    negative odd row, so those rows shift by [-0.5], the positive odd
    rows by [+0.5]. *)
Definition hex_at (lat lng latRange lngRange : Binary64.num) (i j : Z) : Hex :=
  let rowOffset := Binary64.mul (Binary64.of_Z (Z.rem i 2)) (Binary64.lit 1 2) in
  let hexLat := Binary64.add lat (Binary64.mul (Binary64.mul (Binary64.of_Z i) latRange) (Binary64.lit 866 1000)) in
  let hexLng := Binary64.add lng (Binary64.mul (Binary64.add (Binary64.of_Z j) rowOffset) lngRange) in
  mkHex (toFixed4 hexLat ++ "_" ++ toFixed4 hexLng)%string (VenueCache.mkCoords hexLat hexLng)
        (Binary64.of_Z 0) None.

(** [generateHexGrid(center, zoom)] (lines 17-46); [radius] is unused. *)
Definition generateHexGrid (center : Binary64.num * Binary64.num) (zoom : Z) : list Hex :=
  let g := gridSize zoom in
  let lat := fst center in
  let lng := snd center in
  let latRange := Binary64.mul (Binary64.lit 1 100) (pow2 (12 - zoom)) in
  let lngRange := Binary64.mul (Binary64.lit 1 100) (pow2 (12 - zoom)) in
  let rows := zrange (- g) (Z.to_nat (2 * g + 1)) in
  flat_map (fun i => map (fun j => hex_at lat lng latRange lngRange i j) rows) rows.

(** [createCacheKey(coords, tasteIds)] (lines 49-53). *)
Definition createCacheKey (coords : VenueCache.Coords) (tasteIds : list string) : string :=
  (toFixed4 (VenueCache.lat coords) ++ "_" ++ toFixed4 (VenueCache.lng coords) ++ "|" ++
   JsString.join "|" (VenueCache.sort_strings tasteIds))%string.

End Keys.

(** ** Insights (lines 85-111) *)

Record Insight : Type := mkInsight {
  ins_lift : Binary64.num;
  ins_clusters : list VenueCache.Cluster
}.

(** [sum + cluster.lift_score]: an absent score is [undefined], which
    [+] turns into [NaN]. *)
Definition lift_of (c : VenueCache.Cluster) : Binary64.num :=
  match VenueCache.lift_score c with Some x => x | None => S754_nan end.

(** [clusters.reduce((sum, c) => sum + c.lift_score, 0) / clusters.length]. *)
Definition avgLift (clusters : list VenueCache.Cluster) : Binary64.num :=
  Binary64.div (fold_left (fun sum c => Binary64.add sum (lift_of c)) clusters (Binary64.of_Z 0))
               (Binary64.of_Z (Z.of_nat (length clusters))).

(** [Math.random() * 60 + 10]. *)
Definition random_lift (r : Binary64.num) : Binary64.num :=
  Binary64.add (Binary64.mul r (Binary64.of_Z 60)) (Binary64.of_Z 10).

(** [{...hex, lift: insights.lift, clusters: insights.clusters}]. *)
Definition with_insight (h : Hex) (ins : Insight) : Hex :=
  mkHex (hex_id h) (hex_coords h) (ins_lift ins) (Some (ins_clusters ins)).

Section WithRandom.
Context (random_stream : nat -> Binary64.num).

(** The rest of [fetchHexInsights] once its request settles without an
    abort (lines 81-111): the average lift of the clusters, or a random
    lift when there are none or the request failed. *)
Definition insight_of (r : VenueCache.Response) : M World Insight :=
  match r with
  | VenueCache.RespData cl =>
      let clusters := default [] cl in
      if 0 <? length clusters then ret (mkInsight (avgLift clusters) clusters)
      else x <- Math_random random_stream ;; ret (mkInsight (random_lift x) clusters)
  | VenueCache.RespError =>
      x <- Math_random random_stream ;; ret (mkInsight (random_lift x) [])
  end.

End WithRandom.

(** ** The hook's state *)

(** An entry of [hexPromises]. *)
Inductive HexPromise : Type :=
| PDone (h : Hex)
| PWait (req : nat)
| PAbort.

(** A request in flight: its number, its controller and its cache key. *)
Record Req : Type := mkReq { req_id : nat; req_ctrl : nat; req_key : string }.

(** Where a running [generateHeatData] waits: on [Promise.all] of the
    batch at [gen_i], or on the 100 ms timeout after it. *)
Inductive Phase : Type := AwaitBatch | AwaitTimer.

(** A running call of [generateHeatData]: its controller, [hexGrid],
    [hexPromises], the loop index [i], [results] and where it waits. *)
Record Gen : Type := mkGen {
  gen_ctrl : nat;
  gen_hexes : list Hex;
  gen_promises : list HexPromise;
  gen_i : nat;
  gen_results : list Hex;
  gen_phase : Phase
}.

(** [heatData], [loading], [error] (lines 8-10), [cacheRef] (line 13),
    [abortControllerRef] (line 14) as the current controller among the
    [controllers] created, the requests in flight and the running
    calls. *)
Record HeatState : Type := mkHeat {
  heatData : list Hex;
  loading : bool;
  error : option string;
  cache : gmap string Insight;
  controllers : nat;
  current : option nat;
  reqs : list Req;
  next_req : nat;
  gens : list Gen
}.

Definition initialHeat : HeatState := mkHeat [] false None ∅ 0 None [] 0 [].

Definition aborted (s : HeatState) (c : nat) : bool :=
  match current s with Some c' => negb (Nat.eqb c c') | None => true end.

Definition with_heat (hs : list Hex) (s : HeatState) : HeatState :=
  mkHeat hs (loading s) (error s) (cache s) (controllers s) (current s) (reqs s) (next_req s) (gens s).

Definition with_loading (b : bool) (s : HeatState) : HeatState :=
  mkHeat (heatData s) b (error s) (cache s) (controllers s) (current s) (reqs s) (next_req s) (gens s).

Definition with_gens (gs : list Gen) (s : HeatState) : HeatState :=
  mkHeat (heatData s) (loading s) (error s) (cache s) (controllers s) (current s) (reqs s) (next_req s) gs.

Definition find_gen (c : nat) (s : HeatState) : option Gen :=
  find (fun g => Nat.eqb (gen_ctrl g) c) (gens s).

Definition set_gen (g : Gen) (s : HeatState) : HeatState :=
  with_gens (map (fun g' => if Nat.eqb (gen_ctrl g') (gen_ctrl g) then g else g') (gens s)) s.

Definition drop_gen (c : nat) (s : HeatState) : HeatState :=
  with_gens (filter (fun g => negb (Nat.eqb (gen_ctrl g) c)) (gens s)) s.

Definition at_batch (g : Gen) (i : nat) (results : list Hex) (ph : Phase) : Gen :=
  mkGen (gen_ctrl g) (gen_hexes g) (gen_promises g) i results ph.

(** ** The operations *)

Section Hook.
Context (number_toString : Binary64.num -> string).

(** [hexGrid.map(async (hex) => ...)] (lines 139-159) up to the first
    [await] of each [fetchHexInsights]: a cached key resolves at once
    (lines 60-62), any other starts a request (line 79) numbered from
    [next].  Every callback runs before any request settles, so the
    cache is the same for all of them. *)
Fixpoint start_promises (c : nat) (tasteIds : list string) (cache : gmap string Insight) (next : nat)
    (hs : list Hex) : list HexPromise * list Req * nat :=
  match hs with
  | [] => ([], [], next)
  | h :: hs' =>
      let key := createCacheKey number_toString (hex_coords h) tasteIds in
      match cache !! key with
      | Some ins =>
          let '(ps, rs, n) := start_promises c tasteIds cache next hs' in
          (PDone (with_insight h ins) :: ps, rs, n)
      | None =>
          let '(ps, rs, n) := start_promises c tasteIds cache (S next) hs' in
          (PWait next :: ps, mkReq next c key :: rs, n)
      end
  end.

(** The [for] loop of lines 165-184 at index [i], and what follows it:
    an aborted call returns (line 168); otherwise it awaits the batch
    at [i]; past the end it publishes [results] (lines 186-188) and the
    [finally] block clears [loading] (lines 194-198), both unless
    aborted. *)
Definition loop_at (g : Gen) (i : nat) (results : list Hex) (s : HeatState) : HeatState :=
  let c := gen_ctrl g in
  if i <? length (gen_promises g) then
    if aborted s c then drop_gen c s
    else set_gen (at_batch g i results AwaitBatch) s
  else
    let s1 := if aborted s c then s else with_heat results s in
    let s2 := if aborted s1 c then s1 else with_loading false s1 in
    drop_gen c s2.

(** [generateHeatData(center, zoom)] up to its first [await] (lines
    116-172), with the [selectedTastes] of the render that created it:
    fewer than three tastes empty the heat data and return; otherwise
    [loading] is set, the current controller aborted and replaced, and
    every hexagon's [fetchHexInsights] started. *)
Definition generateHeatData (selectedTastes : list Taste) (center : Binary64.num * Binary64.num) (zoom : Z)
    (s : HeatState) : HeatState :=
  if length selectedTastes <? 3 then with_heat [] s
  else
    let c := controllers s in
    let hexGrid := generateHexGrid number_toString center zoom in
    let tasteIds := map taste_id selectedTastes in
    let '(hexPromises, rs, n) := start_promises c tasteIds (cache s) (next_req s) hexGrid in
    let g := mkGen c hexGrid hexPromises 0 [] AwaitBatch in
    loop_at g 0 []
      (mkHeat (heatData s) true None (cache s) (S c) (Some c) (reqs s ++ rs) n (gens s ++ [g])).

(** [getCachedInsight(coords, tasteIds)] (lines 207-210). *)
Definition getCachedInsight (s : HeatState) (coords : VenueCache.Coords) (tasteIds : list string) :
    option Insight :=
  cache s !! createCacheKey number_toString coords tasteIds.

End Hook.

(** The batch [hexPromises.slice(i, i + batchSize)] (line 171). *)
Definition batchSize : nat := 10.

Definition batch (g : Gen) : list HexPromise := firstn batchSize (skipn (gen_i g) (gen_promises g)).

(** [Promise.all(batch)]: rejected as soon as one promise is, resolved
    with the hexagons once all are. *)
Definition any_abort (ps : list HexPromise) : bool :=
  existsb (fun p => match p with PAbort => true | _ => false end) ps.

Fixpoint all_done (ps : list HexPromise) : option (list Hex) :=
  match ps with
  | [] => Some []
  | PDone h :: ps' => option_map (cons h) (all_done ps')
  | _ => None
  end.

(** The [catch] of lines 188-193: an error other than an [AbortError]
    is logged and stored as the hook's error.  A hex promise rejects
    only with an [AbortError] (its own [catch], lines 147-150, turns
    every other failure of [fetchHexInsights] into a random lift), and
    the rest of the [try] throws only on a [null] taste or centre,
    which the model's types exclude; so the batch loop reaches the
    [catch] with an [AbortError] only. *)
Definition catch_error (isAbortError : bool) (s : HeatState) : HeatState :=
  if isAbortError then s
  else mkHeat (heatData s) (loading s) (Some "Failed to load cultural heat map"%string) (cache s)
              (controllers s) (current s) (reqs s) (next_req s) (gens s).

(** The loop after [await Promise.all(batch)] of the call of controller
    [c] (lines 172-198): a rejection is an [AbortError], which the
    [catch] passes over, then [finally]; otherwise the results grow by
    the batch and are published unless aborted, and the loop waits
    100 ms when a batch follows and the call is not aborted. *)
Definition resume (c : nat) (s : HeatState) : HeatState :=
  match find_gen c s with
  | Some g =>
      match gen_phase g with
      | AwaitBatch =>
          if any_abort (batch g) then
            let s1 := catch_error true (drop_gen c s) in
            if aborted s c then s1 else with_loading false s1
          else
            match all_done (batch g) with
            | None => s
            | Some batchResults =>
                let results := gen_results g ++ batchResults in
                let s1 := if aborted s c then s else with_heat results s in
                if (gen_i g + batchSize <? length (gen_promises g)) && negb (aborted s1 c) then
                  set_gen (at_batch g (gen_i g) results AwaitTimer) s1
                else loop_at g (gen_i g + batchSize) results s1
            end
      | AwaitTimer => s
      end
  | None => s
  end.

(** The 100 ms timeout of line 182 fires: the loop goes on at
    [i + batchSize]. *)
Definition timer (c : nat) (s : HeatState) : HeatState :=
  match find_gen c s with
  | Some g =>
      match gen_phase g with
      | AwaitTimer => loop_at g (gen_i g + batchSize) (gen_results g) s
      | AwaitBatch => s
      end
  | None => s
  end.

(** Settle the promise waiting for request [id] in every running call. *)
Definition resolve_req (id : nat) (f : Hex -> HexPromise) (g : Gen) : Gen :=
  mkGen (gen_ctrl g) (gen_hexes g)
        (zip_with (fun h p => match p with PWait id' => if Nat.eqb id id' then f h else p | _ => p end)
                  (gen_hexes g) (gen_promises g))
        (gen_i g) (gen_results g) (gen_phase g).

Section Events.
Context (number_toString : Binary64.num -> string) (random_stream : nat -> Binary64.num).

(** Request [id] settles with [r] (lines 79-112 after the [await]): an
    aborted request rejects with an [AbortError], which
    [fetchHexInsights] and the hexagon's callback rethrow (lines 100-102
    and 148-150); otherwise the insight is cached (lines 96 and 110)
    and the hexagon's promise resolves with it. *)
Definition settle_req (id : nat) (r : VenueCache.Response) (s : HeatState) : M World HeatState :=
  match find (fun q => Nat.eqb (req_id q) id) (reqs s) with
  | None => ret s
  | Some q =>
      let rest := filter (fun q' => negb (Nat.eqb (req_id q') id)) (reqs s) in
      if aborted s (req_ctrl q) then
        ret (mkHeat (heatData s) (loading s) (error s) (cache s) (controllers s) (current s) rest
                    (next_req s) (map (resolve_req id (fun _ => PAbort)) (gens s)))
      else
        ins <- insight_of random_stream r ;;
        ret (mkHeat (heatData s) (loading s) (error s) (<[req_key q := ins]> (cache s)) (controllers s)
                    (current s) rest (next_req s)
                    (map (resolve_req id (fun h => PDone (with_insight h ins))) (gens s)))
  end.

Inductive HeatEvent : Type :=
| Generate (selectedTastes : list Taste) (center : Binary64.num * Binary64.num) (zoom : Z)
| ReqSettle (id : nat) (r : VenueCache.Response)
| Resume (c : nat)
| Timer (c : nat)
| ClearCache.

Definition heat_step (e : HeatEvent) (s : HeatState) : M World HeatState :=
  match e with
  | Generate ts center zoom => ret (generateHeatData number_toString ts center zoom s)
  | ReqSettle id r => settle_req id r s
  | Resume c => ret (resume c s)
  | Timer c => ret (timer c s)
  | ClearCache =>
      ret (mkHeat (heatData s) (loading s) (error s) ∅ (controllers s) (current s) (reqs s) (next_req s) (gens s))
  end.

Fixpoint heat_run (es : list HeatEvent) (s : HeatState) : M World HeatState :=
  match es with
  | [] => ret s
  | e :: es' => s' <- heat_step e s ;; heat_run es' s'
  end.

End Events.

(** ** Reference definitions and samples *)

(** The invariant of the hook's state: the requests in flight have
    distinct numbers, all issued, and controllers all created; the
    running calls have distinct controllers, all created; [loading] is
    set exactly while the current controller's call runs. *)
Definition heat_inv (s : HeatState) : Prop :=
  Forall (fun q => req_id q < next_req s /\ req_ctrl q < controllers s) (reqs s) /\
  NoDup (map req_id (reqs s)) /\
  Forall (fun c => c < controllers s) (map gen_ctrl (gens s)) /\
  NoDup (map gen_ctrl (gens s)) /\
  (loading s = true <-> exists c, current s = Some c /\ In c (map gen_ctrl (gens s))).

(** A promise of the hexagon [h] that is resolved with an insight or
    waits for one of the requests [L]. *)
Definition waiting (L : list nat) (h : Hex) (p : HexPromise) : Prop :=
  (exists ins, p = PDone (with_insight h ins)) \/ (exists id, p = PWait id /\ In id L).

(** The settling of requests [next], [next + 1], ... with the given
    responses, in that order. *)
Definition settle_events (next : nat) (resps : list VenueCache.Response) : list HeatEvent :=
  zip_with ReqSettle (seq next (length resps)) resps.

(** [nb] rounds of the loop of the call of controller [c]: the batch
    settles, then the timeout fires. *)
Fixpoint batch_events (c : nat) (nb : nat) : list HeatEvent :=
  match nb with
  | O => []
  | S nb' => Resume c :: Timer c :: batch_events c nb'
  end.

Definition sample_center : Binary64.num * Binary64.num :=
  (Binary64.lit 407589 10000, Binary64.lit (-739851) 10000).
Definition sample_tastes : list Taste :=
  [mkTaste "jazz" "Jazz" "#8e44ad"; mkTaste "art" "Art" "#e67e22"; mkTaste "food" "Food" "#27ae60"]%string.

(** ** Lemmas *)

Lemma length_zrange (a : Z) (n : nat) : length (zrange a n) = n.
Proof. revert a; induction n as [|n IH]; intros a; cbn; [reflexivity|now rewrite IH]. Qed.

Lemma gridSize_bounds (zoom : Z) : (3 <= gridSize zoom <= 8)%Z.
Proof. unfold gridSize. lia. Qed.

Lemma length_generateHexGrid (nts : Binary64.num -> string) (center : Binary64.num * Binary64.num) (zoom : Z) :
  length (generateHexGrid nts center zoom) =
  Z.to_nat (2 * gridSize zoom + 1) * Z.to_nat (2 * gridSize zoom + 1).
Proof.
  unfold generateHexGrid. cbv zeta.
  rewrite (length_flat_map_const _ _ (Z.to_nat (2 * gridSize zoom + 1)));
    [now rewrite length_zrange|intros i; now rewrite length_map, length_zrange].
Qed.

Lemma start_promises_spec (nts : Binary64.num -> string) (c : nat) (ids : list string)
    (cache : gmap string Insight) (next : nat) (hs : list Hex) ps rs n :
  start_promises nts c ids cache next hs = (ps, rs, n) ->
  length ps = length hs /\ next <= n /\ map req_id rs = seq next (n - next) /\
  Forall (fun q => req_ctrl q = c) rs.
Proof.
  revert next ps rs n; induction hs as [|h hs IH]; intros next ps rs n; cbn [start_promises].
  - intros [= <- <- <-]. cbn. rewrite Nat.sub_diag. repeat split; [lia|constructor].
  - destruct (cache !! _) as [ins|].
    + destruct (start_promises nts c ids cache next hs) as [[ps' rs'] n'] eqn:E. intros [= <- <- <-].
      destruct (IH _ _ _ _ E) as (L & Hn & Hid & Hc). cbn. now rewrite L.
    + destruct (start_promises nts c ids cache (S next) hs) as [[ps' rs'] n'] eqn:E. intros [= <- <- <-].
      destruct (IH _ _ _ _ E) as (L & Hn & Hid & Hc). cbn. rewrite L, Hid.
      replace (n' - next) with (S (n' - S next)) by lia. repeat split; [lia|constructor; auto].
Qed.

(** With nothing cached, every hexagon starts a request, numbered in
    grid order. *)
Lemma start_promises_empty (nts : Binary64.num -> string) (c : nat) (ids : list string) (next : nat)
    (hs : list Hex) ps rs n :
  start_promises nts c ids ∅ next hs = (ps, rs, n) ->
  ps = map PWait (seq next (length hs)) /\ n = next + length hs.
Proof.
  revert next ps rs n; induction hs as [|h hs IH]; intros next ps rs n; cbn [start_promises].
  - intros [= <- <- <-]. cbn. split; [reflexivity|lia].
  - rewrite lookup_empty.
    destruct (start_promises nts c ids ∅ (S next) hs) as [[ps' rs'] n'] eqn:E. intros [= <- <- <-].
    destruct (IH _ _ _ _ E) as [-> ->]. split; [reflexivity|cbn; lia].
Qed.

Lemma heat_aborted_false (s : HeatState) (c : nat) : aborted s c = false <-> current s = Some c.
Proof.
  unfold aborted. destruct (current s) as [c'|]; split; try discriminate.
  - intros H. apply negb_false_iff, Nat.eqb_eq in H. now subst.
  - intros [= ->]. now rewrite Nat.eqb_refl.
Qed.

Lemma gens_set_gen (g : Gen) (s : HeatState) :
  map gen_ctrl (gens (set_gen g s)) = map gen_ctrl (gens s).
Proof.
  cbn. rewrite map_map. apply map_ext. intros g'. now destruct (Nat.eqb_spec (gen_ctrl g') (gen_ctrl g)).
Qed.

Lemma gens_drop_gen (c : nat) (s : HeatState) :
  map gen_ctrl (gens (drop_gen c s)) = filter (fun c' => negb (Nat.eqb c' c)) (map gen_ctrl (gens s)).
Proof. exact (map_filter_proj gen_ctrl (fun c' => negb (Nat.eqb c' c)) (gens s)). Qed.

(** The invariant reads the running calls only through their
    controllers. *)
Lemma heat_inv_gens (s : HeatState) (gs : list Gen) :
  heat_inv s -> map gen_ctrl gs = map gen_ctrl (gens s) -> heat_inv (with_gens gs s).
Proof. intros Hi E. unfold heat_inv in *. cbn. now rewrite E. Qed.

Lemma heat_inv_with_heat (s : HeatState) (hs : list Hex) : heat_inv s -> heat_inv (with_heat hs s).
Proof. exact (fun H => H). Qed.

Lemma In_filter_neq (c c' : nat) (l : list nat) :
  c' <> c -> In c' (filter (fun x => negb (Nat.eqb x c)) l) <-> In c' l.
Proof.
  intros Hne. rewrite filter_In. apply Nat.eqb_neq in Hne. rewrite Hne. tauto.
Qed.

(** Dropping an aborted call keeps the invariant. *)
Lemma heat_inv_drop_aborted (s : HeatState) (c : nat) :
  heat_inv s -> aborted s c = true -> heat_inv (drop_gen c s).
Proof.
  intros (H1 & H2 & H3 & H4 & H5) Ha. unfold heat_inv. rewrite gens_drop_gen. cbn [reqs next_req controllers loading current drop_gen with_gens].
  refine (conj H1 (conj H2 (conj (Forall_filter_bool _ _ _ H3) (conj (NoDup_filter _ H4) _)))).
  rewrite H5. unfold aborted in Ha. split; intros (c' & Hc & Hin); exists c'; split; try exact Hc;
    rewrite Hc in Ha; apply negb_true_iff, Nat.eqb_neq in Ha;
    [apply In_filter_neq; auto|exact (proj1 (In_filter_neq c c' _ (not_eq_sym Ha)) Hin)].
Qed.

(** Dropping the current call and clearing [loading] keeps it. *)
Lemma heat_inv_drop_current (s : HeatState) (c : nat) :
  heat_inv s -> current s = Some c -> heat_inv (with_loading false (drop_gen c s)).
Proof.
  intros (H1 & H2 & H3 & H4 & H5) Hc. unfold heat_inv.
  change (gens (with_loading false (drop_gen c s))) with (gens (drop_gen c s)). rewrite gens_drop_gen.
  cbn [with_loading drop_gen with_gens reqs next_req controllers loading current].
  refine (conj H1 (conj H2 (conj (Forall_filter_bool _ _ _ H3) (conj (NoDup_filter _ H4) _)))).
  split; [discriminate|]. intros (c' & Hc' & Hin). rewrite Hc in Hc'. injection Hc' as <-.
  apply filter_In in Hin as [_ Hin]. now rewrite Nat.eqb_refl in Hin.
Qed.

Lemma heat_inv_loop_at (g : Gen) (i : nat) (results : list Hex) (s : HeatState) :
  heat_inv s -> heat_inv (loop_at g i results s).
Proof.
  intros Hi. unfold loop_at. destruct (i <? length (gen_promises g)).
  - destruct (aborted s (gen_ctrl g)) eqn:Ha; [exact (heat_inv_drop_aborted _ _ Hi Ha)|].
    exact (heat_inv_gens _ _ Hi (gens_set_gen _ _)).
  - destruct (aborted s (gen_ctrl g)) eqn:Ha; rewrite ?Ha; [exact (heat_inv_drop_aborted _ _ Hi Ha)|].
    change (aborted (with_heat results s) (gen_ctrl g)) with (aborted s (gen_ctrl g)). rewrite Ha.
    apply heat_aborted_false in Ha.
    exact (heat_inv_drop_current (with_heat results s) _ (heat_inv_with_heat _ _ Hi) Ha).
Qed.

Lemma heat_inv_generate (nts : Binary64.num -> string) (ts : list Taste) (center : Binary64.num * Binary64.num)
    (zoom : Z) (s : HeatState) :
  heat_inv s -> heat_inv (generateHeatData nts ts center zoom s).
Proof.
  intros Hi. unfold generateHeatData. destruct (length ts <? 3); [exact (heat_inv_with_heat _ _ Hi)|].
  destruct (start_promises nts _ _ _ _ _) as [[ps rs] n] eqn:E. apply heat_inv_loop_at.
  destruct (start_promises_spec _ _ _ _ _ _ _ _ _ E) as (_ & Hn & Hid & Hc).
  destruct Hi as (H1 & H2 & H3 & H4 & _). unfold heat_inv. cbn [reqs next_req controllers loading current gens].
  rewrite !map_app. cbn [map gen_ctrl]. repeat split.
  - apply Forall_app. split.
    + eapply Forall_impl; [|exact H1]. cbn. intros q [? ?]. lia.
    + rewrite Forall_forall in Hc |- *. intros q Hq. split; [|rewrite (Hc q Hq); lia].
      assert (Hin : In (req_id q) (seq (next_req s) (n - next_req s))) by (rewrite <- Hid; now apply in_map).
      apply in_seq in Hin. lia.
  - rewrite Hid. apply NoDup_app; [exact H2|apply seq_NoDup|].
    intros x Hx Hs. apply in_seq in Hs. apply in_map_iff in Hx as (q & <- & Hq).
    rewrite Forall_forall in H1. specialize (H1 q Hq). lia.
  - apply Forall_app. split; [eapply Forall_impl; [|exact H3]; cbn; lia|repeat constructor; lia].
  - apply NoDup_app; [exact H4|repeat constructor; easy|].
    intros x Hx [<-|[]]. rewrite Forall_forall in H3. specialize (H3 _ Hx). lia.
  - intros _. exists (controllers s). split; [reflexivity|]. apply in_or_app. right. now left.
Qed.

Section Settle.
Context (number_toString : Binary64.num -> string) (random_stream : nat -> Binary64.num).

Lemma insight_of_ok (r : VenueCache.Response) w :
  exists ins w', insight_of random_stream r w = (Ok ins, w').
Proof.
  destruct r as [cl|]; cbn [insight_of]; [destruct (0 <? length (default [] cl))|];
    unfold m_bind, m_ret, Math_random; eauto.
Qed.

Lemma gens_resolve_req (id : nat) (f : Hex -> HexPromise) (gs : list Gen) :
  map gen_ctrl (map (resolve_req id f) gs) = map gen_ctrl gs.
Proof. rewrite map_map. reflexivity. Qed.

Lemma heat_inv_settle (id : nat) (r : VenueCache.Response) (s : HeatState) w :
  heat_inv s -> exists s' w', settle_req random_stream id r s w = (Ok s', w') /\ heat_inv s'.
Proof.
  intros Hi. unfold settle_req. destruct (find _ (reqs s)) as [q|]; [|exists s, w; split; [reflexivity|exact Hi]].
  destruct Hi as (H1 & H2 & H3 & H4 & H5).
  assert (Hr : Forall (fun q0 => req_id q0 < next_req s /\ req_ctrl q0 < controllers s)
                 (filter (fun q' => negb (Nat.eqb (req_id q') id)) (reqs s)) /\
               NoDup (map req_id (filter (fun q' => negb (Nat.eqb (req_id q') id)) (reqs s))))
    by exact (conj (Forall_filter_bool _ _ _ H1) (NoDup_map_filter _ _ _ H2)).
  destruct Hr as [Hr1 Hr2].
  destruct (aborted s (req_ctrl q)).
  - do 2 eexists. split; [reflexivity|]. unfold heat_inv. cbn. rewrite gens_resolve_req. auto.
  - destruct (insight_of_ok r w) as (ins & w' & E). unfold m_bind. rewrite E. unfold m_ret.
    do 2 eexists. split; [reflexivity|]. unfold heat_inv. cbn. rewrite gens_resolve_req. auto.
Qed.

End Settle.

Lemma heat_inv_resume (c : nat) (s : HeatState) : heat_inv s -> heat_inv (resume c s).
Proof.
  intros Hi. unfold resume, catch_error. destruct (find_gen c s) as [g|]; [|exact Hi].
  destruct (gen_phase g); [|exact Hi].
  destruct (any_abort (batch g)).
  - destruct (aborted s c) eqn:Ha; [exact (heat_inv_drop_aborted _ _ Hi Ha)|].
    apply heat_aborted_false in Ha. change (with_loading false (drop_gen c s)) with (with_loading false (drop_gen c s)).
    exact (heat_inv_drop_current _ _ Hi Ha).
  - destruct (all_done (batch g)) as [hs|]; [|exact Hi].
    assert (Hs1 : heat_inv (if aborted s c then s else with_heat (gen_results g ++ hs) s))
      by (destruct (aborted s c); [exact Hi|exact (heat_inv_with_heat _ _ Hi)]).
    destruct (_ && _); [exact (heat_inv_gens _ _ Hs1 (gens_set_gen _ _))|exact (heat_inv_loop_at _ _ _ _ Hs1)].
Qed.

Lemma heat_inv_timer (c : nat) (s : HeatState) : heat_inv s -> heat_inv (timer c s).
Proof.
  intros Hi. unfold timer. destruct (find_gen c s) as [g|]; [|exact Hi].
  destruct (gen_phase g); [exact Hi|exact (heat_inv_loop_at _ _ _ _ Hi)].
Qed.

Lemma heat_step_inv (nts : Binary64.num -> string) (rs : nat -> Binary64.num) (e : HeatEvent) (s : HeatState) w :
  heat_inv s -> exists s' w', heat_step nts rs e s w = (Ok s', w') /\ heat_inv s'.
Proof.
  intros Hi. destruct e as [ts center zoom|id r|c|c|]; cbn [heat_step]; unfold m_ret.
  - do 2 eexists. split; [reflexivity|]. now apply heat_inv_generate.
  - exact (heat_inv_settle rs id r s w Hi).
  - do 2 eexists. split; [reflexivity|]. now apply heat_inv_resume.
  - do 2 eexists. split; [reflexivity|]. now apply heat_inv_timer.
  - do 2 eexists. split; [reflexivity|]. exact Hi.
Qed.

(** *** The batch loop runs to its end *)

Section Run.
Context (number_toString : Binary64.num -> string) (random_stream : nat -> Binary64.num).

Lemma heat_run_cons (e : HeatEvent) (es : list HeatEvent) (s : HeatState) w :
  heat_run number_toString random_stream (e :: es) s w =
  match heat_step number_toString random_stream e s w with
  | (Ok s1, w1) => heat_run number_toString random_stream es s1 w1
  | (Throw ex, w1) => (Throw ex, w1)
  end.
Proof. reflexivity. Qed.

Lemma heat_run_app (es1 es2 : list HeatEvent) (s : HeatState) w :
  heat_run number_toString random_stream (es1 ++ es2) s w =
  match heat_run number_toString random_stream es1 s w with
  | (Ok s1, w1) => heat_run number_toString random_stream es2 s1 w1
  | (Throw e, w1) => (Throw e, w1)
  end.
Proof.
  revert s w; induction es1 as [|e es1 IH]; intros s w; [reflexivity|].
  cbn [app]. rewrite !heat_run_cons.
  destruct (heat_step number_toString random_stream e s w) as [[s1|ex] w1]; [apply IH|reflexivity].
Qed.

(** Once the call has ended, its loop events change nothing. *)
Lemma batch_events_idle (c nb : nat) (s : HeatState) w :
  find_gen c s = None -> heat_run number_toString random_stream (batch_events c nb) s w = (Ok s, w).
Proof.
  intros Hf. induction nb as [|nb IH]; [reflexivity|].
  cbn [batch_events]. rewrite heat_run_cons. cbn [heat_step]. unfold resume, m_ret. rewrite Hf. cbv beta iota.
  rewrite heat_run_cons. cbn [heat_step]. unfold timer, m_ret. rewrite Hf. exact IH.
Qed.

Lemma any_abort_done (l : list Hex) : any_abort (map PDone l) = false.
Proof. induction l; cbn; auto. Qed.

Lemma all_done_map (l : list Hex) : all_done (map PDone l) = Some l.
Proof. induction l as [|h l IH]; cbn; [reflexivity|now rewrite IH]. Qed.

Section Steps.
Context (c : nat) (hexes done : list Hex) (i : nat).

Lemma batch_done (r : list Hex) (ph : Phase) :
  batch (mkGen c hexes (map PDone done) i r ph) = map PDone (firstn batchSize (skipn i done)).
Proof. unfold batch. cbn [gen_i gen_promises]. now rewrite skipn_map, firstn_map. Qed.

(** The batch at [i] settles and another follows: the results grow by
    the batch, are published, and the loop waits for the timeout. *)
Lemma resume_more (s : HeatState) :
  gens s = [mkGen c hexes (map PDone done) i (firstn i done) AwaitBatch] -> current s = Some c ->
  i + batchSize < length done ->
  resume c s = with_gens [mkGen c hexes (map PDone done) i (firstn (i + batchSize) done) AwaitTimer]
                         (with_heat (firstn (i + batchSize) done) s).
Proof.
  destruct s as [hd ld er ca co cu rq nx gs]. cbn [gens current]. intros -> -> Hlt.
  unfold resume, find_gen. cbn [gens find gen_ctrl]. rewrite Nat.eqb_refl. cbn [gen_phase].
  rewrite batch_done, any_abort_done, all_done_map. cbn [gen_results gen_i gen_promises].
  rewrite <- firstn_add, length_map. unfold aborted. cbn [current with_heat]. rewrite Nat.eqb_refl.
  cbn [negb andb]. destruct (Nat.ltb_spec (i + batchSize) (length done)); [|lia].
  unfold set_gen. cbn. now rewrite Nat.eqb_refl.
Qed.

(** The timeout after batch [i] fires: the loop awaits the next batch. *)
Lemma timer_more (s : HeatState) (r : list Hex) :
  gens s = [mkGen c hexes (map PDone done) i r AwaitTimer] -> current s = Some c ->
  i + batchSize < length done ->
  timer c s = with_gens [mkGen c hexes (map PDone done) (i + batchSize) r AwaitBatch] s.
Proof.
  destruct s as [hd ld er ca co cu rq nx gs]. cbn [gens current]. intros -> -> Hlt.
  unfold timer, find_gen. cbn [gens find gen_ctrl]. rewrite Nat.eqb_refl. cbn [gen_phase].
  unfold loop_at. cbn [gen_ctrl gen_promises gen_i gen_results]. rewrite length_map.
  destruct (Nat.ltb_spec (i + batchSize) (length done)); [|lia].
  unfold aborted. cbn [current]. rewrite Nat.eqb_refl. cbn [negb].
  unfold set_gen. cbn. now rewrite Nat.eqb_refl.
Qed.

(** The last batch settles: every hexagon is published, [loading] is
    cleared and the call ends. *)
Lemma resume_last (s : HeatState) :
  gens s = [mkGen c hexes (map PDone done) i (firstn i done) AwaitBatch] -> current s = Some c ->
  length done <= i + batchSize ->
  gens (resume c s) = [] /\ loading (resume c s) = false /\ heatData (resume c s) = done /\
  current (resume c s) = Some c.
Proof.
  destruct s as [hd ld er ca co cu rq nx gs]. cbn [gens current]. intros -> -> Hge.
  unfold resume, find_gen. cbn [gens find gen_ctrl]. rewrite Nat.eqb_refl. cbn [gen_phase].
  rewrite batch_done, any_abort_done, all_done_map. cbn [gen_results gen_i gen_promises].
  rewrite <- firstn_add, length_map. unfold aborted. cbn [current with_heat]. rewrite Nat.eqb_refl.
  cbn [negb andb]. destruct (Nat.ltb_spec (i + batchSize) (length done)); [lia|]. cbn [andb].
  unfold loop_at. cbn [gen_ctrl gen_promises]. rewrite length_map.
  destruct (Nat.ltb_spec (i + batchSize) (length done)); [lia|].
  unfold aborted, with_loading, with_heat. do 3 (cbn; rewrite ?(Nat.eqb_refl c)).
  repeat split. apply firstn_all2. lia.
Qed.

End Steps.

(** With every promise resolved, [nb] rounds of the loop starting at
    batch [i] publish all the hexagons and clear [loading], provided
    [nb] batches cover what is left. *)
Lemma loop_completes (nb : nat) (s : HeatState) (c : nat) (hexes done : list Hex) (i : nat) w :
  gens s = [mkGen c hexes (map PDone done) i (firstn i done) AwaitBatch] -> current s = Some c ->
  i < length done -> length done - i <= batchSize * nb ->
  exists s', heat_run number_toString random_stream (batch_events c nb) s w = (Ok s', w) /\
    loading s' = false /\ gens s' = [] /\ heatData s' = done /\ current s' = Some c.
Proof.
  revert s i; induction nb as [|nb IH]; intros s i Hg Hc Hi Hn; [unfold batchSize in Hn; lia|].
  cbn [batch_events]. rewrite heat_run_cons. cbn [heat_step]. unfold m_ret.
  destruct (Nat.ltb_spec (i + batchSize) (length done)) as [Hlt|Hge].
  - rewrite (resume_more c hexes done i s Hg Hc Hlt). rewrite heat_run_cons. cbn [heat_step]. unfold m_ret.
    rewrite (timer_more c hexes done i (with_gens _ (with_heat (firstn (i + batchSize) done) s)) _ eq_refl Hc Hlt).
    apply (IH _ (i + batchSize)); [reflexivity|exact Hc|exact Hlt|unfold batchSize in *; lia].
  - destruct (resume_last c hexes done i s Hg Hc Hge) as (G & L & D & C).
    rewrite heat_run_cons. cbn [heat_step]. unfold timer, m_ret. unfold find_gen at 1. rewrite G.
    cbn [find]. rewrite batch_events_idle by (unfold find_gen; now rewrite G).
    exists (resume c s). auto.
Qed.

End Run.

(** *** Every request settles *)

Lemma waiting_seq (hs : list Hex) (next : nat) :
  Forall2 (waiting (seq next (length hs))) hs (map PWait (seq next (length hs))).
Proof.
  revert next; induction hs as [|h hs IH]; intros next; cbn; constructor.
  - right. exists next. split; [reflexivity|now left].
  - eapply Forall2_impl; [|exact (IH (S next))].
    intros h' p [Hd|(id & -> & Hid)]; [now left|right; exists id; split; [reflexivity|now right]].
Qed.

Lemma waiting_resolve (id : nat) (L : list nat) (ins : Insight) (hs : list Hex) (ps : list HexPromise) :
  Forall2 (waiting (id :: L)) hs ps ->
  Forall2 (waiting L) hs
    (zip_with (fun h p => match p with
                          | PWait id' => if Nat.eqb id id' then PDone (with_insight h ins) else p
                          | _ => p end) hs ps).
Proof.
  induction 1 as [|h p hs ps Hp _ IH]; cbn [zip_with]; constructor; [|exact IH].
  destruct Hp as [(ins' & ->)|(id' & -> & [<-|Hin])].
  - left. eauto.
  - rewrite Nat.eqb_refl. left. eauto.
  - destruct (Nat.eqb_spec id id'); [left; eauto|right; eauto].
Qed.

Lemma waiting_nil_done (hs : list Hex) (ps : list HexPromise) :
  Forall2 (waiting []) hs ps ->
  exists done, ps = map PDone done /\ Forall2 (fun h d => exists ins, d = with_insight h ins) hs done.
Proof.
  induction 1 as [|h p hs ps Hp _ (done & -> & Hd)]; [exists []; split; constructor|].
  destruct Hp as [(ins & ->)|(id & _ & [])]. exists (with_insight h ins :: done). split; [reflexivity|].
  constructor; eauto.
Qed.

Lemma with_insight_ids (hs done : list Hex) :
  Forall2 (fun h d => exists ins, d = with_insight h ins) hs done ->
  map hex_id done = map hex_id hs /\ Forall (fun d => hex_clusters d <> None) done.
Proof.
  induction 1 as [|h d hs done (ins & ->) _ [IH1 IH2]]; [split; constructor|].
  cbn. rewrite IH1. split; [reflexivity|constructor; [discriminate|exact IH2]].
Qed.

Section Settles.
Context (number_toString : Binary64.num -> string) (random_stream : nat -> Binary64.num).

(** The requests [L] of the running call settle one after the other:
    none is aborted, so each caches its insight and resolves its
    hexagon's promise. *)
Lemma settle_all (L : list nat) (resps : list VenueCache.Response) (s : HeatState) (c : nat)
    (hexes : list Hex) (ps : list HexPromise) (i : nat) (r : list Hex) (ph : Phase) w :
  length resps = length L -> NoDup L ->
  gens s = [mkGen c hexes ps i r ph] -> current s = Some c ->
  (forall id, In id L -> exists q, In q (reqs s) /\ req_id q = id) ->
  (forall q, In q (reqs s) -> In (req_id q) L -> req_ctrl q = c) ->
  Forall2 (waiting L) hexes ps ->
  exists s' w' ps', heat_run number_toString random_stream (zip_with ReqSettle L resps) s w = (Ok s', w') /\
    gens s' = [mkGen c hexes ps' i r ph] /\ current s' = Some c /\ Forall2 (waiting []) hexes ps'.
Proof.
  revert resps s ps w; induction L as [|id L IH]; intros resps s ps w Hl Hnd Hg Hc Hex Hctrl Hw.
  { destruct resps; [|discriminate]. exists s, w, ps. auto. }
  destruct resps as [|r0 resps]; [discriminate|]. cbn [zip_with]. rewrite heat_run_cons. cbn [heat_step].
  apply NoDup_cons_iff in Hnd as [Hnotin Hnd].
  unfold settle_req. destruct (find (fun q => Nat.eqb (req_id q) id) (reqs s)) as [q|] eqn:Ef.
  2: { destruct (Hex id (or_introl eq_refl)) as (q & Hq & Hid).
       pose proof (find_none _ _ Ef q Hq) as Hn. cbn in Hn. rewrite Hid, Nat.eqb_refl in Hn. discriminate. }
  apply find_some in Ef as [Hq Hid]. apply Nat.eqb_eq in Hid.
  rewrite (Hctrl q Hq (or_introl (eq_sym Hid))). rewrite (proj2 (heat_aborted_false s c) Hc).
  destruct (insight_of_ok random_stream r0 w) as (ins & w1 & Ei). unfold m_bind. rewrite Ei. unfold m_ret.
  apply (IH resps _ (zip_with (fun h p => match p with
                                        | PWait id' => if Nat.eqb id id' then PDone (with_insight h ins) else p
                                        | _ => p end) hexes ps) w1);
    [cbn in Hl; lia|exact Hnd|cbn; now rewrite Hg|exact Hc| | |].
  - intros id' Hid'. destruct (Hex id' (or_intror Hid')) as (q' & Hq' & E'). exists q'. split; [|exact E'].
    apply filter_In. split; [exact Hq'|]. apply negb_true_iff, Nat.eqb_neq. intros E.
    apply Hnotin. rewrite <- E, E'. exact Hid'.
  - intros q' Hq' Hin. apply filter_In in Hq' as [Hq' _]. exact (Hctrl q' Hq' (or_intror Hin)).
  - exact (waiting_resolve id L ins hexes ps Hw).
Qed.

End Settles.

Lemma grid_side_bounds (zoom : Z) : 7 <= Z.to_nat (2 * gridSize zoom + 1) <= 17.
Proof. pose proof (gridSize_bounds zoom). lia. Qed.

(** The call with at least three tastes on an idle hook with an empty
    cache: one request per hexagon, numbered in grid order, and the loop
    awaits the first batch. *)
Lemma generate_start (nts : Binary64.num -> string) (s : HeatState) (ts : list Taste)
    (center : Binary64.num * Binary64.num) (zoom : Z) :
  gens s = [] -> cache s = ∅ -> 3 <= length ts ->
  exists rs, generateHeatData nts ts center zoom s =
    mkHeat (heatData s) true None (cache s) (S (controllers s)) (Some (controllers s)) (reqs s ++ rs)
      (next_req s + length (generateHexGrid nts center zoom))
      [mkGen (controllers s) (generateHexGrid nts center zoom)
             (map PWait (seq (next_req s) (length (generateHexGrid nts center zoom)))) 0 [] AwaitBatch] /\
    map req_id rs = seq (next_req s) (length (generateHexGrid nts center zoom)) /\
    Forall (fun q => req_ctrl q = controllers s) rs.
Proof.
  intros Hg Hc Hl. unfold generateHeatData.
  destruct (Nat.ltb_spec (length ts) 3) as [|_]; [lia|].
  assert (Hpos : 0 < length (generateHexGrid nts center zoom))
    by (rewrite length_generateHexGrid; pose proof (grid_side_bounds zoom); nia).
  remember (generateHexGrid nts center zoom) as hexes eqn:Eh. rewrite Hc.
  destruct (start_promises nts (controllers s) (map taste_id ts) ∅ (next_req s) hexes) as [[ps rs] n] eqn:E.
  destruct (start_promises_spec _ _ _ _ _ _ _ _ _ E) as (_ & _ & Hid & Hctl).
  destruct (start_promises_empty _ _ _ _ _ _ _ _ E) as [-> ->].
  exists rs. replace (next_req s + length hexes - next_req s) with (length hexes) in Hid by lia.
  unfold loop_at. cbn [gen_promises gen_ctrl]. rewrite length_map, length_seq.
  destruct (Nat.ltb_spec 0 (length hexes)); [|lia].
  unfold aborted. cbn [current]. rewrite Nat.eqb_refl. cbn [negb]. unfold set_gen. cbn [gens with_gens].
  rewrite Hg. cbn. rewrite Nat.eqb_refl. auto.
Qed.

Lemma initialHeat_inv : heat_inv initialHeat.
Proof.
  unfold heat_inv. cbn. refine (conj (Forall_nil _) (conj (NoDup_nil _) (conj (Forall_nil _) (conj (NoDup_nil _) _)))).
  split; [discriminate|intros (c & _ & [])].
Qed.

Lemma add_nan_r (x : Binary64.num) : Binary64.add x S754_nan = S754_nan.
Proof. destruct x; reflexivity. Qed.

Lemma fold_lift_nan (cl : list VenueCache.Cluster) :
  fold_left (fun sum c => Binary64.add sum (lift_of c)) cl S754_nan = S754_nan.
Proof. induction cl; [reflexivity|exact IHcl]. Qed.

(** One cluster without a score makes the sum [NaN]. *)
Lemma fold_lift_absent (cl : list VenueCache.Cluster) (acc : Binary64.num) :
  Exists (fun c => VenueCache.lift_score c = None) cl ->
  fold_left (fun sum c => Binary64.add sum (lift_of c)) cl acc = S754_nan.
Proof.
  intros Hex. revert acc. induction Hex as [c cl Hc|c cl _ IH]; intros acc; cbn [fold_left].
  - unfold lift_of at 2. rewrite Hc, add_nan_r. apply fold_lift_nan.
  - apply IH.
Qed.

(** ** Properties *)

Section Properties.
Context (number_toString : Binary64.num -> string) (random_stream : nat -> Binary64.num).

(** The grid has [(2g + 1)^2] hexagons for the side [g] of
    [gridSize], between 49 (at zoom 9 and above) and 289 (at zoom 4 and
    below). *)
Theorem generateHexGrid_size (center : Binary64.num * Binary64.num) (zoom : Z) :
  length (generateHexGrid number_toString center zoom) = Z.to_nat (2 * gridSize zoom + 1) ^ 2 /\
  49 <= length (generateHexGrid number_toString center zoom) <= 289.
Proof.
  rewrite length_generateHexGrid. pose proof (grid_side_bounds zoom). rewrite Nat.pow_2_r. split; [reflexivity|nia].
Qed.

(** Every hexagon starts its request at once: with nothing cached, a
    call with three tastes or more has one request in flight per
    hexagon, at least 49, although the loop publishes the results
    [batchSize] (10) at a time; the batches throttle the updates of the
    heat map, not the requests. *)
Theorem generateHeatData_starts_all (s : HeatState) (ts : list Taste) (center : Binary64.num * Binary64.num)
    (zoom : Z) :
  cache s = ∅ -> 3 <= length ts ->
  length (reqs (generateHeatData number_toString ts center zoom s)) =
    length (reqs s) + length (generateHexGrid number_toString center zoom) /\
  batchSize < length (generateHexGrid number_toString center zoom).
Proof.
  intros Hc Hl.
  assert (Hb : batchSize < length (generateHexGrid number_toString center zoom))
    by (rewrite length_generateHexGrid; pose proof (grid_side_bounds zoom); unfold batchSize; nia).
  split; [|exact Hb]. unfold batchSize in Hb.
  unfold generateHeatData. destruct (Nat.ltb_spec (length ts) 3) as [|_]; [lia|]. rewrite Hc.
  remember (generateHexGrid number_toString center zoom) as hexes eqn:Eh.
  destruct (start_promises number_toString (controllers s) (map taste_id ts) ∅ (next_req s) hexes)
    as [[ps rs] n] eqn:E.
  destruct (start_promises_spec _ _ _ _ _ _ _ _ _ E) as (Lp & _ & Hid & _).
  destruct (start_promises_empty _ _ _ _ _ _ _ _ E) as [_ ->].
  unfold loop_at. cbn [gen_promises gen_ctrl]. rewrite Lp.
  destruct (Nat.ltb_spec 0 (length hexes)); [|nia].
  unfold aborted. cbn [current]. rewrite Nat.eqb_refl. cbn [negb set_gen with_gens reqs].
  rewrite length_app, <- (length_map req_id rs), Hid, length_seq. lia.
Qed.

(** C10: the heat map of a call on an idle hook with an empty cache is
    completed: once the request of every hexagon has settled, whatever
    the responses, [ceil(n / 10)] rounds of the loop (the batch settles,
    the timeout fires) publish one hexagon per grid cell, in grid order
    and each with its insight, clear [loading] and end the call. *)
Theorem generateHeatData_completes (s : HeatState) (ts : list Taste) (center : Binary64.num * Binary64.num)
    (zoom : Z) (resps : list VenueCache.Response) w :
  gens s = [] -> cache s = ∅ -> Forall (fun q => req_id q < next_req s) (reqs s) -> 3 <= length ts ->
  length resps = length (generateHexGrid number_toString center zoom) ->
  exists s' w', heat_run number_toString random_stream
      (Generate ts center zoom :: settle_events (next_req s) resps ++
       batch_events (controllers s) ((length resps + 9) / 10)) s w = (Ok s', w') /\
    loading s' = false /\ gens s' = [] /\
    map hex_id (heatData s') = map hex_id (generateHexGrid number_toString center zoom) /\
    Forall (fun h => hex_clusters h <> None) (heatData s').
Proof.
  intros Hg Hc Hold Hl Hr.
  destruct (generate_start number_toString s ts center zoom Hg Hc Hl) as (rs & E & Hid & Hctl).
  remember (generateHexGrid number_toString center zoom) as hexes eqn:Eh.
  assert (Hpos : 0 < length hexes) by (subst hexes; rewrite length_generateHexGrid; pose proof (grid_side_bounds zoom); nia).
  rewrite heat_run_cons. cbn [heat_step]. unfold m_ret. rewrite E, heat_run_app. unfold settle_events.
  rewrite Hr.
  match goal with |- context [heat_run _ _ (zip_with ReqSettle _ _) ?st1 _] =>
    destruct (settle_all number_toString random_stream (seq (next_req s) (length hexes)) resps st1 (controllers s)
                hexes _ 0 [] AwaitBatch w ltac:(now rewrite length_seq) (seq_NoDup _ _) eq_refl eq_refl)
      as (s1 & w1 & ps & E1 & G1 & C1 & W1) end.
  - intros id Hin. rewrite <- Hid in Hin. apply in_map_iff in Hin as (q & <- & Hq).
    exists q. split; [apply in_or_app; now right|reflexivity].
  - intros q Hq Hin. apply in_app_or in Hq as [Hq|Hq].
    + rewrite Forall_forall in Hold. specialize (Hold q Hq). apply in_seq in Hin. lia.
    + rewrite Forall_forall in Hctl. exact (Hctl q Hq).
  - apply waiting_seq.
  - rewrite E1. destruct (waiting_nil_done _ _ W1) as (done & -> & D).
    destruct (with_insight_ids _ _ D) as [Ids Cl].
    assert (Ld : length done = length hexes) by (rewrite <- (length_map hex_id done), Ids; apply length_map).
    destruct (loop_completes number_toString random_stream ((length hexes + 9) / 10) s1 (controllers s) hexes done 0 w1
                G1 C1 ltac:(lia)) as (s' & E2 & L2 & G2 & H2 & _).
    + rewrite Ld. unfold batchSize. pose proof (Nat.div_mod (length hexes + 9) 10 ltac:(lia)).
      pose proof (Nat.mod_upper_bound (length hexes + 9) 10 ltac:(lia)). lia.
    + exists s', w1. rewrite E2. split; [reflexivity|]. rewrite H2. auto.
Qed.

(** C11: every sequence of calls of [generateHeatData] and [clearCache],
    settlements of requests, batch completions and timeouts runs without
    an exception and keeps the invariant: requests in flight have
    distinct numbers; running calls have distinct controllers; [loading]
    is set exactly while the current controller's call runs. *)
Theorem heat_run_inv (es : list HeatEvent) (s : HeatState) w :
  heat_inv s ->
  exists s' w', heat_run number_toString random_stream es s w = (Ok s', w') /\ heat_inv s'.
Proof.
  revert s w; induction es as [|e es IH]; intros s w Hi; [exists s, w; split; [reflexivity|exact Hi]|].
  rewrite heat_run_cons. destruct (heat_step_inv number_toString random_stream e s w Hi) as (s1 & w1 & E & Hi1).
  rewrite E. exact (IH s1 w1 Hi1).
Qed.

(** A response with a cluster that has no [lift_score] gives the
    hexagon the lift [NaN] ([sum + undefined]), which is cached and
    drawn; no random draw replaces it. *)
Theorem insight_lift_nan (cl : list VenueCache.Cluster) w :
  Exists (fun c => VenueCache.lift_score c = None) cl ->
  insight_of random_stream (VenueCache.RespData (Some cl)) w = (Ok (mkInsight S754_nan cl), w).
Proof.
  intros Hex. cbn [insight_of default].
  destruct cl as [|c cl]; [inversion Hex|]. cbn [length Nat.ltb Nat.leb].
  unfold avgLift. rewrite (fold_lift_absent _ _ Hex). reflexivity.
Qed.

End Properties.

(** At zoom 19, the maximum zoom of OpenStreetMap's tiles, the 49
    hexagons around Times Square have only 29 distinct ids: the rows
    and columns are closer than [toFixed(4)]'s resolution, so distinct
    hexagons share an id and a cache key.  At zoom 18 the ids are still
    distinct. *)
Example hex_ids_collide :
  length (generateHexGrid VenueCache.no_big sample_center 19) = 49 /\
  length (nodup string_dec (map hex_id (generateHexGrid VenueCache.no_big sample_center 19))) = 29 /\
  NoDup (map hex_id (generateHexGrid VenueCache.no_big sample_center 18)).
Proof.
  split; [vm_compute; reflexivity|]. split; [vm_compute; reflexivity|].
  apply (nodupb_NoDup String.eqb); [intros a; apply String.eqb_refl|vm_compute; reflexivity].
Qed.

(** *** Witnesses *)

Definition w0 : World := mkWorld 0 0.

Lemma generateHeatData_starts_all_witness :
  length (reqs (generateHeatData VenueCache.no_big sample_tastes sample_center 12 initialHeat)) =
    length (reqs initialHeat) + length (generateHexGrid VenueCache.no_big sample_center 12) /\
  batchSize < length (generateHexGrid VenueCache.no_big sample_center 12).
Proof. apply generateHeatData_starts_all; [reflexivity|cbn; lia]. Defined.

Lemma generateHeatData_completes_witness :
  exists s' w', heat_run VenueCache.no_big VenueCache.half_stream
      (Generate sample_tastes sample_center 12 :: settle_events 0 (repeat VenueCache.RespError 49) ++
       batch_events 0 ((length (repeat VenueCache.RespError 49) + 9) / 10)) initialHeat w0 = (Ok s', w') /\
    loading s' = false /\ gens s' = [] /\
    map hex_id (heatData s') = map hex_id (generateHexGrid VenueCache.no_big sample_center 12) /\
    Forall (fun h => hex_clusters h <> None) (heatData s').
Proof.
  apply (generateHeatData_completes VenueCache.no_big VenueCache.half_stream initialHeat);
    [reflexivity|reflexivity|constructor|cbn; lia|rewrite length_generateHexGrid, repeat_length; reflexivity].
Defined.

Lemma heat_run_inv_witness :
  exists s' w', heat_run VenueCache.no_big VenueCache.half_stream
      [Generate sample_tastes sample_center 12; ReqSettle 0 VenueCache.RespError; Resume 0; ClearCache]
      initialHeat w0 = (Ok s', w') /\ heat_inv s'.
Proof. apply heat_run_inv. exact initialHeat_inv. Defined.

Lemma insight_lift_nan_witness :
  Exists (fun c => VenueCache.lift_score c = None) [VenueCache.mkCluster (Some "jazz clubs"%string) None None] /\
  insight_of VenueCache.half_stream (VenueCache.RespData (Some [VenueCache.mkCluster (Some "jazz clubs"%string) None None])) w0 =
    (Ok (mkInsight S754_nan [VenueCache.mkCluster (Some "jazz clubs"%string) None None]), w0).
Proof. split; [constructor; reflexivity|apply insight_lift_nan; constructor; reflexivity]. Defined.

End MapData.
