(* ===== verification/TastePicker.v ===== *)
(** * Taste selection: the taste picker and its hook

    [src/culturis-studio/src/components/TasteSeedPicker.js] is the first
    screen of the map page: the user searches a catalog of tastes
    (fuzzy search by Fuse.js, with a remote search when fewer than three
    local matches are found), browses it by category or picks trending
    tastes, and continues once [minSelections] tastes are selected.
    [src/culturis-studio/src/hooks/useTasteSelection.js] is a hook with
    the same selection logic and a change callback.

    The component is a state machine ([PickerState], [picker_step])
    whose events are the user's inputs, the arrival of the catalog, of
    the trending tastes and of each remote search, and the 300 ms
    debounce timer of the search effect; [view] is what a render shows.
    Fuse.js is a library: its search is the parameter [fuse_search].
    The hook is the Module [TasteSelection]: the selection array with
    its identity, which decides when the change callback runs. *)
From S2P Require Import Prelude JsNumber JsString.
From Stdlib Require Import String Ascii List ZArith Lia Bool.
Import ListNotations.
Open Scope string_scope.

(** A taste as the picker handles it: [{id, name, type, category,
    emoji, score}], a field it may lack an [option]. *)
Record Seed : Type := mkSeed {
  seed_id : string;
  seed_name : option string;
  seed_type : option string;
  seed_category : option string;
  seed_emoji : option string;
  seed_score : option Binary64.num
}.

(** [`${taste.name}`]: an absent name prints as ["undefined"]. *)
Definition name_text (t : Seed) : string :=
  match seed_name t with Some nm => nm | None => "undefined" end.

(** [prev.find(t => t.id === id)] as a test. *)
Definition has_id (id : string) (l : list Seed) : bool :=
  existsb (fun t => String.eqb (seed_id t) id) l.

Definition without_id (id : string) (l : list Seed) : list Seed :=
  filter (fun t => negb (String.eqb (seed_id t) id)) l.

Module TasteSelection.

(** [selectedTastes] and the identity of its array: a setter that
    returns [prev] keeps the identity, so React neither re-renders nor
    runs the effect; any other value is a new array.  [notified] lists
    the arguments of [onSelectionChange] (lines 54-58). *)
Record SelState : Type := mkSel {
  selectedTastes : list Seed;
  array_id : nat;
  notified : list (list Seed)
}.

Definition initialSel (callback : bool) : SelState :=
  mkSel [] 0 (if callback then [[]] else []).

(** The effect of lines 54-58 after a render whose [selectedTastes] is
    a new array. *)
Definition set_selected (callback : bool) (l : list Seed) (s : SelState) : SelState :=
  mkSel l (S (array_id s)) (if callback then (notified s ++ [l])%list else notified s).

(** [addTaste(taste)] (lines 14-23). *)
Definition addTaste (callback : bool) (taste : Seed) (s : SelState) : SelState :=
  if has_id (seed_id taste) (selectedTastes s) then s
  else set_selected callback (selectedTastes s ++ [taste])%list s.

(** [removeTaste(tasteId)] (lines 26-28): [filter] always makes a new
    array. *)
Definition removeTaste (callback : bool) (tasteId : string) (s : SelState) : SelState :=
  set_selected callback (without_id tasteId (selectedTastes s)) s.

(** [clearSelection()] (lines 31-33). *)
Definition clearSelection (callback : bool) (s : SelState) : SelState :=
  set_selected callback [] s.

(** [isTasteSelected], [hasMinimumSelections], [getSelectionByType],
    [getSelectionByCategory], [remainingSelections] (lines 36-51, 70). *)
Definition isTasteSelected (s : SelState) (tasteId : string) : bool := has_id tasteId (selectedTastes s).

Definition hasMinimumSelections (minSelections : nat) (s : SelState) : bool :=
  Nat.leb minSelections (length (selectedTastes s)).

Definition getSelectionByType (s : SelState) (ty : string) : list Seed :=
  filter (fun t => match seed_type t with Some x => String.eqb x ty | None => false end) (selectedTastes s).

Definition getSelectionByCategory (s : SelState) (cat : string) : list Seed :=
  filter (fun t => match seed_category t with Some x => String.eqb x cat | None => false end) (selectedTastes s).

Definition remainingSelections (minSelections : nat) (s : SelState) : nat :=
  minSelections - length (selectedTastes s).

Inductive SelEvent : Type :=
| Add (t : Seed)
| Remove (id : string)
| Clear.

Definition sel_step (callback : bool) (e : SelEvent) (s : SelState) : SelState :=
  match e with
  | Add t => addTaste callback t s
  | Remove id => removeTaste callback id s
  | Clear => clearSelection callback s
  end.

Definition sel_run (callback : bool) (es : list SelEvent) (s : SelState) : SelState :=
  fold_left (fun s e => sel_step callback e s) es s.

End TasteSelection.

Module TastePicker.

(** [activeTab]. *)
Inductive Tab : Type := TabSearch | TabBrowse.

(** [catalog]: the entries of [catalog_tags.json], category first. *)
Definition Catalog : Type := list (string * list Seed).

(** A pending remote search of [handleSearch]: its number, its query
    and the local results computed before the [await]. *)
Record Remote : Type := mkRemote { rem_id : nat; rem_query : string; rem_local : list Seed }.

(** The component's state hooks (lines 22-30), [fuseRef] (line 37) as
    the items its Fuse index holds, [announcementRef]'s text (line 34),
    the debounce timer of the search effect with the query it captured
    (lines 215-221), the remote searches in flight, and the calls of
    [onSelectionComplete]. *)
Record PickerState : Type := mkPicker {
  selectedTastes : list Seed;
  searchQuery : string;
  searchResults : list Seed;
  isSearching : bool;
  catalog : Catalog;
  trendingTastes : list Seed;
  activeTab : Tab;
  error : option string;
  isLoading : bool;
  fuse : option (list Seed);
  announcement : string;
  timer : option string;
  remotes : list Remote;
  next_remote : nat;
  completed : list (list Seed)
}.

(** The first render, and its search effect, which schedules a search
    of the empty query. *)
Definition initialPicker : PickerState :=
  mkPicker [] "" [] false [] [] TabSearch None true None "" (Some "") [] 0 [].

(** The answer of [/catalog_tags.json], of the trending insights and of
    a remote search: the data, a status that is not ok, or a failure
    ([fetch] or [json()] rejects). *)
Inductive CatalogResp : Type := CatalogData (c : Catalog) | CatalogFail.

Inductive TrendingResp : Type :=
| TrendingData (clusters : option (list (option string)))
| TrendingNotOk
| TrendingFail.

(** An entity of a remote search: [id], [name], [type]. *)
Record Entity : Type := mkEntity { ent_id : option string; ent_name : option string; ent_type : option string }.

Inductive RemoteResp : Type :=
| RemoteData (entities : option (list Entity))
| RemoteNotOk
| RemoteFail.

(** [Object.entries(catalogData).flatMap(([category, items]) =>
    items.map(item => ({...item, category})))] (lines 55-57). *)
Definition allItems (c : Catalog) : list Seed :=
  flat_map (fun '(cat, items) =>
              map (fun t => mkSeed (seed_id t) (seed_name t) (seed_type t) (Some cat) (seed_emoji t) (seed_score t))
                  items) c.

(** [`${s}_`] pieces of the ids: [s.toLowerCase().replace(/\s+/g, '_')]. *)
Definition slug (s : string) : string := JsString.replace_ws (JsString.toLowerCase s).

(** The fallback trending tastes (lines 111-124). *)
Definition fallbackTrending : list Seed :=
  map (fun '(id, nm, em) => mkSeed id (Some nm) (Some "trending") None (Some em) None)
    [("trending_artisan_coffee", "Artisan Coffee", "☕");
     ("trending_indie_music", "Indie Music", "🎵");
     ("trending_street_art", "Street Art", "🎨");
     ("trending_craft_cocktails", "Craft Cocktails", "🍸");
     ("trending_local_markets", "Local Markets", "🏪");
     ("trending_rooftop_dining", "Rooftop Dining", "🌆");
     ("trending_underground_music", "Underground Music", "🎧");
     ("trending_sustainable_fashion", "Sustainable Fashion", "♻️");
     ("trending_immersive_art", "Immersive Art", "🖼️");
     ("trending_plant_based", "Plant-Based Dining", "🌱");
     ("trending_vinyl_records", "Vinyl Records", "💿");
     ("trending_speakeasy_bars", "Speakeasy Bars", "🗝️")].

(** The [map] callback of lines 100-104: [cluster.cluster_name
    .toLowerCase()] throws on a cluster without a name. *)
Definition trending_of (index : nat) (name : option string) : option Seed :=
  match name with
  | Some nm => Some (mkSeed ("trending_" ++ slug nm ++ "_" ++ JsString.digits (Z.of_nat index)) (Some nm)
                            (Some "trending") None None None)
  | None => None
  end.

Fixpoint all_some {A} (l : list (option A)) : option (list A) :=
  match l with
  | [] => Some []
  | Some x :: l' => option_map (cons x) (all_some l')
  | None :: _ => None
  end.

(** [fetchTrending()] after its [await]s (lines 93-125): the trending
    tastes it sets, if any. *)
Definition fetchTrending (r : TrendingResp) : option (list Seed) :=
  match r with
  | TrendingData clusters =>
      match all_some (mapi_from trending_of 0 (firstn 3 (match clusters with Some l => l | None => [] end))) with
      | Some trending => Some trending
      | None => Some fallbackTrending
      end
  | TrendingNotOk => None
  | TrendingFail => Some fallbackTrending
  end.

(** The remote results (lines 156-171): the first five entities; an
    entity without [id] or [name] makes [name.toLowerCase()] throw,
    which the [catch] turns into an error and no results. *)
Definition remote_of (e : Entity) : option Seed :=
  match ent_id e with
  | Some id => if String.eqb id "" then None else
                 Some (mkSeed id (ent_name e) (Some "remote")
                              (Some (match ent_type e with Some t => if String.eqb t "" then "general" else t
                                                          | None => "general" end)) None None)
  | None => None
  end.

Definition remote_seed (e : Entity) : option Seed :=
  match remote_of e with
  | Some t => Some t
  | None =>
      match ent_name e with
      | Some nm => Some (mkSeed ("remote_" ++ slug nm) (Some nm) (Some "remote")
                                (Some (match ent_type e with Some t => if String.eqb t "" then "general" else t
                                                            | None => "general" end)) None None)
      | None => None
      end
  end.

(** [searchRemoteQloo(query)] after its [await]s: the results and
    whether it set the error. *)
Definition searchRemoteQloo (r : RemoteResp) : list Seed * bool :=
  match r with
  | RemoteData ents =>
      match all_some (map remote_seed (firstn 5 (match ents with Some l => l | None => [] end))) with
      | Some l => (l, false)
      | None => ([], true)
      end
  | RemoteNotOk => ([], false)
  | RemoteFail => ([], true)
  end.

Section Component.
Context (fuse_search : list Seed -> string -> list (Seed * Binary64.num)) (minSelections : nat).

(** [searchLocalCatalog(query)] (lines 136-147): nothing before the
    catalog is loaded or for a blank query; otherwise Fuse's results,
    typed ['local'] with their score. *)
Definition searchLocalCatalog (fz : option (list Seed)) (query : string) : list Seed :=
  match fz with
  | None => []
  | Some items =>
      if String.eqb (JsString.trim query) "" then []
      else map (fun '(t, sc) => mkSeed (seed_id t) (seed_name t) (Some "local") (seed_category t)
                                       (seed_emoji t) (Some sc))
               (fuse_search items query)
  end.

Definition with_search (q : string) (results : list Seed) (searching : bool) (s : PickerState) : PickerState :=
  mkPicker (selectedTastes s) q results searching (catalog s) (trendingTastes s) (activeTab s) (error s)
           (isLoading s) (fuse s) (announcement s) (timer s) (remotes s) (next_remote s) (completed s).

(** [handleSearch(query)] up to its [await] (lines 178-200), run by the
    debounce timer: a blank query empties the results (and leaves
    [isSearching] as it is); three local matches or more are shown at
    once, at most eight; otherwise the remote search starts. *)
Definition handleSearch (query : string) (s : PickerState) : PickerState :=
  if String.eqb (JsString.trim query) "" then with_search query [] (isSearching s) s
  else
    let localResults := searchLocalCatalog (fuse s) query in
    if Nat.leb 3 (length localResults) then with_search query (firstn 8 localResults) false s
    else
      let s1 := with_search query (searchResults s) true s in
      mkPicker (selectedTastes s1) (searchQuery s1) (searchResults s1) (isSearching s1) (catalog s1)
               (trendingTastes s1) (activeTab s1) (error s1) (isLoading s1) (fuse s1) (announcement s1)
               (timer s1) (remotes s1 ++ [mkRemote (next_remote s1) query localResults])%list
               (S (next_remote s1)) (completed s1).

(** The rest of [handleSearch] when remote search [id] answers (lines
    200-209): the local then the remote results, at most eight, and
    [isSearching] cleared, whichever query the input now holds. *)
Definition remote_arrives (id : nat) (r : RemoteResp) (s : PickerState) : PickerState :=
  match find (fun x => Nat.eqb (rem_id x) id) (remotes s) with
  | None => s
  | Some x =>
      let '(remoteResults, failed) := searchRemoteQloo r in
      mkPicker (selectedTastes s) (searchQuery s) (firstn 8 (rem_local x ++ remoteResults)%list) false (catalog s)
               (trendingTastes s) (activeTab s)
               (if failed then Some "Search temporarily unavailable" else error s)
               (isLoading s) (fuse s) (announcement s) (timer s)
               (filter (fun y => negb (Nat.eqb (rem_id y) id)) (remotes s)) (next_remote s) (completed s)
  end.

(** [`${n} taste${n !== 1 ? 's' : ''} selected.`]. *)
Definition count_text (n : nat) : string :=
  JsString.digits (Z.of_nat n) ++ " taste" ++ (if Nat.eqb n 1 then "" else "s") ++ " selected.".

(** [handleTasteSelect(taste)] (lines 226-242). *)
Definition handleTasteSelect (taste : Seed) (s : PickerState) : PickerState :=
  if has_id (seed_id taste) (selectedTastes s) then s
  else
    let newSelection := (selectedTastes s ++ [taste])%list in
    mkPicker newSelection (searchQuery s) (searchResults s) (isSearching s) (catalog s) (trendingTastes s)
             (activeTab s) (error s) (isLoading s) (fuse s)
             ("Added " ++ name_text taste ++ ". " ++ count_text (length newSelection))
             (timer s) (remotes s) (next_remote s) (completed s).

(** [handleTasteRemove(tasteId)] (lines 247-260). *)
Definition handleTasteRemove (tasteId : string) (s : PickerState) : PickerState :=
  let filtered := without_id tasteId (selectedTastes s) in
  let ann := match find (fun t => String.eqb (seed_id t) tasteId) (selectedTastes s) with
             | Some removed => "Removed " ++ name_text removed ++ ". " ++ count_text (length filtered)
             | None => announcement s
             end in
  mkPicker filtered (searchQuery s) (searchResults s) (isSearching s) (catalog s) (trendingTastes s)
           (activeTab s) (error s) (isLoading s) (fuse s) ann (timer s) (remotes s) (next_remote s) (completed s).

(** [handleCTA()] (lines 265-273). *)
Definition handleCTA (s : PickerState) : PickerState :=
  if Nat.leb minSelections (length (selectedTastes s)) then
    mkPicker (selectedTastes s) (searchQuery s) (searchResults s) (isSearching s) (catalog s) (trendingTastes s)
             (activeTab s) (error s) (isLoading s) (fuse s) (announcement s) (timer s) (remotes s)
             (next_remote s) (completed s ++ [selectedTastes s])%list
  else s.

(** [onChange] of the search input (line 369), then the search effect
    (lines 215-221) when the query changed: the pending timer is
    cleared and a new one captures the query. *)
Definition setSearchQuery (q : string) (s : PickerState) : PickerState :=
  if String.eqb q (searchQuery s) then s
  else mkPicker (selectedTastes s) q (searchResults s) (isSearching s) (catalog s) (trendingTastes s)
                (activeTab s) (error s) (isLoading s) (fuse s) (announcement s) (Some q) (remotes s)
                (next_remote s) (completed s).

(** A chip of the rendered picker: a selected taste (lines 315-328), a
    trending taste (lines 382-396), a search result (lines 418-431), or
    item [k] of category [ci] in the browse tab (lines 444-465). *)
Inductive Chip : Type :=
| CSelected (k : nat)
| CTrending (k : nat)
| CResult (k : nat)
| CBrowse (ci k : nat).

Inductive PickerEvent : Type :=
| CatalogArrives (r : CatalogResp)
| TrendingArrives (r : TrendingResp)
| Input (q : string)
| DebounceFires
| RemoteArrives (id : nat) (r : RemoteResp)
| Click (c : Chip)
| KeyDown (key : string) (c : Chip)
| SetTab (t : Tab)
| DismissError
| ClickCTA.

Definition is_search_tab (s : PickerState) : bool := match activeTab s with TabSearch => true | TabBrowse => false end.

(** The trending chips shown: on the search tab with an empty query, the
    first eight (lines 377-382). *)
Definition shown_trending (s : PickerState) : list Seed :=
  if is_search_tab s && String.eqb (searchQuery s) "" then firstn 8 (trendingTastes s) else [].

(** The search results shown: on the search tab with a query (line 413). *)
Definition shown_results (s : PickerState) : list Seed :=
  if is_search_tab s && negb (String.eqb (searchQuery s) "") then searchResults s else [].

(** [{...taste, type: 'local', category}] (line 457). *)
Definition browse_item (cat : string) (t : Seed) : Seed :=
  mkSeed (seed_id t) (seed_name t) (Some "local") (Some cat) (seed_emoji t) (seed_score t).

Definition shown_browse (s : PickerState) : list (string * list Seed) :=
  if is_search_tab s then [] else map (fun '(cat, items) => (cat, map (browse_item cat) items)) (catalog s).

(** What a click on a chip does, if the chip is rendered. *)
Definition click (c : Chip) (s : PickerState) : PickerState :=
  match c with
  | CSelected k =>
      match nth_error (selectedTastes s) k with Some t => handleTasteRemove (seed_id t) s | None => s end
  | CTrending k =>
      match nth_error (shown_trending s) k with Some t => handleTasteSelect t s | None => s end
  | CResult k =>
      match nth_error (shown_results s) k with Some t => handleTasteSelect t s | None => s end
  | CBrowse ci k =>
      match nth_error (shown_browse s) ci with
      | Some (_, items) => match nth_error items k with Some t => handleTasteSelect t s | None => s end
      | None => s
      end
  end.

Definition set_tab (t : Tab) (s : PickerState) : PickerState :=
  mkPicker (selectedTastes s) (searchQuery s) (searchResults s) (isSearching s) (catalog s) (trendingTastes s)
           t (error s) (isLoading s) (fuse s) (announcement s) (timer s) (remotes s) (next_remote s) (completed s).

Definition set_error (e : option string) (s : PickerState) : PickerState :=
  mkPicker (selectedTastes s) (searchQuery s) (searchResults s) (isSearching s) (catalog s) (trendingTastes s)
           (activeTab s) e (isLoading s) (fuse s) (announcement s) (timer s) (remotes s) (next_remote s) (completed s).

(** [loadCatalog()] after its [await]s (lines 50-72). *)
Definition catalog_arrives (r : CatalogResp) (s : PickerState) : PickerState :=
  match r with
  | CatalogData c =>
      mkPicker (selectedTastes s) (searchQuery s) (searchResults s) (isSearching s) c (trendingTastes s)
               (activeTab s) (error s) false (Some (allItems c)) (announcement s) (timer s) (remotes s)
               (next_remote s) (completed s)
  | CatalogFail =>
      mkPicker (selectedTastes s) (searchQuery s) (searchResults s) (isSearching s) (catalog s) (trendingTastes s)
               (activeTab s) (Some "Failed to load taste catalog") false (fuse s) (announcement s) (timer s)
               (remotes s) (next_remote s) (completed s)
  end.

Definition trending_arrives (r : TrendingResp) (s : PickerState) : PickerState :=
  match fetchTrending r with
  | Some l =>
      mkPicker (selectedTastes s) (searchQuery s) (searchResults s) (isSearching s) (catalog s) l
               (activeTab s) (error s) (isLoading s) (fuse s) (announcement s) (timer s) (remotes s)
               (next_remote s) (completed s)
  | None => s
  end.

(** The 300 ms timeout of the search effect fires. *)
Definition debounce_fires (s : PickerState) : PickerState :=
  match timer s with
  | Some q =>
      handleSearch q (mkPicker (selectedTastes s) (searchQuery s) (searchResults s) (isSearching s) (catalog s)
                               (trendingTastes s) (activeTab s) (error s) (isLoading s) (fuse s)
                               (announcement s) None (remotes s) (next_remote s) (completed s))
  | None => s
  end.

(** One event.  While the catalog loads only the loading screen is
    rendered (lines 285-292), so the user's inputs need the picker;
    the search input exists on the search tab only, the error toast
    only with an error. *)
Definition picker_step (e : PickerEvent) (s : PickerState) : PickerState :=
  match e with
  | CatalogArrives r => catalog_arrives r s
  | TrendingArrives r => trending_arrives r s
  | DebounceFires => debounce_fires s
  | RemoteArrives id r => remote_arrives id r s
  | _ =>
      if isLoading s then s else
      match e with
      | Input q => if is_search_tab s then setSearchQuery q s else s
      | Click c => click c s
      | KeyDown key c => if String.eqb key "Enter" || String.eqb key " " then click c s else s
      | SetTab t => set_tab t s
      | DismissError => match error s with Some _ => set_error None s | None => s end
      | ClickCTA => handleCTA s
      | _ => s
      end
  end.

Definition picker_run (es : list PickerEvent) (s : PickerState) : PickerState :=
  fold_left (fun s e => picker_step e s) es s.

(** [category.charAt(0).toUpperCase() + category.slice(1)] (line 447). *)
Definition upper_ascii (c : ascii) : ascii :=
  let n := nat_of_ascii c in if Nat.leb 97 n && Nat.leb n 122 then ascii_of_nat (n - 32) else c.

Definition capitalize (s : string) : string :=
  match s with EmptyString => EmptyString | String c s' => String (upper_ascii c) s' end.

(** What a render shows (lines 285-489): the loading screen, or the
    selected chips, the error, the trending chips and the count of the
    others, the results (or none for an empty query), the categories,
    whether the CTA is active and its hint. *)
Record View : Type := mkView {
  v_loading : bool;
  v_selected : list Seed;
  v_error : option string;
  v_trending : list Seed;
  v_more_trending : option nat;
  v_results : option (list Seed);
  v_browse : list (string * list Seed);
  v_cta_active : bool;
  v_hint : option string
}.

Definition view (s : PickerState) : View :=
  if isLoading s then mkView true [] None [] None None [] false None
  else
    let n := length (selectedTastes s) in
    mkView false (selectedTastes s) (error s) (shown_trending s)
           (if is_search_tab s && String.eqb (searchQuery s) "" && (Nat.ltb 8 (length (trendingTastes s)))
            then Some (length (trendingTastes s) - 8) else None)
           (if is_search_tab s && negb (String.eqb (searchQuery s) "") then Some (searchResults s) else None)
           (map (fun '(cat, items) => (capitalize cat, items)) (shown_browse s))
           (Nat.leb minSelections n)
           (if Nat.ltb n minSelections then
              Some ("Select " ++ JsString.digits (Z.of_nat (minSelections - n)) ++ " more taste" ++
                    (if Nat.eqb (minSelections - n) 1 then "" else "s"))
            else None).

End Component.

(** ** Reference definitions and samples *)

(** The picker's invariant: the selected tastes have distinct ids, and
    every selection handed to [onSelectionComplete] had at least
    [minSelections] tastes with distinct ids. *)
Definition picker_inv (minSelections : nat) (s : PickerState) : Prop :=
  NoDup (map seed_id (selectedTastes s)) /\
  Forall (fun l => minSelections <= length l /\ NoDup (map seed_id l)) (completed s).

(** An event that neither selects nor completes. *)
Definition keeps (s s' : PickerState) : Prop :=
  selectedTastes s' = selectedTastes s /\ completed s' = completed s.

Definition taste (id : string) : Seed := mkSeed id (Some id) None None None None.
Definition sample_catalog : Catalog :=
  [("music", [taste "jazz"; taste "java jive"]); ("art", [taste "street art"; taste "jazz age prints"])].

(** A stand-in for Fuse.js: the items whose name starts with the query. *)
Definition prefix_fuse (items : list Seed) (q : string) : list (Seed * Binary64.num) :=
  map (fun t => (t, Binary64.of_Z 0)) (filter (fun t => String.prefix q (name_text t)) items).

(** ** Lemmas *)

Lemma has_id_false (id : string) (l : list Seed) :
  has_id id l = false -> forall t, In t l -> seed_id t <> id.
Proof.
  intros H t Ht E. assert (Ht' : has_id id l = true).
  { apply existsb_exists. exists t. split; [exact Ht|]. rewrite E. apply String.eqb_refl. }
  congruence.
Qed.

(** Removing an id no taste has keeps the list. *)
Lemma without_id_absent (id : string) (l : list Seed) :
  has_id id l = false -> without_id id l = l.
Proof.
  intros H. pose proof (has_id_false id l H) as Hn. unfold without_id.
  induction l as [|t l IH]; [reflexivity|]. cbn.
  replace (String.eqb (seed_id t) id) with false by (symmetry; apply String.eqb_neq; apply Hn; now left).
  cbn. f_equal. apply IH; [cbn in H; now apply orb_false_iff in H as [_ H]|intros t' Ht'; apply Hn; now right].
Qed.

Lemma NoDup_add (t : Seed) (l : list Seed) :
  NoDup (map seed_id l) -> has_id (seed_id t) l = false -> NoDup (map seed_id (l ++ [t])).
Proof.
  intros Hnd Hn. rewrite map_app. apply NoDup_app; [exact Hnd|repeat constructor; easy|].
  intros a Ha [<-|[]]. apply in_map_iff in Ha as (t' & E & Ht'). exact (has_id_false _ _ Hn t' Ht' E).
Qed.

Lemma NoDup_without (id : string) (l : list Seed) :
  NoDup (map seed_id l) -> NoDup (map seed_id (without_id id l)).
Proof. apply NoDup_map_filter. Qed.

Section Facts.
Context (fuse_search : list Seed -> string -> list (Seed * Binary64.num)) (minSelections : nat).

Lemma keeps_inv (s s' : PickerState) : keeps s s' -> picker_inv minSelections s -> picker_inv minSelections s'.
Proof. intros [E1 E2] [H1 H2]. unfold picker_inv. now rewrite E1, E2. Qed.

Lemma keeps_handleSearch (q : string) (s : PickerState) : keeps s (handleSearch fuse_search q s).
Proof. unfold handleSearch. destruct (String.eqb _ _); [|destruct (Nat.leb _ _)]; split; reflexivity. Qed.

Lemma keeps_debounce (s : PickerState) : keeps s (debounce_fires fuse_search s).
Proof.
  unfold debounce_fires. destruct (timer s) as [q|]; [|split; reflexivity].
  match goal with |- keeps _ (handleSearch _ _ ?s0) => destruct (keeps_handleSearch q s0) as [E1 E2] end.
  split; [rewrite E1|rewrite E2]; reflexivity.
Qed.

Lemma keeps_remote (id : nat) (r : RemoteResp) (s : PickerState) : keeps s (remote_arrives id r s).
Proof.
  unfold remote_arrives. destruct (find _ _); [|split; reflexivity].
  destruct (searchRemoteQloo r). split; reflexivity.
Qed.

Lemma keeps_catalog (r : CatalogResp) (s : PickerState) : keeps s (catalog_arrives r s).
Proof. destruct r; split; reflexivity. Qed.

Lemma keeps_trending (r : TrendingResp) (s : PickerState) : keeps s (trending_arrives r s).
Proof. unfold trending_arrives. destruct (fetchTrending r); split; reflexivity. Qed.

Lemma keeps_setSearchQuery (q : string) (s : PickerState) : keeps s (setSearchQuery q s).
Proof. unfold setSearchQuery. destruct (String.eqb _ _); split; reflexivity. Qed.

Lemma inv_select (t : Seed) (s : PickerState) :
  picker_inv minSelections s -> picker_inv minSelections (handleTasteSelect t s).
Proof.
  intros [H1 H2]. unfold handleTasteSelect. destruct (has_id (seed_id t) (selectedTastes s)) eqn:E.
  - exact (conj H1 H2).
  - split; [exact (NoDup_add t _ H1 E)|exact H2].
Qed.

Lemma inv_remove (id : string) (s : PickerState) :
  picker_inv minSelections s -> picker_inv minSelections (handleTasteRemove id s).
Proof. intros [H1 H2]. split; [exact (NoDup_without id _ H1)|exact H2]. Qed.

Lemma inv_cta (s : PickerState) : picker_inv minSelections s -> picker_inv minSelections (handleCTA minSelections s).
Proof.
  intros [H1 H2]. unfold handleCTA. destruct (Nat.leb_spec minSelections (length (selectedTastes s))) as [Hle|];
    [|exact (conj H1 H2)].
  split; [exact H1|]. apply Forall_app. split; [exact H2|]. constructor; [split; assumption|constructor].
Qed.

Lemma inv_click (c : Chip) (s : PickerState) : picker_inv minSelections s -> picker_inv minSelections (click c s).
Proof.
  intros Hi. destruct c as [k|k|k|ci k]; cbn [click].
  - destruct (nth_error _ k); [apply inv_remove|]; exact Hi.
  - destruct (nth_error _ k); [apply inv_select|]; exact Hi.
  - destruct (nth_error _ k); [apply inv_select|]; exact Hi.
  - destruct (nth_error _ ci) as [[cat items]|]; [|exact Hi].
    destruct (nth_error items k); [apply inv_select|]; exact Hi.
Qed.

Lemma inv_step (e : PickerEvent) (s : PickerState) :
  picker_inv minSelections s -> picker_inv minSelections (picker_step fuse_search minSelections e s).
Proof.
  intros Hi. destruct e as [r|r|q| |id r|c|key c|t| |]; cbn [picker_step].
  - exact (keeps_inv _ _ (keeps_catalog r s) Hi).
  - exact (keeps_inv _ _ (keeps_trending r s) Hi).
  - destruct (isLoading s); [exact Hi|]. destruct (is_search_tab s); [|exact Hi].
    exact (keeps_inv _ _ (keeps_setSearchQuery q s) Hi).
  - exact (keeps_inv _ _ (keeps_debounce s) Hi).
  - exact (keeps_inv _ _ (keeps_remote id r s) Hi).
  - destruct (isLoading s); [exact Hi|now apply inv_click].
  - destruct (isLoading s); [exact Hi|]. destruct (_ || _); [now apply inv_click|exact Hi].
  - destruct (isLoading s); [exact Hi|exact Hi].
  - destruct (isLoading s); [exact Hi|]. destruct (error s); exact Hi.
  - destruct (isLoading s); [exact Hi|now apply inv_cta].
Qed.

(** *** The steps of a search *)

Lemma step_input (s : PickerState) (q : string) :
  isLoading s = false -> activeTab s = TabSearch -> String.eqb q (searchQuery s) = false ->
  picker_step fuse_search minSelections (Input q) s =
  mkPicker (selectedTastes s) q (searchResults s) (isSearching s) (catalog s) (trendingTastes s)
           (activeTab s) (error s) (isLoading s) (fuse s) (announcement s) (Some q) (remotes s)
           (next_remote s) (completed s).
Proof. intros Hl Ht Hq. cbn [picker_step]. rewrite Hl. unfold is_search_tab, setSearchQuery. now rewrite Ht, Hq, Hl. Qed.

Lemma step_search_remote (s : PickerState) (q : string) :
  timer s = Some q -> String.eqb (JsString.trim q) "" = false ->
  Nat.leb 3 (length (searchLocalCatalog fuse_search (fuse s) q)) = false ->
  picker_step fuse_search minSelections DebounceFires s =
  mkPicker (selectedTastes s) q (searchResults s) true (catalog s) (trendingTastes s)
           (activeTab s) (error s) (isLoading s) (fuse s) (announcement s) None
           (remotes s ++ [mkRemote (next_remote s) q (searchLocalCatalog fuse_search (fuse s) q)])%list
           (S (next_remote s)) (completed s).
Proof. intros Ht Hq Hn. cbn [picker_step]. unfold debounce_fires. rewrite Ht. unfold handleSearch. cbn [fuse]. now rewrite Hq, Hn. Qed.

Lemma step_search_local (s : PickerState) (q : string) :
  timer s = Some q -> String.eqb (JsString.trim q) "" = false ->
  Nat.leb 3 (length (searchLocalCatalog fuse_search (fuse s) q)) = true ->
  picker_step fuse_search minSelections DebounceFires s =
  mkPicker (selectedTastes s) q (firstn 8 (searchLocalCatalog fuse_search (fuse s) q)) false (catalog s)
           (trendingTastes s) (activeTab s) (error s) (isLoading s) (fuse s) (announcement s) None
           (remotes s) (next_remote s) (completed s).
Proof. intros Ht Hq Hn. cbn [picker_step]. unfold debounce_fires. rewrite Ht. unfold handleSearch. cbn [fuse]. now rewrite Hq, Hn. Qed.

Lemma step_remote (s : PickerState) (x : Remote) (r : RemoteResp) :
  find (fun y => Nat.eqb (rem_id y) (rem_id x)) (remotes s) = Some x ->
  searchResults (picker_step fuse_search minSelections (RemoteArrives (rem_id x) r) s) =
    firstn 8 (rem_local x ++ fst (searchRemoteQloo r)) /\
  isSearching (picker_step fuse_search minSelections (RemoteArrives (rem_id x) r) s) = false /\
  searchQuery (picker_step fuse_search minSelections (RemoteArrives (rem_id x) r) s) = searchQuery s /\
  isLoading (picker_step fuse_search minSelections (RemoteArrives (rem_id x) r) s) = isLoading s /\
  activeTab (picker_step fuse_search minSelections (RemoteArrives (rem_id x) r) s) = activeTab s.
Proof.
  intros Hf. cbn [picker_step]. unfold remote_arrives. rewrite Hf. destruct (searchRemoteQloo r). now repeat split.
Qed.

End Facts.

Lemma trim_empty_neq (q : string) : JsString.trim q <> "" -> String.eqb q "" = false.
Proof. intros H. apply String.eqb_neq. intros ->. apply H. reflexivity. Qed.

Lemma find_fresh_remote (l : list Remote) (x : Remote) (n : nat) :
  rem_id x = n -> Forall (fun y => rem_id y < n) l ->
  find (fun y => Nat.eqb (rem_id y) n) (l ++ [x]) = Some x.
Proof.
  intros Hx. induction l as [|y l IH]; intros H; cbn; [now rewrite Hx, Nat.eqb_refl|].
  apply Forall_cons_iff in H as [Hy H]. replace (Nat.eqb (rem_id y) n) with false
    by (symmetry; apply Nat.eqb_neq; lia). exact (IH H).
Qed.

Lemma all_some_trending_none (i : nat) (l : list (option string)) :
  Exists (fun c => c = None) l -> all_some (mapi_from trending_of i l) = None.
Proof.
  intros Hex. revert i. induction Hex as [c l ->|c l _ IH]; intros i; cbn [mapi_from all_some trending_of];
    [reflexivity|]. destruct c as [nm|]; [cbn; now rewrite IH|reflexivity].
Qed.

(** ** Properties *)

Section Properties.
Context (fuse_search : list Seed -> string -> list (Seed * Binary64.num)) (minSelections : nat).

(** C16: search results go stale.  When a query's remote search is still
    in flight and the user types a query with three local matches or
    more, those matches are shown at once; then the earlier remote
    search answers, and [handleSearch] of the old query overwrites the
    results: the picker shows the results of the old query under the
    new one, with [isSearching] cleared. *)
Theorem stale_search_results (s : PickerState) (q1 q2 : string) (r : RemoteResp) :
  isLoading s = false -> activeTab s = TabSearch ->
  Forall (fun x => rem_id x < next_remote s) (remotes s) ->
  q1 <> searchQuery s -> q2 <> q1 -> JsString.trim q1 <> "" -> JsString.trim q2 <> "" ->
  length (searchLocalCatalog fuse_search (fuse s) q1) < 3 ->
  3 <= length (searchLocalCatalog fuse_search (fuse s) q2) ->
  let s' := picker_run fuse_search minSelections
              [Input q1; DebounceFires; Input q2; DebounceFires; RemoteArrives (next_remote s) r] s in
  searchQuery s' = q2 /\ isSearching s' = false /\
  v_results (view minSelections s') =
    Some (firstn 8 (searchLocalCatalog fuse_search (fuse s) q1 ++ fst (searchRemoteQloo r))).
Proof.
  intros Hl Ht Hr H1 H2 T1 T2 L1 L2.
  apply String.eqb_neq in H1, H2. pose proof (trim_empty_neq q2 T2) as Hq2.
  apply String.eqb_neq in T1, T2. apply Nat.leb_gt in L1. apply Nat.leb_le in L2.
  unfold picker_run. cbn [fold_left].
  rewrite (step_input fuse_search minSelections s q1 Hl Ht H1).
  match goal with |- context [picker_step _ _ DebounceFires (mkPicker ?a ?b ?c ?d ?e ?f ?g ?h ?i ?j ?k ?l ?m ?n ?o)] =>
    rewrite (step_search_remote fuse_search minSelections (mkPicker a b c d e f g h i j k l m n o) q1 eq_refl T1 L1) end.
  match goal with |- context [picker_step _ _ (Input q2) (mkPicker ?a ?b ?c ?d ?e ?f ?g ?h ?i ?j ?k ?l ?m ?n ?o)] =>
    rewrite (step_input fuse_search minSelections (mkPicker a b c d e f g h i j k l m n o) q2 Hl Ht H2) end.
  match goal with |- context [picker_step _ _ DebounceFires (mkPicker ?a ?b ?c ?d ?e ?f ?g ?h ?i ?j ?k ?l ?m ?n ?o)] =>
    rewrite (step_search_local fuse_search minSelections (mkPicker a b c d e f g h i j k l m n o) q2 eq_refl T2 L2) end.
  match goal with |- context [picker_step _ _ (RemoteArrives _ r) ?st] =>
    destruct (step_remote fuse_search minSelections st (mkRemote (next_remote s) q1
                (searchLocalCatalog fuse_search (fuse s) q1)) r
                (find_fresh_remote (remotes s) (mkRemote (next_remote s) q1
                   (searchLocalCatalog fuse_search (fuse s) q1)) (next_remote s) eq_refl Hr))
      as (R & S & Q & L & T) end.
  cbn [rem_id rem_local] in R, S, Q, L, T.
  split; [exact Q|]. split; [exact S|].
  unfold view, shown_results, is_search_tab. rewrite L, T, Q, R. cbn [isLoading activeTab searchQuery].
  rewrite Hl, Ht. cbn [negb andb]. rewrite Hq2. reflexivity.
Qed.

(** The picker hands [onSelectionComplete] only selections of at
    least [minSelections] tastes with distinct ids: every sequence of
    inputs, clicks, key presses, searches and arrivals keeps the
    selected ids distinct and every completed selection that large. *)
Theorem picker_run_inv (es : list PickerEvent) (s : PickerState) :
  picker_inv minSelections s -> picker_inv minSelections (picker_run fuse_search minSelections es s).
Proof.
  unfold picker_run. revert s; induction es as [|e es IH]; intros s Hi; [exact Hi|].
  cbn [fold_left]. apply IH. now apply inv_step.
Qed.

(** The trending section falls back on the twelve built-in tastes
    (eight shown, and a button for four more) when the request fails or
    when one of the first three clusters has no name ([cluster_name
    .toLowerCase()] throws), discarding the backend's trending; a
    response whose status is not ok, or without clusters, shows no
    trending section at all. *)
Theorem trending_fallback (s : PickerState) (r : TrendingResp) :
  isLoading s = false -> activeTab s = TabSearch -> searchQuery s = "" -> trendingTastes s = [] ->
  let v := view minSelections (trending_arrives r s) in
  match r with
  | TrendingData (Some cl) =>
      Exists (fun c => c = None) (firstn 3 cl) ->
      v_trending v = firstn 8 fallbackTrending /\ v_more_trending v = Some 4
  | TrendingFail => v_trending v = firstn 8 fallbackTrending /\ v_more_trending v = Some 4
  | _ => v_trending v = [] /\ v_more_trending v = None
  end.
Proof.
  intros Hl Ht Hq Htr. unfold view, shown_trending, is_search_tab, trending_arrives.
  destruct r as [[cl|]| |]; cbn [fetchTrending].
  - intros Hex. rewrite (all_some_trending_none 0 _ Hex). cbn. rewrite Hl, Ht, Hq. split; reflexivity.
  - cbn. rewrite Hl, Ht, Hq. split; reflexivity.
  - rewrite Hl, Ht, Hq, Htr. split; reflexivity.
  - cbn. rewrite Hl, Ht, Hq. split; reflexivity.
Qed.

(** In [useTasteSelection], adding a taste that is not selected and
    removing it again restores the selection, and [onSelectionChange]
    hears of both changes; adding a taste already selected changes
    nothing and notifies no one. *)
Theorem addTaste_removeTaste (cb : bool) (t : Seed) (s : TasteSelection.SelState) :
  TasteSelection.isTasteSelected s (seed_id t) = false ->
  let s' := TasteSelection.removeTaste cb (seed_id t) (TasteSelection.addTaste cb t s) in
  TasteSelection.selectedTastes s' = TasteSelection.selectedTastes s /\
  TasteSelection.notified s' =
    (TasteSelection.notified s ++
     (if cb then [TasteSelection.selectedTastes s ++ [t]; TasteSelection.selectedTastes s] else []))%list /\
  TasteSelection.addTaste cb t (TasteSelection.addTaste cb t s) = TasteSelection.addTaste cb t s.
Proof.
  intros Hn. unfold TasteSelection.isTasteSelected in Hn. unfold TasteSelection.addTaste. rewrite Hn.
  unfold TasteSelection.removeTaste, TasteSelection.set_selected. cbn [TasteSelection.selectedTastes TasteSelection.notified].
  assert (Hw : without_id (seed_id t) (TasteSelection.selectedTastes s ++ [t]) = TasteSelection.selectedTastes s).
  { unfold without_id. rewrite filter_app. fold (without_id (seed_id t) (TasteSelection.selectedTastes s)).
    rewrite (without_id_absent _ _ Hn). cbn. rewrite String.eqb_refl. apply app_nil_r. }
  rewrite Hw. split; [reflexivity|]. split.
  - destruct cb; [now rewrite <- app_assoc|symmetry; apply app_nil_r].
  - assert (Hs : has_id (seed_id t) (TasteSelection.selectedTastes s ++ [t]) = true).
    { apply existsb_exists. exists t. split; [apply in_or_app; right; now left|apply String.eqb_refl]. }
    now rewrite Hs.
Qed.

End Properties.

(** *** Witnesses *)

Definition loaded : PickerState := catalog_arrives (CatalogData sample_catalog) initialPicker.

Lemma stale_search_results_witness :
  let s' := picker_run prefix_fuse 3
              [Input "jazz"; DebounceFires; Input "ja"; DebounceFires; RemoteArrives (next_remote loaded) RemoteNotOk]
              loaded in
  searchQuery s' = "ja" /\ isSearching s' = false /\
  v_results (view 3 s') =
    Some (firstn 8 (searchLocalCatalog prefix_fuse (fuse loaded) "jazz" ++ fst (searchRemoteQloo RemoteNotOk))).
Proof.
  apply stale_search_results;
    [reflexivity|reflexivity|constructor|discriminate|discriminate|vm_compute; discriminate|
     vm_compute; discriminate|vm_compute; lia|vm_compute; lia].
Defined.

Lemma picker_run_inv_witness :
  picker_inv 3 (picker_run prefix_fuse 3 [Click (CBrowse 0 0); Click (CBrowse 0 0); Click (CBrowse 1 0); ClickCTA]
                 loaded).
Proof. apply picker_run_inv. split; constructor. Defined.

Lemma trending_fallback_witness :
  v_trending (view 3 (trending_arrives TrendingFail loaded)) = firstn 8 fallbackTrending /\
  v_more_trending (view 3 (trending_arrives TrendingFail loaded)) = Some 4.
Proof. exact (trending_fallback 3 loaded TrendingFail eq_refl eq_refl eq_refl eq_refl). Defined.

Lemma addTaste_removeTaste_witness :
  let s' := TasteSelection.removeTaste true "jazz" (TasteSelection.addTaste true (taste "jazz") (TasteSelection.initialSel true)) in
  TasteSelection.selectedTastes s' = [] /\
  TasteSelection.notified s' = ([[]] ++ [[] ++ [taste "jazz"]; []])%list /\
  TasteSelection.addTaste true (taste "jazz") (TasteSelection.addTaste true (taste "jazz") (TasteSelection.initialSel true)) =
    TasteSelection.addTaste true (taste "jazz") (TasteSelection.initialSel true).
Proof. exact (addTaste_removeTaste true (taste "jazz") (TasteSelection.initialSel true) eq_refl). Defined.

End TastePicker.
