(* ===== verification/TasteCatalog.v ===== *)
(** * Taste catalog: the [useTasteCatalog] hook

    [src/culturis-studio/src/hooks/useTasteCatalog.js] loads the taste
    catalog and indexes it with Fuse.js, fetches trending tastes for
    the user's location, and searches: the catalog first, then the
    remote Qloo search when fewer than three local tastes match.  The
    remote tastes it has seen accumulate in [remoteTastes], without
    two of the same id.

    The hook is a state machine ([CatalogState], [catalog_step]) whose
    events are the arrival of the catalog and of the trending tastes,
    the calls of [searchTastes] with the answer of their remote
    request, and [setError].  A remote taste without an id gets one
    made of [Date.now()], a read of the clock stream of the prelude's
    [World].  The responses are the data types of [TastePicker];
    Fuse.js's search is the parameter [fuse_search]. *)
From S2P Require Import Prelude JsNumber JsString TastePicker.
From Stdlib Require Import String Ascii List ZArith Lia Bool.
Import ListNotations.
Open Scope string_scope.

Module TasteCatalog.

(** The state hooks (lines 11-15), [fuseRef] (line 18) as the items of
    its Fuse index, and whether the catalog request (lines 28-65) and
    the trending request (lines 70-112) are still in flight. *)
Record CatalogState : Type := mkCatalog {
  catalog : TastePicker.Catalog;
  trendingTastes : list Seed;
  remoteTastes : list Seed;
  isLoading : bool;
  error : option string;
  fuse : option (list Seed);
  catalog_pending : bool;
  trending_pending : bool
}.

(** The first render and its two effects: the catalog is requested,
    the trending tastes only for a [userLocation] that is not empty
    (line 109). *)
Definition initialCatalog (userLocation : string) : CatalogState :=
  mkCatalog [] [] [] true None None true (negb (String.eqb userLocation "")).

Definition with_remote (l : list Seed) (s : CatalogState) : CatalogState :=
  mkCatalog (catalog s) (trendingTastes s) l (isLoading s) (error s) (fuse s)
            (catalog_pending s) (trending_pending s).

(** [loadCatalog()] after its [await]s (lines 32-61): the catalog and
    its index, or the error; a status that is not ok throws (line 35)
    and lands in the [catch] as a failure does.  [finally] clears
    [isLoading]. *)
Definition loadCatalog (r : TastePicker.CatalogResp) (s : CatalogState) : CatalogState :=
  if catalog_pending s then
    match r with
    | TastePicker.CatalogData c =>
        mkCatalog c (trendingTastes s) (remoteTastes s) false None (Some (TastePicker.allItems c))
                  false (trending_pending s)
    | TastePicker.CatalogFail =>
        mkCatalog (catalog s) (trendingTastes s) (remoteTastes s) false (Some "Failed to load taste catalog")
                  (fuse s) false (trending_pending s)
    end
  else s.

(** The [map] callback of lines 89-94: [cluster.cluster_name
    .toLowerCase()] throws on a cluster without a name. *)
Definition trending_of (index : nat) (name : option string) : option Seed :=
  match name with
  | Some nm => Some (mkSeed ("trending_" ++ TastePicker.slug nm ++ "_" ++ JsString.digits (Z.of_nat index))
                            (Some nm) (Some "trending") (Some "trending") None None)
  | None => None
  end.

(** The three fallback tastes of the [catch] (lines 101-105). *)
Definition fallbackTrending : list Seed :=
  map (fun '(id, nm) => mkSeed id (Some nm) (Some "trending") (Some "trending") None None)
    [("trending_artisan_coffee", "Artisan Coffee");
     ("trending_indie_music", "Indie Music");
     ("trending_street_art", "Street Art")].

(** [fetchTrending()] after its [await]s (lines 80-106): the trending
    tastes it sets, if any.  A status that is not ok sets nothing. *)
Definition fetchTrending (r : TastePicker.TrendingResp) : option (list Seed) :=
  match r with
  | TastePicker.TrendingData clusters =>
      match TastePicker.all_some (mapi_from trending_of 0
                                    (firstn 3 (match clusters with Some l => l | None => [] end))) with
      | Some trending => Some trending
      | None => Some fallbackTrending
      end
  | TastePicker.TrendingNotOk => None
  | TastePicker.TrendingFail => Some fallbackTrending
  end.

Definition trending_arrives (r : TastePicker.TrendingResp) (s : CatalogState) : CatalogState :=
  if trending_pending s then
    mkCatalog (catalog s) (match fetchTrending r with Some l => l | None => trendingTastes s end)
              (remoteTastes s) (isLoading s) (error s) (fuse s) (catalog_pending s) false
  else s.

(** [entity.type || 'general'] (line 145). *)
Definition category_of (e : TastePicker.Entity) : string :=
  match TastePicker.ent_type e with
  | Some t => if String.eqb t "" then "general" else t
  | None => "general"
  end.

(** The remote search message of line 151. *)
Definition unavailable : Exn := Error "Search temporarily unavailable".

(** [setRemoteTastes(prev => ...)] of lines 178-181: the taste is
    appended unless one of its id is there. *)
Definition add_remote (prev : list Seed) (taste : Seed) : list Seed :=
  if has_id (seed_id taste) prev then prev else (prev ++ [taste])%list.

Section Hook.
Context (fuse_search : list Seed -> string -> list (Seed * Binary64.num)) (clock : nat -> Z).

(** [searchLocalCatalog(query)] (lines 117-128): nothing before the
    index is built or for a blank query; otherwise Fuse's results,
    typed ['local'] with their score. *)
Definition searchLocalCatalog (fz : option (list Seed)) (query : string) : list Seed :=
  match fz with
  | None => []
  | Some items =>
      if String.eqb (JsString.trim query) "" then []
      else map (fun '(t, sc) => mkSeed (seed_id t) (seed_name t) (Some "local") (seed_category t)
                                       (seed_emoji t) (Some sc))
               (fuse_search items query)
  end.

(** The [map] callback of lines 141-146: [entity.id] when it is truthy,
    and otherwise an id made of the name and [Date.now()], read once per
    entity; [entity.name.toLowerCase()] throws on an entity with
    neither. *)
Definition remote_entity (e : TastePicker.Entity) : M World Seed :=
  let by_name :=
    match TastePicker.ent_name e with
    | Some nm =>
        now <- read_clock clock ;;
        ret (mkSeed ("remote_" ++ TastePicker.slug nm ++ "_" ++ JsString.digits now) (Some nm)
                    (Some "remote") (Some (category_of e)) None None)
    | None => m_throw TypeError
    end in
  match TastePicker.ent_id e with
  | Some id =>
      if String.eqb id "" then by_name
      else ret (mkSeed id (TastePicker.ent_name e) (Some "remote") (Some (category_of e)) None None)
  | None => by_name
  end.

(** [searchRemoteQloo(query)] after its [await]s (lines 135-152): the
    first five entities, none for a status that is not ok; the [catch]
    turns a failure of the request and an exception of the callback
    into the rejection [unavailable]. *)
Definition searchRemoteQloo (r : TastePicker.RemoteResp) : M World (list Seed) :=
  m_catch
    (match r with
     | TastePicker.RemoteData ents =>
         m_mapi (fun _ e => remote_entity e) 0 (firstn 5 (match ents with Some l => l | None => [] end))
     | TastePicker.RemoteNotOk => ret []
     | TastePicker.RemoteFail => m_throw unavailable
     end)
    (fun _ => m_throw unavailable).

(** [searchTastes(query)] (lines 158-188), whose remote request gets
    the answer [r]: the results it resolves to and the state after the
    [setRemoteTastes] updates it queues, or the rejection of the remote
    search, rethrown with the state unchanged.  The only state it writes
    is [remoteTastes], through updates of the latest value, so running
    it at once keeps its effect on the state. *)
Definition searchTastes (query : string) (r : TastePicker.RemoteResp) (s : CatalogState)
  : M World (list Seed * CatalogState) :=
  if String.eqb (JsString.trim query) "" then ret ([], s)
  else
    let localResults := searchLocalCatalog (fuse s) query in
    if Nat.leb 3 (length localResults) then ret (firstn 8 localResults, s)
    else
      remoteResults <- searchRemoteQloo r ;;
      ret (firstn 8 (localResults ++ remoteResults)%list,
           with_remote (fold_left add_remote remoteResults (remoteTastes s)) s).

End Hook.

(** [getCategories()] (lines 193-195): the catalog's keys, in the
    order of the file (its categories are not array indices). *)
Definition getCategories (s : CatalogState) : list string := map fst (catalog s).

(** What [catalog[category] || []] finds: the tastes of a category, or
    the inherited member of [Object.prototype] a prototype key names,
    which is truthy and returned as it is. *)
Inductive CategoryLookup : Type :=
| Items (l : list Seed)
| InheritedMember (member : string).

(** [getTastesByCategory(category)] (lines 200-202). *)
Definition getTastesByCategory (s : CatalogState) (category : string) : CategoryLookup :=
  match find (fun kv => String.eqb (fst kv) category) (catalog s) with
  | Some (_, items) => Items items
  | None =>
      if existsb (String.eqb category) JsString.object_prototype_keys then InheritedMember category
      else Items []
  end.

(** [getAllTastes()] (lines 207-211). *)
Definition getAllTastes (s : CatalogState) : list Seed :=
  flat_map (fun '(cat, items) =>
              map (fun t => mkSeed (seed_id t) (seed_name t) (Some "local") (Some cat) (seed_emoji t) (seed_score t))
                  items) (catalog s).

(** [hasCatalog] and [hasTrending] (lines 235-236). *)
Definition hasCatalog (s : CatalogState) : bool := Nat.ltb 0 (length (catalog s)).
Definition hasTrending (s : CatalogState) : bool := Nat.ltb 0 (length (trendingTastes s)).

(** The events of the hook: the answers of its two effects, a call of
    [searchTastes] with the answer of its remote request, and a call of
    the [setError] it returns. *)
Inductive CatalogEvent : Type :=
| CatalogArrives (r : TastePicker.CatalogResp)
| TrendingArrives (r : TastePicker.TrendingResp)
| SearchCalled (query : string) (r : TastePicker.RemoteResp)
| SetError (e : option string).

Definition catalog_step (fuse_search : list Seed -> string -> list (Seed * Binary64.num)) (clock : nat -> Z)
    (e : CatalogEvent) (sw : CatalogState * World) : CatalogState * World :=
  let '(s, w) := sw in
  match e with
  | CatalogArrives r => (loadCatalog r s, w)
  | TrendingArrives r => (trending_arrives r s, w)
  | SearchCalled q r =>
      match searchTastes fuse_search clock q r s w with
      | (Ok (_, s'), w') => (s', w')
      | (Throw _, w') => (s, w')
      end
  | SetError err =>
      (mkCatalog (catalog s) (trendingTastes s) (remoteTastes s) (isLoading s) err (fuse s)
                 (catalog_pending s) (trending_pending s), w)
  end.

Definition catalog_run (fuse_search : list Seed -> string -> list (Seed * Binary64.num)) (clock : nat -> Z)
    (es : list CatalogEvent) (sw : CatalogState * World) : CatalogState * World :=
  fold_left (fun sw e => catalog_step fuse_search clock e sw) es sw.

(** ** Reference definitions *)

(** The hook's invariant: [isLoading] is set exactly while the catalog
    request is in flight, and no two remote tastes share an id. *)
Definition catalog_inv (s : CatalogState) : Prop :=
  isLoading s = catalog_pending s /\ NoDup (map seed_id (remoteTastes s)).

(** Whether the callback of [searchRemoteQloo] throws on an entity. *)
Definition entity_throws (e : TastePicker.Entity) : bool :=
  match TastePicker.ent_id e, TastePicker.ent_name e with
  | Some id, None => String.eqb id ""
  | None, None => true
  | _, _ => false
  end.

(** Samples: no local match, a clock in milliseconds from a recent
    instant, a remote answer with one entity that has no id. *)
Definition no_fuse (items : list Seed) (q : string) : list (Seed * Binary64.num) := [].
Definition sample_clock (n : nat) : Z := (1700000000000 + Z.of_nat n)%Z.
Definition blue_note : TastePicker.RemoteResp :=
  TastePicker.RemoteData (Some [TastePicker.mkEntity None (Some "Blue Note") (Some "urn:entity:place")]).
Definition jazz_club : TastePicker.RemoteResp :=
  TastePicker.RemoteData (Some [TastePicker.mkEntity (Some "Q1") (Some "Jazz Club") None;
                                TastePicker.mkEntity None (Some "Jazz Bar") None]).

(** ** Lemmas *)

Lemma with_remote_self (s : CatalogState) : with_remote (remoteTastes s) s = s.
Proof. now destruct s. Qed.

Lemma has_id_In (id : string) (l : list Seed) : has_id id l = true <-> In id (map seed_id l).
Proof.
  unfold has_id. rewrite existsb_exists, in_map_iff. split.
  - intros (t & Ht & E). apply String.eqb_eq in E. eauto.
  - intros (t & <- & Ht). exists t. split; [exact Ht|apply String.eqb_refl].
Qed.

Lemma add_remote_nodup (prev : list Seed) (t : Seed) :
  NoDup (map seed_id prev) -> NoDup (map seed_id (add_remote prev t)).
Proof.
  unfold add_remote. destruct (has_id (seed_id t) prev) eqn:E; [easy|].
  intros H. now apply TastePicker.NoDup_add.
Qed.

Lemma add_remote_mono (prev : list Seed) (t : Seed) (id : string) :
  has_id id prev = true -> has_id id (add_remote prev t) = true.
Proof.
  unfold add_remote. destruct (has_id (seed_id t) prev); [easy|].
  rewrite !has_id_In, map_app, in_app_iff. now left.
Qed.

Lemma add_remote_self (prev : list Seed) (t : Seed) : has_id (seed_id t) (add_remote prev t) = true.
Proof.
  unfold add_remote. destruct (has_id (seed_id t) prev) eqn:E; [easy|].
  rewrite has_id_In, map_app, in_app_iff. right. now left.
Qed.

Lemma add_remote_prefix (prev : list Seed) (t : Seed) : exists extra, add_remote prev t = (prev ++ extra)%list.
Proof. unfold add_remote. destruct (has_id _ _); [exists []; now rewrite app_nil_r|eauto]. Qed.

(** The updates a search queues, applied in turn: they keep the ids
    distinct, only append, and record every taste of the search. *)
Lemma fold_add_remote (l prev : list Seed) :
  (NoDup (map seed_id prev) -> NoDup (map seed_id (fold_left add_remote l prev))) /\
  (exists extra, fold_left add_remote l prev = (prev ++ extra)%list) /\
  (forall id, has_id id prev = true -> has_id id (fold_left add_remote l prev) = true) /\
  (forall t, In t l -> has_id (seed_id t) (fold_left add_remote l prev) = true).
Proof.
  revert prev; induction l as [|t l IH]; intros prev; cbn.
  - split; [auto|split; [exists []; now rewrite app_nil_r|split; [auto|intros ? []]]].
  - destruct (IH (add_remote prev t)) as (H1 & (extra & H2) & H3 & H4).
    split; [|split; [|split]].
    + intros H. apply H1, add_remote_nodup, H.
    + destruct (add_remote_prefix prev t) as [e1 E1]. exists (e1 ++ extra)%list.
      now rewrite H2, E1, app_assoc.
    + intros id H. apply H3, add_remote_mono, H.
    + intros t' [<-|Ht']; [apply H3, add_remote_self|apply H4, Ht'].
Qed.

Lemma searchLocalCatalog_local fuse_search fz q t :
  In t (searchLocalCatalog fuse_search fz q) -> seed_type t = Some "local".
Proof.
  unfold searchLocalCatalog. destruct fz as [items|]; [|intros []].
  destruct (String.eqb _ _); [intros []|]. intros (p & <- & _)%in_map_iff. now destruct p.
Qed.

Lemma remote_entity_ok (clock : nat -> Z) (e : TastePicker.Entity) (w : World) :
  (exists y w', remote_entity clock e w = (Ok y, w')) <-> entity_throws e = false.
Proof.
  unfold remote_entity, entity_throws.
  destruct (TastePicker.ent_id e) as [id|], (TastePicker.ent_name e) as [nm|];
    try destruct (String.eqb id ""); cbn;
    (split; [intros (? & ? & E); try discriminate E; reflexivity
            |intros E; try discriminate E; do 2 eexists; reflexivity]).
Qed.

(** The remote search rejects with [unavailable] only. *)
Lemma searchRemoteQloo_throw (clock : nat -> Z) (r : TastePicker.RemoteResp) (w : World) (e : Exn) (w' : World) :
  searchRemoteQloo clock r w = (Throw e, w') -> e = unavailable.
Proof.
  unfold searchRemoteQloo, m_catch.
  match goal with |- context [match ?m w with _ => _ end] => destruct (m w) as [[a|e0] w0] end;
    [discriminate|now intros [= <- _]].
Qed.

Lemma searchRemoteQloo_ok (clock : nat -> Z) (r : TastePicker.RemoteResp) (w : World) :
  (exists rr w', searchRemoteQloo clock r w = (Ok rr, w')) <->
  match r with
  | TastePicker.RemoteData ents => existsb entity_throws (firstn 5 (match ents with Some l => l | None => [] end)) = false
  | TastePicker.RemoteNotOk => True
  | TastePicker.RemoteFail => False
  end.
Proof.
  unfold searchRemoteQloo, m_catch. destruct r as [ents| |].
  - rewrite <- Forall_existsb_false,
      <- (m_mapi_ok_iff (fun _ e => remote_entity clock e) _ _ 0 w (fun k x w1 => remote_entity_ok clock x w1)).
    destruct (m_mapi _ 0 _ w) as [[a|e0] w0]; [reflexivity|].
    split; intros (? & ? & E); discriminate E.
  - split; [auto|intros _; do 2 eexists; reflexivity].
  - split; [intros (? & ? & [=])|intros []].
Qed.

Lemma catalog_step_inv fuse_search clock (e : CatalogEvent) (s : CatalogState) (w : World) :
  catalog_inv s -> catalog_inv (fst (catalog_step fuse_search clock e (s, w))).
Proof.
  intros [HL HN]. destruct e as [r|r|q r|err]; cbn.
  - unfold loadCatalog. destruct (catalog_pending s) eqn:E; [destruct r|]; split; cbn; auto; congruence.
  - unfold trending_arrives. destruct (trending_pending s); split; cbn; auto.
  - unfold searchTastes. destruct (String.eqb _ _); [split; auto|].
    destruct (Nat.leb 3 _); [split; auto|]. unfold m_bind.
    destruct (searchRemoteQloo clock r w) as [[rr|e0] w1]; split; cbn; auto.
    now apply (fold_add_remote rr (remoteTastes s)).
  - split; cbn; auto.
Qed.

Lemma remote_id_neq (nm : string) (c1 c2 : Z) :
  (0 <= c1)%Z -> (0 <= c2)%Z -> c1 <> c2 ->
  String.eqb ("remote_" ++ TastePicker.slug nm ++ "_" ++ JsString.digits c1)
             ("remote_" ++ TastePicker.slug nm ++ "_" ++ JsString.digits c2) = false.
Proof.
  intros H1 H2 Hne. apply String.eqb_neq. intros E.
  do 3 apply JsString.string_app_inv_l in E. exact (Hne (JsString.digits_inj _ _ H1 H2 E)).
Qed.

Lemma getTastesByCategory_inherited (s : CatalogState) (k : string) :
  In k JsString.object_prototype_keys -> ~ In k (getCategories s) ->
  getTastesByCategory s k = InheritedMember k.
Proof.
  intros Hk Hc. unfold getTastesByCategory.
  destruct (find _ (catalog s)) as [[k' items]|] eqn:E.
  - apply find_some in E as [E1 E2]. apply String.eqb_eq in E2. cbn in E2. subst k'.
    exfalso. apply Hc. apply in_map_iff. now exists (k, items).
  - replace (existsb (String.eqb k) JsString.object_prototype_keys) with true; [reflexivity|].
    symmetry. apply existsb_exists. exists k. split; [exact Hk|apply String.eqb_refl].
Qed.

(** A search rejects exactly when the query is not blank, fewer than
    three local tastes match, and the remote request fails or one of
    its first five entities has neither an id nor a name; it rejects
    with [unavailable] only. *)
Theorem searchTastes_rejects fuse_search clock (q : string) (r : TastePicker.RemoteResp) (s : CatalogState)
    (w : World) (e : Exn) :
  fst (searchTastes fuse_search clock q r s w) = Throw e <->
  e = unavailable /\ JsString.trim q <> "" /\ length (searchLocalCatalog fuse_search (fuse s) q) < 3 /\
  match r with
  | TastePicker.RemoteData ents => existsb entity_throws (firstn 5 (match ents with Some l => l | None => [] end)) = true
  | TastePicker.RemoteNotOk => False
  | TastePicker.RemoteFail => True
  end.
Proof.
  unfold searchTastes. destruct (String.eqb (JsString.trim q) "") eqn:Eq.
  { cbn. split; [discriminate|]. intros (_ & H & _). now apply String.eqb_eq in Eq. }
  destruct (Nat.leb 3 _) eqn:El.
  { cbn. split; [discriminate|]. intros (_ & _ & H & _). apply Nat.leb_le in El. lia. }
  pose proof (searchRemoteQloo_ok clock r w) as Hok. pose proof (searchRemoteQloo_throw clock r w) as Hth.
  unfold m_bind. destruct (searchRemoteQloo clock r w) as [[rr|e0] w1] eqn:Er; cbn.
  - split; [discriminate|]. intros (_ & _ & _ & H).
    pose proof (proj1 Hok (ex_intro _ rr (ex_intro _ w1 eq_refl))) as Hr.
    destruct r; cbv iota beta in H, Hr; try contradiction. exfalso. exact (Bool.eq_true_false_abs _ H Hr).
  - rewrite (Hth e0 w1 eq_refl). split.
    + intros [= <-]. split; [reflexivity|split; [now apply String.eqb_neq|split; [now apply Nat.leb_gt|]]].
      destruct r as [ents| |]; [|destruct (proj2 Hok I) as (? & ? & [=])|exact I].
      destruct (existsb _ _) eqn:Ex; [reflexivity|]. destruct (proj2 Hok eq_refl) as (? & ? & [=]).
    + now intros (-> & _).
Qed.

(** A search that reaches the remote request, and whose request
    answers, sets the remote tastes it queues. *)
Lemma catalog_step_search fuse_search clock (q : string) (r : TastePicker.RemoteResp) (s : CatalogState)
    (w w' : World) (rr : list Seed) :
  JsString.trim q <> "" -> length (searchLocalCatalog fuse_search (fuse s) q) < 3 ->
  searchRemoteQloo clock r w = (Ok rr, w') ->
  catalog_step fuse_search clock (SearchCalled q r) (s, w) = (with_remote (fold_left add_remote rr (remoteTastes s)) s, w').
Proof.
  intros Hq Hl Hr. cbn. unfold searchTastes.
  rewrite (proj2 (String.eqb_neq _ _) Hq), (proj2 (Nat.leb_gt _ _) Hl). unfold m_bind. now rewrite Hr.
Qed.

Section Properties.
Context (fuse_search : list Seed -> string -> list (Seed * Binary64.num)) (clock : nat -> Z).

(** A search that resolves returns at most eight tastes and
    changes no state but [remoteTastes], which it only extends and
    keeps free of repeated ids; every remote taste it returns is
    recorded there. *)
Theorem searchTastes_remote_recorded (q : string) (r : TastePicker.RemoteResp) (s : CatalogState) (w : World)
    (res : list Seed) (s' : CatalogState) (w' : World) :
  NoDup (map seed_id (remoteTastes s)) ->
  searchTastes fuse_search clock q r s w = (Ok (res, s'), w') ->
  length res <= 8 /\ s' = with_remote (remoteTastes s') s /\
  NoDup (map seed_id (remoteTastes s')) /\
  (exists extra, remoteTastes s' = (remoteTastes s ++ extra)%list) /\
  (forall t, In t res -> seed_type t = Some "remote" -> has_id (seed_id t) (remoteTastes s') = true).
Proof.
  intros HN. unfold searchTastes.
  assert (Hloc : forall t l, In t (firstn 8 (searchLocalCatalog fuse_search (fuse s) q)) ->
                 seed_type t = Some "remote" -> has_id (seed_id t) l = true)
    by (intros t l Ht E; apply In_firstn, searchLocalCatalog_local in Ht; congruence).
  destruct (String.eqb _ _); [|destruct (Nat.leb 3 _)].
  - intros [= <- <- _]. rewrite with_remote_self. split; [cbn; lia|]. split; [reflexivity|].
    split; [exact HN|]. split; [exists []; now rewrite app_nil_r|intros _ []].
  - intros [= <- <- _]. rewrite with_remote_self. split; [exact (firstn_le_length 8 _)|]. split; [reflexivity|].
    split; [exact HN|]. split; [exists []; now rewrite app_nil_r|intros t; apply Hloc].
  -   unfold m_bind. destruct (searchRemoteQloo clock r w) as [[rr|e] w1]; [|discriminate].
  intros [= <- <- _]. destruct (fold_add_remote rr (remoteTastes s)) as (H1 & H2 & _ & H4). cbn.
  split; [exact (firstn_le_length 8 _)|split; [reflexivity|split; [auto|split; [exact H2|]]]].
  intros t Ht E. apply (In_firstn 8), in_app_iff in Ht as [Ht|Ht]; [|exact (H4 t Ht)].
  apply searchLocalCatalog_local in Ht. congruence.
Qed.

(** C17: under every sequence of catalog and trending answers, searches
    and [setError] calls, [isLoading] is set exactly while the catalog
    request is in flight and the remote tastes keep distinct ids. *)
Theorem catalog_run_inv (es : list CatalogEvent) (s : CatalogState) (w : World) :
  catalog_inv s -> catalog_inv (fst (catalog_run fuse_search clock es (s, w))).
Proof.
  unfold catalog_run. revert s w; induction es as [|e es IH]; intros s w Hs; [exact Hs|]. cbn [fold_left].
  pose proof (catalog_step_inv fuse_search clock e s w Hs) as H.
  destruct (catalog_step fuse_search clock e (s, w)) as [s1 w1]. exact (IH s1 w1 H).
Qed.

(** C19: a remote entity without an id gets an id made of
    [Date.now()], so the same entity found by two searches at two
    instants is recorded twice in [remoteTastes], under two ids: the
    check for an existing id never fires for it. *)
Theorem remote_tastes_duplicate (s : CatalogState) (q nm : string) (ty : option string) (w : World) :
  remoteTastes s = [] -> JsString.trim q <> "" -> length (searchLocalCatalog fuse_search (fuse s) q) < 3 ->
  (0 <= clock (ticks w))%Z -> (0 <= clock (S (ticks w)))%Z -> clock (ticks w) <> clock (S (ticks w)) ->
  let e := TastePicker.mkEntity None (Some nm) ty in
  let taste_at c := mkSeed ("remote_" ++ TastePicker.slug nm ++ "_" ++ JsString.digits c) (Some nm)
                           (Some "remote") (Some (category_of e)) None None in
  let r := TastePicker.RemoteData (Some [e]) in
  remoteTastes (fst (catalog_run fuse_search clock [SearchCalled q r; SearchCalled q r] (s, w)))
  = [taste_at (clock (ticks w)); taste_at (clock (S (ticks w)))].
Proof.
  intros H0 Hq Hl H1 H2 Hne e taste_at r. unfold catalog_run. cbn [fold_left].
  rewrite (catalog_step_search fuse_search clock q r s w (mkWorld (draws w) (S (ticks w)))
             [taste_at (clock (ticks w))] Hq Hl eq_refl).
  rewrite (catalog_step_search fuse_search clock q r
             (with_remote (fold_left add_remote [taste_at (clock (ticks w))] (remoteTastes s)) s)
             (mkWorld (draws w) (S (ticks w))) (mkWorld (draws w) (S (S (ticks w))))
             [taste_at (clock (S (ticks w)))] Hq Hl eq_refl).
  cbn [fst remoteTastes with_remote fold_left]. rewrite H0.
  assert (Hn : has_id (seed_id (taste_at (clock (S (ticks w))))) [taste_at (clock (ticks w))] = false).
  { unfold has_id. cbn [existsb]. rewrite orb_false_r. exact (remote_id_neq nm _ _ H1 H2 Hne). }
  change (add_remote [] (taste_at (clock (ticks w)))) with [taste_at (clock (ticks w))].
  unfold add_remote at 1. now rewrite Hn.
Qed.

End Properties.

(** ** Witnesses *)

Lemma searchTastes_remote_recorded_witness :
  exists res s' w',
    searchTastes no_fuse sample_clock "jazz" jazz_club (initialCatalog "New York, NY") (mkWorld 0 0)
    = (Ok (res, s'), w') /\
    length res <= 8 /\ s' = with_remote (remoteTastes s') (initialCatalog "New York, NY") /\
    NoDup (map seed_id (remoteTastes s')) /\
    (exists extra, remoteTastes s' = (remoteTastes (initialCatalog "New York, NY") ++ extra)%list) /\
    (forall t, In t res -> seed_type t = Some "remote" -> has_id (seed_id t) (remoteTastes s') = true).
Proof.
  set (found := [mkSeed "Q1" (Some "Jazz Club") (Some "remote") (Some "general") None None;
                 mkSeed "remote_jazz_bar_1700000000000" (Some "Jazz Bar") (Some "remote") (Some "general") None None]).
  exists found, (with_remote found (initialCatalog "New York, NY")), (mkWorld 0 1).
  assert (E : searchTastes no_fuse sample_clock "jazz" jazz_club (initialCatalog "New York, NY") (mkWorld 0 0)
              = (Ok (found, with_remote found (initialCatalog "New York, NY")), mkWorld 0 1))
    by (vm_compute; reflexivity).
  split; [exact E|].
  apply (searchTastes_remote_recorded no_fuse sample_clock "jazz" jazz_club (initialCatalog "New York, NY")
           (mkWorld 0 0) _ _ (mkWorld 0 1)); [constructor|exact E].
Defined.

Lemma catalog_run_inv_witness :
  catalog_inv (fst (catalog_run no_fuse sample_clock
                      [CatalogArrives TastePicker.CatalogFail; SearchCalled "jazz" jazz_club;
                       SearchCalled "jazz" blue_note; SetError None]
                      (initialCatalog "New York, NY", mkWorld 0 0))).
Proof. apply catalog_run_inv. split; [reflexivity|constructor]. Defined.

Lemma remote_tastes_duplicate_witness :
  remoteTastes (fst (catalog_run no_fuse sample_clock [SearchCalled "jazz" blue_note; SearchCalled "jazz" blue_note]
                       (initialCatalog "New York, NY", mkWorld 0 0)))
  = [mkSeed "remote_blue_note_1700000000000" (Some "Blue Note") (Some "remote") (Some "urn:entity:place") None None;
     mkSeed "remote_blue_note_1700000000001" (Some "Blue Note") (Some "remote") (Some "urn:entity:place") None None].
Proof.
  exact (remote_tastes_duplicate no_fuse sample_clock (initialCatalog "New York, NY") "jazz" "Blue Note"
           (Some "urn:entity:place") (mkWorld 0 0) eq_refl ltac:(vm_compute; discriminate) ltac:(cbn; lia)
           ltac:(unfold sample_clock; lia) ltac:(unfold sample_clock; lia) ltac:(unfold sample_clock; lia)).
Defined.

End TasteCatalog.
