(* ===== verification/Map2D.v ===== *)
(** * The 2D map view: venue loading and the fallback generator

    [src/culturis-studio/src/components/Simple2DMapView.js] is the map
    the page shows: an effect posts the selected tastes to the backend
    and shows the venues it answers, or, when the request fails,
    venues generated around the map's center from the tastes' names;
    a marker per venue opens the venue drawer, and a button opens the
    route planner.

    The component is a state machine ([MapState], [map_step]) whose
    events are the commits of its props (which run the effect when its
    dependencies changed), the settling of the backend request, and the
    user's clicks.  [isFetchingRef] guards the effect against a second
    request; [requests] lists the bodies of the requests it sent.  The
    generator draws from the prelude's random stream; [Math.cos] and
    [Math.sin] are the engine's ([JsMath]) and the final sort any
    engine's ([ArraySort]). *)
From S2P Require Import Prelude JsNumber JsString ArraySort Venue TastePicker.
From Corelib Require Import SpecFloat.
From Stdlib Require Import String Ascii List ZArith Lia Bool Permutation.
Import ListNotations.
Open Scope string_scope.

Module Map2D.

(** A venue as the view reads it: the object the generator pushes
    (lines 374-384), which the backend's venues also are; its [type] may
    be missing on a backend venue. *)
Record MapVenue : Type := mkMapVenue {
  mv_id : Z;
  mv_number : Z;
  mv_name : option string;
  mv_type : option string;
  mv_affinity : JsInt;
  mv_rating : Binary64.num;
  mv_coordinates : Binary64.num * Binary64.num;
  mv_address : string;
  mv_culturalMatch : string
}.

Definition Coords : Type := Binary64.num * Binary64.num.

(** ** The markers *)

(** The color and size of a marker (lines 100-101). *)
Definition venueColor (affinity : JsInt) : string :=
  if JsInt.gtb_const affinity 70 then "#e74c3c"
  else if JsInt.gtb_const affinity 40 then "#f39c12" else "#3498db".

Definition venueSize (affinity : JsInt) : Z := if JsInt.gtb_const affinity 70 then 35 else 30.

(** The legend of the markers' colors (lines 592-608). *)
Definition legend : list (string * string) :=
  [("#e74c3c", "High Match (70%+)"); ("#f39c12", "Medium Match (40-69%)");
   ("#3498db", "Low Match (<40%)")].

(** The class of the match in a popup (line 490). *)
Definition matchLevel (affinity : JsInt) : string :=
  if JsInt.gtb_const affinity 80 then "high"
  else if JsInt.gtb_const affinity 60 then "medium" else "low".

(** [typeMap] of [getVenueEmoji] (lines 105-123). *)
Definition typeMap : list (string * string) :=
  [("Restaurant", "🍽️"); ("Deli", "🥪"); ("Cafe", "☕"); ("Bar", "🍸");
   ("Art Museum", "🎨"); ("Modern Art Museum", "🖼️"); ("Museum", "🏛️");
   ("Market", "🛒"); ("Shopping Mall", "🏬"); ("Event Venue", "🎪");
   ("Arena", "🏟️"); ("Stadium", "⚽"); ("Tourist Attraction", "📍");
   ("Historical Landmark", "🏛️"); ("Park", "🌳"); ("Garden", "🌸");
   ("Cultural Venue", "🎭")].

(** What [typeMap[type] || '📍'] finds: an emoji, or the inherited
    member of [Object.prototype] a prototype key names, which is truthy
    and printed into the marker's HTML. *)
Inductive Emoji : Type :=
| EmojiText (s : string)
| EmojiInherited (member : string).

(** [getVenueEmoji(venue.type)] (lines 104-125): a missing type is the
    key ["undefined"]. *)
Definition getVenueEmoji (type : option string) : Emoji :=
  let k := match type with Some t => t | None => "undefined" end in
  match find (fun kv => String.eqb (fst kv) k) typeMap with
  | Some (_, e) => EmojiText e
  | None => if existsb (String.eqb k) JsString.object_prototype_keys then EmojiInherited k
            else EmojiText "📍"
  end.

(** ** The fallback generator *)

(** [venueTypes] (lines 276-307). *)
Definition venueTypes : list (string * list string) :=
  [("art", ["Art Gallery"; "Museum"; "Art Studio"; "Creative Space"]);
   ("music", ["Live Music Venue"; "Record Store"; "Concert Hall"; "Jazz Club"]);
   ("theater", ["Theater"; "Performance Space"; "Comedy Club"; "Improv Studio"]);
   ("photography", ["Photo Gallery"; "Camera Store"; "Art Studio"; "Exhibition Space"]);
   ("design", ["Design Studio"; "Architecture Firm"; "Creative Co-working"; "Maker Space"]);
   ("coffee", ["Coffee Shop"; "Specialty Cafe"; "Roastery"; "Third Wave Coffee"]);
   ("wine", ["Wine Bar"; "Tasting Room"; "Wine Shop"; "Vineyard"]);
   ("craft beer", ["Craft Brewery"; "Beer Garden"; "Taproom"; "Beer Store"]);
   ("cocktails", ["Cocktail Bar"; "Speakeasy"; "Mixology Lounge"; "Rooftop Bar"]);
   ("fine dining", ["Fine Restaurant"; "Michelin Star"; "Chef's Table"; "Tasting Menu"]);
   ("street food", ["Food Truck"; "Market Stall"; "Food Hall"; "Street Vendor"]);
   ("fashion", ["Boutique"; "Designer Store"; "Vintage Shop"; "Fashion Studio"]);
   ("books", ["Bookstore"; "Literary Cafe"; "Book Club"; "Reading Room"]);
   ("vintage", ["Vintage Store"; "Antique Shop"; "Thrift Store"; "Consignment"]);
   ("wellness", ["Yoga Studio"; "Meditation Center"; "Spa"; "Wellness Center"]);
   ("nightlife", ["Nightclub"; "Dance Club"; "Rooftop Lounge"; "Late Night Bar"]);
   ("social", ["Community Center"; "Co-working Space"; "Social Club"; "Meetup Space"]);
   ("sports", ["Sports Bar"; "Recreation Center"; "Fitness Studio"; "Athletic Club"]);
   ("history", ["Historical Site"; "Museum"; "Cultural Center"; "Heritage Site"]);
   ("science", ["Science Museum"; "Observatory"; "Tech Hub"; "Innovation Center"]);
   ("nature", ["Botanical Garden"; "Park"; "Nature Center"; "Outdoor Space"])].

(** [relevantVenueTypes.add(type)]: a [Set] keeps its first insertion
    order and no duplicate. *)
Definition add_type (acc : list string) (x : string) : list string :=
  if existsb (String.eqb x) acc then acc else (acc ++ [x])%list.

(** [tasteName.split(' ')[0]]. *)
Definition first_word (s : string) : string :=
  match JsString.split " "%char s with w :: _ => w | [] => "" end.

(** The body of the [forEach] over the tastes (lines 312-330) on a
    taste's lower-case name. *)
Definition taste_types (tasteName : string) (acc : list string) : list string :=
  let acc1 := fold_left (fun acc '(category, types) =>
                 if JsString.includes tasteName category || JsString.includes category (first_word tasteName)
                 then fold_left add_type types acc else acc) venueTypes acc in
  fold_left (fun acc '(kw, ty) => if JsString.includes tasteName kw then add_type acc ty else acc)
    [("museum", "Museum"); ("gallery", "Art Gallery"); ("restaurant", "Restaurant"); ("bar", "Bar");
     ("cafe", "Cafe"); ("market", "Market"); ("park", "Park")] acc1.

(** The default types (lines 333-337). *)
Definition defaultTypes : list string := ["Art Gallery"; "Coffee Shop"; "Restaurant"; "Park"; "Museum"; "Bar"].

(** One taste of the [forEach]: [taste.name.toLowerCase()] throws on a
    taste without a name. *)
Definition type_step (acc : list string) (t : Seed) : Result (list string) :=
  match seed_name t with
  | Some nm => Ok (taste_types (JsString.toLowerCase nm) acc)
  | None => Throw TypeError
  end.

(** [Array.from(relevantVenueTypes)] (lines 310-338). *)
Definition relevantVenueTypes (tastes : list Seed) : Result (list string) :=
  res_bind (res_foldl type_step tastes [])
    (fun types => Ok (match types with [] => defaultTypes | _ => types end)).

(** [venueNames[venueType] || [...]] (lines 358-369). *)
Definition venueNames : list (string * list string) :=
  [("Art Gallery", ["Modern Canvas"; "Gallery District"; "Artisan Space"; "Creative Collective"]);
   ("Coffee Shop", ["Roasted Beans"; "Morning Ritual"; "The Daily Grind"; "Cafe Culture"]);
   ("Restaurant", ["Local Table"; "Harvest Kitchen"; "Seasonal Plates"; "Neighborhood Bistro"]);
   ("Museum", ["Cultural Heritage"; "Local History"; "Arts & Sciences"; "Discovery Center"]);
   ("Bar", ["Craft & Co"; "The Local Tap"; "Sunset Lounge"; "Social House"]);
   ("Live Music Venue", ["Sound Stage"; "The Music Hall"; "Rhythm & Blues"; "Concert Corner"]);
   ("Bookstore", ["Chapter & Verse"; "Literary Corner"; "Book Haven"; "Reading Room"]);
   ("Park", ["Central Gardens"; "Community Green"; "Riverside Park"; "Urban Oasis"])].

Definition nameOptions (venueType : string) : list string :=
  match find (fun kv => String.eqb (fst kv) venueType) venueNames with
  | Some (_, l) => l
  | None => ["Local Spot"; "Cultural Hub"; "Community Space"]
  end.

(** [nameOptions[k]]: [undefined] off the array. *)
Definition pick (opts : list string) (k : JsInt) : option string :=
  match k with
  | JInt z => if (0 <=? z)%Z then nth_error opts (Z.to_nat z) else None
  | _ => None
  end.

(** [selectedTastes.slice(0, 2).map(t => t.name).join(', ')]: [join]
    prints a missing name as the empty string. *)
Definition culturalMatch (tastes : list Seed) : string :=
  JsString.join ", " (map (fun t => match seed_name t with Some nm => nm | None => "" end) (firstn 2 tastes)).

(** The number of venues (line 344). *)
Definition venueCount (types : list string) : nat := Nat.min 15 (3 * length types).

(** [(a, b) => b.affinity - a.affinity]. *)
Definition num_of_int (x : JsInt) : Binary64.num :=
  match x with
  | JInt z => Binary64.of_Z z
  | JNaN => S754_nan
  | JInf s => S754_infinity s
  end.

Definition by_affinity (a b : MapVenue) : Result Binary64.num :=
  Ok (num_of_int (JsInt.sub (mv_affinity b) (mv_affinity a))).

Section Generator.
Context `{JsMath} `{ArraySort} (random_stream : nat -> Binary64.num).

(** The body of the [for] loop (lines 344-385) for index [i], with its
    five draws of [Math.random()] in the order of the source: radius,
    angle, affinity, name, rating. *)
Definition fallback_venue (tastes : list Seed) (userLocation : string) (center : Coords)
    (types : list string) (i : nat) : M World MapVenue :=
  r1 <- Math_random random_stream ;;
  r2 <- Math_random random_stream ;;
  let radiusKm := Binary64.add (Binary64.lit 15 10) (Binary64.mul r1 (Binary64.lit 15 10)) in
  let angle := Binary64.mul (Binary64.mul r2 (Binary64.of_Z 2)) Binary64.PI in
  let '(baseLat, baseLng) := center in
  let lat := Binary64.add baseLat (Binary64.mul (Binary64.div radiusKm (Binary64.of_Z 111)) (Math_cos angle)) in
  let lng := Binary64.add baseLng
               (Binary64.mul (Binary64.div radiusKm
                                (Binary64.mul (Binary64.of_Z 111)
                                   (Math_cos (Binary64.div (Binary64.mul baseLat Binary64.PI) (Binary64.of_Z 180)))))
                             (Math_sin angle)) in
  let venueType := nth (i mod length types) types "" in
  r3 <- Math_random random_stream ;;
  let affinity := Binary64.add (Binary64.of_Z 60) (Binary64.mul r3 (Binary64.of_Z 35)) in
  let opts := nameOptions venueType in
  r4 <- Math_random random_stream ;;
  let venueName := pick opts (JsInt.floor (Binary64.mul r4 (Binary64.of_Z (Z.of_nat (length opts))))) in
  r5 <- Math_random random_stream ;;
  ret (mkMapVenue (Z.of_nat (S i)) (Z.of_nat (S i)) venueName (Some venueType) (JsInt.round affinity)
                  (Binary64.add (Binary64.lit 35 10) (Binary64.mul r5 (Binary64.lit 13 10)))
                  (lat, lng) (userLocation ++ " Area") (culturalMatch tastes)).

(** [generateFallbackVenues()] (lines 272-395): the venues it sets,
    sorted by decreasing affinity. *)
Definition generateFallbackVenues (tastes : list Seed) (userLocation : string) (center : Coords)
  : M World (list MapVenue) :=
  types <- m_lift (relevantVenueTypes tastes) ;;
  generated <- m_mapi (fun _ i => fallback_venue tastes userLocation center types i) 0
                 (seq 0 (venueCount types)) ;;
  m_lift (array_sort by_affinity generated).

End Generator.

(** ** The component *)

Inductive Drawer : Type := Hidden | Expanded.

(** The dependencies of the effect (line 397): [memoizedTastes], the
    JSON of the tastes' names (a missing name is left out of its
    object, as [None] is here), and [userLocation]. *)
Definition Key : Type := list (option string) * string.

Definition opt_str_dec (x y : option string) : {x = y} + {x <> y}.
Proof. decide equality; apply string_dec. Defined.

Definition key_eq_dec (a b : Key) : {a = b} + {a <> b}.
Proof. decide equality; first [apply string_dec | apply (list_eq_dec opt_str_dec)]. Defined.

(** The state hooks (lines 86-90), [isFetchingRef] (line 85), the
    dependencies of the last run of the effect, the request in flight
    with the values its closure captured, the bodies of the requests
    sent, and the calls of [onVenuesUpdate]. *)
Record MapState : Type := mkMap {
  venues : list MapVenue;
  isLoadingVenues : bool;
  isFetching : bool;
  selectedVenue : option MapVenue;
  drawerState : Drawer;
  showRoutePlanner : bool;
  deps : option Key;
  inflight : option (list Seed * string * Coords);
  requests : list (list Seed * string * Coords);
  updates : list (list MapVenue)
}.

Definition initialMap : MapState := mkMap [] true false None Hidden false None None [] [].

(** The answer of [POST /api/venues]: its body's [success] and
    [venues], or a failure (a status that is not ok, a network error,
    the 10 s timeout, a body that is not JSON). *)
Inductive BackendResp : Type :=
| Backend (success : bool) (vs : option (list MapVenue))
| BackendFail.

(** The effect of lines 183-213 after a commit with dependencies [key]. *)
Definition venue_effect (tastes : list Seed) (userLocation : string) (center : Coords) (key : Key)
    (s : MapState) : MapState :=
  match tastes with
  | [] => mkMap [] false (isFetching s) (selectedVenue s) (drawerState s) (showRoutePlanner s) (Some key)
                (inflight s) (requests s) (updates s)
  | _ =>
      if isFetching s then
        mkMap (venues s) (isLoadingVenues s) true (selectedVenue s) (drawerState s) (showRoutePlanner s)
              (Some key) (inflight s) (requests s) (updates s)
      else
        mkMap (venues s) true true (selectedVenue s) (drawerState s) (showRoutePlanner s) (Some key)
              (Some (tastes, userLocation, center)) (requests s ++ [(tastes, userLocation, center)])%list
              (updates s)
  end.

(** A commit with the props [selectedTastes], [userLocation] and
    [mapCenter]: React runs the effect when its dependencies changed. *)
Definition commit (tastes : list Seed) (userLocation : string) (center : Coords) (s : MapState) : MapState :=
  let key := (map seed_name tastes, userLocation) in
  match deps s with
  | Some k => if key_eq_dec k key then s else venue_effect tastes userLocation center key s
  | None => venue_effect tastes userLocation center key s
  end.

(** The [finally] block (lines 265-268). *)
Definition settled (s : MapState) : MapState :=
  mkMap (venues s) false false (selectedVenue s) (drawerState s) (showRoutePlanner s) (deps s) None
        (requests s) (updates s).

Definition show (vs : list MapVenue) (s : MapState) : MapState :=
  mkMap vs (isLoadingVenues s) (isFetching s) (selectedVenue s) (drawerState s) (showRoutePlanner s)
        (deps s) (inflight s) (requests s) (updates s ++ [vs])%list.

Section Component.
Context `{JsMath} `{ArraySort} (random_stream : nat -> Binary64.num).

(** [fetchVenuesFromBackend()] after its [await]s (lines 238-269): the
    backend's venues when it answers [success] with some, and otherwise
    the fallback venues; an exception of the generator escapes the
    [catch] and only the [finally] block runs. *)
Definition settle (r : BackendResp) (s : MapState) : M World MapState :=
  match inflight s with
  | None => ret s
  | Some (tastes, userLocation, center) =>
      match r with
      | Backend true (Some ((_ :: _) as vs)) => ret (settled (show vs s))
      | _ =>
          m_catch (vs <- generateFallbackVenues random_stream tastes userLocation center ;;
                   ret (settled (show vs s)))
                  (fun _ => ret (settled s))
      end
  end.

Inductive MapEvent : Type :=
| Commit (tastes : list Seed) (userLocation : string) (center : Coords)
| Settle (r : BackendResp)
| VenueClick (k : nat)
| DrawerClose
| PlanRoute
| ClosePlanner.

(** The [k]-th marker's click (lines 399-402, 445-452) and the drawer's
    close (lines 405-408); the markers and the Plan Route button are
    only rendered once the venues are loaded (lines 414, 574-581). *)
Definition map_step (e : MapEvent) (s : MapState) : M World MapState :=
  match e with
  | Commit tastes loc center => ret (commit tastes loc center s)
  | Settle r => settle r s
  | VenueClick k =>
      match nth_error (venues s) k with
      | Some v =>
          if isLoadingVenues s then ret s
          else ret (mkMap (venues s) (isLoadingVenues s) (isFetching s) (Some v) Expanded (showRoutePlanner s)
                          (deps s) (inflight s) (requests s) (updates s))
      | None => ret s
      end
  | DrawerClose =>
      ret (mkMap (venues s) (isLoadingVenues s) (isFetching s) None Hidden (showRoutePlanner s)
                 (deps s) (inflight s) (requests s) (updates s))
  | PlanRoute =>
      if negb (isLoadingVenues s) && negb (Nat.eqb (length (venues s)) 0) then
        ret (mkMap (venues s) (isLoadingVenues s) (isFetching s) (selectedVenue s) (drawerState s) true
                   (deps s) (inflight s) (requests s) (updates s))
      else ret s
  | ClosePlanner =>
      ret (mkMap (venues s) (isLoadingVenues s) (isFetching s) (selectedVenue s) (drawerState s) false
                 (deps s) (inflight s) (requests s) (updates s))
  end.

Fixpoint map_run (es : list MapEvent) (s : MapState) : M World MapState :=
  match es with
  | [] => ret s
  | e :: es' => s' <- map_step e s ;; map_run es' s'
  end.

End Component.

(** ** The active route's badge *)

(** A number of the integer kind as the double it is. *)
Definition js_to_num (x : JsInt) : Binary64.num :=
  match x with
  | JInt z => Binary64.of_Z z
  | JInf b => S754_infinity b
  | JNaN => S754_nan
  end.

(** The badge of the active route (lines 582-588): the number of its
    stops, [Math.round(totalDuration / 60)] hours and
    [totalDuration % 60] minutes. *)
Definition route_badge (r : Venue.PlannedRoute) : nat * JsInt * JsInt :=
  (length (Venue.venues r),
   JsInt.round (Binary64.div (js_to_num (Venue.totalDuration r)) (Binary64.of_Z 60)),
   JsInt.rem_const (Venue.totalDuration r) 60).

(** ** Reference definitions *)

(** The fields of a generated venue that do not depend on the random
    draws, and what the loop gives them at index [i]. *)
Definition venue_shape (v : MapVenue) : Z * Z * option string * string * string :=
  (mv_id v, mv_number v, mv_type v, mv_address v, mv_culturalMatch v).

Definition fallback_shape (tastes : list Seed) (userLocation : string) (types : list string) (i : nat)
  : Z * Z * option string * string * string :=
  (Z.of_nat (S i), Z.of_nat (S i), Some (nth (i mod length types) types ""), userLocation ++ " Area",
   culturalMatch tastes).

(** The invariant of the component: [isFetchingRef] is set exactly
    while a request is in flight, which is the last request sent. *)
Definition map_inv (s : MapState) : Prop :=
  (isFetching s = true <-> inflight s <> None) /\
  (forall x, inflight s = Some x -> last_error (requests s) = Some x).

(** Samples. *)
Definition zero_stream (n : nat) : Binary64.num := Binary64.of_Z 0.
Definition times_square : Coords := (Binary64.lit 407589 10000, Binary64.lit (-739851) 10000).

(** The hours the badge shows for [t] minutes, checked against
    [t / 60], rounded up from half an hour. *)
Definition badge_hours_ok (t : Z) : bool :=
  match JsInt.round (Binary64.div (Binary64.of_Z t) (Binary64.of_Z 60)) with
  | JInt h => Z.eqb h (t / 60 + if t mod 60 <? 30 then 0 else 1)%Z
  | _ => false
  end.

(** A route of 90 minutes. *)
Definition route_90 : Venue.PlannedRoute :=
  {| Venue.venues := []; Venue.totalDuration := JInt 90; Venue.startTime := "9:00 AM";
     Venue.endTime := "10:30 AM"; Venue.preferences := Venue.default_preferences |}.

(** ** Lemmas *)

Lemma add_type_nodup (acc : list string) (x : string) : NoDup acc -> NoDup (add_type acc x).
Proof.
  unfold add_type. destruct (existsb (String.eqb x) acc) eqn:E; [auto|]. intros H.
  apply (Permutation_NoDup (Permutation_cons_append acc x)). constructor; [|exact H].
  intros Hin. assert (Ht : existsb (String.eqb x) acc = true)
    by (apply existsb_exists; exists x; split; [exact Hin|apply String.eqb_refl]). congruence.
Qed.

Lemma taste_types_nodup (nm : string) (acc : list string) : NoDup acc -> NoDup (taste_types nm acc).
Proof.
  intros H. unfold taste_types. apply fold_left_preserve; [intros a [kw ty] Ha|].
  - destruct (JsString.includes nm kw); [now apply add_type_nodup|exact Ha].
  - apply fold_left_preserve; [intros a [cat tys] Ha|exact H].
    destruct (_ || _); [|exact Ha]. apply fold_left_preserve; [apply add_type_nodup|exact Ha].
Qed.

(** The relevant types have no duplicate and are never empty. *)
Lemma relevantVenueTypes_wf (tastes : list Seed) (types : list string) :
  relevantVenueTypes tastes = Ok types -> NoDup types /\ types <> [].
Proof.
  unfold relevantVenueTypes. destruct (res_foldl type_step tastes []) as [acc|e] eqn:E; cbn; [|discriminate].
  intros [= <-].
  assert (Hacc : NoDup acc).
  { refine (res_foldl_preserve (@NoDup string) _ tastes [] acc _ (NoDup_nil _) E).
    intros b a c Hb. unfold type_step. destruct (seed_name a); [intros [= <-]; now apply taste_types_nodup|discriminate]. }
  destruct acc as [|t acc]; [|split; [exact Hacc|discriminate]].
  split; [|discriminate]. apply (nodupb_NoDup String.eqb); [apply String.eqb_refl|reflexivity].
Qed.

(** The generator's types are found exactly when every taste has a
    name. *)
Lemma relevantVenueTypes_ok (tastes : list Seed) :
  (exists types, relevantVenueTypes tastes = Ok types) <-> Forall (fun t => seed_name t <> None) tastes.
Proof.
  unfold relevantVenueTypes. rewrite <- (res_foldl_ok_iff type_step (fun t => seed_name t <> None) tastes []).
  - destruct (res_foldl type_step tastes []) as [acc|e]; cbn; split; intros [c Hc]; try discriminate Hc; eauto.
  - intros b a. unfold type_step. destruct (seed_name a); split; [congruence|eauto|intros [c Hc]; discriminate|congruence].
Qed.

Section GeneratorFacts.
Context `{JsMath} `{ArraySort} (random_stream : nat -> Binary64.num).

Lemma fallback_venue_shape (tastes : list Seed) (loc : string) (center : Coords) (types : list string)
    (i : nat) (w : World) :
  exists v w', fallback_venue random_stream tastes loc center types i w = (Ok v, w') /\
               venue_shape v = fallback_shape tastes loc types i.
Proof.
  destruct center. unfold fallback_venue, m_bind, Math_random, m_ret. cbv beta iota zeta.
  do 2 eexists. split; reflexivity.
Qed.

Lemma generate_shapes (tastes : list Seed) (loc : string) (center : Coords) (types : list string) (w : World) :
  exists vs w', m_mapi (fun _ i => fallback_venue random_stream tastes loc center types i) 0
                   (seq 0 (venueCount types)) w = (Ok vs, w') /\
                map venue_shape vs = map (fallback_shape tastes loc types) (seq 0 (venueCount types)).
Proof.
  destruct (m_mapi_ok (fun _ i => fallback_venue random_stream tastes loc center types i)
              (seq 0 (venueCount types)) 0 w) as (vs & w' & E).
  { intros k x w1. destruct (fallback_venue_shape tastes loc center types x w1) as (v & w2 & Hv & _). eauto. }
  exists vs, w'. split; [exact E|]. rewrite <- (mapi_from_const (fallback_shape tastes loc types) 0).
  apply (m_mapi_map (fun _ i => fallback_venue random_stream tastes loc center types i) venue_shape
           (fun _ i => fallback_shape tastes loc types i) _ 0 w w' vs); [|exact E].
  intros k x w1 y w2 Hy. destruct (fallback_venue_shape tastes loc center types x w1) as (v & w3 & Hv & Hs).
  rewrite Hy in Hv. injection Hv as <- _. exact Hs.
Qed.

End GeneratorFacts.

Lemma commit_same (tastes : list Seed) (loc : string) (c : Coords) (s : MapState) :
  deps s = Some (map seed_name tastes, loc) -> commit tastes loc c s = s.
Proof. intros H. unfold commit. cbv zeta. rewrite H. now destruct (key_eq_dec _ _). Qed.

Lemma commit_changed (tastes : list Seed) (loc : string) (c : Coords) (s : MapState) :
  deps s <> Some (map seed_name tastes, loc) ->
  commit tastes loc c s = venue_effect tastes loc c (map seed_name tastes, loc) s.
Proof.
  intros H. unfold commit. cbv zeta. destruct (deps s) as [k|] eqn:E; [|reflexivity].
  destruct (key_eq_dec k (map seed_name tastes, loc)) as [->|]; [exfalso; exact (H eq_refl)|reflexivity].
Qed.

Section ComponentFacts.
Context `{JsMath} `{ArraySort} (random_stream : nat -> Binary64.num).

(** The settling of a request never throws; it keeps the requests sent
    and the dependencies, and ends the request in flight. *)
Lemma settle_spec (r : BackendResp) (s : MapState) (w : World) :
  exists s' w', settle random_stream r s w = (Ok s', w') /\
    requests s' = requests s /\ deps s' = deps s /\
    (inflight s = None -> s' = s) /\
    (inflight s <> None -> inflight s' = None /\ isFetching s' = false).
Proof.
  unfold settle. destruct (inflight s) as [[[tastes loc] c]|] eqn:Ei.
  2: { do 2 eexists. split; [reflexivity|]. split; [reflexivity|split; [reflexivity|split; [auto|]]].
       intros H1. now contradiction H1. }
  assert (Hfb : exists s' w', m_catch (vs <- generateFallbackVenues random_stream tastes loc c ;;
                                        ret (settled (show vs s)))
                                       (fun _ => ret (settled s)) w = (Ok s', w') /\
                              requests s' = requests s /\ deps s' = deps s /\ inflight s' = None /\
                              isFetching s' = false).
  { unfold m_catch, m_bind. destruct (generateFallbackVenues random_stream tastes loc c w) as [[vs|e] w1];
      do 2 eexists; (split; [reflexivity|repeat split]). }
  destruct Hfb as (s' & w' & Hs & H1 & H2 & H3 & H4).
  destruct r as [[|] [[|v vs]|]|];
    try (exists s', w'; split; [exact Hs|split; [exact H1|split; [exact H2|split; [discriminate|auto]]]]).
  all: do 2 eexists; split; [reflexivity|]; split; [reflexivity|split; [reflexivity|split; [discriminate|auto]]].
Qed.

Lemma map_step_inv (e : MapEvent) (s : MapState) (w : World) :
  map_inv s -> exists s' w', map_step random_stream e s w = (Ok s', w') /\ map_inv s'.
Proof.
  intros [HF HL]. destruct e as [tastes loc c|r|k| | |]; cbn.
  - do 2 eexists. split; [reflexivity|]. unfold commit.
    assert (Hv : forall key, map_inv (venue_effect tastes loc c key s)).
    { intros key. unfold venue_effect. destruct tastes as [|t ts]; [split; cbn; auto|].
      destruct (isFetching s) eqn:Ef; split; cbn; auto.
      - split; [discriminate|intros _; reflexivity].
      - intros x [= <-]. apply last_error_snoc. }
    destruct (deps s) as [k|]; [destruct (key_eq_dec _ _)|]; auto. split; auto.
  - destruct (settle_spec r s w) as (s' & w' & Hs & Hreq & _ & Hnone & Hsome).
    exists s', w'. split; [exact Hs|]. destruct (inflight s) eqn:Ei.
    + destruct (Hsome ltac:(discriminate)) as [H1 H2]. split; [rewrite H1, H2; split; congruence|].
      rewrite H1. discriminate.
    + rewrite (Hnone eq_refl). split; rewrite Ei; [exact HF|exact HL].
  - destruct (nth_error (venues s) k); [destruct (isLoadingVenues s)|]; do 2 eexists; split; try reflexivity;
      split; auto.
  - do 2 eexists. split; [reflexivity|split; auto].
  - destruct (_ && _); do 2 eexists; split; try reflexivity; split; auto.
  - do 2 eexists. split; [reflexivity|split; auto].
Qed.

Lemma map_run_commit (es : list MapEvent) (tastes : list Seed) (loc : string) (c : Coords) (s : MapState) (w : World) :
  map_run random_stream (Commit tastes loc c :: es) s w = map_run random_stream es (commit tastes loc c s) w.
Proof. reflexivity. Qed.

Lemma map_run_settle (es : list MapEvent) (r : BackendResp) (s : MapState) (w : World) :
  map_run random_stream (Settle r :: es) s w =
  match settle random_stream r s w with
  | (Ok s', w') => map_run random_stream es s' w'
  | (Throw e, w') => (Throw e, w')
  end.
Proof. reflexivity. Qed.

(** Commits with the dependencies of the last run do nothing. *)
Lemma run_commits_same (tastes : list Seed) (loc : string) (c : Coords) (n : nat) (s : MapState) (w : World) :
  deps s = Some (map seed_name tastes, loc) ->
  map_run random_stream (repeat (Commit tastes loc c) n) s w = (Ok s, w).
Proof. intros Hd. induction n as [|n IH]; [reflexivity|]. cbn [repeat]. now rewrite map_run_commit, commit_same. Qed.

End ComponentFacts.

(** The effect with tastes on an idle component sends a request; on a
    busy one it only records its dependencies. *)
Lemma venue_effect_start (tastes : list Seed) (loc : string) (c : Coords) (key : Key) (s : MapState) :
  tastes <> [] -> isFetching s = false ->
  requests (venue_effect tastes loc c key s) = (requests s ++ [(tastes, loc, c)])%list /\
  isFetching (venue_effect tastes loc c key s) = true /\
  deps (venue_effect tastes loc c key s) = Some key /\
  inflight (venue_effect tastes loc c key s) = Some (tastes, loc, c).
Proof. destruct tastes; [congruence|]. intros _ H. unfold venue_effect. rewrite H. auto. Qed.

Lemma venue_effect_busy (tastes : list Seed) (loc : string) (c : Coords) (key : Key) (s : MapState) :
  tastes <> [] -> isFetching s = true ->
  requests (venue_effect tastes loc c key s) = requests s /\
  isFetching (venue_effect tastes loc c key s) = true /\
  deps (venue_effect tastes loc c key s) = Some key /\
  inflight (venue_effect tastes loc c key s) = inflight s.
Proof. destruct tastes; [congruence|]. intros _ H. unfold venue_effect. rewrite H. auto. Qed.

Lemma initialMap_inv : map_inv initialMap.
Proof. split; [split; [discriminate|intros H; now contradiction H]|discriminate]. Qed.

(** A marker of affinity 70 is orange, the legend's "Medium Match
    (40-69%)", although the legend puts 70 among the high matches. *)
Lemma venueColor_70 :
  venueColor (JInt 70) = "#f39c12" /\ In ("#e74c3c", "High Match (70%+)") legend /\
  In ("#f39c12", "Medium Match (40-69%)") legend.
Proof. split; [reflexivity|split; [now left|right; now left]]. Qed.

(** Every duration of a week: the badge rounds the hours. *)
Lemma badge_hours_week (t : Z) : (0 <= t < 10080)%Z -> badge_hours_ok t = true.
Proof.
  intros H. apply (forallb_Z_range badge_hours_ok 0 (Z.to_nat 10080)); [vm_compute; reflexivity|].
  rewrite Z2Nat.id by lia. lia.
Qed.

(** C23: The active route's badge of the 2D map shows
    [Math.round(totalDuration / 60)] hours: for every route of less than
    a week, a remainder of 30 minutes or more adds an hour, so a route
    of 90 minutes reads "2h 30m", while the chat panel's
    [handleTimingAdjustment] gives [Math.floor] hours for the same
    route. *)
Theorem route_badge_hours (r : Venue.PlannedRoute) (t : Z) :
  Venue.totalDuration r = JInt t -> (0 <= t < 10080)%Z ->
  route_badge r = (length (Venue.venues r), JInt (t / 60 + if t mod 60 <? 30 then 0 else 1)%Z, JInt (t mod 60)%Z).
Proof.
  intros Ht Hb. pose proof (badge_hours_week t Hb) as Hk. unfold badge_hours_ok in Hk.
  unfold route_badge. rewrite Ht. cbn [js_to_num JsInt.rem_const].
  destruct (JsInt.round _) as [h| |]; try discriminate. apply Z.eqb_eq in Hk. subst h.
  rewrite Z.rem_mod_nonneg by lia. reflexivity.
Qed.

Section Properties.
Context `{JsMath} `{ArraySort} (random_stream : nat -> Binary64.num).

(** C20: when the selected tastes change while the venue request of
    the previous tastes is in flight, the effect returns early on
    [isFetchingRef] and is never run again for the new tastes: after
    the request settles, however many commits with the new tastes
    follow, only the request of the old tastes was ever sent and none
    is in flight, so the map keeps the old tastes' venues. *)
Theorem taste_change_not_requested (s : MapState) (A B : list Seed) (locA locB : string) (cA cB : Coords)
    (r : BackendResp) (n : nat) (w : World) :
  isFetching s = false -> A <> [] -> B <> [] ->
  deps s <> Some (map seed_name A, locA) ->
  (map seed_name A, locA) <> (map seed_name B, locB) ->
  exists s' w',
    map_run random_stream ([Commit A locA cA; Commit B locB cB; Settle r] ++ repeat (Commit B locB cB) n)%list s w
    = (Ok s', w') /\
    requests s' = (requests s ++ [(A, locA, cA)])%list /\ inflight s' = None /\ isFetching s' = false /\
    deps s' = Some (map seed_name B, locB).
Proof.
  intros HF HA HB Hd Hk. cbn [app]. rewrite map_run_commit, (commit_changed _ _ _ _ Hd).
  destruct (venue_effect_start A locA cA (map seed_name A, locA) s HA HF) as (R1 & F1 & D1 & I1).
  rewrite map_run_commit, commit_changed by (rewrite D1; intros [= E1 E2]; apply Hk; now rewrite E1, E2).
  destruct (venue_effect_busy B locB cB (map seed_name B, locB) _ HB F1) as (R2 & F2 & D2 & I2).
  rewrite map_run_settle.
  destruct (settle_spec random_stream r (venue_effect B locB cB (map seed_name B, locB)
                                           (venue_effect A locA cA (map seed_name A, locA) s)) w)
    as (s3 & w3 & E3 & R3 & D3 & _ & Hsome).
  rewrite E3. destruct Hsome as [I3 F3]; [rewrite I2, I1; discriminate|].
  rewrite run_commits_same by (rewrite D3, D2; reflexivity).
  exists s3, w3. split; [reflexivity|]. split; [now rewrite R3, R2, R1|].
  split; [exact I3|split; [exact F3|now rewrite D3, D2]].
Qed.

(** C21: every venue the fallback generator makes is well formed: when
    the tastes give the relevant types (every taste has a name), these
    have no duplicate and are not empty, there are between 3 and 15
    venues, and, whatever the random draws, the engine's cosine and
    sort, the venues are a permutation of the ones numbered 1..n, the
    i-th of type [types[i % types.length]], with the address and the
    cultural match of the call. *)
Theorem generateFallbackVenues_shape (tastes : list Seed) (loc : string) (center : Coords) (types : list string)
    (w : World) :
  relevantVenueTypes tastes = Ok types ->
  NoDup types /\ types <> [] /\ (3 <= venueCount types <= 15)%nat /\
  exists vs w', generateFallbackVenues random_stream tastes loc center w = (Ok vs, w') /\
    Permutation (map venue_shape vs) (map (fallback_shape tastes loc types) (seq 0 (venueCount types))).
Proof.
  intros Ht. destruct (relevantVenueTypes_wf _ _ Ht) as [Hnd Hne].
  split; [exact Hnd|split; [exact Hne|split]].
  { unfold venueCount. destruct types as [|t ts]; [congruence|]. cbn [length]. lia. }
  destruct (generate_shapes random_stream tastes loc center types w) as (vs & w' & E & Hm).
  destruct (array_sort_total _ by_affinity vs (fun x y _ _ => ex_intro _ _ eq_refl)) as [sorted Hr].
  exists sorted, w'. unfold generateFallbackVenues, m_bind, m_lift. rewrite Ht. cbv beta iota.
  rewrite E, Hr. split; [reflexivity|].
  rewrite <- Hm. apply Permutation_map, (array_sort_perm _ _ _ _ Hr).
Qed.

(** C22: under every sequence of commits, settlements and clicks the
    component never throws, [isFetchingRef] is set exactly while a
    request is in flight, and that request is the last one sent. *)
Theorem map_run_inv (es : list MapEvent) (s : MapState) (w : World) :
  map_inv s -> exists s' w', map_run random_stream es s w = (Ok s', w') /\ map_inv s'.
Proof.
  revert s w; induction es as [|e es IH]; intros s w Hs; [exists s, w; auto|].
  destruct (map_step_inv random_stream e s w Hs) as (s1 & w1 & E & H1).
  cbn [map_run]. unfold m_bind at 1. rewrite E. exact (IH s1 w1 H1).
Qed.

End Properties.

(** ** Witnesses *)

#[local] Existing Instance V8Sort.v8_sort.
#[local] Existing Instance stub_math.

Definition street_art_types : list string :=
  ["Art Gallery"; "Museum"; "Art Studio"; "Creative Space"; "Food Truck"; "Market Stall"; "Food Hall";
   "Street Vendor"].

Lemma taste_change_not_requested_witness :
  exists s' w',
    map_run zero_stream ([Commit [TastePicker.taste "jazz"] "New York, NY" times_square;
                          Commit [TastePicker.taste "jazz"; TastePicker.taste "street art"] "New York, NY" times_square;
                          Settle BackendFail] ++
                         repeat (Commit [TastePicker.taste "jazz"; TastePicker.taste "street art"] "New York, NY"
                                   times_square) 3)%list initialMap (mkWorld 0 0)
    = (Ok s', w') /\
    requests s' = (requests initialMap ++ [([TastePicker.taste "jazz"], "New York, NY", times_square)])%list /\
    inflight s' = None /\ isFetching s' = false /\
    deps s' = Some (map seed_name [TastePicker.taste "jazz"; TastePicker.taste "street art"], "New York, NY").
Proof.
  apply taste_change_not_requested; [reflexivity|discriminate|discriminate|discriminate|].
  intros H. inversion H.
Defined.

Lemma generateFallbackVenues_shape_witness :
  relevantVenueTypes [TastePicker.taste "street art"] = Ok street_art_types /\
  (NoDup street_art_types /\ street_art_types <> [] /\ (3 <= venueCount street_art_types <= 15)%nat /\
   exists vs w', generateFallbackVenues zero_stream [TastePicker.taste "street art"] "New York, NY" times_square
                   (mkWorld 0 0) = (Ok vs, w') /\
     Permutation (map venue_shape vs)
       (map (fallback_shape [TastePicker.taste "street art"] "New York, NY" street_art_types)
          (seq 0 (venueCount street_art_types)))).
Proof. split; [reflexivity|]. apply generateFallbackVenues_shape. reflexivity. Defined.

Lemma map_run_inv_witness :
  exists s' w', map_run zero_stream [Commit [TastePicker.taste "jazz"] "New York, NY" times_square;
                                     Settle (Backend false None); VenueClick 0; DrawerClose; PlanRoute]
                  initialMap (mkWorld 0 0) = (Ok s', w') /\ map_inv s'.
Proof. apply map_run_inv. exact initialMap_inv. Defined.

(** A route of 90 minutes reads "2h 30m". *)
Lemma route_badge_hours_witness :
  (0 <= 90 < 10080)%Z /\ route_badge route_90 = (0%nat, JInt 2, JInt 30).
Proof. split; [lia|apply (route_badge_hours route_90 90); [reflexivity|lia]]. Defined.

End Map2D.
