(* ===== verification/Drawer.v ===== *)
(** * The venue drawer and its use by the 2D map

    [src/culturis-studio/src/components/VenueDrawer.js] is a bottom
    sheet listing venues, in the state its parent passes ([hidden],
    [peek] or [expanded]); dragging its handle asks the parent, through
    [onStateChange], to move it one state up or down.

    Its local state is the drag ([dragStart], [dragOffset]); a mouse
    drag goes through listeners added to [document] at [mousedown],
    which are the closures of that render and see its state
    ([Captured]).  Events are the pointer events and the footer's
    button; [calls] lists the arguments of [onStateChange].  A render
    ([view]) draws [Math.random()] for the blurb of a venue without a
    cultural match.  [map2d_drawer_props] is what
    [Simple2DMapView.js] passes to the drawer. *)
From S2P Require Import Prelude JsNumber JsString ArraySort TastePicker Map2D.
From Corelib Require Import SpecFloat.
From Stdlib Require Import String Ascii List ZArith Lia Bool.
Import ListNotations.
Open Scope string_scope.

Module VenueDrawer.
Import Map2D.

(** The props the drawer reads (lines 8-16), with their defaults;
    [focusedHex] is the [lift] of the focused hexagon, if any. *)
Record DrawerProps : Type := mkProps {
  d_state : string;
  d_venues : list MapVenue;
  d_loading : bool;
  d_error : option string;
  d_focusedHex : option (option Binary64.num)
}.

Definition default_props : DrawerProps := mkProps "hidden" [] false None None.

(** What a handler closure sees of the render that created it. *)
Record Captured : Type := mkCaptured {
  c_dragStart : option Binary64.num;
  c_dragOffset : Binary64.num;
  c_state : string
}.

(** The state hooks (lines 17-18), the [document] listeners added by
    [handleMouseDown] and not removed yet, and the calls of
    [onStateChange]. *)
Record DrawerLocal : Type := mkLocal {
  dragStart : option Binary64.num;
  dragOffset : Binary64.num;
  listeners : list Captured;
  calls : list string
}.

Definition initialLocal : DrawerLocal := mkLocal None (Binary64.of_Z 0) [] [].

Definition capture (p : DrawerProps) (l : DrawerLocal) : Captured :=
  mkCaptured (dragStart l) (dragOffset l) (d_state p).

(** [handleDragStart(clientY)] (lines 39-42). *)
Definition handleDragStart (y : Binary64.num) (l : DrawerLocal) : DrawerLocal :=
  mkLocal (Some y) (Binary64.of_Z 0) (listeners l) (calls l).

(** [handleDragMove(clientY)] (lines 45-50) of the render [c]. *)
Definition handleDragMove (c : Captured) (y : Binary64.num) (l : DrawerLocal) : DrawerLocal :=
  match c_dragStart c with
  | None => l
  | Some y0 => mkLocal (dragStart l) (Binary64.sub y y0) (listeners l) (calls l)
  end.

(** The state a drag of [offset] asks for from [st] (lines 58-72). *)
Definition next_state (st : string) (offset : Binary64.num) : option string :=
  if Binary64.gtb (SFabs offset) (Binary64.of_Z 50) then
    if Binary64.gtb offset (Binary64.of_Z 0) then
      (if String.eqb st "expanded" then Some "peek" else if String.eqb st "peek" then Some "hidden" else None)
    else
      (if String.eqb st "hidden" then Some "peek" else if String.eqb st "peek" then Some "expanded" else None)
  else None.

(** [handleDragEnd()] (lines 53-77) of the render [c]. *)
Definition handleDragEnd (c : Captured) (l : DrawerLocal) : DrawerLocal :=
  match c_dragStart c with
  | None => l
  | Some _ =>
      mkLocal None (Binary64.of_Z 0) (listeners l)
              (match next_state (c_state c) (c_dragOffset c) with
               | Some st => (calls l ++ [st])%list
               | None => calls l
               end)
  end.

(** The pointer events on the handle and on [document], and the
    footer's View All / Collapse button (lines 81-107, 283-288). *)
Inductive DrawerEvent : Type :=
| MouseDown (y : Binary64.num)
| MouseMove (y : Binary64.num)
| MouseUp
| TouchStart (y : Binary64.num)
| TouchMove (y : Binary64.num)
| TouchEnd
| ToggleClick.

(** One event under the props [p] of the current render.  The handle
    and the footer exist only when the drawer is rendered (line 147)
    and the footer only with venues (line 282); the [document]
    listeners run whatever is rendered, each with the render it was
    created in, and a [mouseup] removes them all (lines 85-89). *)
Definition drawer_step (p : DrawerProps) (e : DrawerEvent) (l : DrawerLocal) : DrawerLocal :=
  let shown := negb (String.eqb (d_state p) "hidden") in
  match e with
  | MouseDown y =>
      if shown then
        let c := capture p l in
        let l1 := handleDragStart y l in
        mkLocal (dragStart l1) (dragOffset l1) (listeners l1 ++ [c])%list (calls l1)
      else l
  | MouseMove y => fold_left (fun l c => handleDragMove c y l) (listeners l) l
  | MouseUp =>
      let l1 := fold_left (fun l c => handleDragEnd c l) (listeners l) l in
      mkLocal (dragStart l1) (dragOffset l1) [] (calls l1)
  | TouchStart y => if shown then handleDragStart y l else l
  | TouchMove y => if shown then handleDragMove (capture p l) y l else l
  | TouchEnd => if shown then handleDragEnd (capture p l) l else l
  | ToggleClick =>
      if shown && negb (Nat.eqb (length (d_venues p)) 0) then
        mkLocal (dragStart l) (dragOffset l) (listeners l)
                (calls l ++ [if String.eqb (d_state p) "expanded" then "peek" else "expanded"])%list
      else l
  end.

Definition drawer_run (p : DrawerProps) (es : list DrawerEvent) (l : DrawerLocal) : DrawerLocal :=
  fold_left (fun l e => drawer_step p e l) es l.

(** ** What a render shows *)

Section Render.
Context (num_to_string : Binary64.num -> string) (random_stream : nat -> Binary64.num).

(** [getDrawerTransform()] (lines 23-36). *)
Definition getDrawerTransform (st : string) (offset : Binary64.num) : string :=
  let base := if String.eqb st "peek" then "120px" else if String.eqb st "expanded" then "80vh" else "0px" in
  "translateY(calc(100% - " ++ base ++ " + " ++ num_to_string offset ++ "px))".

(** [generateBlurb(venue.name, venue.type)] (lines 110-121):
    [clusterName.toLowerCase()] throws on a venue without a type, and
    [venueName] prints ["undefined"] for a venue without a name. *)
Definition generateBlurb (venueName : option string) (clusterName : option string) : M World (option string) :=
  match clusterName with
  | None => m_throw TypeError
  | Some cn =>
      let c := JsString.toLowerCase cn in
      let nm := match venueName with Some n => n | None => "undefined" end in
      let blurbs := ["A hidden gem that perfectly captures the essence of " ++ c ++ ".";
                     "This " ++ nm ++ " offers an authentic experience that resonates with " ++ c ++ ".";
                     "Discover why locals love this spot - it's the heart of the " ++ c ++ " scene.";
                     "An iconic destination that embodies the spirit of " ++ c ++ "."] in
      r <- Math_random random_stream ;;
      ret (pick blurbs (JsInt.floor (Binary64.mul r (Binary64.of_Z 4))))
  end.

(** An item of the venue list (lines 219-276): the name, the match
    text and the blurb ([None] for [undefined], which renders nothing). *)
Record ItemView : Type := mkItem { item_name : option string; item_match : string; item_blurb : option string }.

Definition item_view (v : MapVenue) : M World ItemView :=
  blurb <- (if String.eqb (mv_culturalMatch v) "" then generateBlurb (mv_name v) (mv_type v)
            else ret (Some ("Matches your taste for " ++ mv_culturalMatch v))) ;;
  let m := match mv_affinity v with
           | JInt Z0 | JNaN => "New discovery"
           | a => JsString.toString a ++ "% match"
           end in
  ret (mkItem (mv_name v) m blurb).

(** What the drawer renders (lines 147-302), [None] for [null]. *)
Record DrawerView : Type := mkView {
  v_class : string;
  v_transform : string;
  v_dragging : bool;
  v_count : option nat;
  v_loading : bool;
  v_error : option string;
  v_empty : bool;
  v_items : list ItemView;
  v_footer : option string
}.

Definition view (p : DrawerProps) (l : DrawerLocal) : M World (option DrawerView) :=
  if String.eqb (d_state p) "hidden" then ret None
  else
    let n := length (d_venues p) in
    items <- (if negb (d_loading p) && negb (Nat.eqb n 0) then m_mapi (fun _ v => item_view v) 0 (d_venues p)
              else ret []) ;;
    ret (Some (mkView ("venue-drawer " ++ d_state p) (getDrawerTransform (d_state p) (dragOffset l))
                      (match dragStart l with Some _ => true | None => false end)
                      (if Nat.eqb n 0 then None else Some n) (d_loading p) (d_error p)
                      (negb (d_loading p) && (match d_error p with None => true | Some _ => false end) &&
                       Nat.eqb n 0 && (match d_focusedHex p with Some _ => true | None => false end))
                      items
                      (if Nat.eqb n 0 then None
                       else Some (if String.eqb (d_state p) "expanded" then "Collapse" else "View All")))).

End Render.

(** [<VenueDrawer venue={selectedVenue} isOpen={drawerState ===
    'expanded'} onClose={handleDrawerClose} onGetDirections={...} />]
    ([Simple2DMapView.js], lines 611-619): the drawer reads none of
    these props, so it gets its defaults. *)
Definition map2d_drawer_props (s : MapState) : DrawerProps := default_props.

(** ** Lemmas *)

(** [document] listeners of a render without a drag do nothing on a
    [mousemove]. *)
Lemma moves_inert (p : DrawerProps) (c : Captured) (ys : list Binary64.num) (l : DrawerLocal) :
  c_dragStart c = None -> listeners l = [c] -> drawer_run p (map MouseMove ys) l = l.
Proof.
  intros Hc Hl. induction ys as [|y ys IH]; [reflexivity|]. unfold drawer_run in *. cbn [map fold_left].
  replace (drawer_step p (MouseMove y) l) with l; [exact IH|].
  cbn. rewrite Hl. cbn. unfold handleDragMove. now rewrite Hc.
Qed.

Lemma drawer_run_app (p : DrawerProps) (es1 es2 : list DrawerEvent) (l : DrawerLocal) :
  drawer_run p (es1 ++ es2) l = drawer_run p es2 (drawer_run p es1 l).
Proof. unfold drawer_run. apply fold_left_app. Qed.

(** A hidden drawer ignores every gesture of a drawer without mouse
    listeners. *)
Lemma hidden_step (p : DrawerProps) (e : DrawerEvent) (l : DrawerLocal) :
  d_state p = "hidden" -> listeners l = [] -> drawer_step p e l = l.
Proof.
  intros Hs Hl. destruct l as [ds off lis cs]. cbn in Hl. subst lis.
  unfold drawer_step. rewrite Hs. destruct e; reflexivity.
Qed.

Lemma hidden_run (p : DrawerProps) (es : list DrawerEvent) (l : DrawerLocal) :
  d_state p = "hidden" -> listeners l = [] -> drawer_run p es l = l.
Proof.
  intros Hs Hl. unfold drawer_run. revert l Hl; induction es as [|e es IH]; intros l Hl; [reflexivity|].
  cbn [fold_left]. rewrite (hidden_step p e l Hs Hl). exact (IH l Hl).
Qed.

Section Properties.

(** C28: a drag of the handle by more than 50 px down on an expanded
    drawer asks the parent for [peek] when done with a finger, and
    does nothing with the mouse: the [document] listeners added at
    [mousedown] are closures of the render before the drag started, in
    which [dragStart] is [null], so [mousemove] never moves the drawer
    and [mouseup] neither calls [onStateChange] nor ends the drag. *)
Theorem mouse_drag_inert (p : DrawerProps) (l : DrawerLocal) (y0 y1 : Binary64.num) (ys : list Binary64.num) :
  d_state p = "expanded" -> dragStart l = None -> listeners l = [] ->
  Binary64.gtb (SFabs (Binary64.sub y1 y0)) (Binary64.of_Z 50) = true ->
  Binary64.gtb (Binary64.sub y1 y0) (Binary64.of_Z 0) = true ->
  calls (drawer_run p [TouchStart y0; TouchMove y1; TouchEnd] l) = (calls l ++ ["peek"])%list /\
  dragStart (drawer_run p [TouchStart y0; TouchMove y1; TouchEnd] l) = None /\
  (let l' := drawer_run p ([MouseDown y0] ++ map MouseMove (ys ++ [y1]) ++ [MouseUp])%list l in
   calls l' = calls l /\ dragOffset l' = Binary64.of_Z 0 /\ dragStart l' = Some y0 /\ listeners l' = []).
Proof.
  intros Hs Hd Hl Habs Hdown. split; [|split].
  - cbn -[Binary64.gtb Binary64.sub SFabs Binary64.of_Z]. rewrite Hs.
    cbn -[Binary64.gtb Binary64.sub SFabs Binary64.of_Z]. rewrite ?Hs. unfold next_state. now rewrite Habs, Hdown.
  - cbn -[Binary64.gtb Binary64.sub SFabs Binary64.of_Z]. now rewrite Hs.
  - cbv zeta. rewrite !drawer_run_app.
    set (l1 := drawer_run p [MouseDown y0] l).
    assert (E1 : l1 = mkLocal (Some y0) (Binary64.of_Z 0) [capture p l] (calls l)).
    { unfold l1, drawer_run. cbn. rewrite Hs, Hl. reflexivity. }
    rewrite (moves_inert p (capture p l) (ys ++ [y1]) l1); [|exact Hd|now rewrite E1].
    rewrite E1. cbn. unfold handleDragEnd, capture. cbn. rewrite Hd. auto.
Qed.

Context `{JsMath} `{ArraySort} (random_stream : nat -> Binary64.num).

(** C29: clicking a marker of the 2D map sets [drawerState] to
    [expanded] with the venue selected, yet the venue drawer renders
    nothing and no gesture opens it: the map passes [venue], [isOpen]
    and [onClose], which the drawer does not read, so its [state] is
    its default ['hidden']. *)
Theorem map2d_drawer_never_shown (s : MapState) (k : nat) (v : MapVenue) (w : World) :
  nth_error (venues s) k = Some v -> isLoadingVenues s = false ->
  exists s' w', map_step random_stream (VenueClick k) s w = (Ok s', w') /\
    drawerState s' = Expanded /\ selectedVenue s' = Some v /\
    (forall num_to_string rs w2, fst (view num_to_string rs (map2d_drawer_props s') initialLocal w2) = Ok None) /\
    (forall es, drawer_run (map2d_drawer_props s') es initialLocal = initialLocal).
Proof.
  intros Hk Hl. cbn. rewrite Hk, Hl. do 2 eexists. split; [reflexivity|].
  split; [reflexivity|split; [reflexivity|split]].
  - intros. reflexivity.
  - intros es. now apply hidden_run.
Qed.

End Properties.

(** ** Witnesses *)

#[local] Existing Instance V8Sort.v8_sort.
#[local] Existing Instance stub_math.

Definition expanded_props : DrawerProps := mkProps "expanded" [] false None None.

Lemma mouse_drag_inert_witness :
  calls (drawer_run expanded_props [TouchStart (Binary64.of_Z 100); TouchMove (Binary64.of_Z 200); TouchEnd]
           initialLocal) = (calls initialLocal ++ ["peek"])%list /\
  dragStart (drawer_run expanded_props [TouchStart (Binary64.of_Z 100); TouchMove (Binary64.of_Z 200); TouchEnd]
               initialLocal) = None /\
  (let l' := drawer_run expanded_props ([MouseDown (Binary64.of_Z 100)] ++
                                        map MouseMove ([Binary64.of_Z 150] ++ [Binary64.of_Z 200]) ++ [MouseUp])%list
                        initialLocal in
   calls l' = calls initialLocal /\ dragOffset l' = Binary64.of_Z 0 /\ dragStart l' = Some (Binary64.of_Z 100) /\
   listeners l' = []).
Proof. apply mouse_drag_inert; reflexivity. Defined.

Definition sample_venue : MapVenue :=
  mkMapVenue 1 1 (Some "Modern Canvas") (Some "Art Gallery") (JInt 80) (Binary64.of_Z 4) times_square
             "New York, NY Area" "jazz".

Lemma map2d_drawer_never_shown_witness :
  exists s' w', map_step zero_stream (VenueClick 0)
                  (mkMap [sample_venue] false false None Hidden false None None [] []) (mkWorld 0 0) = (Ok s', w') /\
    drawerState s' = Expanded /\ selectedVenue s' = Some sample_venue /\
    (forall num_to_string rs w2, fst (view num_to_string rs (map2d_drawer_props s') initialLocal w2) = Ok None) /\
    (forall es, drawer_run (map2d_drawer_props s') es initialLocal = initialLocal).
Proof. apply map2d_drawer_never_shown; reflexivity. Defined.

End VenueDrawer.
