(* ===== verification/Controls.v ===== *)
(** * The map controls: filters, legend, style and route buttons

    [src/culturis-studio/src/components/MapControls.js] is a controlled
    component: its filters, legend and route mode are props of its
    parent, which it asks to change through callbacks.  The parent of
    the model is [True3DMapView.js], whose callbacks store the value
    they receive ([setActiveFilters(newFilters)], lines 182-185) or
    toggle their flag (lines 188-190, 583).

    The filters object [activeFilters] is a [gmap] from keys to the
    values a JavaScript object holds there ([FVal]); what the controls
    show depends on the truthy values only up to the chips' classes,
    which the equivalence [filters_equiv] keeps, and the filter count
    respects it ([count_proper]). *)
From S2P Require Import Prelude.
From Stdlib Require Import String.
From stdpp Require Import base list gmap strings.

Module MapControls.

(** A value of the filters object: a string ([budget],
    [indoorOutdoor]), a boolean ([openNow]) or [null]. *)
Inductive FVal : Type :=
| FStr (s : string)
| FBool (b : bool)
| FNull.

#[export] Instance FVal_eq_dec : EqDecision FVal.
Proof. solve_decision. Defined.

Abbreviation Filters := (gmap string FVal).

(** [Boolean(v)]. *)
Definition truthy (v : FVal) : bool :=
  match v with FStr s => negb (String.eqb s "") | FBool b => b | FNull => false end.

Definition truthy_opt (o : option FVal) : bool :=
  match o with Some v => truthy v | None => false end.

(** [filterOptions] and [styleOptions] (lines 24-44): the values of the
    chips. *)
Definition budgetOptions : list string := ["low"; "medium"; "high"].
Definition indoorOutdoorOptions : list string := ["indoor"; "outdoor"].
Definition styleOptions : list string := ["streets"; "satellite"; "dark"; "light"; "terrain"].

(** [handleFilterSelect(filterType, value)] (lines 46-52): the filters it
    hands to [onFilterToggle]. *)
Definition handleFilterSelect (f : Filters) (ft v : string) : Filters :=
  <[ft := if decide (f !! ft = Some (FStr v)) then FNull else FStr v]> f.

(** [handleOpenNowToggle()] (lines 55-61). *)
Definition handleOpenNowToggle (f : Filters) : Filters :=
  <["openNow" := FBool (negb (truthy_opt (f !! "openNow")))]> f.

(** [getActiveFilterCount()] (lines 64-66). *)
Definition getActiveFilterCount (f : Filters) : nat :=
  size (filter (λ kv : string * FVal, truthy kv.2 = true) f).

(** The controls' state hooks (lines 20-21) with the parent's state
    they receive as props, and the calls of [onStyleChange]. *)
Record ControlsState : Type := mkControls {
  activeFilters : Filters;
  showFilterMenu : bool;
  showStyleMenu : bool;
  showLegend : bool;
  routeMode : bool;
  canRoute : bool;
  styleCalls : list string
}.

(** The parent's initial filters ([True3DMapView.js], lines 36-40). *)
Definition initialFilters : Filters :=
  <["budget" := FNull]> (<["openNow" := FBool false]> (<["indoorOutdoor" := FNull]> ∅)).

Definition initialControls : ControlsState := mkControls initialFilters false false false false false [].

Definition with_filters (f : Filters) (s : ControlsState) : ControlsState :=
  mkControls f (showFilterMenu s) (showStyleMenu s) (showLegend s) (routeMode s) (canRoute s) (styleCalls s).

(** The clicks on the controls (lines 69-254) and the parent's change
    of [selectedVenue], which decides [canRoute]. *)
Inductive ControlsEvent : Type :=
| ToggleFilterMenu
| ChipClick (ft v : string)
| OpenNowChange
| ClearAll
| RemoveChip (ft : string)
| RemoveOpenNow
| LegendClick
| ToggleStyleMenu
| StyleClick (v : string)
| RoutePress
| ParentSelect (selected : bool).

Definition is_chip (ft v : string) : bool :=
  (String.eqb ft "budget" && existsb (String.eqb v) budgetOptions) ||
  (String.eqb ft "indoorOutdoor" && existsb (String.eqb v) indoorOutdoorOptions).

(** One event; a button is clickable only when it is rendered: the
    chips, the checkbox and Clear all inside the open filter menu
    (lines 82-141), the removable chips of the truthy filters (lines
    206-246), the style options inside the open style menu, and the
    route button when [canRoute]. *)
Definition controls_step (e : ControlsEvent) (s : ControlsState) : ControlsState :=
  let f := activeFilters s in
  match e with
  | ToggleFilterMenu =>
      mkControls f (negb (showFilterMenu s)) (showStyleMenu s) (showLegend s) (routeMode s) (canRoute s) (styleCalls s)
  | ChipClick ft v =>
      if showFilterMenu s && is_chip ft v then with_filters (handleFilterSelect f ft v) s else s
  | OpenNowChange => if showFilterMenu s then with_filters (handleOpenNowToggle f) s else s
  | ClearAll =>
      if showFilterMenu s && negb (Nat.eqb (getActiveFilterCount f) 0) then with_filters ∅ s else s
  | RemoveChip ft =>
      match f !! ft with
      | Some (FStr v) =>
          if (String.eqb ft "budget" || String.eqb ft "indoorOutdoor") && truthy (FStr v)
          then with_filters (handleFilterSelect f ft v) s else s
      | _ => s
      end
  | RemoveOpenNow => if truthy_opt (f !! "openNow") then with_filters (handleOpenNowToggle f) s else s
  | LegendClick =>
      mkControls f (showFilterMenu s) (showStyleMenu s) (negb (showLegend s)) (routeMode s) (canRoute s) (styleCalls s)
  | ToggleStyleMenu =>
      mkControls f (showFilterMenu s) (negb (showStyleMenu s)) (showLegend s) (routeMode s) (canRoute s) (styleCalls s)
  | StyleClick v =>
      if showStyleMenu s && existsb (String.eqb v) styleOptions then
        mkControls f (showFilterMenu s) false (showLegend s) (routeMode s) (canRoute s) (styleCalls s ++ [v])
      else s
  | RoutePress =>
      if canRoute s then
        mkControls f (showFilterMenu s) (showStyleMenu s) (showLegend s) (negb (routeMode s)) (canRoute s) (styleCalls s)
      else s
  | ParentSelect b =>
      mkControls f (showFilterMenu s) (showStyleMenu s) (showLegend s) (routeMode s) b (styleCalls s)
  end.

Definition controls_run (es : list ControlsEvent) (s : ControlsState) : ControlsState :=
  fold_left (λ s e, controls_step e s) es s.

(** ** Reference definitions *)

(** The truthy value at a key, if any: what the count and the badges
    read. *)
Definition norm (o : option FVal) : option FVal :=
  match o with Some v => if truthy v then Some v else None | None => None end.

(** Two filter objects with the same truthy values. *)
Definition filters_equiv (f g : Filters) : Prop := ∀ k, norm (f !! k) = norm (g !! k).

(** The keys the parent's filters ever have. *)
Definition filterKeys : gset string := {[ "budget"; "indoorOutdoor"; "openNow" ]}.

(** ** Lemmas *)

Lemma norm_Some (o : option FVal) (v : FVal) : norm o = Some v -> o = Some v /\ truthy v = true.
Proof. destruct o as [a|]; cbn; [destruct (truthy a) eqn:E; intros; simplify_eq; auto|discriminate]. Qed.

Lemma norm_falsy (o : option FVal) : truthy_opt o = false -> norm o = None.
Proof. destruct o as [a|]; cbn; [intros ->; reflexivity|reflexivity]. Qed.

Lemma truthy_opt_norm (o : option FVal) : truthy_opt o = match norm o with Some _ => true | None => false end.
Proof. destruct o as [a|]; cbn; [destruct (truthy a); reflexivity|reflexivity]. Qed.

#[export] Instance filters_equiv_equiv : Equivalence filters_equiv.
Proof.
  split; [intros f k; reflexivity|intros f g H k; symmetry; apply H|intros f g h H1 H2 k; rewrite H1; apply H2].
Qed.

(** Equivalent filters have the same truthy entries. *)
Lemma filter_truthy_equiv (f g : Filters) :
  filters_equiv f g -> filter (λ kv : string * FVal, truthy kv.2 = true) f = filter (λ kv, truthy kv.2 = true) g.
Proof.
  intros H. apply map_eq. intros k. rewrite !map_lookup_filter. specialize (H k).
  destruct (f !! k) as [a|], (g !! k) as [b|]; cbn in *;
    repeat (case_guard; cbn); try destruct (truthy a) eqn:Ea; try destruct (truthy b) eqn:Eb;
    simplify_eq; auto; congruence.
Qed.

#[export] Instance count_proper : Proper (filters_equiv ==> eq) getActiveFilterCount.
Proof. intros f g H. unfold getActiveFilterCount. now rewrite (filter_truthy_equiv f g H). Qed.

#[export] Instance select_proper (ft v : string) : Proper (filters_equiv ==> filters_equiv) (λ f, handleFilterSelect f ft v).
Proof.
  intros f g H k. unfold handleFilterSelect. destruct (decide (k = ft)) as [->|Hne].
  - rewrite !lookup_insert_eq. pose proof (H ft) as Hft.
    destruct (decide (f !! ft = Some (FStr v))) as [Ef|Ef], (decide (g !! ft = Some (FStr v))) as [Eg|Eg];
      [reflexivity| | |reflexivity].
    + rewrite Ef in Hft. destruct (String.eqb v "") eqn:Et; cbn in *; rewrite ?Et in *; cbn in *;
        [reflexivity|]. symmetry in Hft. apply norm_Some in Hft as [Eg' _]. contradiction.
    + rewrite Eg in Hft. destruct (String.eqb v "") eqn:Et; cbn in *; rewrite ?Et in *; cbn in *;
        [reflexivity|]. apply norm_Some in Hft as [Ef' _]. contradiction.
  - rewrite !lookup_insert_ne by congruence. apply H.
Qed.

#[export] Instance openNow_proper : Proper (filters_equiv ==> filters_equiv) handleOpenNowToggle.
Proof.
  intros f g H k. unfold handleOpenNowToggle. rewrite !truthy_opt_norm, (H "openNow").
  destruct (decide (k = "openNow")) as [->|Hne]; [now rewrite !lookup_insert_eq|].
  rewrite !lookup_insert_ne by congruence. apply H.
Qed.

(** Clicking a chip twice gives back the filters up to their falsy
    values, when its filter was unset or had the chip's value. *)
Lemma select_twice_equiv (f : Filters) (ft v : string) :
  truthy_opt (f !! ft) = false \/ f !! ft = Some (FStr v) ->
  filters_equiv (handleFilterSelect (handleFilterSelect f ft v) ft v) f.
Proof.
  intros Hpre k. unfold handleFilterSelect. rewrite lookup_insert_eq.
  destruct (decide (k = ft)) as [->|Hne].
  - rewrite lookup_insert_eq. destruct (decide (f !! ft = Some (FStr v))) as [E|E].
    + rewrite decide_False by congruence. now rewrite E.
    + rewrite decide_True by reflexivity. destruct Hpre as [Hf|Hf]; [|contradiction].
      now rewrite (norm_falsy _ Hf).
  - rewrite !lookup_insert_ne by congruence. reflexivity.
Qed.

Lemma is_chip_key (ft v : string) : is_chip ft v = true -> ft = "budget" \/ ft = "indoorOutdoor".
Proof.
  unfold is_chip. intros H. apply orb_true_iff in H as [H|H]; apply andb_true_iff in H as [H _];
    apply String.eqb_eq in H; auto.
Qed.

Lemma step_keys (e : ControlsEvent) (s : ControlsState) :
  dom (activeFilters s) ⊆ filterKeys -> dom (activeFilters (controls_step e s)) ⊆ filterKeys.
Proof.
  intros Hs. unfold filterKeys in *. destruct e as [|ft v| | |ft| | | |v| |b]; cbn; auto.
  - destruct (showFilterMenu s && is_chip ft v) eqn:E; [|exact Hs]. apply andb_true_iff in E as [_ E].
    cbn. unfold handleFilterSelect. rewrite dom_insert_L. destruct (is_chip_key ft v E) as [->| ->]; set_solver.
  - destruct (showFilterMenu s); [|exact Hs]. cbn. unfold handleOpenNowToggle. rewrite dom_insert_L. set_solver.
  - destruct (_ && _); [|exact Hs]. cbn. rewrite dom_empty_L. set_solver.
  - destruct (activeFilters s !! ft) as [[v| |]|]; try exact Hs.
    destruct (_ && _) eqn:E; [|exact Hs]. apply andb_true_iff in E as [E _].
    cbn. unfold handleFilterSelect. rewrite dom_insert_L.
    apply orb_true_iff in E as [E|E]; apply String.eqb_eq in E as ->; set_solver.
  - destruct (truthy_opt _); [|exact Hs]. cbn. unfold handleOpenNowToggle. rewrite dom_insert_L. set_solver.
  - destruct (_ && _); exact Hs.
  - destruct (canRoute s); exact Hs.
Qed.

Lemma count_le_dom (f : Filters) : getActiveFilterCount f ≤ size (dom f).
Proof.
  unfold getActiveFilterCount. rewrite <- size_dom. apply subseteq_size, dom_filter_subseteq.
Qed.

Lemma size_filterKeys : size filterKeys = 3.
Proof. reflexivity. Qed.

Lemma initialFilters_keys : dom initialFilters ⊆ filterKeys.
Proof. unfold initialFilters, filterKeys. rewrite !dom_insert_L, dom_empty_L. set_solver. Qed.

Section Properties.

(** Clicking a filter chip twice gives back the filters the
    parent had, up to a falsy value ([null] where the key was missing
    or [null]), so the active filter count is unchanged, when that
    filter was unset or had the chip's value. *)
Theorem handleFilterSelect_twice (f : Filters) (ft v : string) :
  truthy_opt (f !! ft) = false \/ f !! ft = Some (FStr v) ->
  filters_equiv (handleFilterSelect (handleFilterSelect f ft v) ft v) f /\
  getActiveFilterCount (handleFilterSelect (handleFilterSelect f ft v) ft v) = getActiveFilterCount f.
Proof. intros H. split; [now apply select_twice_equiv|]. now rewrite (select_twice_equiv f ft v H). Qed.

(** Under every sequence of clicks, the parent's filters keep the
    keys [budget], [indoorOutdoor] and [openNow] at most, so the badge
    of the filter button never counts more than three filters. *)
Theorem controls_run_keys (es : list ControlsEvent) (s : ControlsState) :
  dom (activeFilters s) ⊆ filterKeys ->
  dom (activeFilters (controls_run es s)) ⊆ filterKeys /\ getActiveFilterCount (activeFilters (controls_run es s)) ≤ 3.
Proof.
  intros Hs. assert (Hk : dom (activeFilters (controls_run es s)) ⊆ filterKeys).
  { unfold controls_run. apply fold_left_preserve; [|exact Hs]. intros s' e H. now apply step_keys. }
  split; [exact Hk|]. rewrite <- size_filterKeys.
  etrans; [apply count_le_dom|]. now apply subseteq_size.
Qed.

End Properties.

(** ** Witnesses *)

Lemma handleFilterSelect_twice_witness :
  filters_equiv (handleFilterSelect (handleFilterSelect initialFilters "budget" "low") "budget" "low") initialFilters /\
  getActiveFilterCount (handleFilterSelect (handleFilterSelect initialFilters "budget" "low") "budget" "low") =
  getActiveFilterCount initialFilters.
Proof. apply handleFilterSelect_twice. left. reflexivity. Defined.

Lemma controls_run_keys_witness :
  dom (activeFilters (controls_run [ToggleFilterMenu; ChipClick "budget" "low"; OpenNowChange;
                                    ChipClick "indoorOutdoor" "outdoor"; RemoveChip "budget"; ClearAll]
                        initialControls)) ⊆ filterKeys /\
  getActiveFilterCount (activeFilters (controls_run [ToggleFilterMenu; ChipClick "budget" "low"; OpenNowChange;
                                                     ChipClick "indoorOutdoor" "outdoor"; RemoveChip "budget";
                                                     ClearAll] initialControls)) ≤ 3.
Proof. apply controls_run_keys. exact initialFilters_keys. Defined.

End MapControls.
