(* ===== verification/HexOverlay.v ===== *)
(** * The hexagon heat overlay

    [src/culturis-studio/src/components/HexHeatOverlay.js] draws the
    hexagons of the heat-map hook ([MapData]) on a Leaflet map: a
    polygon per hexagon, colored and faded by its lift, with a tooltip.
    It has two effects: the first (lines 117-140) redraws the hexagons
    into the layer group, the second (lines 143-212) creates the layer
    group when the map mounts.  React runs a component's effects in
    the order they are declared.

    The component is a state machine over its commits ([overlay_commit]):
    a commit runs an effect whose dependencies changed, and the props
    carry the identities that decide it ([heat_id] for the [heatData]
    array, [focus_id] for the [focusedHex] object,
    [tap_id] for the [onHexTap] function).  The polygons are
    values ([Polygon]); [Math.cos], [Math.sin] are the engine's, and
    [Number::toString] of huge values the parameter of [toFixed]. *)
From S2P Require Import Prelude JsNumber JsString VenueCache MapData.
From Corelib Require Import SpecFloat.
From Stdlib Require Import String List ZArith Lia Bool.
Import ListNotations.
Open Scope string_scope.

Module HexOverlay.
Import MapData.

(** [x >= y] on numbers: false when either is [NaN]. *)
Definition num_geb (x y : Binary64.num) : bool := SFleb y x.

Section Drawing.
Context `{JsMath}.

(** [generateHexPath(center, radius)] (lines 20-29): the six corners,
    as [[lat, lng]]. *)
Definition generateHexPath (center : VenueCache.Coords) (radius : Binary64.num) : list (Binary64.num * Binary64.num) :=
  map (fun i =>
         let angle := Binary64.div (Binary64.mul (Binary64.of_Z (Z.of_nat i * 60 - 30)) Binary64.PI)
                                   (Binary64.of_Z 180) in
         let x := Binary64.add (VenueCache.lng center)
                               (Binary64.div (Binary64.mul radius (Math_cos angle)) (Binary64.of_Z 111320)) in
         let y := Binary64.add (VenueCache.lat center)
                               (Binary64.div (Binary64.mul radius (Math_sin angle)) (Binary64.of_Z 110540)) in
         (y, x))
      (seq 0 6).

(** [getHexColor(lift, isFocused)] (lines 32-44). *)
Definition getHexColor (lift : Binary64.num) (isFocused : bool) : string :=
  if isFocused then "#2c3e50"
  else if num_geb lift (Binary64.of_Z 40) then "#e74c3c"
  else if num_geb lift (Binary64.of_Z 20) then "#f39c12" else "#bdc3c7".

(** [getHexOpacity(lift, isFocused, isFaded)] (lines 47-54). *)
Definition getHexOpacity (lift : Binary64.num) (isFocused isFaded : bool) : Binary64.num :=
  if isFaded then Binary64.lit 2 10
  else if isFocused then Binary64.lit 9 10
  else js_min (Binary64.lit 8 10) (js_max (Binary64.lit 3 10) (Binary64.div lift (Binary64.of_Z 100))).

(** A polygon with its options (lines 66-74) and its tooltip (lines
    102-111). *)
Record Polygon : Type := mkPolygon {
  path : list (Binary64.num * Binary64.num);
  fillColor : string;
  fillOpacity : Binary64.num;
  weight : Z;
  lineOpacity : Binary64.num;
  className : string;
  tooltip : string  (* the text of its <strong> (line 104) *)
}.

(** [createHexagon(hexData)] (lines 57-114) under [focusedHex]; [big]
    prints the lifts of [10^21] or more. *)
Definition createHexagon (big : Binary64.num -> string) (focusedHex : option Hex) (h : Hex) : Polygon :=
  let isFocused := match focusedHex with Some f => String.eqb (hex_id f) (hex_id h) | None => false end in
  let isFaded := match focusedHex with Some f => negb (String.eqb (hex_id f) (hex_id h)) | None => false end in
  let color := getHexColor (hex_lift h) isFocused in
  let opacity := getHexOpacity (hex_lift h) isFocused isFaded in
  mkPolygon (generateHexPath (hex_coords h) (Binary64.of_Z 200)) color opacity (if isFocused then 3 else 1)
            (Binary64.add opacity (Binary64.lit 2 10))
            ("hex-polygon " ++ (if isFocused then "focused" else ""))
            ("Cultural Affinity: " ++ JsString.toFixed big 1 (hex_lift h) ++ "%").

(** The props of a render: the hexagons, the identity of their array,
    the focused hexagon, the identity of that object, the identity of
    [onHexTap] and [tasteHash]. *)
Record OverlayProps : Type := mkProps {
  heatData : list Hex;
  heat_id : nat;
  focusedHex : option Hex;
  focus_id : nat;
  tap_id : nat;
  tasteHash : string
}.

(** [layerGroupRef.current] (the polygons of the layer group, [None]
    before the second effect runs), [hexagonsRef.current] (the last
    polygon per id), and the dependencies of the last run of the first
    effect, as the identities React compares. *)
Record OverlayState : Type := mkOverlay {
  layerGroup : option (list Polygon);
  hexagons : list (string * Polygon);
  deps1 : option (nat * nat * nat * string)
}.

Definition initialOverlay : OverlayState := mkOverlay None [] None.

(** The dependencies of the first effect: [heatData], [createHexagon]
    (a new function when [focusedHex] or [onHexTap] changes) and
    [tasteHash]; [map] does not change. *)
Definition deps_of (p : OverlayProps) : nat * nat * nat * string :=
  (heat_id p, focus_id p, tap_id p, tasteHash p).

(** [Object.is] on each dependency. *)
Definition deps_eqb (a b : nat * nat * nat * string) : bool :=
  let '(h1, f1, t1, s1) := a in
  let '(h2, f2, t2, s2) := b in
  Nat.eqb h1 h2 && Nat.eqb f1 f2 && Nat.eqb t1 t2 && String.eqb s1 s2.

(** [hexagonsRef.current.set(id, hexagon)]: a later hexagon of the
    same id replaces the earlier one. *)
Definition map_set (m : list (string * Polygon)) (k : string) (v : Polygon) : list (string * Polygon) :=
  if existsb (fun kv => String.eqb (fst kv) k) m
  then map (fun kv => if String.eqb (fst kv) k then (k, v) else kv) m
  else (m ++ [(k, v)])%list.

(** The body of the first effect (lines 118-129). *)
Definition redraw (big : Binary64.num -> string) (p : OverlayProps) (s : OverlayState) : OverlayState :=
  match layerGroup s with
  | None => s
  | Some _ =>
      let polys := map (fun h => (hex_id h, createHexagon big (focusedHex p) h)) (heatData p) in
      mkOverlay (Some (map snd polys)) (fold_left (fun m kv => map_set m (fst kv) (snd kv)) polys []) (deps1 s)
  end.

(** A commit with the props [p]: the first effect runs when its
    dependencies changed (and at mount), then the second at mount
    only, in their order in the source. *)
Definition overlay_commit (big : Binary64.num -> string) (p : OverlayProps) (s : OverlayState) : OverlayState :=
  let mount := match deps1 s with None => true | Some _ => false end in
  let run1 := match deps1 s with None => true | Some d => negb (deps_eqb d (deps_of p)) end in
  let s1 := if run1 then redraw big p s else s in
  let s2 := mkOverlay (layerGroup s1) (hexagons s1) (Some (deps_of p)) in
  if mount then mkOverlay (Some []) (hexagons s2) (deps1 s2) else s2.

Definition overlay_run (big : Binary64.num -> string) (ps : list OverlayProps) (s : OverlayState) : OverlayState :=
  fold_left (fun s p => overlay_commit big p s) ps s.

End Drawing.

(** ** Lemmas *)

Lemma deps_eqb_refl (d : nat * nat * nat * string) : deps_eqb d d = true.
Proof. destruct d as [[[h f] t] x]. cbn. now rewrite !Nat.eqb_refl, String.eqb_refl. Qed.

Section Facts.
Context `{JsMath} (big : Binary64.num -> string).

(** A commit with the dependencies of the last run changes nothing. *)
Lemma overlay_commit_same (p : OverlayProps) (s : OverlayState) :
  deps1 s = Some (deps_of p) -> overlay_commit big p s = s.
Proof. destruct s as [lg hx d]. cbn. intros ->. unfold overlay_commit. cbn [deps1]. now rewrite deps_eqb_refl. Qed.

Lemma overlay_run_same (p : OverlayProps) (n : nat) (s : OverlayState) :
  deps1 s = Some (deps_of p) -> overlay_run big (repeat p n) s = s.
Proof.
  intros Hd. induction n as [|n IH]; [reflexivity|]. unfold overlay_run in *. cbn [repeat fold_left].
  now rewrite overlay_commit_same.
Qed.

End Facts.

Section Properties.
Context `{JsMath} (big : Binary64.num -> string).

(** C30: at mount the redrawing effect runs before the effect that
    creates the layer group, finds no layer group and draws nothing;
    as long as the props keep their identities no hexagon is ever
    drawn, and the first commit whose dependencies changed draws them
    all. *)
Theorem overlay_mount_draws_nothing (p : OverlayProps) (n : nat) :
  let s := overlay_run big (repeat p n) (overlay_commit big p initialOverlay) in
  layerGroup s = Some [] /\
  (forall p', deps_eqb (deps_of p) (deps_of p') = false ->
     layerGroup (overlay_commit big p' s) = Some (map (createHexagon big (focusedHex p')) (heatData p'))).
Proof.
  cbv zeta. rewrite overlay_run_same by reflexivity. split; [reflexivity|].
  intros p' Hp'. unfold overlay_commit at 1. cbn -[createHexagon deps_eqb]. rewrite Hp'. cbn -[createHexagon].
  now rewrite map_map.
Qed.

(** C31: a hexagon whose insight has the lift [NaN] (a cluster without
    [lift_score], [MapData.insight_lift_nan]) is drawn grey with the
    opacity [NaN] ([Math.max] and [Math.min] propagate it) and the
    tooltip "Cultural Affinity: NaN%", unless it is the focused one. *)
Theorem nan_hexagon (h : Hex) (cl : list VenueCache.Cluster) (focused : option Hex) :
  match focused with Some f => hex_id f <> hex_id h | None => True end ->
  let poly := createHexagon big focused (with_insight h (mkInsight S754_nan cl)) in
  fillColor poly = "#bdc3c7" /\
  (focused = None -> fillOpacity poly = S754_nan /\ lineOpacity poly = S754_nan) /\
  tooltip poly = "Cultural Affinity: NaN%".
Proof.
  intros Hf. cbv zeta. unfold createHexagon. cbn [hex_lift hex_id with_insight ins_lift].
  destruct focused as [f|]; [apply String.eqb_neq in Hf; rewrite Hf|]; cbn.
  - split; [reflexivity|split; [discriminate|reflexivity]].
  - split; [reflexivity|split; [intros _; split; reflexivity|reflexivity]].
Qed.

End Properties.

(** ** Witnesses *)

#[local] Existing Instance stub_math.

Definition sample_hex (id : string) : Hex :=
  mkHex id (VenueCache.mkCoords (Binary64.of_Z 40) (Binary64.of_Z (-74))) (Binary64.of_Z 55) None.

Definition sample_props : OverlayProps := mkProps [sample_hex "h1"; sample_hex "h2"] 1 None 0 7 "jazz".

Lemma overlay_mount_draws_nothing_witness :
  let s := overlay_run (fun _ => "") (repeat sample_props 2) (overlay_commit (fun _ => "") sample_props initialOverlay) in
  layerGroup s = Some [] /\
  (forall p', deps_eqb (deps_of sample_props) (deps_of p') = false ->
     layerGroup (overlay_commit (fun _ => "") p' s) =
     Some (map (createHexagon (fun _ => "") (focusedHex p')) (heatData p'))).
Proof. exact (overlay_mount_draws_nothing (fun _ => "") sample_props 2). Defined.

Lemma nan_hexagon_witness :
  let poly := createHexagon (fun _ => "") (Some (sample_hex "h2"))
                (with_insight (sample_hex "h1") (mkInsight S754_nan [])) in
  fillColor poly = "#bdc3c7" /\
  (Some (sample_hex "h2") = None -> fillOpacity poly = S754_nan /\ lineOpacity poly = S754_nan) /\
  tooltip poly = "Cultural Affinity: NaN%".
Proof. apply nan_hexagon. discriminate. Defined.

End HexOverlay.
