(* ===== verification/Map3D.v ===== *)
(** * The 3D map view: camera, fixed venues, controls and fallback

    [src/culturis-studio/src/components/True3DMapView.js] shows a
    Mapbox map with 18 numbered venues placed around the map's center,
    the map controls ([Controls.v]), the venue drawer, buttons that
    tilt and turn the camera, and a fallback map when Mapbox fails.

    The component is a state machine ([T3State], [t3_step]).  Its
    events are the commits of a render, with its props and the values
    the heat-map hook returns ([MapData.HeatState]), which run the
    effects whose dependencies changed and then the render their
    updates cause ([commit]); the map's camera moves ([Move]); and the
    clicks and the map's callbacks, each available only on the screen
    that renders its element ([screen]).  The map controls are
    [MapControls.controls_step] on the parent's state, with [canRoute]
    the render's [selectedVenue !== null].  [Math.cos], [Math.sin] are
    the engine's, and the sort of the venues any engine's. *)
From S2P Require Import Prelude JsNumber JsString ArraySort TastePicker MapData Controls.
From Corelib Require Import SpecFloat.
From Stdlib Require Import String List ZArith Lia Bool Permutation.
Import ListNotations.
Open Scope string_scope.

Module True3D.

(** [x === y] on numbers: false when either is [NaN], true on [+0] and
    [-0]. *)
Definition strict_eqb (x y : Binary64.num) : bool :=
  match x, y with
  | S754_nan, _ | _, S754_nan => false
  | S754_zero _, S754_zero _ => true
  | _, _ => Binary64.same_value x y
  end.

(** The camera ([viewState], lines 24-31); [padding] is constant. *)
Record ViewState : Type := mkView {
  longitude : Binary64.num;
  latitude : Binary64.num;
  zoom : Binary64.num;
  pitch : Binary64.num;
  bearing : Binary64.num
}.

Definition Coords : Type := Binary64.num * Binary64.num.

Definition initialView (c : Coords) : ViewState :=
  mkView (fst c) (snd c) (Binary64.of_Z 13) (Binary64.of_Z 65) (Binary64.of_Z (-30)).

(** A generated venue (lines 115-123). *)
Record Venue3D : Type := mkVenue3D {
  v_id : Z;
  v_number : Z;
  v_coordinates : Coords;
  v_name : string;
  v_type : string;
  v_affinity : Z;
  v_rating : Binary64.num
}.

(** [fixedPositions] (lines 85-104): angles in hundredths, distances
    in thousandths of a degree. *)
Definition fixedPositions : list (Binary64.num * Binary64.num) :=
  map (fun '(a, d) => (Binary64.lit a 100, Binary64.lit d 1000))
    [(0, 15); (35, 20); (70, 12); (105, 25); (140, 18); (175, 14); (210, 22); (245, 16); (280, 19);
     (315, 13); (350, 21); (385, 17); (420, 24); (455, 11); (490, 20); (525, 15); (560, 23); (595, 18)]%Z.

Definition fixedAffinities : list Z :=
  [85; 92; 67; 78; 89; 45; 73; 56; 91; 38; 82; 64; 76; 87; 42; 69; 94; 51]%Z.

Definition fixedRatings : list Binary64.num :=
  map (fun r => Binary64.lit r 10) [42; 47; 38; 41; 45; 36; 40; 39; 46; 35; 43; 37; 41; 44; 38; 40; 48; 37]%Z.

Definition venueNames : list string :=
  ["Blue Note Jazz Club"; "Artisan Coffee House"; "Gallery Modern";
   "The Hidden Speakeasy"; "Rooftop Garden Bar"; "Local Market Bistro";
   "Vintage Records Store"; "Contemporary Art Space"; "Craft Brewery";
   "Independent Bookshop"; "Cultural Center"; "Live Music Venue";
   "Food Hall Collective"; "Designer Boutique"; "Wine & Tapas Bar";
   "Theater District Caf√©"; "Museum Shop"; "Night Market"].

Definition venueTypes : list string :=
  ["Jazz Club"; "Coffee House"; "Art Gallery"; "Cocktail Bar";
   "Rooftop Venue"; "Restaurant"; "Vintage Shop"; "Art Space";
   "Brewery"; "Bookstore"; "Cultural Center"; "Music Venue";
   "Food Hall"; "Boutique"; "Wine Bar"; "Caf√©"; "Museum"; "Market"].

(** [getVenueName(index)] (lines 135-145): [names[index] || ...]. *)
Definition getVenueName (index : nat) : string :=
  let fallback := "Cultural Venue " ++ JsString.toString (JInt (Z.of_nat index + 1)%Z) in
  match nth_error venueNames index with
  | Some n => if String.eqb n "" then fallback else n
  | None => fallback
  end.

(** [getVenueType(tastes, index)] (lines 147-155): the tastes are not
    read. *)
Definition getVenueType {T : Type} (tastes : list T) (index : nat) : string :=
  nth (index mod length venueTypes) venueTypes "".

(** The comparator [(a, b) => b.affinity - a.affinity] (line 126). *)
Definition by_affinity (a b : Venue3D) : Result Binary64.num :=
  Ok (Binary64.of_Z (v_affinity b - v_affinity a)%Z).

Section Engine.
Context `{JsMath} `{ArraySort}.

(** The venue of index [i] around [center] (lines 110-123). *)
Definition fixed_venue {T : Type} (tastes : list T) (center : Coords) (i : nat) : Venue3D :=
  let '(angle, distance) := nth i fixedPositions (Binary64.of_Z 0, Binary64.of_Z 0) in
  let lng := Binary64.add (fst center) (Binary64.mul (Math_cos angle) distance) in
  let lat := Binary64.add (snd center) (Binary64.mul (Math_sin angle) distance) in
  mkVenue3D (Z.of_nat i + 1)%Z (Z.of_nat i + 1)%Z (lng, lat) (getVenueName i) (getVenueType tastes i)
            (nth i fixedAffinities 0%Z) (nth i fixedRatings (Binary64.of_Z 0)).

(** [generateVenues()] (lines 80-127). *)
Definition generateVenues {T : Type} (tastes : list T) (center : Coords) : Result (list Venue3D) :=
  array_sort by_affinity (map (fixed_venue tastes center) (seq 0 18)).

(** The state of the view: its hooks (lines 24-46), with the values of
    the heat-map hook read by the last render, the pending timers of
    [onError] (line 498), the [flyTo] calls of [handleMarkerClick]
    (lines 170-178), and the dependencies of the two effects at their
    last run. *)
Record T3State : Type := mkT3 {
  view : ViewState;
  selectedVenue : option Venue3D;
  drawerState : string;
  controls : MapControls.ControlsState;
  venues : list Venue3D;
  mapLoaded : bool;
  mapError : option string;
  useMapboxFallback : bool;
  heatLoading : bool;
  heatError : option string;
  timers : nat;
  flights : list Coords;
  deps1 : option (nat * Binary64.num * Binary64.num);
  deps2 : option (nat * nat * nat)
}.

(** The state setters. *)
Definition set_view (x : ViewState) (s : T3State) : T3State :=
  mkT3 x (selectedVenue s) (drawerState s) (controls s) (venues s) (mapLoaded s) (mapError s) (useMapboxFallback s) (heatLoading s) (heatError s) (timers s) (flights s) (deps1 s) (deps2 s).
Definition set_selected (x : option Venue3D) (s : T3State) : T3State :=
  mkT3 (view s) x (drawerState s) (controls s) (venues s) (mapLoaded s) (mapError s) (useMapboxFallback s) (heatLoading s) (heatError s) (timers s) (flights s) (deps1 s) (deps2 s).
Definition set_drawer (x : string) (s : T3State) : T3State :=
  mkT3 (view s) (selectedVenue s) x (controls s) (venues s) (mapLoaded s) (mapError s) (useMapboxFallback s) (heatLoading s) (heatError s) (timers s) (flights s) (deps1 s) (deps2 s).
Definition set_controls (x : MapControls.ControlsState) (s : T3State) : T3State :=
  mkT3 (view s) (selectedVenue s) (drawerState s) x (venues s) (mapLoaded s) (mapError s) (useMapboxFallback s) (heatLoading s) (heatError s) (timers s) (flights s) (deps1 s) (deps2 s).
Definition set_venues (x : list Venue3D) (s : T3State) : T3State :=
  mkT3 (view s) (selectedVenue s) (drawerState s) (controls s) x (mapLoaded s) (mapError s) (useMapboxFallback s) (heatLoading s) (heatError s) (timers s) (flights s) (deps1 s) (deps2 s).
Definition set_loaded (x : bool) (s : T3State) : T3State :=
  mkT3 (view s) (selectedVenue s) (drawerState s) (controls s) (venues s) x (mapError s) (useMapboxFallback s) (heatLoading s) (heatError s) (timers s) (flights s) (deps1 s) (deps2 s).
Definition set_mapError (x : option string) (s : T3State) : T3State :=
  mkT3 (view s) (selectedVenue s) (drawerState s) (controls s) (venues s) (mapLoaded s) x (useMapboxFallback s) (heatLoading s) (heatError s) (timers s) (flights s) (deps1 s) (deps2 s).
Definition set_fallback (x : bool) (s : T3State) : T3State :=
  mkT3 (view s) (selectedVenue s) (drawerState s) (controls s) (venues s) (mapLoaded s) (mapError s) x (heatLoading s) (heatError s) (timers s) (flights s) (deps1 s) (deps2 s).
Definition set_timers (x : nat) (s : T3State) : T3State :=
  mkT3 (view s) (selectedVenue s) (drawerState s) (controls s) (venues s) (mapLoaded s) (mapError s) (useMapboxFallback s) (heatLoading s) (heatError s) x (flights s) (deps1 s) (deps2 s).
Definition set_flights (x : list Coords) (s : T3State) : T3State :=
  mkT3 (view s) (selectedVenue s) (drawerState s) (controls s) (venues s) (mapLoaded s) (mapError s) (useMapboxFallback s) (heatLoading s) (heatError s) (timers s) x (deps1 s) (deps2 s).
Definition set_heat (l : bool) (e : option string) (s : T3State) : T3State :=
  mkT3 (view s) (selectedVenue s) (drawerState s) (controls s) (venues s) (mapLoaded s) (mapError s) (useMapboxFallback s) l e (timers s) (flights s) (deps1 s) (deps2 s).
Definition set_deps (d1 : option (nat * Binary64.num * Binary64.num)) (d2 : option (nat * nat * nat)) (s : T3State) : T3State :=
  mkT3 (view s) (selectedVenue s) (drawerState s) (controls s) (venues s) (mapLoaded s) (mapError s) (useMapboxFallback s) (heatLoading s) (heatError s) (timers s) (flights s) d1 d2.

(** The props of a render: [mapCenter] with the identity of its array,
    [selectedTastes] with the identity of its array; [userLocation] is
    only passed on and [enable3D] is not read. *)
Record T3Props : Type := mkT3Props {
  mapCenter : Coords;
  center_id : nat;
  selectedTastes : list Seed;
  tastes_id : nat
}.

Definition initialT3 (p : T3Props) : T3State :=
  mkT3 (initialView (mapCenter p)) None "hidden" MapControls.initialControls [] false None false
       false None 0 [] None None.

(** What a render shows (lines 360-675). *)
Inductive Screen : Type :=
| FallbackScreen
| LoaderScreen
| ErrorScreen (message : string)
| MapboxScreen (loadingOverlay : bool).

(** [Boolean(s)] on a string or [null]. *)
Definition str_truthy (o : option string) : bool :=
  match o with Some m => negb (String.eqb m "") | None => false end.

Definition str_of (o : option string) : string :=
  match o with Some m => m | None => "" end.

Definition screen (s : T3State) : Screen :=
  if useMapboxFallback s then FallbackScreen
  else if heatLoading s && Nat.eqb (length (venues s)) 0 then LoaderScreen
  else if str_truthy (heatError s) || str_truthy (mapError s)
  then ErrorScreen (if str_truthy (mapError s) then str_of (mapError s) else str_of (heatError s))
  else MapboxScreen (negb (mapLoaded s)).

(** The Mapbox [Map] is mounted ([mapRef.current] is set). *)
Definition on_map (s : T3State) : bool :=
  match screen s with MapboxScreen _ => true | _ => false end.

(** The controls, the markers and the drawer are rendered. *)
Definition interactive (s : T3State) : bool :=
  match screen s with FallbackScreen | MapboxScreen _ => true | _ => false end.

(** The first effect (lines 67-76): recenter on a new [mapCenter]. *)
Definition recenter (c : Coords) (v : ViewState) : ViewState :=
  if negb (strict_eqb (fst c) (longitude v)) || negb (strict_eqb (snd c) (latitude v))
  then mkView (fst c) (snd c) (Binary64.of_Z 12) (pitch v) (bearing v)
  else v.

(** The second effect (lines 79-133): generate the venues when there
    are none. *)
Definition venue_effect (tastes : list Seed) (c : Coords) (vs : list Venue3D) : list Venue3D :=
  if Nat.eqb (length vs) 0 then
    match generateVenues tastes c with Ok r => r | Throw _ => vs end
  else vs.

(** React's comparison of the dependencies with [Object.is]. *)
Definition deps1_same (d : nat * Binary64.num * Binary64.num) (o : option (nat * Binary64.num * Binary64.num)) : bool :=
  match o with
  | Some (i, lo, la) =>
      let '(i', lo', la') := d in Nat.eqb i i' && Binary64.same_value lo lo' && Binary64.same_value la la'
  | None => false
  end.

Definition deps2_same (d : nat * nat * nat) (o : option (nat * nat * nat)) : bool :=
  match o with
  | Some (a, b, c) => let '(a', b', c') := d in Nat.eqb a a' && Nat.eqb b b' && Nat.eqb c c'
  | None => false
  end.

(** A render with the props [p] and the hook's values [h], and its
    effects, in their order in the source, each when its dependencies
    changed. *)
Definition effects_pass (p : T3Props) (h : MapData.HeatState) (s : T3State) : T3State :=
  let s := set_heat (MapData.loading h) (MapData.error h) s in
  let d1 := (center_id p, longitude (view s), latitude (view s)) in
  let d2 := (center_id p, tastes_id p, length (venues s)) in
  let v := if deps1_same d1 (deps1 s) then view s else recenter (mapCenter p) (view s) in
  let vs := if deps2_same d2 (deps2 s) then venues s else venue_effect (selectedTastes p) (mapCenter p) (venues s) in
  set_deps (Some d1) (Some d2) (set_venues vs (set_view v s)).

(** A commit: the render, its effects, and the render their updates
    cause with its effects. *)
Definition commit (p : T3Props) (h : MapData.HeatState) (s : T3State) : T3State :=
  effects_pass p h (effects_pass p h s).

(** The events the view handles. *)
Inductive T3Event : Type :=
| Commit (p : T3Props) (h : MapData.HeatState)
| Move (v : ViewState)
| MarkerClick (index : nat)
| PopupClose
| DrawerChange (d : string)
| ControlsClick (e : MapControls.ControlsEvent)
| PitchUp
| PitchDown
| RotateLeft
| RotateRight
| MapLoad (instance : bool)
| MapFail
| FallbackTimeout
| TryAgain (p : T3Props).

(** [selectedVenue !== null]. *)
Definition has_selected (s : T3State) : bool :=
  match selectedVenue s with Some _ => true | None => false end.

Definition is_click (e : MapControls.ControlsEvent) : bool :=
  match e with MapControls.ParentSelect _ => false | _ => true end.

Definition with_pitch (x : Binary64.num) (v : ViewState) : ViewState :=
  mkView (longitude v) (latitude v) (zoom v) x (bearing v).

Definition with_bearing (x : Binary64.num) (v : ViewState) : ViewState :=
  mkView (longitude v) (latitude v) (zoom v) (pitch v) x.

(** [handleMarkerClick(venue)] (lines 164-179). *)
Definition handleMarkerClick (v : Venue3D) (s : T3State) : T3State :=
  let s1 := set_drawer "peek" (set_selected (Some v) s) in
  if on_map s then set_flights (flights s ++ [v_coordinates v]) s1 else s1.

(** [onMapLoad()] (lines 198-293): the SDK's failures are caught. *)
Definition onMapLoad (instance : bool) (s : T3State) : T3State :=
  if instance then set_loaded true s else set_mapError (Some "Failed to get map instance") s.

(** [onError] of the [Map] (lines 495-502). *)
Definition onMapError (s : T3State) : T3State :=
  set_timers (S (timers s)) (set_mapError (Some "Failed to load Mapbox. Switching to fallback map...") s).

(** The 2000 ms timeout of [onError] (lines 498-501). *)
Definition onFallbackTimeout (s : T3State) : T3State :=
  match timers s with
  | 0 => s
  | S n => set_timers n (set_mapError None (set_fallback true s))
  end.

Definition t3_step (e : T3Event) (s : T3State) : T3State :=
  match e with
  | Commit p h => commit p h s
  | Move v => if on_map s then set_view v s else s
  | MarkerClick i =>
      match nth_error (venues s) i with
      | Some v => if interactive s then handleMarkerClick v s else s
      | None => s
      end
  | PopupClose => if on_map s && has_selected s then set_selected None s else s
  | DrawerChange d => if interactive s then set_drawer d s else s
  | ControlsClick e =>
      if interactive s && is_click e then
        set_controls (MapControls.controls_step e
                        (MapControls.controls_step (MapControls.ParentSelect (has_selected s)) (controls s))) s
      else s
  | PitchUp =>
      if interactive s then
        set_view (with_pitch (js_min (Binary64.add (pitch (view s)) (Binary64.of_Z 10)) (Binary64.of_Z 60)) (view s)) s
      else s
  | PitchDown =>
      if interactive s then
        set_view (with_pitch (js_max (Binary64.sub (pitch (view s)) (Binary64.of_Z 10)) (Binary64.of_Z 0)) (view s)) s
      else s
  | RotateLeft =>
      if interactive s then set_view (with_bearing (Binary64.sub (bearing (view s)) (Binary64.of_Z 15)) (view s)) s else s
  | RotateRight =>
      if interactive s then set_view (with_bearing (Binary64.add (bearing (view s)) (Binary64.of_Z 15)) (view s)) s else s
  | MapLoad b => if on_map s then onMapLoad b s else s
  | MapFail => if on_map s then onMapError s else s
  | FallbackTimeout => onFallbackTimeout s
  | TryAgain p => match screen s with ErrorScreen _ => initialT3 p | _ => s end
  end.

Definition t3_run (es : list T3Event) (s : T3State) : T3State :=
  fold_left (fun s e => t3_step e s) es s.

(** ** Reference definitions *)

(** The dependencies of the first effect recorded for the props [p]
    were taken on a view centered on [mapCenter]. *)
Definition centered (p : T3Props) (s : T3State) : Prop :=
  forall lo la, deps1 s = Some (center_id p, lo, la) ->
  strict_eqb (fst (mapCenter p)) lo = true /\ strict_eqb (snd (mapCenter p)) la = true.

(** A number is not [NaN] exactly when it is strictly equal to itself. *)
Definition is_number (x : Binary64.num) : Prop := strict_eqb x x = true.

Definition not_reload (e : T3Event) : Prop :=
  match e with TryAgain _ => False | _ => True end.

Definition not_move (e : T3Event) : Prop :=
  match e with Move _ => False | _ => True end.

(** Every render and reload has the props [p]. *)
Definition props_are (p : T3Props) (e : T3Event) : Prop :=
  match e with Commit p' _ | TryAgain p' => p' = p | _ => True end.

(** ** Lemmas *)

Lemma effects_pass_fields (p : T3Props) (h : MapData.HeatState) (s : T3State) :
  effects_pass p h s =
  mkT3 (if deps1_same (center_id p, longitude (view s), latitude (view s)) (deps1 s) then view s
        else recenter (mapCenter p) (view s))
       (selectedVenue s) (drawerState s) (controls s)
       (if deps2_same (center_id p, tastes_id p, length (venues s)) (deps2 s) then venues s
        else venue_effect (selectedTastes p) (mapCenter p) (venues s))
       (mapLoaded s) (mapError s) (useMapboxFallback s) (MapData.loading h) (MapData.error h)
       (timers s) (flights s)
       (Some (center_id p, longitude (view s), latitude (view s)))
       (Some (center_id p, tastes_id p, length (venues s))).
Proof. destruct s; reflexivity. Qed.

Lemma pass_deps1 (p : T3Props) (h : MapData.HeatState) (s : T3State) :
  deps1 (effects_pass p h s) = Some (center_id p, longitude (view s), latitude (view s)).
Proof. destruct s; reflexivity. Qed.

Lemma pass_deps2 (p : T3Props) (h : MapData.HeatState) (s : T3State) :
  deps2 (effects_pass p h s) = Some (center_id p, tastes_id p, length (venues s)).
Proof. destruct s; reflexivity. Qed.

Lemma pass_heat (p : T3Props) (h : MapData.HeatState) (s : T3State) :
  heatLoading (effects_pass p h s) = MapData.loading h /\ heatError (effects_pass p h s) = MapData.error h.
Proof. destruct s; split; reflexivity. Qed.

Lemma recenter_cases (c : Coords) (v : ViewState) :
  recenter c v = v \/ recenter c v = mkView (fst c) (snd c) (Binary64.of_Z 12) (pitch v) (bearing v).
Proof. unfold recenter. case_ifs; auto. Qed.

Lemma recenter_fixed (c : Coords) (x y : Binary64.num) :
  recenter c (mkView (fst c) (snd c) (Binary64.of_Z 12) x y) = mkView (fst c) (snd c) (Binary64.of_Z 12) x y.
Proof. unfold recenter. case_ifs; reflexivity. Qed.

Lemma recenter_idem (c : Coords) (v : ViewState) : recenter c (recenter c v) = recenter c v.
Proof. destruct (recenter_cases c v) as [E|E]; rewrite E; [exact E|apply recenter_fixed]. Qed.

Lemma venue_effect_idem (t : list Seed) (c : Coords) (vs : list Venue3D) :
  venue_effect t c (venue_effect t c vs) = venue_effect t c vs.
Proof.
  unfold venue_effect. destruct (Nat.eqb (length vs) 0) eqn:E; [|now rewrite E].
  match goal with |- context [match ?g with Ok _ => _ | Throw _ => _ end] => destruct g as [r|x] eqn:G end;
    [|now rewrite E].
  destruct (Nat.eqb (length r) 0); reflexivity.
Qed.

Lemma venue_effect_nonempty (t : list Seed) (c : Coords) (vs : list Venue3D) :
  vs <> [] -> venue_effect t c vs = vs.
Proof. intros Hne. unfold venue_effect. destruct vs; [congruence|reflexivity]. Qed.

Lemma deps1_same_refl (d : nat * Binary64.num * Binary64.num) : deps1_same d (Some d) = true.
Proof. destruct d as [[i lo] la]. cbn. now rewrite Nat.eqb_refl, !same_value_refl. Qed.

Lemma deps2_same_refl (d : nat * nat * nat) : deps2_same d (Some d) = true.
Proof. destruct d as [[a b] c]. cbn. now rewrite !Nat.eqb_refl. Qed.

#[local] Hint Rewrite deps1_same_refl deps2_same_refl : culturis_rw.

(** The re-render of a commit leaves the camera and the venues as the
    first render's effects set them. *)
Lemma pass_view_stable (p : T3Props) (h : MapData.HeatState) (s : T3State) :
  view (effects_pass p h (effects_pass p h s)) = view (effects_pass p h s).
Proof.
  rewrite !effects_pass_fields; cbn [view deps1].
  destruct (deps1_same _ (deps1 s)); autorewrite with culturis_rw; [reflexivity|].
  destruct (deps1_same _ _); [reflexivity|apply recenter_idem].
Qed.

Lemma pass_venues_stable (p : T3Props) (h : MapData.HeatState) (s : T3State) :
  venues (effects_pass p h (effects_pass p h s)) = venues (effects_pass p h s).
Proof.
  rewrite !effects_pass_fields; cbn [venues deps2].
  destruct (deps2_same _ (deps2 s)); autorewrite with culturis_rw; [reflexivity|].
  destruct (deps2_same _ _); [reflexivity|apply venue_effect_idem].
Qed.

(** A render whose dependencies are the recorded ones runs no effect. *)
Lemma pass_fixed (p : T3Props) (h : MapData.HeatState) (s : T3State) :
  deps1 s = Some (center_id p, longitude (view s), latitude (view s)) ->
  deps2 s = Some (center_id p, tastes_id p, length (venues s)) ->
  heatLoading s = MapData.loading h -> heatError s = MapData.error h ->
  effects_pass p h s = s.
Proof.
  intros D1 D2 L E. rewrite effects_pass_fields, D1, D2. autorewrite with culturis_rw.
  destruct s; cbn in *; subst; reflexivity.
Qed.

Lemma commit_view (p : T3Props) (h : MapData.HeatState) (s : T3State) :
  view (commit p h s) =
  if deps1_same (center_id p, longitude (view s), latitude (view s)) (deps1 s) then view s
  else recenter (mapCenter p) (view s).
Proof. unfold commit. rewrite pass_view_stable, effects_pass_fields. reflexivity. Qed.

Lemma commit_venues (p : T3Props) (h : MapData.HeatState) (s : T3State) :
  venues (commit p h s) =
  if deps2_same (center_id p, tastes_id p, length (venues s)) (deps2 s) then venues s
  else venue_effect (selectedTastes p) (mapCenter p) (venues s).
Proof. unfold commit. rewrite pass_venues_stable, effects_pass_fields. reflexivity. Qed.

(** The handlers and the map's callbacks leave the venues, the
    recorded dependencies and the hook's values as they are. *)
Lemma step_frame (e : T3Event) (s : T3State) :
  (forall p h, e <> Commit p h) -> not_reload e ->
  venues (t3_step e s) = venues s /\ deps1 (t3_step e s) = deps1 s /\ deps2 (t3_step e s) = deps2 s /\
  heatLoading (t3_step e s) = heatLoading s /\ heatError (t3_step e s) = heatError s.
Proof.
  intros Hc Hr. destruct e; try (exfalso; eapply Hc; reflexivity); try contradiction;
    cbn [t3_step]; case_ifs; unfold handleMarkerClick, onMapLoad, onMapError, onFallbackTimeout; case_ifs; cbn; auto.
Qed.

Lemma generateVenues_ok (t : list Seed) (c : Coords) :
  exists vs, generateVenues t c = Ok vs /\ Permutation vs (map (fixed_venue t c) (seq 0 18)).
Proof.
  destruct (array_sort_total _ by_affinity (map (fixed_venue t c) (seq 0 18))) as [vs Hvs];
    [intros; eexists; reflexivity|].
  exists vs. split; [exact Hvs|]. exact (array_sort_perm _ _ _ _ Hvs).
Qed.

Lemma generateVenues_nonempty (t : list Seed) (c : Coords) (vs : list Venue3D) :
  generateVenues t c = Ok vs -> vs <> [].
Proof.
  intros G E. subst. apply array_sort_perm, Permutation_length in G. discriminate G.
Qed.

(** After its first effect, a view is centered on a [mapCenter] that is
    a number. *)
Lemma recenter_centered (c : Coords) (v : ViewState) :
  is_number (fst c) -> is_number (snd c) ->
  strict_eqb (fst c) (longitude (recenter c v)) = true /\ strict_eqb (snd c) (latitude (recenter c v)) = true.
Proof.
  unfold is_number, recenter. intros Hx Hy. destruct (_ || _) eqn:E; cbn; [auto|].
  apply Bool.orb_false_iff in E as [E1 E2]. apply Bool.negb_false_iff in E1, E2. auto.
Qed.

Lemma deps1_same_inv (d : nat * Binary64.num * Binary64.num) (o : option (nat * Binary64.num * Binary64.num)) :
  deps1_same d o = true -> o = Some d.
Proof.
  destruct d as [[i' lo'] la'], o as [[[i lo] la]|]; cbn; [|discriminate].
  intros D. apply andb_prop in D as [D D3]. apply andb_prop in D as [D1 D2].
  apply Nat.eqb_eq in D1. apply same_value_eq in D2, D3. now subst.
Qed.

Lemma commit_centered (p : T3Props) (h : MapData.HeatState) (s : T3State) :
  is_number (fst (mapCenter p)) -> is_number (snd (mapCenter p)) -> centered p s ->
  centered p (commit p h s).
Proof.
  intros Hx Hy Hs lo la. unfold commit. rewrite (effects_pass_fields p h (effects_pass p h s)). cbn [deps1].
  intros E. injection E as <- <-.
  destruct (deps1_same _ (deps1 s)) eqn:D; [|now apply recenter_centered].
  apply deps1_same_inv in D. now apply Hs.
Qed.

Lemma step_centered (p : T3Props) (e : T3Event) (s : T3State) :
  is_number (fst (mapCenter p)) -> is_number (snd (mapCenter p)) ->
  props_are p e -> centered p s -> centered p (t3_step e s).
Proof.
  intros Hx Hy Hp Hs. destruct e as [p' h| | | | | | | | | | | | |p']; cbn in Hp.
  1: subst p'; now apply commit_centered.
  13: intros lo la; cbn; destruct (screen s); [apply Hs..|discriminate|apply Hs].
  all: intros lo la Hd; apply Hs; rewrite <- Hd; symmetry; apply step_frame; [discriminate|exact I].
Qed.

Lemma recenter_pitch (c : Coords) (v : ViewState) : pitch (recenter c v) = pitch v.
Proof. destruct (recenter_cases c v) as [E|E]; now rewrite E. Qed.

(** The tilts the buttons reach: the integers of [[0, hi]]. *)
Definition pitch_in (hi : Z) (x : Binary64.num) : bool :=
  existsb (fun k => Binary64.same_value x (Binary64.of_Z k)) (map Z.of_nat (seq 0 (S (Z.to_nat hi)))).

Lemma pitch_in_spec (hi : Z) (x : Binary64.num) :
  (0 <= hi)%Z -> pitch_in hi x = true <-> exists k, (0 <= k <= hi)%Z /\ x = Binary64.of_Z k.
Proof.
  intros Hhi. unfold pitch_in. rewrite existsb_exists. split.
  - intros (k & Hk & E). apply in_map_iff in Hk as (i & <- & Hi). apply in_seq in Hi.
    exists (Z.of_nat i). split; [lia|]. now apply same_value_eq.
  - intros (k & Hk & ->). exists k. split; [|apply same_value_refl].
    apply in_map_iff. exists (Z.to_nat k). split; [lia|]. apply in_seq. lia.
Qed.

(** A map of tilts checked on each tilt of [[0, hi]] keeps the tilts
    in [[0, hi]]. *)
Lemma pitch_range (hi : Z) (f : Binary64.num -> Binary64.num) :
  (0 <= hi)%Z ->
  forallb (fun k => pitch_in hi (f (Binary64.of_Z k))) (map (fun i => (0 + Z.of_nat i)%Z) (seq 0 (S (Z.to_nat hi)))) = true ->
  forall x, pitch_in hi x = true -> pitch_in hi (f x) = true.
Proof.
  intros Hhi Hf x Hx. apply (pitch_in_spec hi x Hhi) in Hx as (k & Hk & ->).
  apply (forallb_Z_range _ 0 _ Hf). lia.
Qed.

Lemma pitch_up_ok (x : Binary64.num) :
  pitch_in 65 x = true -> pitch_in 65 (js_min (Binary64.add x (Binary64.of_Z 10)) (Binary64.of_Z 60)) = true.
Proof. apply (pitch_range 65 (fun x => js_min (Binary64.add x (Binary64.of_Z 10)) (Binary64.of_Z 60))); [lia|vm_compute; reflexivity]. Qed.

Lemma pitch_down_ok (x : Binary64.num) :
  pitch_in 65 x = true -> pitch_in 65 (js_max (Binary64.sub x (Binary64.of_Z 10)) (Binary64.of_Z 0)) = true.
Proof. apply (pitch_range 65 (fun x => js_max (Binary64.sub x (Binary64.of_Z 10)) (Binary64.of_Z 0))); [lia|vm_compute; reflexivity]. Qed.

Lemma step_pitch_ok (e : T3Event) (s : T3State) :
  not_move e -> pitch_in 65 (pitch (view s)) = true -> pitch_in 65 (pitch (view (t3_step e s))) = true.
Proof.
  intros He Hp. destruct e; try contradiction; cbn [t3_step].
  1: rewrite commit_view; destruct (deps1_same _ _); [exact Hp|now rewrite recenter_pitch].
  12: destruct (screen s); [exact Hp|exact Hp|vm_compute; reflexivity|exact Hp].
  all: case_ifs; unfold handleMarkerClick, onMapLoad, onMapError, onFallbackTimeout; case_ifs;
    cbn -[pitch_in js_min js_max Binary64.add Binary64.sub Binary64.of_Z]; auto using pitch_up_ok, pitch_down_ok.
Qed.

Lemma step_venues (e : T3Event) (s : T3State) :
  not_reload e -> venues s <> [] -> venues (t3_step e s) = venues s.
Proof.
  intros He Hne. destruct e; try contradiction.
  1: cbn [t3_step]; rewrite commit_venues; destruct (deps2_same _ _); [reflexivity|now apply venue_effect_nonempty].
  all: apply step_frame; [discriminate|exact I].
Qed.

Lemma screen_fallback (s : T3State) : useMapboxFallback s = true -> screen s = FallbackScreen.
Proof. unfold screen. now intros ->. Qed.

Lemma commit_fields (p : T3Props) (h : MapData.HeatState) (s : T3State) :
  useMapboxFallback (commit p h s) = useMapboxFallback s /\ flights (commit p h s) = flights s /\
  selectedVenue (commit p h s) = selectedVenue s /\ controls (commit p h s) = controls s.
Proof. unfold commit. rewrite !effects_pass_fields. repeat split. Qed.

Lemma step_fallback (e : T3Event) (s : T3State) :
  useMapboxFallback s = true ->
  useMapboxFallback (t3_step e s) = true /\ flights (t3_step e s) = flights s.
Proof.
  intros Hf. pose proof (screen_fallback s Hf) as Hs.
  destruct e; cbn [t3_step]; unfold on_map, interactive; rewrite ?Hs; cbn -[commit].
  1: destruct (commit_fields p h s) as (-> & -> & _); auto.
  all: case_ifs; unfold handleMarkerClick, onFallbackTimeout, on_map; rewrite ?Hs; case_ifs; cbn; auto.
Qed.

Lemma route_fixed (e : MapControls.ControlsEvent) (c : MapControls.ControlsState) :
  is_click e = true ->
  MapControls.routeMode (MapControls.controls_step e (MapControls.controls_step (MapControls.ParentSelect false) c)) =
  MapControls.routeMode c.
Proof. intros He. destruct e; try discriminate; cbn; case_ifs; reflexivity. Qed.

Definition not_select (e : T3Event) : Prop :=
  match e with MarkerClick _ | TryAgain _ => False | _ => True end.

Lemma step_route (e : T3Event) (s : T3State) :
  not_select e -> selectedVenue s = None ->
  selectedVenue (t3_step e s) = None /\
  MapControls.routeMode (controls (t3_step e s)) = MapControls.routeMode (controls s).
Proof.
  intros He Hs. destruct e; try contradiction; cbn [t3_step].
  1: destruct (commit_fields p h s) as (_ & _ & -> & ->); auto.
  4: { unfold has_selected. rewrite Hs. destruct (interactive s && is_click e) eqn:E; [|auto].
       apply andb_prop in E as [_ E]. cbn. split; [exact Hs|now apply route_fixed]. }
  all: case_ifs; unfold onMapLoad, onMapError, onFallbackTimeout; case_ifs; cbn; auto.
Qed.

(** ** Properties *)

(** The effects of a commit settle: the render their updates
    cause runs them once more, after which a render with the same
    props and hook values runs none, so React's render loop stops. *)
Theorem commit_settles (p : T3Props) (h : MapData.HeatState) (s : T3State) :
  effects_pass p h (commit p h s) = commit p h s.
Proof.
  unfold commit. apply pass_fixed; rewrite ?pass_deps1, ?pass_deps2, ?pass_heat.
  - now rewrite pass_view_stable.
  - now rewrite pass_venues_stable.
  - reflexivity.
  - reflexivity.
Qed.

(** C32: the camera cannot leave the map's center: once the view has
    been rendered with its props, a camera move (a pan, or the [flyTo]
    of a marker click) to another center is undone by the next commit,
    which recenters the view on [mapCenter] at zoom 12. *)
Theorem pan_reverted (p : T3Props) (h : MapData.HeatState) (es : list T3Event) (v : ViewState) :
  is_number (fst (mapCenter p)) -> is_number (snd (mapCenter p)) ->
  Forall (props_are p) es ->
  on_map (t3_run es (initialT3 p)) = true ->
  strict_eqb (fst (mapCenter p)) (longitude v) = false \/ strict_eqb (snd (mapCenter p)) (latitude v) = false ->
  view (t3_run (es ++ [Move v; Commit p h]) (initialT3 p)) =
  mkView (fst (mapCenter p)) (snd (mapCenter p)) (Binary64.of_Z 12) (pitch v) (bearing v).
Proof.
  intros Hx Hy Hes Hon Hv.
  assert (Hc : centered p (t3_run es (initialT3 p))).
  { apply (fold_left_preserve_Forall _ (props_are p)); [|exact Hes|intros lo la; discriminate].
    intros s e He Hs. now apply step_centered. }
  unfold t3_run in *. rewrite fold_left_app. cbn [fold_left t3_step]. rewrite Hon, commit_view. cbn.
  destruct (deps1_same _ _) eqn:D.
  - apply deps1_same_inv, Hc in D as [D1 D2]. destruct Hv as [E|E]; congruence.
  - unfold recenter. destruct Hv as [E|E]; rewrite E; cbn; [reflexivity|now rewrite Bool.orb_true_r].
Qed.

(** C33: the venues are generated once, around the center of the
    first render: whatever follows (other centers, other tastes), only
    a reload generates them again. *)
Theorem venues_generated_once (p : T3Props) (h : MapData.HeatState) (es : list T3Event) :
  Forall not_reload es ->
  exists vs, generateVenues (selectedTastes p) (mapCenter p) = Ok vs /\
             venues (t3_run (Commit p h :: es) (initialT3 p)) = vs.
Proof.
  intros Hes. destruct (generateVenues_ok (selectedTastes p) (mapCenter p)) as (vs & G & _).
  exists vs. split; [exact G|]. cbn [t3_run fold_left t3_step].
  assert (H1 : venues (commit p h (initialT3 p)) = vs).
  { rewrite commit_venues. cbn. unfold venue_effect. cbn. now rewrite G. }
  rewrite <- H1. apply (fold_left_preserve_Forall (fun s => venues s = venues (commit p h (initialT3 p))) not_reload);
    [|exact Hes|reflexivity].
  intros s e He Hs. rewrite step_venues; [exact Hs|exact He|]. rewrite Hs, H1. exact (generateVenues_nonempty _ _ _ G).
Qed.

(** C35: without camera moves of the map itself, the tilt is always an
    integer of [[0, 65]]: the initial 65 degrees, which Pitch Up caps at
    60 and Pitch Down floors at 0. *)
Theorem pitch_bounds (p : T3Props) (es : list T3Event) :
  Forall not_move es ->
  exists k, (0 <= k <= 65)%Z /\ pitch (view (t3_run es (initialT3 p))) = Binary64.of_Z k.
Proof.
  intros Hes. apply pitch_in_spec; [lia|].
  apply (fold_left_preserve_Forall (fun s => pitch_in 65 (pitch (view s)) = true) not_move); [|exact Hes|].
  - intros s e He Hs. now apply step_pitch_ok.
  - vm_compute. reflexivity.
Qed.

(** C34: when Mapbox fails, the view shows the error page, and once the
    timeout has switched it to the fallback map it shows the fallback
    map for good, and no marker click flies the camera any more. *)
Theorem fallback_permanent (s : T3State) (es : list T3Event) :
  on_map s = true ->
  screen (t3_step MapFail s) = ErrorScreen "Failed to load Mapbox. Switching to fallback map..." /\
  screen (t3_run (FallbackTimeout :: es) (t3_step MapFail s)) = FallbackScreen /\
  flights (t3_run (FallbackTimeout :: es) (t3_step MapFail s)) = flights s.
Proof.
  intros Hon. assert (Hf : useMapboxFallback s = false /\ (heatLoading s && Nat.eqb (length (venues s)) 0) = false).
  { unfold on_map, screen in Hon. destruct (useMapboxFallback s); [discriminate|].
    destruct (_ && _); [discriminate|auto]. }
  destruct Hf as [Hf Hl]. cbn [t3_step]. rewrite Hon. split.
  { unfold screen, onMapError. cbn. rewrite Hf, Hl, Bool.orb_true_r. reflexivity. }
  cbn [t3_run fold_left t3_step onFallbackTimeout onMapError timers].
  assert (P : useMapboxFallback (t3_run es (set_timers (timers s) (set_mapError None (set_fallback true
            (set_timers (S (timers s)) (set_mapError (Some "Failed to load Mapbox. Switching to fallback map...") s)))))) = true /\
            flights (t3_run es (set_timers (timers s) (set_mapError None (set_fallback true
            (set_timers (S (timers s)) (set_mapError (Some "Failed to load Mapbox. Switching to fallback map...") s)))))) = flights s).
  { apply (fold_left_preserve (fun s' => useMapboxFallback s' = true /\ flights s' = flights s)); [|split; reflexivity].
    intros a e [Ha Fa]. destruct (step_fallback e a Ha). split; congruence. }
  destruct P as [P1 P2]. split; [now apply screen_fallback|exact P2].
Qed.

(** The route mode outlives the selection: closing the popup of the
    selected venue disables the route button of the controls, so a
    route mode turned on stays on, whatever else is clicked, until a
    marker is selected again. *)
Theorem route_mode_stuck (s : T3State) (es : list T3Event) :
  selectedVenue s = None -> Forall not_select es ->
  selectedVenue (t3_run es s) = None /\
  MapControls.routeMode (controls (t3_run es s)) = MapControls.routeMode (controls s).
Proof.
  intros Hs Hes.
  apply (fold_left_preserve_Forall (fun s' => selectedVenue s' = None /\
           MapControls.routeMode (controls s') = MapControls.routeMode (controls s)) not_select);
    [|exact Hes|split; [exact Hs|reflexivity]].
  intros a e He [Ha Ra]. destruct (step_route e a He Ha). split; congruence.
Qed.

End Engine.

(** ** Witnesses *)

#[local] Existing Instance stub_math.
#[local] Existing Instance V8Sort.v8_sort.

Definition times_square : T3Props :=
  mkT3Props (Binary64.lit (-739851) 10000, Binary64.lit 407589 10000) 1 [] 1.

Definition union_square : T3Props :=
  mkT3Props (Binary64.lit (-739903) 10000, Binary64.lit 407359 10000) 2 [] 1.

(** The camera the [flyTo] of a marker click moves to. *)
Definition fly_view : ViewState :=
  mkView (Binary64.lit (-7398) 100) (Binary64.lit 4075 100) (Binary64.of_Z 15) (Binary64.of_Z 70) (Binary64.of_Z (-30)).

Lemma pan_reverted_witness :
  view (t3_run ([Commit times_square MapData.initialHeat] ++ [Move fly_view; Commit times_square MapData.initialHeat])
          (initialT3 times_square)) =
  mkView (fst (mapCenter times_square)) (snd (mapCenter times_square)) (Binary64.of_Z 12) (pitch fly_view) (bearing fly_view).
Proof.
  apply (pan_reverted times_square MapData.initialHeat [Commit times_square MapData.initialHeat] fly_view);
    [vm_compute; reflexivity|vm_compute; reflexivity|repeat constructor|vm_compute; reflexivity|left; vm_compute; reflexivity].
Defined.

Lemma venues_generated_once_witness :
  exists vs, generateVenues (selectedTastes times_square) (mapCenter times_square) = Ok vs /\
             venues (t3_run [Commit times_square MapData.initialHeat; Commit union_square MapData.initialHeat; PitchUp]
                       (initialT3 times_square)) = vs.
Proof. apply (venues_generated_once times_square MapData.initialHeat [Commit union_square MapData.initialHeat; PitchUp]). repeat constructor. Defined.

Lemma pitch_bounds_witness :
  exists k, (0 <= k <= 65)%Z /\
     pitch (view (t3_run [Commit times_square MapData.initialHeat; PitchUp; PitchDown; PitchDown] (initialT3 times_square))) = Binary64.of_Z k.
Proof. apply pitch_bounds. repeat constructor. Defined.

Lemma fallback_permanent_witness :
  let s := commit times_square MapData.initialHeat (initialT3 times_square) in
  screen (t3_step MapFail s) = ErrorScreen "Failed to load Mapbox. Switching to fallback map..." /\
   screen (t3_run [FallbackTimeout; MarkerClick 0] (t3_step MapFail s)) = FallbackScreen /\
   flights (t3_run [FallbackTimeout; MarkerClick 0] (t3_step MapFail s)) = flights s.
Proof. apply fallback_permanent. vm_compute. reflexivity. Defined.

(** A venue selected, the route mode turned on, the popup closed. *)
Definition route_left_on : T3State :=
  t3_run [Commit times_square MapData.initialHeat; MarkerClick 0;
          ControlsClick MapControls.RoutePress; PopupClose] (initialT3 times_square).

Lemma route_mode_stuck_witness :
  MapControls.routeMode (controls route_left_on) = true /\
   selectedVenue (t3_run [ControlsClick MapControls.RoutePress; ControlsClick MapControls.LegendClick] route_left_on) = None /\
   MapControls.routeMode (controls (t3_run [ControlsClick MapControls.RoutePress; ControlsClick MapControls.LegendClick] route_left_on)) =
  MapControls.routeMode (controls route_left_on).
Proof.
  split; [vm_compute; reflexivity|].
  apply route_mode_stuck; [vm_compute; reflexivity|repeat constructor].
Defined.

End True3D.
