(* ===== verification/Simple3D.v ===== *)
(** * The CSS 3D map view: fixed venues, tilt and the map controls

    [src/culturis-studio/src/components/Simple3DMapView.js] draws 18
    fixed venues as markers and buildings on a CSS grid that the
    [viewState]'s pitch and bearing rotate, with the map controls
    ([Controls.v]), the venue drawer, a popup for the selected venue and
    buttons that tilt and turn the grid.

    The component is a state machine ([S3State], [s3_step]) over its
    mount (the effect with no dependencies that stores the venues,
    sorted by affinity) and its clicks.  The camera is the 3D view's
    [True3D.ViewState]; only its pitch and bearing change here.  The map
    controls are [MapControls.controls_step] on the parent's state, with
    [canRoute] the render's [selectedVenue !== null]. *)
From S2P Require Import Prelude JsNumber JsString ArraySort MapData Controls Map3D.
From Corelib Require Import SpecFloat.
From Stdlib Require Import String List ZArith Lia Bool Permutation.
Import ListNotations.
Open Scope string_scope.

Module Simple3D.
Import True3D.

(** A venue of [fixedVenues] (lines 40-59): a position in percent of
    the grid instead of coordinates. *)
Record SVenue : Type := mkSVenue {
  sv_id : Z;
  sv_name : string;
  sv_type : string;
  sv_affinity : Z;
  sv_rating : Binary64.num;
  sv_x : Z;
  sv_y : Z
}.

(** [number] is [id] in every entry. *)
Definition sv_number (v : SVenue) : Z := sv_id v.

Definition svenue (id : Z) (name type : string) (affinity rating10 x y : Z) : SVenue :=
  mkSVenue id name type affinity (Binary64.lit rating10 10) x y.

Definition fixedVenues : list SVenue :=
  [svenue 1 "Blue Note Jazz Club" "Jazz Club" 85 42 20 15;
   svenue 2 "Artisan Coffee House" "Coffee House" 92 47 35 25;
   svenue 3 "Gallery Modern" "Art Gallery" 67 38 50 30;
   svenue 4 "The Hidden Speakeasy" "Cocktail Bar" 78 41 65 20;
   svenue 5 "Rooftop Garden Bar" "Rooftop Venue" 89 45 80 35;
   svenue 6 "Local Market Bistro" "Restaurant" 45 36 25 45;
   svenue 7 "Vintage Records Store" "Vintage Shop" 73 40 40 55;
   svenue 8 "Contemporary Art Space" "Art Space" 56 39 55 60;
   svenue 9 "Craft Brewery" "Brewery" 91 46 70 50;
   svenue 10 "Independent Bookshop" "Bookstore" 38 35 30 70;
   svenue 11 "Cultural Center" "Cultural Center" 82 43 45 75;
   svenue 12 "Live Music Venue" "Music Venue" 64 37 60 80;
   svenue 13 "Food Hall Collective" "Food Hall" 76 41 75 70;
   svenue 14 "Designer Boutique" "Boutique" 87 44 15 60;
   svenue 15 "Wine & Tapas Bar" "Wine Bar" 42 38 85 55;
   svenue 16 "Theater District Café" "Café" 69 40 10 40;
   svenue 17 "Museum Shop" "Museum" 94 48 90 25;
   svenue 18 "Night Market" "Market" 51 37 75 15].

(** The comparator [(a, b) => b.affinity - a.affinity] (line 61). *)
Definition by_affinity (a b : SVenue) : Result Binary64.num :=
  Ok (Binary64.of_Z (sv_affinity b - sv_affinity a)).

(** The state: the hooks (lines 18-36). *)
Record S3State : Type := mkS3 {
  view : ViewState;
  selectedVenue : option SVenue;
  drawerState : string;
  controls : MapControls.ControlsState;
  venues : list SVenue
}.

(** The initial state for the [mapCenter] prop: zoom 12, pitch 65,
    bearing -30. *)
Definition initialS3 (c : Coords) : S3State :=
  mkS3 (mkView (fst c) (snd c) (Binary64.of_Z 12) (Binary64.of_Z 65) (Binary64.of_Z (-30)))
       None "hidden" MapControls.initialControls [].

Inductive S3Event : Type :=
| Mount
| MarkerClick (index : nat)
| PopupClose
| ViewDetails
| DrawerChange (d : string)
| ControlsClick (e : MapControls.ControlsEvent)
| PitchUp
| PitchDown
| RotateLeft
| RotateRight.

Definition has_selected (s : S3State) : bool :=
  match selectedVenue s with Some _ => true | None => false end.

Section Engine.
Context `{ArraySort}.

Definition with_view (v : ViewState) (s : S3State) : S3State :=
  mkS3 v (selectedVenue s) (drawerState s) (controls s) (venues s).

Definition with_selected (o : option SVenue) (s : S3State) : S3State :=
  mkS3 (view s) o (drawerState s) (controls s) (venues s).

Definition with_drawer (d : string) (s : S3State) : S3State :=
  mkS3 (view s) (selectedVenue s) d (controls s) (venues s).

(** The effect at mount (lines 39-62). *)
Definition mount (s : S3State) : S3State :=
  match array_sort by_affinity fixedVenues with
  | Ok r => mkS3 (view s) (selectedVenue s) (drawerState s) (controls s) r
  | Throw _ => s
  end.

(** [handleMarkerClick(venue)] (lines 65-69). *)
Definition handleMarkerClick (v : SVenue) (s : S3State) : S3State :=
  with_drawer "peek" (with_selected (Some v) s).

(** The clicks (lines 159, 169-231, 276, 286-289). *)
Definition s3_step (e : S3Event) (s : S3State) : S3State :=
  match e with
  | Mount => mount s
  | MarkerClick i => match nth_error (venues s) i with Some v => handleMarkerClick v s | None => s end
  | PopupClose => if has_selected s then with_selected None s else s
  | ViewDetails => if has_selected s then with_drawer "expanded" s else s
  | DrawerChange d => with_drawer d s
  | ControlsClick e =>
      if True3D.is_click e then
        mkS3 (view s) (selectedVenue s) (drawerState s)
             (MapControls.controls_step e (MapControls.controls_step (MapControls.ParentSelect (has_selected s)) (controls s)))
             (venues s)
      else s
  | PitchUp => with_view (with_pitch (js_min (Binary64.add (pitch (view s)) (Binary64.of_Z 10)) (Binary64.of_Z 80)) (view s)) s
  | PitchDown => with_view (with_pitch (js_max (Binary64.sub (pitch (view s)) (Binary64.of_Z 10)) (Binary64.of_Z 0)) (view s)) s
  | RotateLeft => with_view (with_bearing (Binary64.sub (bearing (view s)) (Binary64.of_Z 15)) (view s)) s
  | RotateRight => with_view (with_bearing (Binary64.add (bearing (view s)) (Binary64.of_Z 15)) (view s)) s
  end.

Definition s3_run (es : list S3Event) (s : S3State) : S3State :=
  fold_left (fun s e => s3_step e s) es s.

End Engine.

(** ** Lemmas *)

Lemma pitch_up_80 (x : Binary64.num) :
  pitch_in 80 x = true -> pitch_in 80 (js_min (Binary64.add x (Binary64.of_Z 10)) (Binary64.of_Z 80)) = true.
Proof. apply (pitch_range 80 (fun x => js_min (Binary64.add x (Binary64.of_Z 10)) (Binary64.of_Z 80))); [lia|vm_compute; reflexivity]. Qed.

Lemma pitch_down_80 (x : Binary64.num) :
  pitch_in 80 x = true -> pitch_in 80 (js_max (Binary64.sub x (Binary64.of_Z 10)) (Binary64.of_Z 0)) = true.
Proof. apply (pitch_range 80 (fun x => js_max (Binary64.sub x (Binary64.of_Z 10)) (Binary64.of_Z 0))); [lia|vm_compute; reflexivity]. Qed.

Section Facts.
Context `{ArraySort}.

Lemma s3_step_pitch (e : S3Event) (s : S3State) :
  pitch_in 80 (pitch (view s)) = true -> pitch_in 80 (pitch (view (s3_step e s))) = true.
Proof.
  intros Hp. destruct e; cbn [s3_step]; unfold mount, handleMarkerClick, with_view, with_selected, with_drawer;
    case_ifs; cbn -[pitch_in js_min js_max Binary64.add Binary64.sub Binary64.of_Z];
    auto using pitch_up_80, pitch_down_80.
Qed.

(** ** Properties *)

(** The CSS view's tilt is always an integer of [[0, 80]]: it
    starts at 65 and its Pitch Up raises it to 80, while the Mapbox view
    caps the same button at 60 ([True3D.pitch_bounds]). *)
Theorem css_pitch_bounds (c : Coords) (es : list S3Event) :
  exists k, (0 <= k <= 80)%Z /\ pitch (view (s3_run es (initialS3 c))) = Binary64.of_Z k.
Proof.
  apply pitch_in_spec; [lia|].
  apply (fold_left_preserve (fun s => pitch_in 80 (pitch (view s)) = true)); [|vm_compute; reflexivity].
  intros s e Hs. now apply s3_step_pitch.
Qed.

End Facts.

(** ** Witnesses *)

#[local] Existing Instance V8Sort.v8_sort.

(** Two presses of Pitch Up from the initial 65 degrees reach 80. *)
Lemma css_pitch_up_80 :
  pitch (view (s3_run [Mount; PitchUp; PitchUp] (initialS3 (Binary64.of_Z 0, Binary64.of_Z 0)))) = Binary64.of_Z 80.
Proof. vm_compute. reflexivity. Qed.

End Simple3D.
