(* ===== verification/Instant.v ===== *)
(** * The instant map preview: fixed venues, progress bar and countdown

    [src/culturis-studio/src/components/InstantMapView.js] draws ten
    New York venues on a CSS background while a slower map loads, with
    a progress bar that an interval raises by 15 every 150 ms up to 90,
    and a countdown that another interval lowers by 0.1 every 100 ms
    from 1 to 0; the badge prints the countdown with [toFixed(1)].

    The component is a state machine ([IState], [instant_step]) over its
    mount (the two effects with no dependencies), the ticks of the two
    intervals, the clicks on the venues and its unmount (the cleanup).
    The countdown is a binary64 number ([Binary64]), so [prev - 0.1]
    rounds as the browser does; the progress is a small integer, which
    binary64 represents exactly. *)
From S2P Require Import Prelude JsNumber JsString ArraySort.
From Corelib Require Import SpecFloat.
From Stdlib Require Import String List ZArith Lia Bool Permutation.
Import ListNotations.
Open Scope string_scope.

Module InstantMap.

(** A venue of [nycVenues] (lines 52-73). *)
Record IVenue : Type := mkIVenue {
  iv_id : Z;
  iv_name : string;
  iv_type : string;
  iv_affinity : Z;
  iv_rating : Binary64.num;
  iv_coordinates : Binary64.num * Binary64.num;
  iv_address : string;
  iv_x : Z;
  iv_y : Z
}.

(** [number] is [id] in every entry. *)
Definition iv_number (v : IVenue) : Z := iv_id v.

Definition ivenue (id : Z) (name type : string) (affinity rating10 : Z) (lng lat : Z) (address : string) (x y : Z) : IVenue :=
  mkIVenue id name type affinity (Binary64.lit rating10 10)
           (Binary64.lit lng 10000, Binary64.lit lat 10000) address x y.

Definition nycVenues : list IVenue :=
  [ivenue 1 "Blue Note Jazz Club" "Jazz Club" 85 42 (-739881) 407614 "Greenwich Village" 45 35;
   ivenue 2 "MoMA" "Art Museum" 92 47 (-739776) 407614 "Midtown Manhattan" 52 35;
   ivenue 3 "High Line" "Park" 67 38 (-740048) 407480 "Chelsea" 35 45;
   ivenue 4 "Brooklyn Bridge" "Landmark" 78 41 (-739969) 407061 "Downtown Brooklyn" 58 65;
   ivenue 5 "Central Park" "Park" 89 45 (-739654) 407829 "Upper Manhattan" 65 15;
   ivenue 6 "Chelsea Market" "Food Hall" 45 36 (-740063) 407420 "Chelsea" 32 48;
   ivenue 7 "Times Square" "Entertainment" 73 40 (-739857) 407580 "Midtown" 50 40;
   ivenue 8 "Brooklyn Museum" "Art Museum" 56 39 (-739636) 406712 "Brooklyn" 75 75;
   ivenue 9 "One World Trade" "Landmark" 91 46 (-740134) 407127 "Financial District" 48 60;
   ivenue 10 "Williamsburg" "Neighborhood" 38 35 (-739442) 407081 "Brooklyn" 85 55].

(** The comparator [(a, b) => b.affinity - a.affinity] (line 75). *)
Definition by_affinity (a b : IVenue) : Result Binary64.num :=
  Ok (Binary64.of_Z (iv_affinity b - iv_affinity a)).

(** The marker class (line 126). *)
Definition markerClass (v : IVenue) : string :=
  if (70 <? iv_affinity v)%Z then "high" else if (40 <? iv_affinity v)%Z then "medium" else "low".

(** The state: the hooks (lines 16-19), the two intervals while they
    are set, and the venues handed to [onVenueSelect]. *)
Record IState : Type := mkIState {
  venues : list IVenue;
  selectedVenue : option IVenue;
  loadingProgress : Z;
  countdown : Binary64.num;
  progressTimer : bool;
  countdownTimer : bool;
  selections : list IVenue
}.

Definition initialInstant : IState := mkIState [] None 0 (Binary64.of_Z 1) false false [].

(** The updater of [loadingProgress] (lines 24-30): it clears its
    interval at 90. *)
Definition progress_tick (prev : Z) : Z * bool :=
  if (90 <=? prev)%Z then (90%Z, false) else ((prev + 15)%Z, true).

(** The updater of [countdown] (lines 35-41): [prev <= 0] clears the
    interval. *)
Definition countdown_tick (prev : Binary64.num) : Binary64.num * bool :=
  if SFleb prev (Binary64.of_Z 0) then (Binary64.of_Z 0, false)
  else (Binary64.sub prev (Binary64.lit 1 10), true).

(** The badge (line 159). *)
Definition badge (big : Binary64.num -> string) (s : IState) : string :=
  "Loading Google 3D in " ++ JsString.toFixed big 1 (countdown s) ++ "s".

Inductive IEvent : Type :=
| Mount
| ProgressTick
| CountdownTick
| VenueClick (index : nat)
| Unmount.

Section Engine.
Context `{ArraySort}.

(** The two effects at mount (lines 22-76). *)
Definition mount (s : IState) : IState :=
  let vs := match array_sort by_affinity nycVenues with Ok r => r | Throw _ => venues s end in
  mkIState vs (selectedVenue s) (loadingProgress s) (countdown s) true true (selections s).

(** [handleVenueClick(venue)] (lines 78-81), with [onVenueSelect]
    given. *)
Definition handleVenueClick (v : IVenue) (s : IState) : IState :=
  mkIState (venues s) (Some v) (loadingProgress s) (countdown s) (progressTimer s) (countdownTimer s)
           (selections s ++ [v]).

Definition instant_step (e : IEvent) (s : IState) : IState :=
  match e with
  | Mount => mount s
  | ProgressTick =>
      if progressTimer s then
        let '(p, on) := progress_tick (loadingProgress s) in
        mkIState (venues s) (selectedVenue s) p (countdown s) on (countdownTimer s) (selections s)
      else s
  | CountdownTick =>
      if countdownTimer s then
        let '(c, on) := countdown_tick (countdown s) in
        mkIState (venues s) (selectedVenue s) (loadingProgress s) c (progressTimer s) on (selections s)
      else s
  | VenueClick i =>
      match nth_error (venues s) i with Some v => handleVenueClick v s | None => s end
  | Unmount =>
      mkIState (venues s) (selectedVenue s) (loadingProgress s) (countdown s) false false (selections s)
  end.

Definition instant_run (es : list IEvent) (s : IState) : IState :=
  fold_left (fun s e => instant_step e s) es s.

End Engine.

(** ** Reference definitions *)

Definition is_countdown_tick (e : IEvent) : bool :=
  match e with CountdownTick => true | _ => false end.

(** Neither a mount nor an unmount. *)
Definition mounted_event (e : IEvent) : Prop :=
  match e with Mount | Unmount => False | _ => True end.

(** The countdown and its interval after [k] ticks. *)
Fixpoint countdown_after (k : nat) (c : Binary64.num) (on : bool) : Binary64.num * bool :=
  match k with
  | O => (c, on)
  | S k => if on then let '(c', on') := countdown_tick c in countdown_after k c' on' else (c, on)
  end.

(** ** Lemmas *)

Section Facts.
Context `{ArraySort}.

Lemma step_countdown (e : IEvent) (s : IState) :
  mounted_event e ->
  (countdown (instant_step e s), countdownTimer (instant_step e s)) =
  if is_countdown_tick e then countdown_after 1 (countdown s) (countdownTimer s)
  else (countdown s, countdownTimer s).
Proof.
  destruct s as [vs sel p c pt ct sl]. destruct e; cbn -[countdown_tick progress_tick mount]; try contradiction; try reflexivity.
  - destruct pt; [destruct (progress_tick _)|]; reflexivity.
  - destruct ct; [destruct (countdown_tick _)|]; reflexivity.
  - destruct (nth_error _ _); reflexivity.
Qed.

Lemma countdown_after_S (k : nat) (c : Binary64.num) (on : bool) :
  countdown_after (S k) c on = let '(c', on') := countdown_after 1 c on in countdown_after k c' on'.
Proof.
  cbn -[countdown_tick]. destruct on; [|now destruct k].
  destruct (countdown_tick c); reflexivity.
Qed.

Lemma countdown_after_add (j k : nat) (c : Binary64.num) (on : bool) :
  countdown_after (j + k) c on = let '(c', on') := countdown_after j c on in countdown_after k c' on'.
Proof.
  revert c on; induction j as [|j IH]; intros c on; [reflexivity|].
  rewrite Nat.add_succ_l, (countdown_after_S (j + k)), (countdown_after_S j). destruct (countdown_after 1 c on). apply IH.
Qed.

Lemma run_countdown (es : list IEvent) (s : IState) :
  Forall mounted_event es ->
  (countdown (instant_run es s), countdownTimer (instant_run es s)) =
  countdown_after (length (filter is_countdown_tick es)) (countdown s) (countdownTimer s).
Proof.
  intros Hes. revert s. induction Hes as [|e es He _ IH]; intros s; [reflexivity|].
  cbn [instant_run fold_left filter]. unfold instant_run in IH. rewrite IH.
  pose proof (step_countdown e s He) as E.
  destruct (is_countdown_tick e).
  - cbn [length]. rewrite (countdown_after_S (length (filter is_countdown_tick es))).
    destruct (countdown_after 1 (countdown s) (countdownTimer s)) as [c' on'].
    injection E as -> ->. reflexivity.
  - injection E as -> ->. reflexivity.
Qed.

(** Stopped, the countdown stays at [0]. *)
Lemma countdown_after_stopped (k : nat) : countdown_after k (Binary64.of_Z 0) false = (Binary64.of_Z 0, false).
Proof. now destruct k. Qed.

Lemma mount_countdown (s : IState) : countdown (mount s) = countdown s /\ countdownTimer (mount s) = true.
Proof. split; reflexivity. Qed.

(** ** Properties *)

(** The countdown shows a negative time: the eleventh tick of its
    interval (whatever clicks and progress ticks come between) leaves
    [1 - 11 * 0.1] computed in binary64, about [-0.0999], which is not
    [<= 0] one tick earlier (about [1.4e-16]), so the badge reads
    "Loading Google 3D in -0.1s". *)
Theorem countdown_shows_negative (big : Binary64.num -> string) (es : list IEvent) :
  Forall mounted_event es -> length (filter is_countdown_tick es) = 11%nat ->
  badge big (instant_run (Mount :: es) initialInstant) = "Loading Google 3D in -0.1s".
Proof.
  intros Hes Hk. unfold badge. change (instant_run (Mount :: es) initialInstant) with (instant_run es (mount initialInstant)).
  pose proof (run_countdown es (mount initialInstant) Hes) as E. rewrite Hk in E.
  change (countdown (mount initialInstant)) with (Binary64.of_Z 1) in E.
  change (countdownTimer (mount initialInstant)) with true in E.
  destruct (countdown_after 11 (Binary64.of_Z 1) true) as [c on] eqn:C.
  injection E as -> _. vm_compute in C. injection C as <- _. vm_compute. reflexivity.
Qed.

(** The countdown interval stops: after twelve ticks it has
    cleared itself and the countdown is [0] for good. *)
Theorem countdown_stops (es : list IEvent) :
  Forall mounted_event es -> (12 <= length (filter is_countdown_tick es))%nat ->
  countdown (instant_run (Mount :: es) initialInstant) = Binary64.of_Z 0 /\
   countdownTimer (instant_run (Mount :: es) initialInstant) = false.
Proof.
  intros Hes Hk. change (instant_run (Mount :: es) initialInstant) with (instant_run es (mount initialInstant)).
  pose proof (run_countdown es (mount initialInstant) Hes) as E.
  change (countdown (mount initialInstant)) with (Binary64.of_Z 1) in E.
  change (countdownTimer (mount initialInstant)) with true in E.
  replace (length (filter is_countdown_tick es)) with (12 + (length (filter is_countdown_tick es) - 12))%nat in E by lia.
  rewrite countdown_after_add in E.
  assert (C : countdown_after 12 (Binary64.of_Z 1) true = (Binary64.of_Z 0, false)) by (vm_compute; reflexivity).
  rewrite C, countdown_after_stopped in E. injection E as -> ->. split; reflexivity.
Qed.

End Facts.

(** ** Witnesses *)

#[local] Existing Instance V8Sort.v8_sort.

Definition eleven_ticks : list IEvent :=
  [CountdownTick; ProgressTick; CountdownTick; CountdownTick; VenueClick 0; CountdownTick; CountdownTick;
   CountdownTick; ProgressTick; CountdownTick; CountdownTick; CountdownTick; CountdownTick; CountdownTick].

Lemma countdown_shows_negative_witness :
  badge (fun _ => "") (instant_run (Mount :: eleven_ticks) initialInstant) = "Loading Google 3D in -0.1s".
Proof. apply countdown_shows_negative; [unfold eleven_ticks; repeat (apply Forall_cons; [exact I|]); apply Forall_nil|reflexivity]. Defined.

Lemma countdown_stops_witness :
  countdown (instant_run (Mount :: eleven_ticks ++ [CountdownTick; VenueClick 1]) initialInstant) = Binary64.of_Z 0 /\
  countdownTimer (instant_run (Mount :: eleven_ticks ++ [CountdownTick; VenueClick 1]) initialInstant) = false.
Proof. apply countdown_stops; [unfold eleven_ticks; repeat (apply Forall_cons; [exact I|]); apply Forall_nil|cbn; lia]. Defined.

End InstantMap.
