(* ===== verification/Enhanced3D.v ===== *)
(** * The enhanced Mapbox view: random venues and its render loop

    [src/culturis-studio/src/components/Enhanced3DMapView.js] shows 20
    venues drawn at random around [mapCenter] on a Mapbox map, with a
    popup for the selected venue and buttons that toggle the tilt and
    the 3D buildings.

    Its first effect depends on [generateVenues], a callback whose
    identity changes with the identities of [mapCenter] and
    [selectedTastes]; its second on [mapCenter].  Both props have
    default values, array literals that the function evaluates afresh
    at every render: an omitted prop has a new identity at each render.
    A render ([effects_pass]) runs the effects whose dependencies
    changed; both store a new object, so a render that ran one is
    followed by another ([dirty]).  Identities are [Ident]s: the
    parent's arrays are [Given], the defaults [Fresh] with the number of
    the render that evaluated them.  [Math.random] is the prelude's
    random stream. *)
From S2P Require Import Prelude JsNumber JsString ArraySort TastePicker Map3D.
From Corelib Require Import SpecFloat.
From Stdlib Require Import String List ZArith Lia Bool Permutation Arith.
Import ListNotations.
Open Scope string_scope.

Module Enhanced3D.
Import True3D.

(** A generated venue (lines 58-67). *)
Record EVenue : Type := mkEVenue {
  e_id : Z;
  e_number : Z;
  e_coordinates : Coords;
  e_name : string;
  e_type : string;
  e_affinity : Binary64.num;
  e_rating : Binary64.num;
  e_color : string
}.

(** [getVenueName(index)] (lines 73-84): the 18 names of the Mapbox
    view and two more. *)
Definition venueNames20 : list string :=
  venueNames ++ ["Experimental Kitchen"; "Concept Store"].

Definition getVenueName (index : nat) : string :=
  let fallback := "Cultural Venue " ++ JsString.toString (JInt (Z.of_nat index + 1)%Z) in
  match nth_error venueNames20 index with
  | Some n => if String.eqb n "" then fallback else n
  | None => fallback
  end.

(** [getVenueType(tastes, index)] (lines 86-94): the 18 types of the
    Mapbox view; the tastes are not read. *)
Definition getVenueType {T : Type} (tastes : list T) (index : nat) : string :=
  nth (index mod length venueTypes) venueTypes "".

(** [getVenueColor(affinity)] (lines 96-101). *)
Definition getVenueColor (affinity : Binary64.num) : string :=
  if Binary64.gtb affinity (Binary64.of_Z 75) then "#e74c3c"
  else if Binary64.gtb affinity (Binary64.of_Z 50) then "#f39c12"
  else if Binary64.gtb affinity (Binary64.of_Z 25) then "#3498db"
  else "#95a5a6".

(** The comparator [(a, b) => b.affinity - a.affinity] (line 70). *)
Definition by_affinity (a b : EVenue) : Result Binary64.num :=
  Ok (Binary64.sub (e_affinity b) (e_affinity a)).

(** The identity of an array prop. *)
Inductive Ident : Type :=
| Given (n : nat)
| Fresh (render : nat).

Definition ident_eqb (a b : Ident) : bool :=
  match a, b with
  | Given m, Given n | Fresh m, Fresh n => Nat.eqb m n
  | _, _ => false
  end.

(** The props: [mapCenter] and [selectedTastes] with their identities,
    or omitted ([None]); [enable3D] and whether [onMarkerClick] is
    given. *)
Record EProps : Type := mkEProps {
  center_prop : option (Coords * nat);
  tastes_prop : option (list Seed * nat);
  enable3D : bool;
  onMarkerClick_given : bool
}.

(** The default [mapCenter] (line 16). *)
Definition defaultCenter : Coords := (Binary64.lit (-739851) 10000, Binary64.lit 407589 10000).

Definition center_of (p : EProps) : Coords :=
  match center_prop p with Some (c, _) => c | None => defaultCenter end.

Definition tastes_of (p : EProps) : list Seed :=
  match tastes_prop p with Some (t, _) => t | None => [] end.

Definition center_ident (p : EProps) (render : nat) : Ident :=
  match center_prop p with Some (_, n) => Given n | None => Fresh render end.

Definition tastes_ident (p : EProps) (render : nat) : Ident :=
  match tastes_prop p with Some (_, n) => Given n | None => Fresh render end.

(** The state: the hooks (lines 20-34), the number of renders, the
    recorded dependencies of the two effects, whether the last render
    scheduled another, and the calls on the map ([flyTo], [easeTo]) and
    on [onMarkerClick]. *)
Record EState : Type := mkE {
  view : ViewState;
  showBuildings : bool;
  selectedVenue : option EVenue;
  venues : list EVenue;
  isLoaded : bool;
  renders : nat;
  deps_gen : option (Ident * Ident);
  deps_center : option Ident;
  dirty : bool;
  flights : list Coords;
  eases : list (Binary64.num * Binary64.num);
  clicks : list EVenue
}.

(** The state of the first render with the props [p] (lines 21-34). *)
Definition initialE (p : EProps) : EState :=
  let c := center_of p in
  mkE (mkView (fst c) (snd c) (Binary64.of_Z 15)
              (if enable3D p then Binary64.of_Z 60 else Binary64.of_Z 0)
              (if enable3D p then Binary64.lit (-176) 10 else Binary64.of_Z 0))
      true None [] false 0 None None false [] [] [].

Section Engine.
Context `{JsMath} `{ArraySort} (random_stream : nat -> Binary64.num).

(** The venue of index [i] (lines 51-67): four draws, the distance,
    the affinity, the rating and the color. *)
Definition gen_venue (tastes : list Seed) (c : Coords) (i : nat) : M World EVenue :=
  let angle := Binary64.mul (Binary64.mul (Binary64.div (Binary64.of_Z (Z.of_nat i)) (Binary64.of_Z 20))
                                          (Binary64.of_Z 2)) Binary64.PI in
  r1 <- Math_random random_stream ;;
  let distance := Binary64.add (Binary64.lit 5 1000) (Binary64.mul r1 (Binary64.lit 15 1000)) in
  let lng := Binary64.add (fst c) (Binary64.mul (Math_cos angle) distance) in
  let lat := Binary64.add (snd c) (Binary64.mul (Math_sin angle) distance) in
  r2 <- Math_random random_stream ;;
  r3 <- Math_random random_stream ;;
  r4 <- Math_random random_stream ;;
  ret (mkEVenue (Z.of_nat i + 1)%Z (Z.of_nat i + 1)%Z (lng, lat) (getVenueName i) (getVenueType tastes i)
                (Binary64.mul r2 (Binary64.of_Z 100))
                (Binary64.add (Binary64.lit 35 10) (Binary64.mul r3 (Binary64.lit 15 10)))
                (getVenueColor (Binary64.mul r4 (Binary64.of_Z 100)))).

(** [generateVenues()] (lines 47-71). *)
Definition generateVenues (tastes : list Seed) (c : Coords) : M World (list EVenue) :=
  vs <- m_mapi (fun i _ => gen_venue tastes c i) 0 (seq 0 20) ;;
  m_lift (array_sort by_affinity vs).

(** A render with the props [p] and its effects (lines 104-115), in
    their order in the source. *)
Definition effects_pass (p : EProps) (s : EState) : M World EState :=
  let r := renders s in
  let d1 := (center_ident p r, tastes_ident p r) in
  let d2 := center_ident p r in
  let same1 := match deps_gen s with
               | Some (a, b) => ident_eqb a (fst d1) && ident_eqb b (snd d1)
               | None => false
               end in
  let same2 := match deps_center s with Some a => ident_eqb a d2 | None => false end in
  vs <- (if same1 then ret (venues s) else generateVenues (tastes_of p) (center_of p)) ;;
  let c := center_of p in
  let v := view s in
  let v' := if same2 then v else mkView (fst c) (snd c) (zoom v) (pitch v) (bearing v) in
  ret (mkE v' (showBuildings s) (selectedVenue s) vs (isLoaded s) (S r) (Some d1) (Some d2)
           (negb same1 || negb same2) (flights s) (eases s) (clicks s)).

(** [handleMapLoad] (lines 169-192): the map exists once it is
    mounted. *)
Definition handleMapLoad (enable3D : bool) (s : EState) : EState :=
  mkE (view s) (showBuildings s) (selectedVenue s) (venues s) true (renders s) (deps_gen s) (deps_center s)
      (dirty s) (flights s)
      (if enable3D then eases s ++ [(Binary64.of_Z 60, Binary64.lit (-176) 10)] else eases s) (clicks s).

(** [handleMarkerClick(venue)] (lines 194-212). *)
Definition handleMarkerClick (given : bool) (v : EVenue) (s : EState) : EState :=
  mkE (view s) (showBuildings s) (Some v) (venues s) (isLoaded s) (renders s) (deps_gen s) (deps_center s)
      (dirty s) (flights s ++ [e_coordinates v]) (eases s) (if given then clicks s ++ [v] else clicks s).

(** [toggle3D()] (lines 214-233). *)
Definition toggle3D (s : EState) : EState :=
  let up := Binary64.gtb (pitch (view s)) (Binary64.of_Z 30) in
  let newPitch := if up then Binary64.of_Z 0 else Binary64.of_Z 60 in
  let newBearing := if up then Binary64.of_Z 0 else Binary64.lit (-176) 10 in
  mkE (with_bearing newBearing (with_pitch newPitch (view s))) (showBuildings s) (selectedVenue s) (venues s)
      (isLoaded s) (renders s) (deps_gen s) (deps_center s) (dirty s) (flights s)
      (eases s ++ [(newPitch, newBearing)]) (clicks s).

Inductive EEvent : Type :=
| Render (p : EProps)
| Move (v : ViewState)
| MapLoad (enable3D : bool)
| MarkerClick (given : bool) (index : nat)
| PopupClose
| Toggle3D
| ToggleBuildings.

Definition e_step (e : EEvent) (s : EState) : M World EState :=
  match e with
  | Render p => effects_pass p s
  | Move v =>
      ret (mkE v (showBuildings s) (selectedVenue s) (venues s) (isLoaded s) (renders s) (deps_gen s)
               (deps_center s) (dirty s) (flights s) (eases s) (clicks s))
  | MapLoad b => ret (handleMapLoad b s)
  | MarkerClick b i => ret (match nth_error (venues s) i with Some v => handleMarkerClick b v s | None => s end)
  | PopupClose =>
      ret (mkE (view s) (showBuildings s) None (venues s) (isLoaded s) (renders s) (deps_gen s)
               (deps_center s) (dirty s) (flights s) (eases s) (clicks s))
  | Toggle3D => ret (toggle3D s)
  | ToggleBuildings =>
      ret (mkE (view s) (negb (showBuildings s)) (selectedVenue s) (venues s) (isLoaded s) (renders s)
               (deps_gen s) (deps_center s) (dirty s) (flights s) (eases s) (clicks s))
  end.

(** [n] renders with the same props: what React does while a render
    schedules another. *)
Fixpoint renders_with (n : nat) (p : EProps) (s : EState) : M World EState :=
  match n with
  | O => ret s
  | S n => s' <- effects_pass p s ;; renders_with n p s'
  end.

End Engine.

(** ** Reference definitions *)

(** The render numbers of the default arrays recorded in the
    dependencies are earlier renders. *)
Definition ident_before (a : Ident) (n : nat) : Prop :=
  match a with Fresh r => r < n | Given _ => True end.

Definition deps_wf (s : EState) : Prop :=
  (forall a b, deps_gen s = Some (a, b) -> ident_before a (renders s) /\ ident_before b (renders s)) /\
  (forall a, deps_center s = Some a -> ident_before a (renders s)).

(** A venue whose affinity is the second of four draws from [d] and
    whose color is read off the fourth. *)
Definition color_drawn (random_stream : nat -> Binary64.num) (v : EVenue) : Prop :=
  exists d, e_affinity v = Binary64.mul (random_stream (S d)) (Binary64.of_Z 100) /\
            e_color v = getVenueColor (Binary64.mul (random_stream (S (S (S d)))) (Binary64.of_Z 100)).

(** ** Lemmas *)

Section Facts.
Context `{JsMath} `{ArraySort} (random_stream : nat -> Binary64.num).

Lemma gen_venue_spec (t : list Seed) (c : Coords) (i : nat) (w : World) :
  exists v, gen_venue random_stream t c i w = (Ok v, mkWorld (4 + draws w) (ticks w)) /\
            color_drawn random_stream v.
Proof.
  unfold gen_venue, m_bind, Math_random, m_ret. cbv beta iota zeta.
  eexists. split; [reflexivity|]. exists (draws w). split; reflexivity.
Qed.

Lemma generateVenues_draws (t : list Seed) (c : Coords) (w : World) :
  exists vs, generateVenues random_stream t c w = (Ok vs, mkWorld (80 + draws w) (ticks w)).
Proof.
  destruct (m_mapi_draws (fun i (_ : nat) => gen_venue random_stream t c i) 4 (seq 0 20) 0 w) as (ys & E);
    [intros j x w1; destruct (gen_venue_spec t c j w1) as (v & -> & _); now exists v|].
  destruct (array_sort_total _ by_affinity ys) as [vs Hvs]; [intros; eexists; reflexivity|].
  exists vs. unfold generateVenues, m_bind. rewrite E. unfold m_lift. now rewrite Hvs.
Qed.

Lemma ident_eqb_refl (a : Ident) : ident_eqb a a = true.
Proof. destruct a; apply Nat.eqb_refl. Qed.

Lemma ident_eqb_fresh (a : Ident) (r : nat) : ident_before a r -> ident_eqb a (Fresh r) = false.
Proof. destruct a as [n|n]; cbn; [reflexivity|]. intros Hn. apply Nat.eqb_neq. lia. Qed.

Lemma ident_before_S (a : Ident) (n : nat) : ident_before a n -> ident_before a (S n).
Proof. destruct a; cbn; lia. Qed.

Lemma ident_before_render (p : EProps) (r : nat) :
  ident_before (center_ident p r) (S r) /\ ident_before (tastes_ident p r) (S r).
Proof. unfold center_ident, tastes_ident. destruct (center_prop p) as [[]|], (tastes_prop p) as [[]|]; cbn; lia. Qed.

(** With a prop omitted, its default array is new: the first effect
    runs at every render. *)
Lemma same1_false (p : EProps) (s : EState) :
  (center_prop p = None \/ tastes_prop p = None) -> deps_wf s ->
  match deps_gen s with
  | Some (a, b) => ident_eqb a (center_ident p (renders s)) && ident_eqb b (tastes_ident p (renders s))
  | None => false
  end = false.
Proof.
  intros Hp [Hg _]. destruct (deps_gen s) as [[a b]|] eqn:D; [|reflexivity].
  destruct (Hg a b eq_refl) as [Ha Hb]. unfold center_ident, tastes_ident.
  destruct Hp as [-> | ->].
  - rewrite (ident_eqb_fresh a _ Ha). reflexivity.
  - rewrite (ident_eqb_fresh b _ Hb). apply Bool.andb_false_r.
Qed.

Lemma pass_fresh (p : EProps) (s : EState) (w : World) :
  (center_prop p = None \/ tastes_prop p = None) -> deps_wf s ->
  exists s', effects_pass random_stream p s w = (Ok s', mkWorld (80 + draws w) (ticks w)) /\
             dirty s' = true /\ deps_wf s'.
Proof.
  intros Hp Hwf. unfold effects_pass. cbv zeta. cbn [fst snd]. rewrite (same1_false p s Hp Hwf).
  unfold m_bind. destruct (generateVenues_draws (tastes_of p) (center_of p) w) as (vs & ->).
  unfold m_ret. eexists. split; [reflexivity|]. split; [reflexivity|].
  destruct (ident_before_render p (renders s)) as [Hc Ht].
  split.
  - intros a b E. cbn in E. injection E as <- <-. cbn. auto.
  - intros a E. cbn in E. injection E as <-. exact Hc.
Qed.

(** With both props given, a render records their identities, and a
    render that finds them recorded runs no effect and draws nothing. *)
Lemma pass_given_deps (p : EProps) (s : EState) (w : World) (n m : nat) (c : Coords) (t : list Seed) :
  center_prop p = Some (c, n) -> tastes_prop p = Some (t, m) ->
  exists s' k, effects_pass random_stream p s w = (Ok s', mkWorld (k + draws w) (ticks w)) /\
               deps_gen s' = Some (Given n, Given m) /\ deps_center s' = Some (Given n).
Proof.
  intros Hc Ht. unfold effects_pass. cbv zeta. cbn [fst snd]. unfold center_ident, tastes_ident. rewrite Hc, Ht.
  unfold m_bind. destruct (match deps_gen s with Some (a, b) => _ | None => false end).
  - unfold m_ret. destruct w. eexists _, 0. split; [reflexivity|split; reflexivity].
  - destruct (generateVenues_draws (tastes_of p) (center_of p) w) as (vs & ->).
    unfold m_ret. eexists _, 80. split; [reflexivity|split; reflexivity].
Qed.

Lemma pass_settled (p : EProps) (s : EState) (w : World) (n m : nat) (c : Coords) (t : list Seed) :
  center_prop p = Some (c, n) -> tastes_prop p = Some (t, m) ->
  deps_gen s = Some (Given n, Given m) -> deps_center s = Some (Given n) ->
  exists s', effects_pass random_stream p s w = (Ok s', w) /\ dirty s' = false.
Proof.
  intros Hc Ht Dg Dc. unfold effects_pass. cbv zeta. cbn [fst snd]. unfold center_ident, tastes_ident.
  rewrite Hc, Ht, Dg, Dc. cbn [ident_eqb]. rewrite !Nat.eqb_refl. cbn.
  unfold m_bind, m_ret. eexists. split; reflexivity.
Qed.


Lemma renders_with_S (p : EProps) (n : nat) (s : EState) (w : World) :
  renders_with random_stream (S n) p s w =
  match effects_pass random_stream p s w with
  | (Ok s', w') => renders_with random_stream n p s' w'
  | (Throw e, w') => (Throw e, w')
  end.
Proof. reflexivity. Qed.

Lemma loop_fresh (p : EProps) (k : nat) (s : EState) (w : World) :
  (center_prop p = None \/ tastes_prop p = None) -> deps_wf s ->
  exists s', renders_with random_stream (S k) p s w = (Ok s', mkWorld (80 * S k + draws w) (ticks w)) /\
             dirty s' = true.
Proof.
  intros Hp. revert s w; induction k as [|k IH]; intros s w Hwf; rewrite renders_with_S;
    destruct (pass_fresh p s w Hp Hwf) as (s1 & -> & D1 & W1).
  - exists s1. split; [|exact D1]. reflexivity.
  - destruct (IH s1 (mkWorld (80 + draws w) (ticks w)) W1) as (s2 & -> & D2). exists s2. split; [|exact D2]. cbn [draws ticks]. f_equal. f_equal. lia.
Qed.

(** ** Properties *)

(** C36: the render loop of the view stops exactly when the parent
    passes both arrays: with [mapCenter] and [selectedTastes] given, the
    render after the mount runs no effect; with either omitted, its
    default array is new at every render, so every render regenerates
    the 20 venues (80 draws of [Math.random]) and schedules another,
    forever. *)
Theorem render_loop (p : EProps) (w : World) :
  (forall c n t m, center_prop p = Some (c, n) -> tastes_prop p = Some (t, m) ->
     exists s w', renders_with random_stream 2 p (initialE p) w = (Ok s, w') /\ dirty s = false) /\
  (center_prop p = None \/ tastes_prop p = None ->
     forall k, exists s, renders_with random_stream (S k) p (initialE p) w =
                         (Ok s, mkWorld (80 * S k + draws w) (ticks w)) /\ dirty s = true).
Proof.
  split.
  - intros c n t m Hc Ht. rewrite renders_with_S.
    destruct (pass_given_deps p (initialE p) w n m c t Hc Ht) as (s1 & k & -> & D1 & D2).
    rewrite renders_with_S. destruct (pass_settled p s1 (mkWorld (k + draws w) (ticks w)) n m c t Hc Ht D1 D2)
      as (s2 & -> & D). exists s2, (mkWorld (k + draws w) (ticks w)). split; [reflexivity|exact D].
  - intros Hp k. apply loop_fresh; [exact Hp|]. split; cbn; discriminate.
Qed.

(** The color of a marker is not read off its affinity: each
    generated venue's affinity is [100] times the second of its four
    draws and its color [getVenueColor] of [100] times the fourth, an
    independent draw. *)
Theorem marker_color_random (t : list Seed) (c : Coords) (w : World) :
  exists vs, generateVenues random_stream t c w = (Ok vs, mkWorld (80 + draws w) (ticks w)) /\
             length vs = 20%nat /\ Forall (color_drawn random_stream) vs.
Proof.
  destruct (m_mapi_draws (fun i (_ : nat) => gen_venue random_stream t c i) 4 (seq 0 20) 0 w) as (ys & E);
    [intros j x w1; destruct (gen_venue_spec t c j w1) as (v & -> & _); now exists v|].
  assert (F : Forall (color_drawn random_stream) ys).
  { refine (m_mapi_Forall _ _ _ _ _ _ _ _ E). intros j x w1 y w2 E1.
    destruct (gen_venue_spec t c j w1) as (v & E2 & Hv). cbn beta in E1. rewrite E1 in E2. injection E2 as -> _. exact Hv. }
  assert (L : length ys = 20%nat).
  { rewrite (m_mapi_length _ _ _ _ _ _ E). apply length_seq. }
  destruct (array_sort_total _ by_affinity ys) as [vs Hvs]; [intros; eexists; reflexivity|].
  pose proof (array_sort_perm _ _ _ _ Hvs) as P.
  exists vs. unfold generateVenues, m_bind. rewrite E. unfold m_lift. rewrite Hvs. split; [reflexivity|split].
  - rewrite (Permutation_length P). exact L.
  - apply (Permutation_Forall (Permutation_sym P)). exact F.
Qed.

End Facts.

(** ** Witnesses *)

#[local] Existing Instance stub_math.
#[local] Existing Instance V8Sort.v8_sort.

(** A stream whose affinity draws are 0.9 and whose other draws are
    0.1. *)
Definition grey_stream (n : nat) : Binary64.num :=
  if Nat.eqb (n mod 4) 1 then Binary64.lit 9 10 else Binary64.lit 1 10.

(** The view without [selectedTastes]. *)
Definition without_tastes : EProps :=
  mkEProps (Some (defaultCenter, 1)) None true false.

Lemma render_loop_witness :
  exists s, renders_with grey_stream 3 without_tastes (initialE without_tastes) (mkWorld 0 0) =
            (Ok s, mkWorld (80 * 3 + 0) 0) /\ dirty s = true.
Proof. exact (proj2 (render_loop grey_stream without_tastes (mkWorld 0 0)) (or_intror eq_refl) 2). Defined.

Lemma marker_color_random_witness :
  exists vs, generateVenues grey_stream [] defaultCenter (mkWorld 0 0) = (Ok vs, mkWorld (80 + 0) 0) /\
             length vs = 20%nat /\ Forall (color_drawn grey_stream) vs.
Proof. exact (marker_color_random grey_stream [] defaultCenter (mkWorld 0 0)). Defined.

Definition grey_venues : list EVenue :=
  match generateVenues grey_stream [] defaultCenter (mkWorld 0 0) with (Ok vs, _) => vs | _ => [] end.

(** With that stream every marker has an affinity of 90 and is drawn
    grey, the color of an affinity below 25. *)
Lemma grey_at_90 :
  length grey_venues = 20%nat /\
  Forall (fun v => e_color v = "#95a5a6" /\ Binary64.gtb (e_affinity v) (Binary64.of_Z 75) = true) grey_venues.
Proof. vm_compute. split; [reflexivity|repeat constructor]. Qed.

End Enhanced3D.
