(* ===== verification/MapViewClean.v ===== *)
(** * The Leaflet map view [MapView_clean.js] with its heat-map hook

    [src/culturis-studio/src/components/MapView_clean.js] shows the
    cultural venues of the selected tastes on a Leaflet map, with the
    map controls ([Controls.v]), the venue drawer, and a heat map that
    the [useMapData] hook ([MapData.v]) computes around the centre.

    The view is a state machine ([MVState], [mv_step]) over its commits,
    the map's [moveend] and [click] events, the clicks on the markers,
    the drawer and the controls, its 500 ms timeouts and the [.finally]
    callbacks of its [generateHeatData] calls.  The hook's state is a
    field of the view's state: the view's effects and timeouts call
    [MapData.generateHeatData] on it, and the settlements of the hook's
    requests, batches and timeouts are events of the view that run
    [MapData.settle_req], [MapData.resume] and [MapData.timer]. *)
From S2P Require Import Prelude JsNumber JsString Venue VenueCache MapData Controls Map3D.
From Corelib Require Import SpecFloat.
From Stdlib Require Import String List ZArith Lia Bool Ascii.
Import ListNotations.
Open Scope string_scope.

Module CleanMap.
Import Venue MapData.

(** The props (lines 26-31).  [mapCenter] is [[lat, lng]], an array and
    so truthy; [tastes_id] is the identity of the [selectedTastes]
    array, which the heat effect's dependencies compare. *)
Record MVProps : Type := mkProps {
  selectedTastes : list Taste;
  tastes_id : nat;
  userLocation : string;
  mapCenter : True3D.Coords;
  enable3D : bool
}.

(** The default [mapCenter] (line 29), for a parent that omits it. *)
Definition defaultCenter : True3D.Coords :=
  (Binary64.lit 407589 10000, Binary64.lit (-739851) 10000).

(** [getMapTileUrl(style)] (lines 48-61). *)
Definition getMapTileUrl (style : string) : string :=
  if String.eqb style "satellite" then
    "https://server.arcgisonline.com/ArcGIS/rest/services/World_Imagery/MapServer/tile/{z}/{y}/{x}"
  else if String.eqb style "dark" then
    "https://tiles.stadiamaps.com/tiles/alidade_smooth_dark/{z}/{x}/{y}{r}.png"
  else if String.eqb style "light" then
    "https://tiles.stadiamaps.com/tiles/alidade_smooth/{z}/{x}/{y}{r}.png"
  else if String.eqb style "terrain" then
    "https://server.arcgisonline.com/ArcGIS/rest/services/World_Topo_Map/MapServer/tile/{z}/{y}/{x}"
  else "https://{s}.tile.openstreetmap.org/{z}/{x}/{y}.png".

(** The double quote of the attributions' HTML. *)
Definition dq : string := String (ascii_of_nat 34) EmptyString.

Definition link (href text : string) : string :=
  "&copy; <a href=" ++ dq ++ href ++ dq ++ ">" ++ text ++ "</a>".

(** [getMapAttribution(style)] (lines 63-75). *)
Definition getMapAttribution (style : string) : string :=
  if String.eqb style "satellite" then link "https://www.esri.com/" "Esri"
  else if String.eqb style "dark" || String.eqb style "light" then link "https://stadiamaps.com/" "Stadia Maps"
  else if String.eqb style "terrain" then link "https://www.esri.com/" "Esri"
  else link "https://openstreetmap.org" "OpenStreetMap" ++ " contributors".

(** The view's state: its hooks (lines 33-45), [isGeneratingRef]
    (line 96), the [.finally] callbacks still to run (by the controller
    of the hook's call they wait for), the pending timeouts of the
    [moveend] handler with what their closures captured, the hook's
    state, the props of the last render and the heat effect's
    dependency at its last run.  A venue is the marker number
    [NumberedMarkers] hands to [onMarkerClick]. *)
Record MVState : Type := mkMV {
  currentMapCenter : True3D.Coords;
  mapZoom : Z;
  selectedVenue : option nat;
  drawerState : string;
  controls : MapControls.ControlsState;
  is3DMode : bool;
  mapStyle : string;
  isGenerating : bool;
  finals : list nat;
  timers : list (list Taste * True3D.Coords * Z);
  heat : HeatState;
  rendered : MVProps;
  deps_tastes : option nat
}.

(** The state at mount: [useState(mapCenter)], zoom 12, the parent's
    filters of lines 39-43 (those of [MapControls.initialControls]),
    [is3DMode] from [enable3D], the [streets] style, the hook idle. *)
Definition initialMV (p : MVProps) : MVState :=
  mkMV (mapCenter p) 12 None "hidden" MapControls.initialControls (enable3D p) "streets" false [] []
       initialHeat p None.

Definition with_view (c : True3D.Coords) (z : Z) (s : MVState) : MVState :=
  mkMV c z (selectedVenue s) (drawerState s) (controls s) (is3DMode s) (mapStyle s) (isGenerating s)
       (finals s) (timers s) (heat s) (rendered s) (deps_tastes s).

Definition with_selection (v : option nat) (d : string) (s : MVState) : MVState :=
  mkMV (currentMapCenter s) (mapZoom s) v d (controls s) (is3DMode s) (mapStyle s) (isGenerating s)
       (finals s) (timers s) (heat s) (rendered s) (deps_tastes s).

Definition with_controls (c : MapControls.ControlsState) (style : string) (s : MVState) : MVState :=
  mkMV (currentMapCenter s) (mapZoom s) (selectedVenue s) (drawerState s) c (is3DMode s) style
       (isGenerating s) (finals s) (timers s) (heat s) (rendered s) (deps_tastes s).

Definition with_generating (b : bool) (fs : list nat) (s : MVState) : MVState :=
  mkMV (currentMapCenter s) (mapZoom s) (selectedVenue s) (drawerState s) (controls s) (is3DMode s)
       (mapStyle s) b fs (timers s) (heat s) (rendered s) (deps_tastes s).

Definition with_timers (ts : list (list Taste * True3D.Coords * Z)) (s : MVState) : MVState :=
  mkMV (currentMapCenter s) (mapZoom s) (selectedVenue s) (drawerState s) (controls s) (is3DMode s)
       (mapStyle s) (isGenerating s) (finals s) ts (heat s) (rendered s) (deps_tastes s).

Definition set_heat (h : HeatState) (s : MVState) : MVState :=
  mkMV (currentMapCenter s) (mapZoom s) (selectedVenue s) (drawerState s) (controls s) (is3DMode s)
       (mapStyle s) (isGenerating s) (finals s) (timers s) h (rendered s) (deps_tastes s).

Definition with_render (p : MVProps) (d : option nat) (s : MVState) : MVState :=
  mkMV (currentMapCenter s) (mapZoom s) (selectedVenue s) (drawerState s) (controls s) (is3DMode s)
       (mapStyle s) (isGenerating s) (finals s) (timers s) (heat s) p d.

Definition has_selected (s : MVState) : bool :=
  match selectedVenue s with Some _ => true | None => false end.

(** What a render shows (lines 169-297): the loader while the first
    heat data loads, the error page, or the map with its tile layer,
    the route overlay, the legend, the 3D badge and the updating
    overlay. *)
Inductive Screen : Type :=
| Loader3D
| Spinner (colors : list string)
| ErrorPage (message : string)
| MapScreen (tileUrl attribution : string) (routeOverlay legend badge3D updating : bool).

(** [taste.color || '#667eea'] (line 174). *)
Definition spinner_color (t : Taste) : string :=
  if String.eqb (taste_color t) "" then "#667eea" else taste_color t.

Definition screen (s : MVState) : Screen :=
  let h := heat s in
  if loading h && Nat.eqb (length (heatData h)) 0 then
    if is3DMode s then Loader3D else Spinner (map spinner_color (selectedTastes (rendered s)))
  else if True3D.str_truthy (error h) then ErrorPage (True3D.str_of (error h))
  else MapScreen (getMapTileUrl (mapStyle s)) (getMapAttribution (mapStyle s))
         (MapControls.routeMode (controls s) && has_selected s) (MapControls.showLegend (controls s))
         (is3DMode s) (loading h && negb (Nat.eqb (length (heatData h)) 0)).

(** The map, its [MapEventHandler], the markers, the controls and the
    drawer are mounted. *)
Definition on_map (s : MVState) : bool :=
  match screen s with MapScreen _ _ _ _ _ _ => true | _ => false end.

Definition on_error (s : MVState) : bool :=
  match screen s with ErrorPage _ => true | _ => false end.

(** The first effect (lines 78-85).  Its dependencies are [mapCenter],
    [currentMapCenter] and [mapZoom]; it is run at every commit, which
    is the same: when they are unchanged since its last run, that run
    either found the two centres equal or made [currentMapCenter] the
    array [mapCenter], so its condition is false and it does nothing. *)
Definition recenter (p : MVProps) (s : MVState) : MVState :=
  let m := mapCenter p in
  let c := currentMapCenter s in
  if negb (True3D.strict_eqb (fst m) (fst c)) || negb (True3D.strict_eqb (snd m) (snd c))
  then with_view m (if Z.eqb (mapZoom s) 12 then mapZoom s else 12) s
  else s.

(** [remove] of one pending callback. *)
Fixpoint remove_one (c : nat) (l : list nat) : list nat :=
  match l with
  | [] => []
  | x :: l' => if Nat.eqb x c then l' else x :: remove_one c l'
  end.

(** A call of the hook's controller [c] is still running. *)
Definition has_gen (c : nat) (h : HeatState) : bool :=
  match find_gen c h with Some _ => true | None => false end.

Inductive MVEvent : Type :=
| Commit (p : MVProps)
| MoveEnd (center : True3D.Coords) (zoom : Z)
| MapClick
| MarkerClick (venue : nat)
| DrawerChange (d : string)
| ControlsClick (e : MapControls.ControlsEvent)
| TimeoutFire
| Finally (c : nat)
| HeatSettle (id : nat) (r : VenueCache.Response)
| HeatBatch (c : nat)
| HeatTimer (c : nat)
| TryAgain.

Section Engine.
Context (number_toString : Binary64.num -> string) (random_stream : nat -> Binary64.num).

(** [isGeneratingRef.current = true; generateHeatData(center,
    zoom).finally(...)] (lines 101-104 and 149-152): the hook's call
    runs to its first [await], with the [selectedTastes] of the render
    that made it; its [.finally] waits for the call of the controller
    it creates. *)
Definition start_generation (ts : list Taste) (center : True3D.Coords) (zoom : Z) (s : MVState) : MVState :=
  let h := heat s in
  set_heat (generateHeatData number_toString ts center zoom h)
    (with_generating true (finals s ++ [controllers h]) s).

(** The second effect (lines 99-106), with the [mapZoom] of the
    render. *)
Definition heat_effect (p : MVProps) (zoom : Z) (s : MVState) : MVState :=
  if Nat.leb 3 (length (selectedTastes p)) && negb (isGenerating s)
  then start_generation (selectedTastes p) (mapCenter p) zoom s
  else s.

(** A render with the props [p] and its effects, in their order in
    the source.  The heat effect runs when its dependencies
    [selectedTastes] and [generateHeatData] changed; the hook's
    [useCallback] makes a new [generateHeatData] exactly when
    [selectedTastes] changes.  The render the first effect's updates
    cause runs no effect that changes anything ([commit_idem]). *)
Definition commit (p : MVProps) (s : MVState) : MVState :=
  let z := mapZoom s in
  let s1 := recenter p (with_render p (deps_tastes s) s) in
  match deps_tastes s with
  | Some i => if Nat.eqb i (tastes_id p) then s1 else heat_effect p z (with_render p (Some (tastes_id p)) s1)
  | None => heat_effect p z (with_render p (Some (tastes_id p)) s1)
  end.

(** The [moveend] handler (lines 137-156), with the [selectedTastes]
    of the last render: it stores the map's centre and zoom and, unless
    a call runs, sets a 500 ms timeout that captures them. *)
Definition onMoveEnd (c : True3D.Coords) (z : Z) (s : MVState) : MVState :=
  let s1 := with_view c z s in
  let ts := selectedTastes (rendered s) in
  if Nat.leb 3 (length ts) && negb (isGenerating s1) then with_timers (timers s1 ++ [(ts, c, z)]) s1 else s1.

(** The oldest timeout fires (lines 147-154): it checks the flag again. *)
Definition onTimeout (s : MVState) : MVState :=
  match timers s with
  | [] => s
  | (ts, c, z) :: rest =>
      let s1 := with_timers rest s in
      if negb (isGenerating s1) then start_generation ts c z s1 else s1
  end.

(** The [.finally] callback of the call of controller [c] runs once
    that call has returned; it clears the flag whatever else runs. *)
Definition onFinally (c : nat) (s : MVState) : MVState :=
  if existsb (Nat.eqb c) (finals s) && negb (has_gen c (heat s))
  then with_generating false (remove_one c (finals s)) s
  else s.

(** The [click] handler (lines 157-163). *)
Definition onMapClick (s : MVState) : MVState :=
  if has_selected s && String.eqb (drawerState s) "peek" then with_selection None "hidden" s else s.

(** A click on the controls (lines 228-241), which read [canRoute =
    selectedVenue !== null]; [onStyleChange] is [setMapStyle], and
    [onLegendToggle] and [onRoutePress] flip the parent's [showLegend]
    and [routeMode], which the controls' state mirrors.  [MapControls]
    never calls [onToggle3D]. *)
Definition onControls (e : MapControls.ControlsEvent) (s : MVState) : MVState :=
  let c0 := MapControls.controls_step (MapControls.ParentSelect (has_selected s)) (controls s) in
  let c1 := MapControls.controls_step e c0 in
  let style := match e with
               | MapControls.StyleClick v =>
                   if Nat.ltb (length (MapControls.styleCalls c0)) (length (MapControls.styleCalls c1)) then v else mapStyle s
               | _ => mapStyle s
               end in
  with_controls c1 style s.

(** One event.  The handlers of the map, the markers, the drawer and
    the controls exist only while the map is shown; the hook's events
    are the settlement of a request, the end of a batch's
    [Promise.all] and its 100 ms timeout; Try Again reloads the page. *)
Definition mv_step (e : MVEvent) (s : MVState) : M World MVState :=
  match e with
  | Commit p => ret (commit p s)
  | MoveEnd c z => ret (if on_map s then onMoveEnd c z s else s)
  | MapClick => ret (if on_map s then onMapClick s else s)
  | MarkerClick v => ret (if on_map s then with_selection (Some v) "peek" s else s)
  | DrawerChange d => ret (if on_map s then with_selection (selectedVenue s) d s else s)
  | ControlsClick e => ret (if on_map s && True3D.is_click e then onControls e s else s)
  | TimeoutFire => ret (onTimeout s)
  | Finally c => ret (onFinally c s)
  | HeatSettle id r => h <- settle_req random_stream id r (heat s) ;; ret (set_heat h s)
  | HeatBatch c => ret (set_heat (resume c (heat s)) s)
  | HeatTimer c => ret (set_heat (timer c (heat s)) s)
  | TryAgain => ret (if on_error s then initialMV (rendered s) else s)
  end.

Fixpoint mv_run (es : list MVEvent) (s : MVState) : M World MVState :=
  match es with
  | [] => ret s
  | e :: es' => s' <- mv_step e s ;; mv_run es' s'
  end.

End Engine.

(** ** Reference definitions *)

(** The hook's state [h'] follows [h] without a new call: the same
    current controller and error, and no running call that [h] did not
    have. *)
Definition heat_frame (h h' : HeatState) : Prop :=
  current h' = current h /\ error h' = error h /\ incl (map gen_ctrl (gens h')) (map gen_ctrl (gens h)).

(** The view's invariant: the hook's own ([MapData.heat_inv]), no
    error, every running call of the hook is its current one, and the
    flag is set exactly while one [.finally] waits, for the only
    controller that may run. *)
Definition mv_inv (s : MVState) : Prop :=
  heat_inv (heat s) /\ error (heat s) = None /\
  Forall (fun c => current (heat s) = Some c) (map gen_ctrl (gens (heat s))) /\
  (if isGenerating s then exists c, finals s = [c] /\ Forall (eq c) (map gen_ctrl (gens (heat s)))
   else finals s = [] /\ map gen_ctrl (gens (heat s)) = []).

(** Samples for the witnesses. *)

Definition sample_props : MVProps :=
  mkProps MapData.sample_tastes 1 "New York, NY" defaultCenter false.

(** An idle view on its default centre, its heat effect already run
    for the sample tastes. *)
Definition idle_view : MVState :=
  mkMV defaultCenter 12 None "hidden" MapControls.initialControls false "streets" false [] []
       initialHeat sample_props (Some 1).

(** ** Lemmas *)

(** *** The hook's events start no call *)

Create HintDb heatframe.

Lemma frame_refl (h : HeatState) : heat_frame h h.
Proof. exact (conj eq_refl (conj eq_refl (incl_refl _))). Qed.

Lemma frame_with_heat (h h1 : HeatState) (hs : list Hex) : heat_frame h h1 -> heat_frame h (with_heat hs h1).
Proof. exact (fun H => H). Qed.

Lemma frame_with_loading (h h1 : HeatState) (b : bool) : heat_frame h h1 -> heat_frame h (with_loading b h1).
Proof. exact (fun H => H). Qed.

Lemma frame_set_gen (h h1 : HeatState) (g : Gen) : heat_frame h h1 -> heat_frame h (set_gen g h1).
Proof. intros (H1 & H2 & H3). unfold heat_frame. rewrite gens_set_gen. exact (conj H1 (conj H2 H3)). Qed.

Lemma frame_drop_gen (h h1 : HeatState) (c : nat) : heat_frame h h1 -> heat_frame h (drop_gen c h1).
Proof.
  intros (H1 & H2 & H3). unfold heat_frame. rewrite gens_drop_gen. refine (conj H1 (conj H2 _)).
  intros x Hx. apply H3. now apply filter_In in Hx.
Qed.

Lemma frame_loop_at (g : Gen) (i : nat) (r : list Hex) (h h1 : HeatState) :
  heat_frame h h1 -> heat_frame h (loop_at g i r h1).
Proof. intros H. unfold loop_at. cbv zeta. case_ifs; auto 6 using frame_with_heat, frame_with_loading, frame_set_gen, frame_drop_gen. Qed.

#[local] Hint Resolve frame_refl frame_with_heat frame_with_loading frame_set_gen frame_drop_gen frame_loop_at : heatframe.

Lemma frame_resume (c : nat) (h : HeatState) : heat_frame h (resume c h).
Proof. unfold resume, catch_error. cbv zeta. case_ifs; auto 6 with heatframe. Qed.

Lemma frame_timer (c : nat) (h : HeatState) : heat_frame h (timer c h).
Proof. unfold timer. case_ifs; auto with heatframe. Qed.

Lemma frame_settle (rs : nat -> Binary64.num) (id : nat) (r : VenueCache.Response) (h h' : HeatState) w w' :
  settle_req rs id r h w = (Ok h', w') -> heat_frame h h'.
Proof.
  unfold settle_req. destruct (find _ (reqs h)) as [q|]; [|intros [= <-]; apply frame_refl].
  destruct (aborted h (req_ctrl q)).
  - intros [= <-]. unfold heat_frame. cbn. rewrite gens_resolve_req. apply frame_refl.
  - destruct (insight_of_ok rs r w) as (ins & w1 & E). unfold m_bind. rewrite E. unfold m_ret.
    intros [= <-]. unfold heat_frame. cbn. rewrite gens_resolve_req. apply frame_refl.
Qed.

(** *** A call on an idle hook *)

Section Facts.
Context (number_toString : Binary64.num -> string) (random_stream : nat -> Binary64.num).

(** A call on a hook that runs no call leaves at most the call it
    starts running, as the current one, and no error. *)
Lemma generate_fresh (ts : list Taste) (c : True3D.Coords) (z : Z) (h : HeatState) :
  map gen_ctrl (gens h) = [] -> error h = None ->
  error (generateHeatData number_toString ts c z h) = None /\
  Forall (fun c' => c' = controllers h /\ current (generateHeatData number_toString ts c z h) = Some c')
    (map gen_ctrl (gens (generateHeatData number_toString ts c z h))).
Proof.
  intros Hg He. unfold generateHeatData.
  destruct (Nat.ltb (length ts) 3); [cbn; rewrite Hg; split; [exact He|constructor]|].
  destruct (start_promises _ _ _ _ _ _) as [[ps rs] n].
  match goal with |- context [loop_at ?g 0 [] ?t] =>
    destruct (frame_loop_at g 0 [] t t (frame_refl t)) as (Hc & He' & Hi) end.
  rewrite Hc, He'. split; [reflexivity|].
  apply Forall_forall. intros x Hx. apply Hi in Hx. cbn in Hx. rewrite map_app, Hg in Hx.
  destruct Hx as [<-|[]]. split; reflexivity.
Qed.

(** With three tastes or more, the call on an idle hook runs on the
    grid around its centre. *)
Lemma generate_hexes (ts : list Taste) (c : True3D.Coords) (z : Z) (h : HeatState) :
  gens h = [] -> 3 <= length ts ->
  map gen_hexes (gens (generateHeatData number_toString ts c z h)) = [generateHexGrid number_toString c z].
Proof.
  intros Hg Hl. unfold generateHeatData.
  destruct (Nat.ltb_spec (length ts) 3) as [|_]; [lia|].
  destruct (start_promises _ _ _ _ _ _) as [[ps rs] n] eqn:E.
  destruct (start_promises_spec _ _ _ _ _ _ _ _ _ E) as (Lp & _).
  assert (Hpos : 0 < length (generateHexGrid number_toString c z))
    by (rewrite length_generateHexGrid; pose proof (grid_side_bounds z); nia).
  unfold loop_at. cbn [gen_promises gen_ctrl]. rewrite Lp.
  destruct (Nat.ltb_spec 0 (length (generateHexGrid number_toString c z))); [|lia].
  unfold aborted. cbn [current]. rewrite Nat.eqb_refl. cbn [negb]. unfold set_gen. cbn [gens with_gens].
  rewrite Hg. cbn. rewrite Nat.eqb_refl. reflexivity.
Qed.

(** *** The view's invariant *)

(** The invariant reads the hook, the flag and the pending callbacks
    only. *)
Lemma inv_ext (s s' : MVState) :
  heat s' = heat s -> isGenerating s' = isGenerating s -> finals s' = finals s -> mv_inv s -> mv_inv s'.
Proof. unfold mv_inv. intros -> -> ->. exact (fun H => H). Qed.

Ltac keep_inv H := exact (inv_ext _ _ eq_refl eq_refl eq_refl H).

Lemma inv_start (ts : list Taste) (c : True3D.Coords) (z : Z) (s : MVState) :
  mv_inv s -> isGenerating s = false -> mv_inv (start_generation number_toString ts c z s).
Proof.
  intros (Hi & He & Hc & Hg) Hf. rewrite Hf in Hg. destruct Hg as [Hfin Hgen].
  unfold start_generation, mv_inv. cbn [heat set_heat isGenerating finals with_generating]. rewrite Hfin.
  destruct (generate_fresh ts c z (heat s) Hgen He) as [He' Hall].
  split; [now apply heat_inv_generate|]. split; [exact He'|]. split.
  - eapply Forall_impl; [|exact Hall]. cbn. tauto.
  - exists (controllers (heat s)). split; [reflexivity|]. eapply Forall_impl; [|exact Hall]. intros a [-> _]. reflexivity.
Qed.

Lemma inv_heat (s : MVState) (h' : HeatState) :
  mv_inv s -> heat_inv h' -> heat_frame (heat s) h' -> mv_inv (set_heat h' s).
Proof.
  intros (Hi & He & Hc & Hg) Hi' (Ec & Ee & Hincl). unfold mv_inv. cbn [heat set_heat isGenerating finals].
  rewrite Ec, Ee. refine (conj Hi' (conj He (conj (incl_Forall Hincl Hc) _))).
  destruct (isGenerating s).
  - destruct Hg as (c & Hf & Hall). exists c. split; [exact Hf|exact (incl_Forall Hincl Hall)].
  - destruct Hg as [Hf Hnil]. split; [exact Hf|]. rewrite Hnil in Hincl. now apply incl_l_nil.
Qed.

(** The only controller that may run has returned: no call runs. *)
Lemma no_gen_nil (c : nat) (h : HeatState) :
  has_gen c h = false -> Forall (eq c) (map gen_ctrl (gens h)) -> map gen_ctrl (gens h) = [].
Proof.
  unfold has_gen, find_gen. destruct (gens h) as [|g gs]; [reflexivity|]. cbn.
  intros E H. inversion H as [|? ? Hc _]. rewrite Hc, Nat.eqb_refl in E. discriminate.
Qed.

Lemma inv_finally (c : nat) (s : MVState) : mv_inv s -> mv_inv (onFinally c s).
Proof.
  intros H. unfold onFinally. destruct (existsb (Nat.eqb c) (finals s)) eqn:Ex; [|exact H].
  destruct (has_gen c (heat s)) eqn:Eg; [exact H|]. cbn [andb negb].
  destruct H as (Hi & He & Hc & Hg). unfold mv_inv. cbn [heat isGenerating finals with_generating].
  refine (conj Hi (conj He (conj Hc _))).
  destruct (isGenerating s).
  - destruct Hg as (c' & Hf & Hall). rewrite Hf in Ex |- *. cbn in Ex. rewrite orb_false_r in Ex.
    apply Nat.eqb_eq in Ex. subst c'. cbn. rewrite Nat.eqb_refl. split; [reflexivity|].
    exact (no_gen_nil c _ Eg Hall).
  - destruct Hg as [Hf _]. rewrite Hf in Ex. discriminate.
Qed.

Lemma inv_timeout (s : MVState) : mv_inv s -> mv_inv (onTimeout number_toString s).
Proof.
  intros H. unfold onTimeout. destruct (timers s) as [|[[ts c] z] rest]; [exact H|].
  destruct (isGenerating (with_timers rest s)) eqn:E; cbn [negb]; [keep_inv H|].
  apply inv_start; [keep_inv H|exact E].
Qed.

Lemma inv_heat_effect (p : MVProps) (z : Z) (s : MVState) : mv_inv s -> mv_inv (heat_effect number_toString p z s).
Proof.
  intros H. unfold heat_effect. destruct (_ && _) eqn:E; [|exact H].
  apply andb_true_iff in E as [_ E]. apply negb_true_iff in E. exact (inv_start _ _ _ _ H E).
Qed.

Lemma inv_recenter (p : MVProps) (d : option nat) (s : MVState) : mv_inv s -> mv_inv (recenter p (with_render p d s)).
Proof. intros H. unfold recenter. case_ifs; keep_inv H. Qed.

Lemma inv_commit (p : MVProps) (s : MVState) : mv_inv s -> mv_inv (commit number_toString p s).
Proof.
  intros H. unfold commit. cbv zeta.
  destruct (deps_tastes s) as [i|]; [destruct (Nat.eqb i (tastes_id p))|];
    [exact (inv_recenter p (Some i) s H)|apply inv_heat_effect; keep_inv (inv_recenter p (Some i) s H)|
     apply inv_heat_effect; keep_inv (inv_recenter p None s H)].
Qed.

Lemma initial_inv (p : MVProps) : mv_inv (initialMV p).
Proof. unfold mv_inv. cbn. refine (conj initialHeat_inv (conj eq_refl (conj (Forall_nil _) (conj eq_refl eq_refl)))). Qed.

Lemma mv_step_inv (e : MVEvent) (s : MVState) w :
  mv_inv s -> exists s' w', mv_step number_toString random_stream e s w = (Ok s', w') /\ mv_inv s'.
Proof.
  intros H. destruct e as [p|c z| |v|d|e| |c|id r|c|c|]; cbn [mv_step].
  - do 2 eexists. split; [reflexivity|]. exact (inv_commit p s H).
  - do 2 eexists. split; [reflexivity|]. destruct (on_map s); [|exact H].
    unfold onMoveEnd. cbv zeta. case_ifs; keep_inv H.
  - do 2 eexists. split; [reflexivity|]. destruct (on_map s); [|exact H]. unfold onMapClick. case_ifs; keep_inv H.
  - do 2 eexists. split; [reflexivity|]. case_ifs; keep_inv H.
  - do 2 eexists. split; [reflexivity|]. case_ifs; keep_inv H.
  - do 2 eexists. split; [reflexivity|]. destruct (_ && _); [|exact H]. keep_inv H.
  - do 2 eexists. split; [reflexivity|]. exact (inv_timeout s H).
  - do 2 eexists. split; [reflexivity|]. exact (inv_finally c s H).
  - destruct (heat_inv_settle random_stream id r (heat s) w (proj1 H)) as (h' & w' & E & Hi').
    unfold m_bind. rewrite E. do 2 eexists. split; [reflexivity|].
    exact (inv_heat s h' H Hi' (frame_settle random_stream id r _ _ w w' E)).
  - do 2 eexists. split; [reflexivity|]. exact (inv_heat s _ H (heat_inv_resume c _ (proj1 H)) (frame_resume c _)).
  - do 2 eexists. split; [reflexivity|]. exact (inv_heat s _ H (heat_inv_timer c _ (proj1 H)) (frame_timer c _)).
  - do 2 eexists. split; [reflexivity|]. destruct (on_error s); [apply initial_inv|exact H].
Qed.

(** A property that every step from a state of the invariant keeps
    holds, with the invariant, after every run. *)
Lemma mv_run_keep (P : MVState -> Prop) (es : list MVEvent) (s : MVState) w :
  (forall e s w s' w', mv_inv s -> P s -> mv_step number_toString random_stream e s w = (Ok s', w') -> P s') ->
  mv_inv s -> P s ->
  exists s' w', mv_run number_toString random_stream es s w = (Ok s', w') /\ mv_inv s' /\ P s'.
Proof.
  intros HP. revert s w; induction es as [|e es IH]; intros s w H Hp; [exists s, w; auto|].
  cbn [mv_run]. unfold m_bind at 1. destruct (mv_step_inv e s w H) as (s1 & w1 & E & H1). rewrite E.
  exact (IH s1 w1 H1 (HP e s w s1 w1 H Hp E)).
Qed.

Lemma mv_run_inv (es : list MVEvent) (s : MVState) w :
  mv_inv s -> exists s' w', mv_run number_toString random_stream es s w = (Ok s', w') /\ mv_inv s'.
Proof.
  intros H. destruct (mv_run_keep (fun _ => True) es s w (fun _ _ _ _ _ _ _ _ => I) H I) as (s' & w' & E & H' & _).
  eauto.
Qed.

(** Without an error the error page is not shown. *)
Lemma inv_no_error (s : MVState) : mv_inv s -> on_error s = false.
Proof. intros (_ & He & _). unfold on_error, screen. rewrite He. cbn. case_ifs; reflexivity. Qed.

(** No step but the reload sets [is3DMode]; [onToggle3D] is never
    called. *)
Lemma step_mode (e : MVEvent) (s s' : MVState) w w' :
  mv_inv s -> mv_step number_toString random_stream e s w = (Ok s', w') -> is3DMode s' = is3DMode s.
Proof.
  intros H. destruct e; cbn [mv_step]; unfold m_ret.
  - intros [= <-]. unfold commit, heat_effect, recenter, start_generation. cbv zeta. case_ifs; reflexivity.
  - intros [= <-]. unfold onMoveEnd. cbv zeta. case_ifs; reflexivity.
  - intros [= <-]. unfold onMapClick. case_ifs; reflexivity.
  - intros [= <-]. case_ifs; reflexivity.
  - intros [= <-]. case_ifs; reflexivity.
  - intros [= <-]. case_ifs; reflexivity.
  - intros [= <-]. unfold onTimeout, start_generation. case_ifs; reflexivity.
  - intros [= <-]. unfold onFinally. case_ifs; reflexivity.
  - unfold m_bind. destruct (settle_req _ _ _ _ _) as [[h|ex] w1]; [intros [= <-]; reflexivity|discriminate].
  - intros [= <-]. reflexivity.
  - intros [= <-]. reflexivity.
  - intros [= <-]. rewrite (inv_no_error s H). reflexivity.
Qed.

End Facts.

(** *** Helpers of the properties *)

Lemma at_most_one (l : list nat) (x : option nat) : NoDup l -> Forall (fun c => x = Some c) l -> length l <= 1.
Proof.
  intros Hd Hf. destruct l as [|a [|b l]]; cbn; try lia.
  inversion Hf as [|? ? Ha Hf']. inversion Hf' as [|? ? Hb _]. rewrite Ha in Hb. injection Hb as <-.
  inversion Hd as [|? ? Hn _]. exfalso. apply Hn. now left.
Qed.

(** A commit whose [selectedTastes] is the array of the heat effect's
    last run runs the first effect only. *)
Lemma commit_same_tastes (nts : Binary64.num -> string) (p : MVProps) (s : MVState) :
  deps_tastes s = Some (tastes_id p) -> commit nts p s = recenter p (with_render p (Some (tastes_id p)) s).
Proof. intros E. unfold commit. rewrite E, Nat.eqb_refl. reflexivity. Qed.

Lemma recenter_twice (p : MVProps) (s : MVState) : recenter p (recenter p s) = recenter p s.
Proof.
  unfold recenter.
  destruct (True3D.strict_eqb (fst (mapCenter p)) (fst (currentMapCenter s))) eqn:A,
           (True3D.strict_eqb (snd (mapCenter p)) (snd (currentMapCenter s))) eqn:B; cbn [negb orb];
    [rewrite A, B; reflexivity|..]; cbn [currentMapCenter with_view mapZoom];
    destruct (True3D.strict_eqb (fst (mapCenter p)) (fst (mapCenter p))),
             (True3D.strict_eqb (snd (mapCenter p)) (snd (mapCenter p))); cbn [negb orb]; try reflexivity;
    unfold with_view; cbn; destruct (Z.eqb_spec (mapZoom s) 12) as [->|]; reflexivity.
Qed.

(** The first effect reads neither the props of the render nor the
    hook, which the heat effect changes. *)
Lemma recenter_render (p q : MVProps) (d : option nat) (s : MVState) :
  recenter p (with_render q d s) = with_render q d (recenter p s).
Proof. unfold recenter. cbn [currentMapCenter with_render mapZoom]. case_ifs; reflexivity. Qed.

Lemma recenter_heat_effect (nts : Binary64.num -> string) (p q : MVProps) (z : Z) (s : MVState) :
  recenter p (heat_effect nts q z s) = heat_effect nts q z (recenter p s).
Proof.
  unfold heat_effect.
  assert (Eg : isGenerating (recenter p s) = isGenerating s) by (unfold recenter; case_ifs; reflexivity).
  rewrite Eg. destruct (_ && _); [|reflexivity].
  unfold start_generation, recenter. cbn [currentMapCenter mapZoom set_heat with_generating heat finals with_view].
  destruct (_ || _); reflexivity.
Qed.

Lemma with_render_same (p : MVProps) (d : option nat) (s : MVState) :
  rendered s = p -> deps_tastes s = d -> with_render p d s = s.
Proof. destruct s. cbn. intros -> ->. reflexivity. Qed.

Lemma commit_rendered (nts : Binary64.num -> string) (p : MVProps) (s : MVState) :
  rendered (commit nts p s) = p /\ deps_tastes (commit nts p s) = Some (tastes_id p).
Proof.
  unfold commit, heat_effect, recenter, start_generation. cbv zeta.
  destruct (deps_tastes s) as [i|] eqn:E; [destruct (Nat.eqb_spec i (tastes_id p)) as [<-|]|]; case_ifs; auto.
Qed.

(** A commit settles: the render that its updates cause, with the same
    props, changes nothing. *)
Lemma commit_idem (nts : Binary64.num -> string) (p : MVProps) (s : MVState) :
  commit nts p (commit nts p s) = commit nts p s.
Proof.
  destruct (commit_rendered nts p s) as [Hr Hd].
  rewrite commit_same_tastes, with_render_same by assumption.
  unfold commit. cbv zeta. destruct (deps_tastes s) as [i|]; [destruct (Nat.eqb i (tastes_id p))|];
    [apply recenter_twice|..]; now rewrite recenter_heat_effect, recenter_render, recenter_twice.
Qed.

(** ** Properties *)

Section Claims.
Context (number_toString : Binary64.num -> string) (random_stream : nat -> Binary64.num).

(** C12: Whatever the commits, map moves, clicks, timeouts and
    settlements of the hook's requests and batches, the map view never
    has two [generateHeatData] calls running: [isGeneratingRef] and its
    [.finally] keep the view from starting a call while one runs, so the
    hook never aborts a call of the view. *)
Theorem one_generation (p : MVProps) (es : list MVEvent) w :
  exists s' w', mv_run number_toString random_stream es (initialMV p) w = (Ok s', w') /\
    length (gens (heat s')) <= 1 /\ Forall (fun g => aborted (heat s') (gen_ctrl g) = false) (gens (heat s')).
Proof.
  destruct (mv_run_inv number_toString random_stream es (initialMV p) w (initial_inv p))
    as (s' & w' & E & ((_ & _ & _ & Hd & _) & _ & Hc & _)).
  exists s', w'. split; [exact E|]. split.
  - rewrite <- (length_map gen_ctrl). exact (at_most_one _ _ Hd Hc).
  - rewrite Forall_forall in Hc |- *. intros g Hg. apply heat_aborted_false, Hc. now apply in_map.
Qed.

(** On the model's inputs the error page of the map view and its Try
    Again button are never shown: the hook's [catch]
    ([MapData.catch_error]) is reached by an [AbortError] only, which
    it passes over, since each hex promise turns every other failure
    of [fetchHexInsights] into a random lift; only a [null] taste or
    centre, which the types exclude, would throw there. *)
Theorem error_page_unreachable (p : MVProps) (es : list MVEvent) w :
  exists s' w', mv_run number_toString random_stream es (initialMV p) w = (Ok s', w') /\ on_error s' = false.
Proof.
  destruct (mv_run_inv number_toString random_stream es (initialMV p) w (initial_inv p)) as (s' & w' & E & H).
  exists s', w'. split; [exact E|]. exact (inv_no_error s' H).
Qed.

(** The map view stays in the 2D or 3D mode of its first render,
    whatever the clicks and the later props: [MapControls] never calls
    the [onToggle3D] the view hands it, [useState(enable3D)] reads the
    prop once, and the reload of Try Again never happens. *)
Theorem mode_fixed (p : MVProps) (es : list MVEvent) w :
  exists s' w', mv_run number_toString random_stream es (initialMV p) w = (Ok s', w') /\ is3DMode s' = enable3D p.
Proof.
  destruct (mv_run_keep number_toString random_stream (fun s => is3DMode s = enable3D p) es (initialMV p) w)
    as (s' & w' & E & _ & Hm); [|exact (initial_inv p)|reflexivity|eauto].
  intros e s w1 s1 w2 H Hp E. rewrite (step_mode number_toString random_stream e s s1 w1 w2 H E). exact Hp.
Qed.

(** C27: A pan of the map to another centre, with three tastes or more
    and no call running, ends with the view's centre and zoom back at
    [mapCenter] and 12, the values the markers read, while the timeout
    of the [moveend] handler generates the heat map on the grid around
    the panned centre at the new zoom. *)
Theorem pan_heat_elsewhere (s : MVState) (c : True3D.Coords) (z : Z) w :
  on_map s = true -> isGenerating s = false -> gens (heat s) = [] -> timers s = [] ->
  deps_tastes s = Some (tastes_id (rendered s)) -> 3 <= length (selectedTastes (rendered s)) ->
  True3D.strict_eqb (fst (mapCenter (rendered s))) (fst c) &&
    True3D.strict_eqb (snd (mapCenter (rendered s))) (snd c) = false ->
  exists s', mv_run number_toString random_stream [MoveEnd c z; Commit (rendered s); TimeoutFire] s w = (Ok s', w) /\
    currentMapCenter s' = mapCenter (rendered s) /\ mapZoom s' = 12%Z /\
    map gen_hexes (gens (heat s')) = [generateHexGrid number_toString c z].
Proof.
  intros Hm Hg Hgens Ht Hd Hl Hc.
  cbn [mv_run mv_step]. unfold m_bind, m_ret. rewrite Hm.
  unfold onMoveEnd. cbv zeta. cbn [isGenerating with_view rendered]. rewrite Hg.
  destruct (Nat.leb_spec 3 (length (selectedTastes (rendered s)))) as [_|]; [|lia]. cbn [andb negb].
  rewrite commit_same_tastes by exact Hd. unfold recenter. cbn [currentMapCenter with_render with_timers with_view].
  rewrite <- negb_andb, Hc. cbn [negb orb].
  eexists. split; [reflexivity|]. unfold onTimeout. cbn. rewrite Ht, Hg. cbn.
  split; [reflexivity|]. split; [destruct (Z.eqb_spec z 12); auto|].
  apply generate_hexes; assumption.
Qed.

End Claims.

(** ** Witnesses *)

(** A pan a little south, with a zoom in. *)
Lemma pan_heat_elsewhere_witness :
  exists s', mv_run VenueCache.no_big VenueCache.half_stream
      [MoveEnd (Binary64.lit 4075 100, snd defaultCenter) 14; Commit sample_props; TimeoutFire] idle_view w0 = (Ok s', w0) /\
    currentMapCenter s' = defaultCenter /\ mapZoom s' = 12%Z /\
    map gen_hexes (gens (heat s')) = [generateHexGrid VenueCache.no_big (Binary64.lit 4075 100, snd defaultCenter) 14].
Proof.
  apply (pan_heat_elsewhere VenueCache.no_big VenueCache.half_stream idle_view); reflexivity.
Defined.

End CleanMap.
