(* ===== verification/Itinerary.v ===== *)
(** * The itinerary on minutes: a refinement of the running clock

    [generateRoute] ([RoutePlanner.js], lines 60-103) keeps the time of
    day as a string and advances it with [addMinutes].  Its abstract
    specification counts absolute minutes instead: the walk starts at
    minute [t], travels to each stop, stays there, and goes on; the
    stops' arrival times and the total are read off this count.  The
    refinement lemma shows that the string clock of [Timing.routeDetails]
    prints, at each stop, the abstract arrival minute modulo a day, and
    that [Timing.totalTime] is the abstract length of the walk, as long
    as every time involved is a whole, non-negative number of minutes. *)
From S2P Require Import Prelude JsNumber JsString Venue Clock Timing.
From Stdlib Require Import List ZArith Lia String Bool.
Import ListNotations.
Import Venue.
Local Open Scope Z_scope.

Module Itinerary.

(** A whole, non-negative number of minutes. *)
Definition whole_minutes (x : JsInt) : bool :=
  match x with JInt z => 0 <=? z | _ => false end.

Definition zval (x : JsInt) : Z := match x with JInt z => z | _ => 0 end.

(** A stop whose dwell and travel times are whole minutes. *)
Definition stop_ok (st : RouteStop) : bool :=
  whole_minutes (estimatedTime st) && whole_minutes (travelTime st).

(** The abstract arrival minutes of the stops, from minute [t]. *)
Fixpoint arrivals (t : Z) (stops : list RouteStop) : list Z :=
  match stops with
  | [] => []
  | st :: r =>
      let a := t + zval (travelTime st) in
      a :: arrivals (a + zval (estimatedTime st)) r
  end.

(** The abstract length of the walk. *)
Fixpoint span (stops : list RouteStop) : Z :=
  match stops with
  | [] => 0
  | st :: r => zval (travelTime st) + zval (estimatedTime st) + span r
  end.

(** Absolute minute [T] on the 12-hour clock. *)
Definition clock_at (T : Z) : string := Clock.clock_string (T mod 1440).

(** ** Lemmas *)

Lemma whole_minutes_val (x : JsInt) : whole_minutes x = true -> x = JInt (zval x) /\ 0 <= zval x.
Proof. destruct x as [z| |]; cbn; try discriminate. intros H. apply Z.leb_le in H. auto. Qed.

Lemma clock_at_small (t : Z) : 0 <= t < 1440 -> clock_at t = Clock.clock_string t.
Proof. intros Ht. unfold clock_at. now rewrite Z.mod_small. Qed.

(** The string clock advanced by [m] minutes is the abstract clock
    advanced by [m]. *)
Lemma addMinutes_clock_at (T m : Z) :
  0 <= m -> Clock.addMinutes (clock_at T) (JInt m) = clock_at (T + m).
Proof.
  intros Hm. unfold clock_at.
  rewrite Clock.addMinutes_clock_string by lia_divmod.
  now rewrite Z.add_mod_idemp_l by lia.
Qed.

(** [totalTime] adds the same minutes as [span]. *)
Lemma totalTime_fold (stops : list RouteStop) :
  forallb stop_ok stops = true ->
  forall acc, fold_left (fun total s => JsInt.add (JsInt.add total (estimatedTime s)) (travelTime s))
                        stops (JInt acc) = JInt (acc + span stops).
Proof.
  induction stops as [|st r IH]; intros Hok acc; cbn in *.
  - now rewrite Z.add_0_r.
  - apply andb_prop in Hok as [Hst Hr]. apply andb_prop in Hst as [He Ht].
    apply whole_minutes_val in He as [He _], Ht as [Ht _].
    rewrite He, Ht. cbn. rewrite IH by exact Hr. f_equal. lia.
Qed.

Lemma totalTime_span (stops : list RouteStop) :
  forallb stop_ok stops = true -> Timing.totalTime stops = JInt (span stops).
Proof. intros H. exact (totalTime_fold stops H 0). Qed.

(** The arrival clock of one stop: the current clock after the travel
    time, which is [0] for the first stop. *)
Lemma arrival_clock (prev : option Venue) (index : nat) (v : Venue) (a : string) (tt : JsInt) (T : Z) :
  (index = O -> a = clock_at T /\ tt = JInt 0) ->
  (forall p, prev = Some p -> index <> O ->
     a = Clock.addMinutes (clock_at T) (Timing.travelMinutes p v) /\ tt = Timing.travelMinutes p v) ->
  (index = O \/ exists p, prev = Some p) ->
  whole_minutes tt = true ->
  a = clock_at (T + zval tt).
Proof.
  intros H0 HS Hprev Htt. destruct index as [|i].
  - destruct (H0 eq_refl) as [-> ->]. cbn. now rewrite Z.add_0_r.
  - destruct Hprev as [Hi|[p Hp]]; [discriminate|].
    destruct (HS p Hp ltac:(discriminate)) as [-> Htm]. rewrite <- Htm.
    apply whole_minutes_val in Htt as [Htt Hz]. rewrite Htt at 1.
    now apply addMinutes_clock_at.
Qed.

Section Refinement.

Context (random_stream : nat -> Binary64.num) (prefs : RoutePreferences).

(** The refinement, by induction on the venues: from an abstract
    minute [T], the stops' arrival strings are the abstract arrivals
    and the final clock is the end of the walk. *)
Lemma routeDetails_clock (vs : list Venue) :
  forall prev index T w stops cur' w',
    0 <= T ->
    (index = O \/ exists p, prev = Some p) ->
    Timing.routeDetails random_stream prefs prev index (clock_at T) vs w = (Ok (stops, cur'), w') ->
    forallb stop_ok stops = true ->
    map arrivalTime stops = map clock_at (arrivals T stops) /\
    cur' = clock_at (T + span stops).
Proof.
  induction vs as [|v rest IH]; intros prev index T w stops cur' w' HT Hprev H Hok.
  - cbn in H. injection H as <- <- _. cbn. now rewrite Z.add_0_r.
  - destruct (Timing.routeDetails_cons random_stream prefs prev index (clock_at T) v rest w)
      as (a & aff & tt & w3 & H0 & HS & Hc).
    rewrite Hc in H. destruct (Timing.generateVenueNotes v (focus prefs)) as [n|e]; [|discriminate].
    destruct (Timing.routeDetails _ _ _ _ _ rest w3) as [[[later c]|e] w4] eqn:Hr; [|discriminate].
    injection H as <- <- _. cbn [forallb map arrivals span estimatedTime travelTime arrivalTime] in Hok |- *.
    apply andb_prop in Hok as [Hst Hrest]. apply andb_prop in Hst as [He Ht].
    cbn [estimatedTime travelTime] in He, Ht |- *.
    rewrite (arrival_clock prev index v a tt T H0 HS Hprev Ht) in Hr |- *.
    pose proof (whole_minutes_val _ He) as [HeV HeP]. pose proof (whole_minutes_val _ Ht) as [_ HtP].
    rewrite HeV, addMinutes_clock_at in Hr by exact HeP.
    revert Hr. set (T' := T + zval tt + zval _). intros Hr.
    assert (HT' : 0 <= T') by (unfold T'; lia).
    destruct (IH (Some v) (S index) _ w3 later c w4 HT' ltac:(right; eauto) Hr Hrest)
      as [Harr Hcur].
    split; [now rewrite Harr|]. rewrite Hcur. unfold T'. f_equal. lia.
Qed.

End Refinement.

End Itinerary.
