(* ===== verification/Chatbot.v ===== *)
(** * The chat panel: route queries, stop replacement, taste extraction

    [ChatbotPanel] ([src/culturis-studio/src/components/ChatbotPanel.js])
    answers the user's messages.  With an active route, a message that
    names a route action is first sent to the backend
    ([/api/refine-route], lines 75-114); when that fails, or for the
    other actions, the panel answers locally (lines 117-133):
    [handleVenueReplacement] swaps one stop for a venue of the pool
    (lines 137-193), [handleVenueDetails], [handleTimingAdjustment] and
    [handleNavigationRequest] describe the route (lines 196-244).
    Otherwise the message goes to the taste extractor
    ([/api/extract-tastes], lines 43-68) or to its local fallback
    [mockExtractTastes] (lines 247-287), and the panel reports the
    tastes found (lines 324-354).

    The text of a message is represented by its template and the values
    the template interpolates ([Content]); a template that calls a
    string method on a missing [type] throws, and the model computes
    those values in [Result].  The backend's answers are inputs
    ([RefineReply], [ExtractReply]).  [handleSubmit] awaits them, so the
    panel is a state machine whose pending request holds the values the
    handler's closure captured when the message was sent. *)
From S2P Require Import Prelude JsNumber JsString Venue.
From Stdlib Require Import List ZArith Lia String Bool.
Import ListNotations.
Import Venue.

Module Chatbot.

(** ** Data *)

(** An element of [currentRoute.venues]: a stop of a planned route, or
    a pool venue that a replacement put in its place. *)
Inductive RouteEntry : Type :=
| Stop (s : RouteStop)
| Raw (v : Venue).

Definition entry_venue (e : RouteEntry) : Venue :=
  match e with Stop s => stop_venue s | Raw v => v end.

Definition entry_id (e : RouteEntry) : VenueId := id (entry_venue e).

(** [currentRoute] as the page stores it: [{...currentRoute, venues}]
    keeps every other field. *)
Record ChatRoute : Type := mkRoute {
  entries : list RouteEntry;
  route_total : JsInt;
  route_start : string;
  route_end : string;
  route_prefs : RoutePreferences
}.

Definition of_planned (r : PlannedRoute) : ChatRoute :=
  mkRoute (map Stop (venues r)) (totalDuration r) (startTime r) (endTime r) (preferences r).

Definition with_entries (r : ChatRoute) (es : list RouteEntry) : ChatRoute :=
  mkRoute es (route_total r) (route_start r) (route_end r) (route_prefs r).

Inductive ResponseType : Type :=
| RouteUpdate | RouteHelp | VenueDetails | TimingHelp | NavigationHelp.

(** The templates of the panel's messages, with the values they
    interpolate. *)
Inductive Content : Type :=
| Greeting (location : string)
| UserText (text : string)
| ServerText (text : string)
| Replaced (target alt altTypeLower : string) (altAffinity : Z)
| ReplaceHelp
| Details (name typeLower : string) (affinity : Z) (rating : option Binary64.num)
          (hours mins : JsInt) (notes : option string)
| DetailsHelp
| TimingInfo (hours mins : JsInt)
| NavigationInfo (firstName : option string) (start : string)
| Understood (lowerMessage : string) (discovered : list string) (location : string)
             (hasRoute : bool)
| Trouble.

(** The object a route handler returns. *)
Record Response : Type := mkResponse {
  r_type : ResponseType;
  r_content : Content;
  r_alternatives : list Venue;
  r_suggestions : list string
}.

Inductive Sender : Type := User | Bot.

Record Message : Type := mkMessage {
  sender : Sender;
  content : Content;
  responseType : option ResponseType;
  alternatives : list Venue;
  suggestions : list string;
  extractedTastes : list Taste
}.

Definition user_message (text : string) : Message := mkMessage User (UserText text) None [] [] [].
Definition bot_message (c : Content) : Message := mkMessage Bot c None [] [] [].

(** The backend's answers: the request or its JSON throws, the status is
    not ok, or a body. *)
Inductive RefineReply : Type :=
| RefineFailed
| RefineNotOk
| RefineOk (updated_route : option ChatRoute) (message : string) (suggestions : list string).

Inductive ExtractReply : Type :=
| ExtractFailed
| ExtractNotOk
| ExtractOk (extracted_tastes : option (list Taste)).

(** ** Keyword tests *)

(** [k1 || k2 || ...] over [lowerMessage.includes(k)]. *)
Definition mentions (s : string) (ks : list string) : bool :=
  existsb (JsString.includes s) ks.

(** The test of line 75 that sends the message to [/api/refine-route]. *)
Definition refine_intent (lower : string) : bool :=
  mentions lower ["replace"; "swap"; "different"; "tell me about"; "details"; "first"; "second";
                  "restaurant"]%string.

(** ** Local handlers *)

(** [routeVenues.find(v => v.type.toLowerCase().includes(k))]: the
    predicate throws on the first typeless entry it reaches. *)
Fixpoint find_type (l : list RouteEntry) (k : string) : Result (option RouteEntry) :=
  match l with
  | [] => Ok None
  | e :: r =>
      match type (entry_venue e) with
      | None => Throw TypeError
      | Some t => if JsString.includes (JsString.toLowerCase t) k then Ok (Some e) else find_type r k
      end
  end.

(** The target of a replacement and the type a type-based selector
    asks for (lines 146-158): ordinals are tested before types. *)
Definition replacement_target (routeVenues : list RouteEntry) (lower : string)
  : Result (option RouteEntry * option string) :=
  if mentions lower ["first"; "1st"]%string then Ok (nth_error routeVenues 0, None)
  else if mentions lower ["second"; "2nd"]%string then Ok (nth_error routeVenues 1, None)
  else if JsString.includes lower "last" then Ok (last_error routeVenues, None)
  else if JsString.includes lower "restaurant" then
    res_fmap (fun t => (t, Some "Restaurant"%string)) (find_type routeVenues "restaurant")
  else if JsString.includes lower "bar" then
    res_fmap (fun t => (t, Some "Bar"%string)) (find_type routeVenues "bar")
  else Ok (None, None).

(** The filter of lines 162-166. *)
Definition eligible (routeVenues : list RouteEntry) (target : RouteEntry)
    (replacementType : option string) (v : Venue) : bool :=
  negb (id_eqb (id v) (entry_id target)) &&
  match replacementType with
  | None => true
  | Some rt => match type v with Some t => String.eqb t rt | None => false end
  end &&
  negb (existsb (fun rv => id_eqb (entry_id rv) (id v)) routeVenues).

Definition alternatives_for (routeVenues : list RouteEntry) (target : RouteEntry)
    (replacementType : option string) (pool : list Venue) : list Venue :=
  firstn 3 (filter (eligible routeVenues target replacementType) pool).

(** Lines 170-172: every entry with the target's id becomes the first
    alternative. *)
Definition replace_entries (routeVenues : list RouteEntry) (target : RouteEntry) (alt : Venue)
  : list RouteEntry :=
  map (fun v => if id_eqb (entry_id v) (entry_id target) then Raw alt else v) routeVenues.

(** [v.type.toLowerCase()]. *)
Definition type_lower (v : Venue) : Result string :=
  match type v with Some t => Ok (JsString.toLowerCase t) | None => Throw TypeError end.

Definition route_help (c : Content) : Response := mkResponse RouteHelp c [] [].

(** [handleVenueReplacement(message)] (lines 137-193).  The first
    component is the route passed to [onRouteUpdate] (line 179), which
    is called before the answer's template is evaluated. *)
Definition handleVenueReplacement (route : ChatRoute) (pool : list Venue) (message : string)
  : option ChatRoute * Result (option Response) :=
  let routeVenues := entries route in
  match routeVenues with
  | [] => (None, Ok None)
  | _ =>
      let lower := JsString.toLowerCase message in
      match replacement_target routeVenues lower with
      | Throw e => (None, Throw e)
      | Ok (Some target, replacementType) =>
          match alternatives_for routeVenues target replacementType pool with
          | alt :: others =>
              let updatedRoute := with_entries route (replace_entries routeVenues target alt) in
              (Some updatedRoute,
               res_fmap (fun tl => Some (mkResponse RouteUpdate
                                   (Replaced (name (entry_venue target)) (name alt) tl (affinity alt))
                                   others []))
                       (type_lower alt))
          | [] => (None, Ok (Some (route_help ReplaceHelp)))
          end
      | Ok (None, _) => (None, Ok (Some (route_help ReplaceHelp)))
      end
  end.

(** [targetVenue.notes || '...']: an empty or missing note is falsy. *)
Definition entry_notes (e : RouteEntry) : option string :=
  match e with
  | Stop s => if String.eqb (notes s) "" then None else Some (notes s)
  | Raw _ => None
  end.

(** [targetVenue.estimatedTime]: a replaced entry has none, and
    [undefined / 60] is [NaN]. *)
Definition entry_time (e : RouteEntry) : JsInt :=
  match e with Stop s => estimatedTime s | Raw _ => JNaN end.

(** [handleVenueDetails(message)] (lines 196-224). *)
Definition handleVenueDetails (route : ChatRoute) (message : string) : Result (option Response) :=
  let routeVenues := entries route in
  match routeVenues with
  | [] => Ok None
  | _ =>
      let lower := JsString.toLowerCase message in
      let target :=
        if mentions lower ["first"; "1st"]%string then nth_error routeVenues 0
        else if mentions lower ["second"; "2nd"]%string then nth_error routeVenues 1
        else if mentions lower ["third"; "3rd"]%string then nth_error routeVenues 2
        else if JsString.includes lower "last" then last_error routeVenues
        else None in
      match target with
      | Some t =>
          let v := entry_venue t in
          res_fmap (fun tl =>
            Some (mkResponse VenueDetails
                    (Details (name v) tl (affinity v) (rating v)
                             (JsInt.floor_div_const (entry_time t) 60)
                             (JsInt.rem_const (entry_time t) 60) (entry_notes t)) [] []))
            (type_lower v)
      | None => Ok (Some (route_help DetailsHelp))
      end
  end.

(** [handleTimingAdjustment] (lines 227-234). *)
Definition handleTimingAdjustment (route : ChatRoute) : Response :=
  mkResponse TimingHelp
    (TimingInfo (JsInt.floor_div_const (route_total route) 60) (JsInt.rem_const (route_total route) 60))
    [] [].

(** [handleNavigationRequest] (lines 237-244). *)
Definition handleNavigationRequest (route : ChatRoute) : Response :=
  mkResponse NavigationHelp
    (NavigationInfo (option_map (fun e => name (entry_venue e)) (hd_error (entries route)))
                    (route_start route)) [] [].

(** Lines 117-133: the local answer to a route query, and the route
    passed to [onRouteUpdate], if any. *)
Definition localRouteQuery (route : ChatRoute) (pool : list Venue) (message : string)
  : option ChatRoute * Result (option Response) :=
  let lower := JsString.toLowerCase message in
  if mentions lower ["replace"; "swap"; "different"]%string then
    handleVenueReplacement route pool message
  else if mentions lower ["tell me about"; "more info"; "details"]%string then
    (None, handleVenueDetails route message)
  else if mentions lower ["timing"; "schedule"; "time"]%string then
    (None, Ok (Some (handleTimingAdjustment route)))
  else if mentions lower ["directions"; "how to get"; "navigate"]%string then
    (None, Ok (Some (handleNavigationRequest route)))
  else (None, Ok None).

(** Lines 91-113: a body from [/api/refine-route] answers the query;
    a failed request or a status that is not ok falls through to the
    local handlers. *)
Definition refineOutcome (reply : RefineReply) : option (Response * option ChatRoute) :=
  match reply with
  | RefineOk (Some r) msg _ => Some (mkResponse RouteUpdate (ServerText msg) [] [], Some r)
  | RefineOk None msg sugg => Some (mkResponse RouteHelp (ServerText msg) [] sugg, None)
  | RefineNotOk | RefineFailed => None
  end.

(** ** Taste extraction *)

Definition tasteKeywords : list (string * Taste) :=
  [("lofi", mkTaste "lofi_venues" "Lofi & Chill Venues" "#A3C1AD");
   ("jazz", mkTaste "jazz_music" "Jazz Music" "#8e44ad");
   ("coffee", mkTaste "specialty_coffee" "Specialty Coffee" "#795548");
   ("art", mkTaste "contemporary_art" "Contemporary Art" "#e91e63");
   ("gallery", mkTaste "art_galleries" "Art Galleries" "#e91e63");
   ("food", mkTaste "gourmet_food" "Gourmet Food" "#ff5722");
   ("restaurant", mkTaste "fine_dining" "Fine Dining" "#ff5722");
   ("music", mkTaste "live_music" "Live Music" "#9c27b0");
   ("vintage", mkTaste "vintage_shops" "Vintage Shopping" "#607d8b");
   ("books", mkTaste "bookstores" "Independent Bookstores" "#3f51b5");
   ("craft", mkTaste "craft_beer" "Craft Beer" "#ff9800");
   ("outdoor", mkTaste "outdoor_activities" "Outdoor Activities" "#4caf50");
   ("theater", mkTaste "theater" "Theater & Performance" "#673ab7");
   ("local", mkTaste "local_culture" "Local Culture" "#009688");
   ("hidden", mkTaste "hidden_gems" "Hidden Gems" "#795548");
   ("rooftop", mkTaste "rooftop_venues" "Rooftop Venues" "#00bcd4");
   ("cocktail", mkTaste "craft_cocktails" "Craft Cocktails" "#e91e63");
   ("museum", mkTaste "museums" "Museums" "#673ab7");
   ("market", mkTaste "local_markets" "Local Markets" "#ff9800");
   ("nightlife", mkTaste "nightlife" "Nightlife" "#9c27b0");
   ("chill", mkTaste "chill_spots" "Chill Spots" "#A3C1AD");
   ("theme", mkTaste "themed_venues" "Themed Venues" "#9b59b6");
   ("aesthetic", mkTaste "aesthetic_spaces" "Aesthetic Spaces" "#e74c3c");
   ("vibe", mkTaste "good_vibes" "Good Vibes" "#1abc9c");
   ("atmosphere", mkTaste "atmospheric_venues" "Atmospheric Venues" "#f39c12")]%string.

(** [mockExtractTastes(message)] (lines 247-287): the tastes whose
    keyword the lower-cased message contains, in the object's order. *)
Definition mockExtractTastes (message : string) : list Taste :=
  let lower := JsString.toLowerCase message in
  map snd (filter (fun kt => JsString.includes lower (fst kt)) tasteKeywords).

(** [extractTastesFromMessage] (lines 43-68) once the answer is in. *)
Definition extractOutcome (message : string) (reply : ExtractReply) : list Taste :=
  match reply with
  | ExtractOk (Some ts) => ts
  | ExtractOk None => []
  | ExtractNotOk | ExtractFailed => mockExtractTastes message
  end.

(** ** The panel as a state machine *)

(** The props the submit handler's closure captured: [currentRoute],
    [venues] and [currentLocation]. *)
Record Snapshot : Type := mkSnapshot {
  snap_route : option ChatRoute;
  snap_pool : list Venue;
  snap_location : string
}.

(** The request [handleSubmit] awaits. *)
Inductive Job : Type :=
| AwaitRefine (msg : string) (snap : Snapshot)
| AwaitExtract (msg : string) (snap : Snapshot).

(** [messages], [inputValue], [isLoading] (lines 26-34) and the pending
    request. *)
Record ChatState : Type := mkChat {
  messages : list Message;
  inputValue : string;
  isLoading : bool;
  pending : option Job
}.

Definition initialChat (location : string) : ChatState :=
  mkChat [bot_message (Greeting location)] "" false None.

(** The calls of [onRouteUpdate] and [onTastesExtracted]. *)
Inductive Output : Type :=
| RouteOut (r : ChatRoute)
| TastesOut (ts : list Taste).

(** [currentRoute && currentRoute.venues && currentRoute.venues.length > 0]. *)
Definition active_route (r : option ChatRoute) : option ChatRoute :=
  match r with
  | Some rt => match entries rt with [] => None | _ => Some rt end
  | None => None
  end.

Definition route_outputs (upd : option ChatRoute) : list Output :=
  match upd with Some r => [RouteOut r] | None => [] end.

(** A bot message ends the request; [finally] clears [isLoading]. *)
Definition finish (s : ChatState) (m : Message) : ChatState :=
  mkChat (messages s ++ [m]) (inputValue s) false None.

(** Lines 310-317. *)
Definition response_message (r : Response) : Message :=
  mkMessage Bot (r_content r) (Some (r_type r)) (r_alternatives r) (r_suggestions r) [].

(** After the local route query: its answer ends the request, no answer
    sends the message on to taste extraction, an exception ends in the
    apology of the [catch] block (lines 356-362). *)
Definition after_route_query (s : ChatState) (msg : string) (snap : Snapshot)
    (upd : option ChatRoute) (res : Result (option Response)) : ChatState * list Output :=
  match res with
  | Ok (Some r) => (finish s (response_message r), route_outputs upd)
  | Ok None => (mkChat (messages s) (inputValue s) true (Some (AwaitExtract msg snap)), route_outputs upd)
  | Throw _ => (finish s (bot_message Trouble), route_outputs upd)
  end.

(** [handleSubmit] up to its first [await] (lines 290-308). *)
Definition submit (snap : Snapshot) (s : ChatState) : ChatState * list Output :=
  let userMessage := JsString.trim (inputValue s) in
  if String.eqb userMessage "" || isLoading s then (s, [])
  else
    let msgs := messages s ++ [user_message userMessage] in
    match active_route (snap_route snap) with
    | Some route =>
        if refine_intent (JsString.toLowerCase userMessage) then
          (mkChat msgs "" true (Some (AwaitRefine userMessage snap)), [])
        else
          let '(upd, res) := localRouteQuery route (snap_pool snap) userMessage in
          after_route_query (mkChat msgs "" true None) userMessage snap upd res
    | None => (mkChat msgs "" true (Some (AwaitExtract userMessage snap)), [])
    end.

(** The answer of [/api/refine-route] arrives. *)
Definition refine_arrives (reply : RefineReply) (s : ChatState) : ChatState * list Output :=
  match pending s with
  | Some (AwaitRefine msg snap) =>
      match refineOutcome reply with
      | Some (resp, upd) => (finish s (response_message resp), route_outputs upd)
      | None =>
          match active_route (snap_route snap) with
          | Some route =>
              let '(upd, res) := localRouteQuery route (snap_pool snap) msg in
              after_route_query s msg snap upd res
          | None => (s, [])
          end
      end
  | _ => (s, [])
  end.

(** The answer of [/api/extract-tastes] arrives (lines 324-354). *)
Definition extract_arrives (reply : ExtractReply) (s : ChatState) : ChatState * list Output :=
  match pending s with
  | Some (AwaitExtract msg snap) =>
      let ts := extractOutcome msg reply in
      let c := Understood (JsString.toLowerCase msg) (map taste_name ts) (snap_location snap)
                          (match snap_route snap with Some _ => true | None => false end) in
      (finish s (mkMessage Bot c None [] [] ts), match ts with [] => [] | _ => [TastesOut ts] end)
  | _ => (s, [])
  end.

(** The panel's events: typing or clicking a suggestion (lines 446,
    489, 505), sending, and the two answers. *)
Inductive ChatEvent : Type :=
| SetInput (v : string)
| Submit (snap : Snapshot)
| RefineArrives (reply : RefineReply)
| ExtractArrives (reply : ExtractReply).

Definition chat_step (e : ChatEvent) (s : ChatState) : ChatState * list Output :=
  match e with
  | SetInput v => (mkChat (messages s) v (isLoading s) (pending s), [])
  | Submit snap => submit snap s
  | RefineArrives r => refine_arrives r s
  | ExtractArrives r => extract_arrives r s
  end.

(** A sequence of events, with the outputs in order. *)
Fixpoint chat_run (es : list ChatEvent) (s : ChatState) : ChatState * list Output :=
  match es with
  | [] => (s, [])
  | e :: rest =>
      let '(s1, o1) := chat_step e s in
      let '(s2, o2) := chat_run rest s1 in
      (s2, o1 ++ o2)
  end.

(** [quickSuggestions] (lines 369-381), shown while [messages.length <= 2]
    (line 481). *)
Definition quickSuggestions (route : option ChatRoute) : list string :=
  match route with
  | Some _ => ["Tell me about the first venue"; "Find a different restaurant"; "Adjust the timing";
               "Replace the last venue"; "Get directions to start"]
  | None => ["I love jazz clubs and live music"; "Show me hidden local gems";
             "I'm into art galleries and museums"; "Find craft coffee and bookstores";
             "I want rooftop bars with views"]
  end%string.

Definition showQuickActions (s : ChatState) : bool := Nat.leb (List.length (messages s)) 2.

(** The "AI Discovered" count (line 537). *)
Definition aiDiscovered (ms : list Message) : nat :=
  fold_left (fun acc m => acc + List.length (extractedTastes m)) ms 0.

(** ** Samples *)

Definition chat_venue (n : Z) (nm t : string) (aff : Z) : Venue :=
  {| id := IdNum n; name := nm; type := Some t; coordinates := None; affinity := aff;
     qloo_data := None; rating := None |}.

Definition sample_stop (k : nat) (v : Venue) (arrival : string) : RouteStop :=
  {| stop_venue := v; order := k; arrivalTime := arrival; estimatedTime := JInt 90;
     travelTime := JInt (if Nat.eqb k 1 then 0 else 10); notes := "" |}%string.

Definition kitchen : Venue := chat_venue 1 "Harvest Kitchen" "Restaurant" 70.
Definition history : Venue := chat_venue 2 "Local History" "Museum" 85.
Definition table : Venue := chat_venue 3 "Local Table" "Restaurant" 60.
Definition bistro : Venue := chat_venue 4 "Neighborhood Bistro" "Restaurant" 92.

(** A two-stop route: a restaurant, then a museum. *)
Definition sample_route : ChatRoute :=
  mkRoute [Stop (sample_stop 1 kitchen "10:00 AM"); Stop (sample_stop 2 history "11:40 AM")]
          (JInt 190) "10:00 AM" "1:10 PM" default_preferences.

(** The pool: the route's venues and two other restaurants, the better
    one last. *)
Definition sample_pool : list Venue := [kitchen; history; table; bistro].

(** The number of messages of one sender. *)
Definition count_sender (b : Sender) (ms : list Message) : nat :=
  List.length (filter (fun m => match sender m, b with
                                | User, User | Bot, Bot => true
                                | _, _ => false
                                end) ms).

(** The panel's invariant: [isLoading] is set exactly while a request is
    pending, and every user message but the pending one has its bot
    answer (the greeting comes first). *)
Definition chat_inv (s : ChatState) : Prop :=
  (isLoading s = true <-> pending s <> None) /\
  count_sender Bot (messages s) =
    count_sender User (messages s) + (match pending s with Some _ => 0 | None => 1 end).

(** ** Lemmas *)

Lemma count_sender_app (b : Sender) (l1 l2 : list Message) :
  count_sender b (l1 ++ l2) = count_sender b l1 + count_sender b l2.
Proof. unfold count_sender. now rewrite filter_app, length_app. Qed.

Lemma count_user_bot (ms : list Message) (m : Message) :
  sender m = Bot ->
  count_sender User (ms ++ [m]) = count_sender User ms /\
  count_sender Bot (ms ++ [m]) = S (count_sender Bot ms).
Proof.
  intros Hm.
  assert (H1 : count_sender User [m] = 0) by (unfold count_sender; cbn; now rewrite Hm).
  assert (H2 : count_sender Bot [m] = 1) by (unfold count_sender; cbn; now rewrite Hm).
  rewrite !count_sender_app, H1, H2. lia.
Qed.

Lemma count_user_user (ms : list Message) (t : string) :
  count_sender User (ms ++ [user_message t]) = S (count_sender User ms) /\
  count_sender Bot (ms ++ [user_message t]) = count_sender Bot ms.
Proof. rewrite !count_sender_app. cbn. lia. Qed.

#[local] Hint Rewrite count_sender_app : culturis_rw.

(** Ending a pending request restores the balance. *)
Lemma finish_inv (s : ChatState) (m : Message) :
  sender m = Bot ->
  count_sender Bot (messages s) = count_sender User (messages s) ->
  chat_inv (finish s m).
Proof.
  intros Hm Hc. unfold chat_inv, finish; cbn [messages pending isLoading].
  destruct (count_user_bot (messages s) m Hm) as [-> ->].
  split; [split; [discriminate|congruence]|lia].
Qed.

Lemma after_route_query_inv (s : ChatState) msg snap upd res :
  count_sender Bot (messages s) = count_sender User (messages s) ->
  chat_inv (fst (after_route_query s msg snap upd res)).
Proof.
  intros Hc. destruct res as [[r|]|e]; unfold after_route_query, fst.
  - unfold chat_inv, finish; cbn [messages pending isLoading].
    destruct (count_user_bot (messages s) (response_message r) eq_refl) as [-> ->].
    split; [split; [discriminate|congruence]|lia].
  - unfold chat_inv; cbn [messages pending isLoading].
    split; [split; [discriminate|reflexivity]|lia].
  - unfold chat_inv, finish; cbn [messages pending isLoading].
    destruct (count_user_bot (messages s) (bot_message Trouble) eq_refl) as [-> ->].
    split; [split; [discriminate|congruence]|lia].
Qed.

(** Every event keeps the invariant. *)
Lemma chat_step_inv (e : ChatEvent) (s : ChatState) : chat_inv s -> chat_inv (fst (chat_step e s)).
Proof.
  intros Hinv. pose proof Hinv as [Hl Hc]. destruct e as [v|snap|reply|reply]; cbn [chat_step].
  - unfold chat_inv; cbn [messages pending isLoading fst]. split; assumption.
  - unfold submit. destruct (String.eqb _ "" || isLoading s) eqn:G; [exact Hinv|].
    apply orb_false_iff in G as [_ G].
    assert (Hp : pending s = None)
      by (destruct (pending s); [|reflexivity]; rewrite G in Hl;
          discriminate (proj2 Hl ltac:(discriminate))).
    rewrite Hp in Hc.
    destruct (count_user_user (messages s) (JsString.trim (inputValue s))) as [HU HB].
    destruct (active_route (snap_route snap)) as [route|].
    + destruct (refine_intent _).
      * unfold chat_inv; cbn [messages pending isLoading fst].
        split; [split; [discriminate|reflexivity]|lia].
      * destruct (localRouteQuery route (snap_pool snap) _) as [upd res].
        apply after_route_query_inv. cbn [messages]. lia.
    + unfold chat_inv; cbn [messages pending isLoading fst].
      split; [split; [discriminate|reflexivity]|lia].
  - unfold refine_arrives. destruct (pending s) as [[msg snap|msg snap]|] eqn:Hp;
      try exact Hinv.
    destruct (refineOutcome reply) as [[resp upd]|].
    + apply finish_inv; [reflexivity|lia].
    + destruct (active_route (snap_route snap)) as [route|]; [|exact Hinv].
      destruct (localRouteQuery route (snap_pool snap) msg) as [upd res].
      apply after_route_query_inv. lia.
  - unfold extract_arrives. destruct (pending s) as [[msg snap|msg snap]|] eqn:Hp;
      try exact Hinv.
    apply finish_inv; [reflexivity|lia].
Qed.

Lemma chat_run_inv_from (es : list ChatEvent) :
  forall s, chat_inv s -> chat_inv (fst (chat_run es s)).
Proof.
  induction es as [|e rest IH]; intros s Hs; [exact Hs|].
  cbn [chat_run]. pose proof (chat_step_inv e s Hs) as H1.
  destruct (chat_step e s) as [s1 o1]. specialize (IH s1 H1).
  destruct (chat_run rest s1) as [s2 o2]. exact IH.
Qed.

(** C7: in every state the panel reaches from its greeting, whatever the
    messages, the props captured and the backend's answers, [isLoading]
    is set exactly while a request is pending, and every user message
    but the pending one has exactly one bot answer. *)
Theorem chat_run_inv (location : string) (es : list ChatEvent) :
  chat_inv (fst (chat_run es (initialChat location))).
Proof.
  apply chat_run_inv_from. unfold chat_inv, initialChat; cbn.
  split; [split; [discriminate|congruence]|reflexivity].
Qed.

Lemma find_type_in (l : list RouteEntry) (k : string) (t : RouteEntry) :
  find_type l k = Ok (Some t) -> In t l.
Proof.
  induction l as [|e r IH]; cbn; [discriminate|].
  destruct (type (entry_venue e)); [|discriminate].
  destruct (JsString.includes _ k); [intros H; injection H as ->; now left|].
  intros H. right. now apply IH.
Qed.

(** The target of a replacement is an entry of the route. *)
Lemma replacement_target_in (l : list RouteEntry) (lower : string) (t : RouteEntry) (rt : option string) :
  replacement_target l lower = Ok (Some t, rt) -> In t l.
Proof.
  unfold replacement_target.
  repeat match goal with |- context [if ?b then _ else _] => destruct b end;
    intros H; try discriminate.
  all: try (inversion H as [Hx]; now apply last_error_In).
  all: try (inversion H as [Hx]; destruct l as [|x0 [|x1 r]]; cbn in Hx; try discriminate;
            injection Hx as ->; cbn; tauto).
  all: try (inversion H; fail).
  all: revert H; match goal with |- context [find_type ?l ?k] =>
         destruct (find_type l k) as [[t'|]|e] eqn:F; cbn; intros H; try discriminate end;
       inversion H; subst; exact (find_type_in _ _ _ F).
Qed.

(** The chosen venue is the first eligible venue of the pool. *)
Lemma alternatives_first (l : list RouteEntry) (target : RouteEntry) (rt : option string)
    (pool : list Venue) (alt : Venue) (others : list Venue) :
  alternatives_for l target rt pool = alt :: others ->
  hd_error (filter (eligible l target rt) pool) = Some alt /\ In alt pool /\
  eligible l target rt alt = true.
Proof.
  unfold alternatives_for. intros H.
  assert (Hin : In alt (filter (eligible l target rt) pool))
    by (apply (In_firstn 3); rewrite H; now left).
  apply filter_In in Hin as [Hp He]. split; [|auto].
  destruct (filter _ pool); [discriminate|]. cbn in H. now injection H as -> _.
Qed.

(** What a replacement that updates the route did. *)
Lemma handleVenueReplacement_some (route : ChatRoute) (pool : list Venue) (msg : string)
    (r' : ChatRoute) (res : Result (option Response)) :
  handleVenueReplacement route pool msg = (Some r', res) ->
  exists target rt alt others,
    replacement_target (entries route) (JsString.toLowerCase msg) = Ok (Some target, rt) /\
    alternatives_for (entries route) target rt pool = alt :: others /\
    r' = with_entries route (replace_entries (entries route) target alt).
Proof.
  unfold handleVenueReplacement.
  destruct (entries route) as [|e0 es] eqn:E; [discriminate|].
  destruct (replacement_target _ _) as [[[target|] rt]|ex]; try discriminate.
  destruct (alternatives_for _ _ _ _) as [|alt others] eqn:A; try discriminate.
  intros H. injection H as <- _. exists target, rt, alt, others. auto.
Qed.

Lemma eligible_fresh (l : list RouteEntry) (target : RouteEntry) (rt : option string) (v : Venue) :
  eligible l target rt v = true -> ~ In (id v) (map entry_id l).
Proof.
  unfold eligible. intros H. apply andb_prop in H as [_ H]. apply negb_true_iff in H.
  intros Hin. apply in_map_iff in Hin as (e & He & Hel).
  assert (Hx : existsb (fun rv => id_eqb (entry_id rv) (id v)) l = true)
    by (apply existsb_exists; exists e; split; [exact Hel|apply id_eqb_eq; exact He]).
  congruence.
Qed.

Lemma replace_entries_ids (l : list RouteEntry) (target : RouteEntry) (alt : Venue) :
  map entry_id (replace_entries l target alt) =
  map (fun i => if id_eqb i (entry_id target) then id alt else i) (map entry_id l).
Proof.
  unfold replace_entries. rewrite !map_map. apply map_ext. intros e.
  now destruct (id_eqb (entry_id e) (entry_id target)).
Qed.

(** A replacement that updates the route swaps, for a venue of the
    pool that is not on the route, every entry with the target's id,
    and leaves everything else as it was: the other entries, and the
    total duration, start and end times, which are not recomputed. *)
Theorem handleVenueReplacement_update (route : ChatRoute) (pool : list Venue) (msg : string)
    (r' : ChatRoute) (res : Result (option Response)) :
  handleVenueReplacement route pool msg = (Some r', res) ->
  exists target alt,
    In target (entries route) /\ In alt pool /\
    ~ In (id alt) (map entry_id (entries route)) /\
    entries r' = replace_entries (entries route) target alt /\
    route_total r' = route_total route /\ route_start r' = route_start route /\
    route_end r' = route_end route.
Proof.
  intros H. destruct (handleVenueReplacement_some _ _ _ _ _ H)
    as (target & rt & alt & others & Ht & Ha & ->).
  destruct (alternatives_first _ _ _ _ _ _ Ha) as (_ & Hpool & Helig).
  exists target, alt. repeat split; auto.
  - exact (replacement_target_in _ _ _ _ Ht).
  - exact (eligible_fresh _ _ _ _ Helig).
Qed.

(** When the route's venue ids are distinct, they stay distinct
    after a replacement, and the route keeps its length. *)
Theorem handleVenueReplacement_nodup (route : ChatRoute) (pool : list Venue) (msg : string)
    (r' : ChatRoute) (res : Result (option Response)) :
  NoDup (map entry_id (entries route)) ->
  handleVenueReplacement route pool msg = (Some r', res) ->
  NoDup (map entry_id (entries r')) /\ List.length (entries r') = List.length (entries route).
Proof.
  intros Hnd H. destruct (handleVenueReplacement_some _ _ _ _ _ H)
    as (target & rt & alt & others & Ht & Ha & ->).
  destruct (alternatives_first _ _ _ _ _ _ Ha) as (_ & _ & Helig).
  cbn [entries with_entries]. split.
  - rewrite replace_entries_ids. apply (NoDup_map_rename id_eqb); [exact id_eqb_eq|exact Hnd|].
    exact (eligible_fresh _ _ _ _ Helig).
  - unfold replace_entries. apply length_map.
Qed.

(** The replacement takes the first eligible venue in pool order,
    not the one of highest affinity: asked for a different restaurant,
    the panel swaps in the restaurant of affinity 60 although one of
    affinity 92 is eligible, and offers the better one as an
    alternative. *)
Example replacement_pool_order :
  handleVenueReplacement sample_route sample_pool "Find a different restaurant" =
  (Some (with_entries sample_route [Raw table; Stop (sample_stop 2 history "11:40 AM")]),
   Ok (Some (mkResponse RouteUpdate (Replaced "Harvest Kitchen" "Local Table" "restaurant" 60)
                        [bistro] []))).
Proof. vm_compute. reflexivity. Qed.

(** A replaced stop has no [estimatedTime], so asking about it gives
    ["NaNh NaNm"]: the details of a first entry put there by a
    replacement report [NaN] hours and minutes and no note. *)
Theorem details_after_replacement (route : ChatRoute) (v : Venue) (rest : list RouteEntry)
    (t msg : string) :
  entries route = Raw v :: rest -> type v = Some t ->
  mentions (JsString.toLowerCase msg) ["first"; "1st"]%string = true ->
  handleVenueDetails route msg =
    Ok (Some (mkResponse VenueDetails
                (Details (name v) (JsString.toLowerCase t) (affinity v) (rating v) JNaN JNaN None)
                [] [])).
Proof.
  intros He Ht Hm. unfold handleVenueDetails. rewrite He, Hm. cbn. unfold type_lower. now rewrite Ht.
Qed.

Lemma details_after_replacement_witness :
  (entries (with_entries sample_route [Raw table; Stop (sample_stop 2 history "11:40 AM")]) =
     Raw table :: [Stop (sample_stop 2 history "11:40 AM")] /\
   type table = Some "Restaurant"%string /\
   mentions (JsString.toLowerCase "Tell me about the first venue") ["first"; "1st"]%string = true) /\
  handleVenueDetails (with_entries sample_route [Raw table; Stop (sample_stop 2 history "11:40 AM")])
    "Tell me about the first venue" =
    Ok (Some (mkResponse VenueDetails
                (Details (name table) (JsString.toLowerCase "Restaurant") (affinity table)
                         (rating table) JNaN JNaN None) [] [])).
Proof.
  split; [repeat split; vm_compute; reflexivity|].
  apply (details_after_replacement _ table [Stop (sample_stop 2 history "11:40 AM")] "Restaurant");
    vm_compute; reflexivity.
Defined.

Lemma handleVenueReplacement_update_witness :
  handleVenueReplacement sample_route sample_pool "Find a different restaurant" =
    (Some (with_entries sample_route [Raw table; Stop (sample_stop 2 history "11:40 AM")]),
     Ok (Some (mkResponse RouteUpdate (Replaced "Harvest Kitchen" "Local Table" "restaurant" 60)
                          [bistro] []))) /\
  exists target alt,
    In target (entries sample_route) /\ In alt sample_pool /\
    ~ In (id alt) (map entry_id (entries sample_route)) /\
    entries (with_entries sample_route [Raw table; Stop (sample_stop 2 history "11:40 AM")]) =
      replace_entries (entries sample_route) target alt /\
    route_total (with_entries sample_route [Raw table; Stop (sample_stop 2 history "11:40 AM")]) =
      route_total sample_route /\
    route_start (with_entries sample_route [Raw table; Stop (sample_stop 2 history "11:40 AM")]) =
      route_start sample_route /\
    route_end (with_entries sample_route [Raw table; Stop (sample_stop 2 history "11:40 AM")]) =
      route_end sample_route.
Proof.
  assert (H : handleVenueReplacement sample_route sample_pool "Find a different restaurant" =
    (Some (with_entries sample_route [Raw table; Stop (sample_stop 2 history "11:40 AM")]),
     Ok (Some (mkResponse RouteUpdate (Replaced "Harvest Kitchen" "Local Table" "restaurant" 60)
                          [bistro] [])))) by (vm_compute; reflexivity).
  split; [exact H|]. exact (handleVenueReplacement_update _ _ _ _ _ H).
Defined.

Lemma handleVenueReplacement_nodup_witness :
  (NoDup (map entry_id (entries sample_route)) /\
   handleVenueReplacement sample_route sample_pool "Find a different restaurant" =
    (Some (with_entries sample_route [Raw table; Stop (sample_stop 2 history "11:40 AM")]),
     Ok (Some (mkResponse RouteUpdate (Replaced "Harvest Kitchen" "Local Table" "restaurant" 60)
                          [bistro] [])))) /\
  NoDup (map entry_id (entries (with_entries sample_route
                                  [Raw table; Stop (sample_stop 2 history "11:40 AM")]))) /\
  List.length (entries (with_entries sample_route [Raw table; Stop (sample_stop 2 history "11:40 AM")]))
    = List.length (entries sample_route).
Proof.
  assert (Hnd : NoDup (map entry_id (entries sample_route))).
  { cbn. constructor; [cbn; intros [H|H]; [discriminate|contradiction]|].
    constructor; [cbn; tauto|constructor]. }
  assert (H : handleVenueReplacement sample_route sample_pool "Find a different restaurant" =
    (Some (with_entries sample_route [Raw table; Stop (sample_stop 2 history "11:40 AM")]),
     Ok (Some (mkResponse RouteUpdate (Replaced "Harvest Kitchen" "Local Table" "restaurant" 60)
                          [bistro] [])))) by (vm_compute; reflexivity).
  split; [split; assumption|]. exact (handleVenueReplacement_nodup _ _ _ _ _ Hnd H).
Defined.

(** The local extractor returns distinct tastes, each found by a
    keyword that the lower-cased message contains. *)
Theorem mockExtractTastes_spec (message : string) :
  NoDup (map taste_id (mockExtractTastes message)) /\
  (forall t, In t (mockExtractTastes message) ->
     exists k, In (k, t) tasteKeywords /\ JsString.includes (JsString.toLowerCase message) k = true).
Proof.
  unfold mockExtractTastes. split.
  - rewrite map_map. apply (NoDup_map_filter (fun kt => taste_id (snd kt))).
    vm_compute. repeat constructor; cbn; intuition discriminate.
  - intros t Hin. apply in_map_iff in Hin as ([k t'] & Ht & Hkt). cbn in Ht. subst t'.
    apply filter_In in Hkt as [Hkt Hk]. exists k. auto.
Qed.

End Chatbot.
