(* ===== verification/Navigation.v ===== *)
(** * The navigation panel: location search and suggestions

    [NavigationPanel] ([src/culturis-studio/src/components/NavigationPanel.js])
    lets the user pick the city the map shows.  Typing filters the
    popular cities (lines 55-71); focusing an empty input shows the
    first eight (lines 86-92); submitting looks the input up in a table
    of coordinates, first exactly, then by substring in either
    direction, then falls back to New York (lines 103-201), and calls
    [onLocationChange].  Clicking a suggestion sets the input and runs
    the search 100 ms later (lines 74-83); blurring hides the
    suggestions 200 ms later (lines 95-100).

    The table is a plain object: a normalised input that names a member
    of [Object.prototype] ([constructor], [__proto__]) finds a function
    or an object, not coordinates ([Inherited]).  The timers are pending
    callbacks of the state machine; a callback runs the closure of the
    render that scheduled it, with the props and state of that render. *)
From S2P Require Import Prelude JsNumber JsString.
From Stdlib Require Import List ZArith Lia String Bool.
Import ListNotations.

Module Navigation.

Local Open Scope string_scope.

(** [popularCities] (lines 23-52). *)
Definition popularCities : list string :=
  ["New York, NY"; "Los Angeles, CA"; "San Francisco, CA"; "Chicago, IL"; "Miami, FL";
   "Seattle, WA"; "Austin, TX"; "Boston, MA"; "Denver, CO"; "Portland, OR"; "Nashville, TN";
   "Atlanta, GA"; "Las Vegas, NV"; "Philadelphia, PA"; "San Diego, CA"; "Washington, DC";
   "Brooklyn, NY"; "Manhattan, NY"; "Hollywood, CA"; "Santa Monica, CA"; "London, UK";
   "Paris, France"; "Tokyo, Japan"; "Sydney, Australia"; "Barcelona, Spain";
   "Amsterdam, Netherlands"; "Berlin, Germany"; "Rome, Italy"].

(** A coordinate literal [[a, b]] with four decimals. *)
Definition at4 (lat lng : Z) : Binary64.num * Binary64.num :=
  (Binary64.lit lat 10000, Binary64.lit lng 10000).

(** [mockCoordinates] (lines 110-171), in its key order. *)
Definition mockCoordinates : list (string * (Binary64.num * Binary64.num)) :=
  [("new york", at4 407589 (-739851)); ("new york, ny", at4 407589 (-739851));
   ("nyc", at4 407589 (-739851)); ("manhattan", at4 407831 (-739712));
   ("brooklyn", at4 406782 (-739442));
   ("los angeles", at4 340522 (-1182437)); ("los angeles, ca", at4 340522 (-1182437));
   ("la", at4 340522 (-1182437)); ("hollywood", at4 340928 (-1183287));
   ("santa monica", at4 340195 (-1184912));
   ("chicago", at4 418781 (-876298)); ("chicago, il", at4 418781 (-876298));
   ("san francisco", at4 377749 (-1224194)); ("san francisco, ca", at4 377749 (-1224194));
   ("sf", at4 377749 (-1224194));
   ("miami", at4 257617 (-801918)); ("miami, fl", at4 257617 (-801918));
   ("south beach", at4 257907 (-801300));
   ("las vegas", at4 361699 (-1151398)); ("vegas", at4 361699 (-1151398));
   ("las vegas, nv", at4 361699 (-1151398));
   ("seattle", at4 476062 (-1223321)); ("seattle, wa", at4 476062 (-1223321));
   ("boston", at4 423601 (-710589)); ("boston, ma", at4 423601 (-710589));
   ("austin", at4 302672 (-977431)); ("austin, tx", at4 302672 (-977431));
   ("denver", at4 397392 (-1049903)); ("denver, co", at4 397392 (-1049903));
   ("portland", at4 455152 (-1226784)); ("portland, or", at4 455152 (-1226784));
   ("london", at4 515074 (-1278)); ("london, uk", at4 515074 (-1278));
   ("paris", at4 488566 23522); ("paris, france", at4 488566 23522);
   ("tokyo", at4 356762 1396503); ("tokyo, japan", at4 356762 1396503);
   ("sydney", at4 (-338688) 1512093); ("sydney, australia", at4 (-338688) 1512093);
   ("barcelona", at4 413851 21734); ("barcelona, spain", at4 413851 21734);
   ("amsterdam", at4 523676 49041); ("amsterdam, netherlands", at4 523676 49041);
   ("berlin", at4 525200 134050); ("berlin, germany", at4 525200 134050);
   ("rome", at4 419028 124964); ("rome, italy", at4 419028 124964)].

(** The New York fallback of line 192. *)
Definition nyc : Binary64.num * Binary64.num := at4 407589 (-739851).

(** What [onLocationChange] receives as coordinates: a pair of the
    table, or the inherited member a prototype key finds. *)
Inductive Coords : Type :=
| At (c : Binary64.num * Binary64.num)
| Inherited (member : string).

(** [mockCoordinates[k]]: an own property, an inherited member, or
    [undefined]. *)
Definition lookup (k : string) : option Coords :=
  match find (fun kv => String.eqb (fst kv) k) mockCoordinates with
  | Some (_, c) => Some (At c)
  | None => if existsb (String.eqb k) JsString.object_prototype_keys then Some (Inherited k) else None
  end.

(** [Object.keys(mockCoordinates).find(key => key.includes(n) || n.includes(key))]. *)
Definition partialMatch (n : string) : option string :=
  find (fun key => JsString.includes key n || JsString.includes n key) (map fst mockCoordinates).

(** [handleLocationSearch] (lines 103-201) on the input it closes
    over: the arguments of [onLocationChange], if it is called. *)
Definition locationSearch (locationInput : string) : option (string * Coords) :=
  if String.eqb (JsString.trim locationInput) "" then None
  else
    let normalizedLocation := JsString.trim (JsString.toLowerCase locationInput) in
    match lookup normalizedLocation with
    | Some c => Some (locationInput, c)
    | None =>
        match partialMatch normalizedLocation with
        | Some key =>
            match lookup key with
            | Some c => Some (locationInput, c)
            | None => Some (locationInput, At nyc)
            end
        | None => Some (locationInput, At nyc)
        end
    end.

(** The filter of lines 60-62. *)
Definition suggestionsFor (value : string) : list string :=
  firstn 8 (filter (fun city => JsString.includes (JsString.toLowerCase city) (JsString.toLowerCase value))
                   popularCities).

(** ** The panel's state machine *)

(** A pending [setTimeout] callback: the search of a suggestion click,
    with the [locationInput] of the render that scheduled it, or the
    hiding of the suggestions after a blur. *)
Inductive Timer : Type :=
| SearchLater (capturedInput : string)
| HideLater.

Record NavState : Type := mkNav {
  locationInput : string;
  showSuggestions : bool;
  filteredSuggestions : list string;
  timers : list Timer
}.

Definition initialNav (currentLocation : string) : NavState :=
  mkNav currentLocation false [] [].

Inductive NavEvent : Type :=
| InputChange (value : string)
| InputFocus
| InputBlur
| SelectSuggestion (city : string)
| SubmitLocation
| FireTimer (i : nat).

(** The output: the arguments of [onLocationChange]. *)
Definition LocationChange : Type := (string * Coords)%type.

Definition option_to_list {A} (o : option A) : list A :=
  match o with Some a => [a] | None => [] end.

(** One event.  The search ([handleLocationSearch]) has no [await]: its
    [isLocationLoading] flag is set and cleared within the event. *)
Definition nav_step (e : NavEvent) (s : NavState) : NavState * list LocationChange :=
  match e with
  | InputChange v =>
      if Nat.ltb 0 (String.length (JsString.trim v)) then
        let f := suggestionsFor v in
        (mkNav v (Nat.ltb 0 (List.length f)) f (timers s), [])
      else (mkNav v false [] (timers s), [])
  | InputFocus =>
      if Nat.eqb (String.length (JsString.trim (locationInput s))) 0 then
        (mkNav (locationInput s) true (firstn 8 popularCities) (timers s), [])
      else (s, [])
  | InputBlur => (mkNav (locationInput s) (showSuggestions s) (filteredSuggestions s)
                        (timers s ++ [HideLater])%list, [])
  | SelectSuggestion city =>
      (mkNav city false [] (timers s ++ [SearchLater (locationInput s)])%list, [])
  | SubmitLocation => (s, option_to_list (locationSearch (locationInput s)))
  | FireTimer i =>
      match nth_error (timers s) i with
      | Some (SearchLater captured) =>
          (mkNav (locationInput s) (showSuggestions s) (filteredSuggestions s) (remove_nth i (timers s)),
           option_to_list (locationSearch captured))
      | Some HideLater =>
          (mkNav (locationInput s) false (filteredSuggestions s) (remove_nth i (timers s)), [])
      | None => (s, [])
      end
  end.

Fixpoint nav_run (es : list NavEvent) (s : NavState) : NavState * list LocationChange :=
  match es with
  | [] => (s, [])
  | e :: rest =>
      let '(s1, o1) := nav_step e s in
      let '(s2, o2) := nav_run rest s1 in
      (s2, (o1 ++ o2)%list)
  end.

(** ** Properties *)

Lemma lookup_cases (k : string) (c : Coords) :
  lookup k = Some c ->
  (exists p, In (k, p) mockCoordinates /\ c = At p) \/
  (In k JsString.object_prototype_keys /\ c = Inherited k).
Proof.
  unfold lookup. destruct (find _ mockCoordinates) as [[k' p]|] eqn:F.
  - intros H; injection H as <-. left. exists p. apply find_some in F as [Hin Hk].
    cbn in Hk. apply String.eqb_eq in Hk. subst. auto.
  - destruct (existsb _ _) eqn:E; [|discriminate]. intros H; injection H as <-. right.
    apply existsb_exists in E as (m & Hm & Heq). apply String.eqb_eq in Heq. subst. auto.
Qed.

Lemma locationSearch_some (input : string) :
  JsString.trim input <> "" ->
  exists c, locationSearch input = Some (input, c) /\
    (c = At nyc \/ (exists k p, In (k, p) mockCoordinates /\ c = At p) \/
     (exists m, In m JsString.object_prototype_keys /\ c = Inherited m)).
Proof.
  intros E. unfold locationSearch. apply String.eqb_neq in E. rewrite E.
  destruct (lookup _) as [c|] eqn:L.
  - exists c. split; [reflexivity|right].
    destruct (lookup_cases _ _ L) as [(p & Hin & ->)|(Hin & ->)]; [left|right]; eauto.
  - destruct (partialMatch _) as [key|].
    + destruct (lookup key) as [c|] eqn:L2; [|exists (At nyc); auto].
      exists c. split; [reflexivity|right].
      destruct (lookup_cases _ _ L2) as [(p & Hin & ->)|(Hin & ->)]; [left|right]; eauto.
    + exists (At nyc). auto.
Qed.

(** The search calls [onLocationChange] exactly for a non-blank
    input, always with the input as the location's name, and with
    coordinates of the table, New York's, or, for an input that names
    a member of [Object.prototype], that inherited member. *)
Theorem locationSearch_result (input : string) :
  (locationSearch input = None <-> JsString.trim input = "") /\
  (JsString.trim input <> "" ->
   exists c, locationSearch input = Some (input, c) /\
     (c = At nyc \/ (exists k p, In (k, p) mockCoordinates /\ c = At p) \/
      (exists m, In m JsString.object_prototype_keys /\ c = Inherited m))).
Proof.
  split; [|exact (locationSearch_some input)].
  destruct (String.eqb (JsString.trim input) "") eqn:E.
  - apply String.eqb_eq in E. unfold locationSearch. rewrite E. tauto.
  - apply String.eqb_neq in E. destruct (locationSearch_some input E) as (c & -> & _).
    split; [discriminate|intros H; contradiction].
Qed.

Lemma locationSearch_result_witness :
  JsString.trim "Chicago" <> "" /\
  exists c, locationSearch "Chicago" = Some ("Chicago", c) /\
     (c = At nyc \/ (exists k p, In (k, p) mockCoordinates /\ c = At p) \/
      (exists m, In m JsString.object_prototype_keys /\ c = Inherited m)).
Proof.
  assert (H : JsString.trim "Chicago" <> "") by (vm_compute; discriminate).
  split; [exact H|]. exact (proj2 (locationSearch_result "Chicago") H).
Defined.

(** The suggestions are at most eight popular cities, in the list's
    order, that contain the input, ignoring ASCII case. *)
Theorem suggestionsFor_spec (value : string) :
  (List.length (suggestionsFor value) <= 8)%nat /\
  (forall city, In city (suggestionsFor value) ->
     In city popularCities /\
     JsString.includes (JsString.toLowerCase city) (JsString.toLowerCase value) = true) /\
  (exists rest, filter (fun city => JsString.includes (JsString.toLowerCase city)
                                       (JsString.toLowerCase value)) popularCities
                = (suggestionsFor value ++ rest)%list).
Proof.
  unfold suggestionsFor. split; [apply firstn_le_length|split].
  - intros city Hin. apply In_firstn, filter_In in Hin. exact Hin.
  - eexists. symmetry. apply firstn_skipn.
Qed.

(** Five of the popular cities the panel suggests are placed
    elsewhere: Atlanta and Philadelphia contain ["la"], so the
    substring search finds Los Angeles first; Nashville, San Diego and
    Washington match no key and fall back to New York. *)
Example popular_cities_misplaced :
  locationSearch "Atlanta, GA" = Some ("Atlanta, GA", At (at4 340522 (-1182437))) /\
  locationSearch "Philadelphia, PA" = Some ("Philadelphia, PA", At (at4 340522 (-1182437))) /\
  locationSearch "Nashville, TN" = Some ("Nashville, TN", At nyc) /\
  locationSearch "San Diego, CA" = Some ("San Diego, CA", At nyc) /\
  locationSearch "Washington, DC" = Some ("Washington, DC", At nyc).
Proof. vm_compute. repeat split. Qed.

(** A suggestion click searches the input of the render it was
    clicked in, not the city clicked: whatever the city, the search the
    click schedules reports the text typed before the click (its
    location name and coordinates), while the input shows the city. *)
Theorem suggestion_search_stale (s : NavState) (city : string) :
  nav_run [SelectSuggestion city; FireTimer (List.length (timers s))] s =
  (mkNav city false [] (remove_nth (List.length (timers s)) (timers s ++ [SearchLater (locationInput s)])),
   option_to_list (locationSearch (locationInput s))).
Proof.
  unfold nav_run, nav_step; cbn [locationInput showSuggestions filteredSuggestions timers].
  rewrite nth_error_app2, Nat.sub_diag by lia. cbn [nth_error]. now rewrite app_nil_r.
Qed.

(** Typing ["a"] and clicking "Austin, TX" centres the map on Manhattan
    and names the location ["a"]. *)
Example suggestion_search_austin :
  snd (nav_run [InputChange "a"; SelectSuggestion "Austin, TX"; FireTimer 0] (initialNav "New York, NY"))
  = [("a", At (at4 407831 (-739712)))].
Proof. vm_compute. reflexivity. Qed.

End Navigation.
