(* ===== verification/Page.v ===== *)
(** * The map page: how the panels share the route and the tastes

    [PaintMyMapPage] ([src/culturis-studio/src/components/PaintMyMapPage.js])
    owns the state the panels share: the selected and the discovered
    tastes, the location and map centre, the venues the map loaded and
    the current route (lines 13-37).  The map view's route planner, the
    chat panel and the navigation panel report to it through callbacks
    (lines 39-80), and it passes the current state back down as props
    (lines 85-121).

    The page is modelled in its map layout ([showMap] with at least
    three tastes), where the three panels are mounted: a page event is
    a callback of one of them, and the chat panel's events receive the
    page's current [currentRoute], [venues] and [currentLocation] as the
    props their closures capture.  Remounting the panels after a return
    to the taste picker is not modelled. *)
From S2P Require Import Prelude JsNumber JsString Venue Chatbot Navigation.
From Stdlib Require Import List ZArith Lia String Bool.
Import ListNotations.
Import Venue.

Module Page.

Import Chatbot Navigation.

(** [getInitialCoordinates(location)] (lines 19-31). *)
Definition locationMap : list (string * (Binary64.num * Binary64.num)) :=
  [("Los Angeles, CA", at4 340522 (-1182437)); ("San Francisco, CA", at4 377749 (-1224194));
   ("Chicago, IL", at4 418781 (-876298)); ("Miami, FL", at4 257617 (-801918));
   ("Seattle, WA", at4 476062 (-1223321)); ("Austin, TX", at4 302672 (-977431));
   ("Boston, MA", at4 423601 (-710589)); ("New York, NY", at4 407589 (-739851))]%string.

Definition getInitialCoordinates (location : string) : Coords :=
  match find (fun kv => String.eqb (fst kv) location) locationMap with
  | Some (_, c) => At c
  | None => if existsb (String.eqb location) JsString.object_prototype_keys then Inherited location
            else At nyc
  end.

(** The page's state (lines 14-37) and the state of the two panels it
    mounts. *)
Record PageState : Type := mkPage {
  selectedTastes : list Taste;
  showMap : bool;
  currentLocation : string;
  mapCenter : Coords;
  additionalTastes : list Taste;
  showDemoGuide : bool;
  currentRoute : option ChatRoute;
  pageVenues : list Venue;
  chat : ChatState;
  nav : NavState
}.

Definition initialPage (userLocation : option string) : PageState :=
  let loc := match userLocation with Some l => l | None => "New York, NY"%string end in
  mkPage [] false loc (getInitialCoordinates loc) [] false None [] (initialChat loc) (initialNav loc).

(** [handleTasteSelection] (lines 39-45). *)
Definition handleTasteSelection (tastes : list Taste) (p : PageState) : PageState :=
  mkPage tastes true (currentLocation p) (mapCenter p) (additionalTastes p) true
         (currentRoute p) (pageVenues p) (chat p) (nav p).

(** [handleBackToTastes] (lines 47-51). *)
Definition handleBackToTastes (p : PageState) : PageState :=
  mkPage [] false (currentLocation p) (mapCenter p) [] (showDemoGuide p)
         (currentRoute p) (pageVenues p) (chat p) (nav p).

(** [handleLocationChange(location, coordinates)] (lines 53-60). *)
Definition handleLocationChange (lc : LocationChange) (p : PageState) : PageState :=
  mkPage (selectedTastes p) (showMap p) (fst lc) (snd lc) (additionalTastes p) (showDemoGuide p)
         (currentRoute p) (pageVenues p) (chat p) (nav p).

(** [handleChatbotTastes(newTastes)] (lines 62-70): the new tastes whose
    id is not among the selected and the already discovered ones. *)
Definition handleChatbotTastes (newTastes : list Taste) (p : PageState) : PageState :=
  let existingIds := map taste_id (selectedTastes p ++ additionalTastes p) in
  let uniqueNewTastes :=
    filter (fun t => negb (existsb (String.eqb (taste_id t)) existingIds)) newTastes in
  mkPage (selectedTastes p) (showMap p) (currentLocation p) (mapCenter p)
         (additionalTastes p ++ uniqueNewTastes) (showDemoGuide p)
         (currentRoute p) (pageVenues p) (chat p) (nav p).

(** [handleRouteUpdate(route)] (lines 72-75). *)
Definition handleRouteUpdate (r : ChatRoute) (p : PageState) : PageState :=
  mkPage (selectedTastes p) (showMap p) (currentLocation p) (mapCenter p) (additionalTastes p)
         (showDemoGuide p) (Some r) (pageVenues p) (chat p) (nav p).

(** [handleVenuesUpdate(newVenues)] (lines 77-80). *)
Definition handleVenuesUpdate (vs : list Venue) (p : PageState) : PageState :=
  mkPage (selectedTastes p) (showMap p) (currentLocation p) (mapCenter p) (additionalTastes p)
         (showDemoGuide p) (currentRoute p) vs (chat p) (nav p).

Definition with_chat (c : ChatState) (p : PageState) : PageState :=
  mkPage (selectedTastes p) (showMap p) (currentLocation p) (mapCenter p) (additionalTastes p)
         (showDemoGuide p) (currentRoute p) (pageVenues p) c (nav p).

Definition with_nav (n : NavState) (p : PageState) : PageState :=
  mkPage (selectedTastes p) (showMap p) (currentLocation p) (mapCenter p) (additionalTastes p)
         (showDemoGuide p) (currentRoute p) (pageVenues p) (chat p) n.

(** The chat panel's callbacks, in the order it calls them. *)
Definition apply_chat_output (p : PageState) (o : Output) : PageState :=
  match o with
  | RouteOut r => handleRouteUpdate r p
  | TastesOut ts => handleChatbotTastes ts p
  end.

(** The props the chat panel renders with (lines 113-120). *)
Definition chat_props (p : PageState) : Snapshot :=
  mkSnapshot (currentRoute p) (pageVenues p) (currentLocation p).

(** The page's events in the map layout: the route planner's
    [onUpdateRoute] (through the map view, line 626), the map view's
    [onVenuesUpdate], and the events of the chat and navigation panels. *)
Inductive PageEvent : Type :=
| PlannerRoute (r : PlannedRoute)
| VenuesLoaded (vs : list Venue)
| ChatInput (v : string)
| ChatSubmit
| ChatRefineReply (reply : RefineReply)
| ChatExtractReply (reply : ExtractReply)
| NavEvent (e : Navigation.NavEvent).

Definition chat_event (e : ChatEvent) (p : PageState) : PageState :=
  let '(c, outs) := chat_step e (chat p) in
  fold_left apply_chat_output outs (with_chat c p).

Definition page_step (e : PageEvent) (p : PageState) : PageState :=
  match e with
  | PlannerRoute r => handleRouteUpdate (of_planned r) p
  | VenuesLoaded vs => handleVenuesUpdate vs p
  | ChatInput v => chat_event (SetInput v) p
  | ChatSubmit => chat_event (Submit (chat_props p)) p
  | ChatRefineReply r => chat_event (RefineArrives r) p
  | ChatExtractReply r => chat_event (ExtractArrives r) p
  | NavEvent e =>
      let '(n, outs) := nav_step e (nav p) in
      fold_left (fun q lc => handleLocationChange lc q) outs (with_nav n p)
  end.

Definition page_run (es : list PageEvent) (p : PageState) : PageState :=
  fold_left (fun q e => page_step e q) es p.

(** A page showing the map with the chat's sample route and pool. *)
Definition sample_page : PageState :=
  mkPage [] true "New York, NY" (At nyc) [] false (Some sample_route) sample_pool
         (initialChat "New York, NY") (initialNav "New York, NY").

(** A route the planner produces meanwhile. *)
Definition newer_route : PlannedRoute :=
  {| venues := []; totalDuration := JInt 0; startTime := "9:00 AM"; endTime := "9:00 AM";
     preferences := default_preferences |}%string.

Definition jazz : Taste := mkTaste "jazz_music" "Jazz Music" "#8e44ad".

(** The page's tastes have distinct ids. *)
Definition tastes_distinct (p : PageState) : Prop :=
  NoDup (map taste_id (selectedTastes p ++ additionalTastes p)).

(** ** Properties *)

Lemma chat_input_step (v : string) (p : PageState) :
  page_step (ChatInput v) p =
  with_chat (mkChat (messages (chat p)) v (isLoading (chat p)) (pending (chat p))) p.
Proof. reflexivity. Qed.

(** A message with a route intent, sent with an active route, waits for
    [/api/refine-route]. *)
Lemma chat_submit_refine (p : PageState) (R1 : ChatRoute) :
  isLoading (chat p) = false ->
  JsString.trim (inputValue (chat p)) <> ""%string ->
  currentRoute p = Some R1 -> active_route (Some R1) = Some R1 ->
  refine_intent (JsString.toLowerCase (JsString.trim (inputValue (chat p)))) = true ->
  page_step ChatSubmit p =
  with_chat (mkChat (messages (chat p) ++ [user_message (JsString.trim (inputValue (chat p)))]) ""
                    true (Some (AwaitRefine (JsString.trim (inputValue (chat p))) (chat_props p)))) p.
Proof.
  intros Hl Hm HR Ha Hi. unfold page_step, chat_event, chat_step, submit.
  apply String.eqb_neq in Hm. rewrite Hm, Hl. cbn [orb].
  unfold chat_props at 1. cbn [snap_route]. rewrite HR, Ha, Hi. reflexivity.
Qed.

(** A failed refine request ends in the local answer, on the route the
    request captured. *)
Lemma chat_refine_failed (p : PageState) (m : string) (snap : Snapshot) (R1 R1' : ChatRoute)
    (res : Result (option Response)) :
  pending (chat p) = Some (AwaitRefine m snap) ->
  active_route (snap_route snap) = Some R1 ->
  localRouteQuery R1 (snap_pool snap) m = (Some R1', res) ->
  currentRoute (page_step (ChatRefineReply RefineFailed) p) = Some R1'.
Proof.
  intros Hp Ha Hq. unfold page_step, chat_event, chat_step, refine_arrives.
  rewrite Hp. cbn [refineOutcome]. rewrite Ha, Hq.
  destruct res as [[r|]|e]; reflexivity.
Qed.

(** C8: a chat replacement overwrites a route planned while its request
    was pending.  The submit handler's closure holds the route of the
    render that sent the message; when [/api/refine-route] fails, the
    local replacement rebuilds that stale route and passes it to
    [onRouteUpdate], so the route planned in between ([R2]) is lost,
    whatever it was. *)
Theorem chat_replacement_overwrites (p : PageState) (R1 R1' : ChatRoute) (R2 : PlannedRoute)
    (msg : string) (res : Result (option Response)) :
  isLoading (chat p) = false ->
  JsString.trim msg <> ""%string ->
  currentRoute p = Some R1 -> entries R1 <> [] ->
  refine_intent (JsString.toLowerCase (JsString.trim msg)) = true ->
  mentions (JsString.toLowerCase (JsString.trim msg)) ["replace"; "swap"; "different"]%string = true ->
  handleVenueReplacement R1 (pageVenues p) (JsString.trim msg) = (Some R1', res) ->
  currentRoute (page_run [ChatInput msg; ChatSubmit; PlannerRoute R2; ChatRefineReply RefineFailed] p)
  = Some R1'.
Proof.
  intros Hl Hm HR Hne Hi Hrep Hh.
  assert (Ha : active_route (Some R1) = Some R1)
    by (cbn; destruct (entries R1); [contradiction|reflexivity]).
  unfold page_run. cbn [fold_left]. rewrite chat_input_step.
  rewrite (chat_submit_refine _ R1) by (cbn; assumption).
  cbn [page_step]. apply (chat_refine_failed _ (JsString.trim msg) (chat_props (with_chat
     (mkChat (messages (chat p)) msg (isLoading (chat p)) (pending (chat p))) p)) R1 R1' res).
  - reflexivity.
  - cbn [chat_props snap_route with_chat currentRoute]. rewrite HR. exact Ha.
  - cbn [chat_props snap_pool with_chat pageVenues]. unfold localRouteQuery. rewrite Hrep. exact Hh.
Qed.

Lemma chat_replacement_overwrites_witness :
  (isLoading (chat sample_page) = false /\
   JsString.trim "Find a different restaurant" <> ""%string /\
   currentRoute sample_page = Some sample_route /\ entries sample_route <> [] /\
   refine_intent (JsString.toLowerCase (JsString.trim "Find a different restaurant")) = true /\
   mentions (JsString.toLowerCase (JsString.trim "Find a different restaurant"))
            ["replace"; "swap"; "different"]%string = true /\
   handleVenueReplacement sample_route (pageVenues sample_page)
     (JsString.trim "Find a different restaurant") =
   (Some (with_entries sample_route [Raw table; Stop (sample_stop 2 history "11:40 AM")]),
    Ok (Some (mkResponse RouteUpdate (Replaced "Harvest Kitchen" "Local Table" "restaurant" 60)
                         [bistro] [])))) /\
  currentRoute (page_run [ChatInput "Find a different restaurant"; ChatSubmit; PlannerRoute newer_route;
                          ChatRefineReply RefineFailed] sample_page)
  = Some (with_entries sample_route [Raw table; Stop (sample_stop 2 history "11:40 AM")]).
Proof.
  assert (H : isLoading (chat sample_page) = false /\
   JsString.trim "Find a different restaurant" <> ""%string /\
   currentRoute sample_page = Some sample_route /\ entries sample_route <> [] /\
   refine_intent (JsString.toLowerCase (JsString.trim "Find a different restaurant")) = true /\
   mentions (JsString.toLowerCase (JsString.trim "Find a different restaurant"))
            ["replace"; "swap"; "different"]%string = true /\
   handleVenueReplacement sample_route (pageVenues sample_page)
     (JsString.trim "Find a different restaurant") =
   (Some (with_entries sample_route [Raw table; Stop (sample_stop 2 history "11:40 AM")]),
    Ok (Some (mkResponse RouteUpdate (Replaced "Harvest Kitchen" "Local Table" "restaurant" 60)
                         [bistro] [])))).
  { repeat split; try (vm_compute; reflexivity); vm_compute; discriminate. }
  split; [exact H|].
  destruct H as (H1 & H2 & H3 & H4 & H5 & H6 & H7).
  exact (chat_replacement_overwrites _ _ _ newer_route _ _ H1 H2 H3 H4 H5 H6 H7).
Defined.

(** Merging the chat's tastes keeps the page's tastes distinct, as
    long as the new batch has distinct ids; the batch's tastes already
    present are dropped. *)
Theorem handleChatbotTastes_distinct (ts : list Taste) (p : PageState) :
  tastes_distinct p -> NoDup (map taste_id ts) -> tastes_distinct (handleChatbotTastes ts p).
Proof.
  unfold tastes_distinct, handleChatbotTastes. cbn [selectedTastes additionalTastes].
  set (existing := selectedTastes p ++ additionalTastes p). intros Hp Hts.
  rewrite app_assoc. fold existing. rewrite map_app. apply NoDup_app; [exact Hp| |].
  - apply (NoDup_map_filter taste_id). exact Hts.
  - intros x Hx Hy. apply in_map_iff in Hy as (t & <- & Ht). apply filter_In in Ht as [_ Ht].
    apply negb_true_iff in Ht.
    assert (existsb (String.eqb (taste_id t)) (map taste_id existing) = true)
      by (apply existsb_exists; exists (taste_id t); split; [exact Hx|apply String.eqb_refl]).
    congruence.
Qed.

Lemma handleChatbotTastes_distinct_witness :
  (tastes_distinct sample_page /\ NoDup (map taste_id (mockExtractTastes "jazz and coffee"))) /\
  tastes_distinct (handleChatbotTastes (mockExtractTastes "jazz and coffee") sample_page).
Proof.
  assert (H1 : tastes_distinct sample_page) by constructor.
  assert (H2 : NoDup (map taste_id (mockExtractTastes "jazz and coffee"))).
  { vm_compute. repeat constructor; cbn; intuition discriminate. }
  split; [split; assumption|]. exact (handleChatbotTastes_distinct _ _ H1 H2).
Defined.

(** The merge compares the new tastes with the old ones only, not
    with each other: a batch that names a taste twice adds it twice. *)
Example chatbot_tastes_duplicate_batch :
  additionalTastes (handleChatbotTastes [jazz; jazz] sample_page) = [jazz; jazz].
Proof. reflexivity. Qed.

End Page.
