(* ===== verification/Planner.v ===== *)
(** * The RoutePlanner component

    The state of [RoutePlanner] ([RoutePlanner.js], lines 15-23), its
    handler [generateRoute] (lines 26-119) composed of the selection,
    the optimizer and the timing engine, and the user events its three
    steps render (lines 346-561): the venue-count buttons and the three
    preference selects in step ['select'], "Modify Plan" and "Use This
    Route" in step ['plan'].

    [generateRoute] has no [await]: its body runs to completion in one
    event, so [isGenerating] is [false] again when it returns; a thrown
    exception is caught, logged, and leaves the step and the previous
    route as they were.  The invariant [planner_inv] holds in every
    state reachable from the initial one, by induction on the event
    sequence. *)
From S2P Require Import Prelude JsNumber JsString Venue Selection RouteOrder Clock Timing Itinerary.
From Stdlib Require Import List ZArith Lia String Permutation Bool.
Import ListNotations.
Import Venue.

Module Planner.

(** [step]: ['select'], ['plan'] or ['refine']. *)
Inductive Step : Type := StepSelect | StepPlan | StepRefine.

(** The component state; [plannedRoute] starts as [[]], which has no
    [venues] ([None] here). *)
Record PlannerState : Type := mkPlanner {
  step : Step;
  venueCount : nat;
  plannedRoute : option PlannedRoute;
  isGenerating : bool;
  routePreferences : RoutePreferences
}.

Definition initialState : PlannerState :=
  mkPlanner StepSelect 3 None false default_preferences.

Section WithEnv.

Context (random_stream : nat -> Binary64.num) (clock_stream : nat -> string).

(** [getCurrentTime()] (lines 305-312): a reading of the wall clock,
    formatted by the browser's [toLocaleTimeString]. *)
Definition getCurrentTime : M World string := read_clock clock_stream.

(** The body of the [try] block of [generateRoute] (lines 31-111) up to
    the route object. *)
Definition planRoute (venues : list Venue) (venueCount : nat) (prefs : RoutePreferences)
  : M World PlannedRoute :=
  selected <- m_lift (VenueSelection.selectVenues venues venueCount prefs) ;;
  optimized <- RouteOrder.optimizeVenueOrder random_stream selected ;;
  currentTime <- getCurrentTime ;;
  details <- Timing.routeDetails random_stream prefs None 0 currentTime optimized ;;
  let stops := fst details in
  let total := Timing.totalTime stops in
  start <- getCurrentTime ;;
  nowForEnd <- getCurrentTime ;;
  ret {| venues := stops; totalDuration := total; startTime := start;
         endTime := Clock.addMinutes nowForEnd total; preferences := prefs |}.

(** [generateRoute()] (lines 26-119): on success the route is stored and
    the step becomes ['plan']; an exception is caught and logged; the
    [finally] block clears [isGenerating]. *)
Definition generateRoute (venues : list Venue) (s : PlannerState) : M World PlannerState :=
  fun w =>
    match planRoute venues (venueCount s) (routePreferences s) w with
    | (Ok r, w') =>
        (Ok (mkPlanner StepPlan (venueCount s) (Some r) false (routePreferences s)), w')
    | (Throw _, w') =>
        (Ok (mkPlanner (step s) (venueCount s) (plannedRoute s) false (routePreferences s)), w')
    end.

End WithEnv.

(** The user's actions on the rendered component. *)
Inductive Event : Type :=
| ChooseCount (n : nat)
| ChooseDuration (d : Duration)
| ChoosePace (p : Pace)
| ChooseFocus (f : Focus)
| Generate (pool : list Venue)
| ModifyPlan
| UseRoute.

(** Which actions the current step renders: the count buttons [2..6]
    (line 351), the selects and the generate button in ['select'] (the
    button is disabled while [isGenerating]); the two buttons of ['plan']
    when [plannedRoute.venues] exists (line 419). *)
Definition enabled (s : PlannerState) (e : Event) : bool :=
  match e, step s with
  | ChooseCount n, StepSelect => (2 <=? n)%nat && (n <=? 6)%nat
  | (ChooseDuration _ | ChoosePace _ | ChooseFocus _), StepSelect => true
  | Generate _, StepSelect => negb (isGenerating s)
  | (ModifyPlan | UseRoute), StepPlan =>
      match plannedRoute s with Some _ => true | None => false end
  | _, _ => false
  end.

Definition set_prefs (s : PlannerState) (p : RoutePreferences) : PlannerState :=
  mkPlanner (step s) (venueCount s) (plannedRoute s) (isGenerating s) p.

(** The handlers (lines 355, 370, 382, 394, 406, 509, 515-518); the
    second component is the route handed to [onUpdateRoute]. *)
Definition handle (random_stream : nat -> Binary64.num) (clock_stream : nat -> string)
    (e : Event) (s : PlannerState) : M World (PlannerState * option PlannedRoute) :=
  match e with
  | ChooseCount n =>
      ret (mkPlanner (step s) n (plannedRoute s) (isGenerating s) (routePreferences s), None)
  | ChooseDuration d =>
      let p := routePreferences s in
      ret (set_prefs s {| duration := d; pace := pace p; focus := focus p |}, None)
  | ChoosePace pc =>
      let p := routePreferences s in
      ret (set_prefs s {| duration := duration p; pace := pc; focus := focus p |}, None)
  | ChooseFocus f =>
      let p := routePreferences s in
      ret (set_prefs s {| duration := duration p; pace := pace p; focus := f |}, None)
  | Generate pool =>
      s' <- generateRoute random_stream clock_stream pool s ;; ret (s', None)
  | ModifyPlan =>
      ret (mkPlanner StepSelect (venueCount s) (plannedRoute s) (isGenerating s) (routePreferences s), None)
  | UseRoute =>
      ret (mkPlanner StepRefine (venueCount s) (plannedRoute s) (isGenerating s) (routePreferences s),
           plannedRoute s)
  end.

(** One transition of the component: an enabled event, handled in some
    environment (random source, clock, counters). *)
Inductive planner_step : PlannerState -> PlannerState -> Prop :=
| planner_step_intro rs cs e s w s' out w' :
    enabled s e = true ->
    handle rs cs e s w = (Ok (s', out), w') ->
    planner_step s s'.

Inductive reachable : PlannerState -> Prop :=
| reachable_init : reachable initialState
| reachable_step s s' : reachable s -> planner_step s s' -> reachable s'.

(** The invariant: the count is one the buttons offer, no generation is
    pending, the steps past ['select'] have a route, and every stored
    route has at most seven stops, numbered [1..n]. *)
Definition planner_inv (s : PlannerState) : Prop :=
  (2 <= venueCount s <= 6)%nat /\
  isGenerating s = false /\
  (step s <> StepSelect -> plannedRoute s <> None) /\
  (forall r, plannedRoute s = Some r ->
     (List.length (venues r) <= 7)%nat /\
     map order (venues r) = seq 1 (List.length (venues r))).

(** A sample plan: the five sample venues (no coordinates), three of
    them, from 10:00 AM. *)
Definition sample_plan : Result PlannedRoute * World :=
  planRoute RouteOrder.zero_stream (fun _ => Clock.clock_string 600) VenueSelection.sample_pool 3
    default_preferences (mkWorld 0 0).

(** ** Properties *)

Lemma adjusted_count_le_7 (d : Duration) (c n : nat) :
  (2 <= c <= 6)%nat -> (Nat.min (VenueSelection.adjustedVenueCount d c n) n <= 7)%nat.
Proof. intros Hc. destruct d; cbn; lia. Qed.

(** The shape of a planned route, from the selection, the optimizer and
    the timing engine. *)
Lemma planRoute_spec (rs : nat -> Binary64.num) (cs : nat -> string)
    (venues : list Venue) (c : nat) (prefs : RoutePreferences) (w : World)
    (r : PlannedRoute) (w' : World) :
  planRoute rs cs venues c prefs w = (Ok r, w') ->
  exists sel opt w1,
    VenueSelection.selectVenues venues c prefs = Ok sel /\
    RouteOrder.optimizeVenueOrder rs sel w = (Ok opt, w1) /\
    map (fun st => id (stop_venue st)) (Venue.venues r) = map id opt /\
    Permutation opt sel /\
    List.length (Venue.venues r) =
      Nat.min (VenueSelection.adjustedVenueCount (duration prefs) c (List.length venues))
              (List.length venues) /\
    map order (Venue.venues r) = seq 1 (List.length (Venue.venues r)) /\
    preferences r = prefs.
Proof.
  unfold planRoute. unfold m_bind at 1, m_lift.
  destruct (VenueSelection.selectVenues venues c prefs) as [sel|e] eqn:Hsel; [|discriminate].
  destruct (RouteOrder.optimizeVenueOrder_spec rs sel w) as (opt & w1 & Hopt & Hperm & _).
  unfold m_bind at 1. rewrite Hopt.
  unfold m_bind at 1, getCurrentTime, read_clock.
  unfold m_bind at 1.
  destruct (Timing.routeDetails rs prefs None 0 _ opt _) as [[[stops cur]|e] w2] eqn:Hrd;
    [|discriminate].
  cbn. intros H. injection H as <- _. cbn.
  destruct (Timing.routeDetails_spec rs prefs opt _ _ _ _ _ _ _ Hrd) as (Hids & Hord & _).
  exists sel, opt, w1.
  assert (Hlen : List.length stops = List.length opt)
    by (rewrite <- (length_map order stops), Hord; apply length_seq).
  repeat split; try assumption.
  - rewrite Hlen, (Permutation_length Hperm). now apply VenueSelection.selectVenues_length.
  - now rewrite Hord, Hlen.
Qed.

(** C2: a planned route visits the selected venues in the order
    [optimizeVenueOrder] returns for them, drawing from the same random
    stream at the same point: its stops are the optimizer's venues one
    for one, numbered [1..n], where [n] is the duration-adjusted count
    capped by the pool size, and that order is a reordering of the
    selection. *)
Theorem planRoute_shape (rs : nat -> Binary64.num) (cs : nat -> string)
    (venues : list Venue) (c : nat) (prefs : RoutePreferences) (w : World)
    (r : PlannedRoute) (w' : World) :
  planRoute rs cs venues c prefs w = (Ok r, w') ->
  exists sel opt w1,
    VenueSelection.selectVenues venues c prefs = Ok sel /\
    RouteOrder.optimizeVenueOrder rs sel w = (Ok opt, w1) /\
    map (fun st => id (stop_venue st)) (Venue.venues r) = map id opt /\
    Permutation opt sel /\
    List.length (Venue.venues r) =
      Nat.min (VenueSelection.adjustedVenueCount (duration prefs) c (List.length venues))
              (List.length venues) /\
    map order (Venue.venues r) = seq 1 (List.length (Venue.venues r)) /\
    preferences r = prefs.
Proof. exact (planRoute_spec rs cs venues c prefs w r w'). Qed.

Lemma planRoute_shape_witness :
  match sample_plan with
  | (Ok r, w') =>
      exists sel opt w1,
        VenueSelection.selectVenues VenueSelection.sample_pool 3 default_preferences = Ok sel /\
        RouteOrder.optimizeVenueOrder RouteOrder.zero_stream sel (mkWorld 0 0) = (Ok opt, w1) /\
        map (fun st => id (stop_venue st)) (Venue.venues r) = map id opt /\
        Permutation opt sel /\
        List.length (Venue.venues r) =
          Nat.min (VenueSelection.adjustedVenueCount (duration default_preferences) 3
                     (List.length VenueSelection.sample_pool))
                  (List.length VenueSelection.sample_pool) /\
        map order (Venue.venues r) = seq 1 (List.length (Venue.venues r)) /\
        preferences r = default_preferences
  | (Throw _, _) => False
  end.
Proof.
  unfold sample_plan.
  destruct (planRoute _ _ _ _ _ _) as [[r|e] w'] eqn:E; [|vm_compute in E; discriminate].
  exact (planRoute_shape _ _ _ _ _ _ r w' E).
Defined.

(** A stored route satisfies the route part of the invariant. *)
Lemma planRoute_inv rs cs vs c prefs w r w' :
  (2 <= c <= 6)%nat ->
  planRoute rs cs vs c prefs w = (Ok r, w') ->
  (List.length (venues r) <= 7)%nat /\
  map order (venues r) = seq 1 (List.length (venues r)).
Proof.
  intros Hc H. destruct (planRoute_spec rs cs vs c prefs w r w' H) as (sel & opt & w1 & _ & _ & _ & _ & Hlen & Hord & _).
  split; [rewrite Hlen; now apply adjusted_count_le_7|exact Hord].
Qed.

(** [generateRoute] keeps the invariant: it stores a planned route or
    leaves the state as it was, and always clears [isGenerating]. *)
Lemma generateRoute_inv rs cs vs s w s' w' :
  planner_inv s ->
  generateRoute rs cs vs s w = (Ok s', w') ->
  planner_inv s'.
Proof.
  intros (Hc & Hg & Hst & Hr). unfold generateRoute.
  destruct (planRoute rs cs vs (venueCount s) (routePreferences s) w) as [[r|e] w1] eqn:Hp;
    intros H; injection H as <- _; unfold planner_inv; cbn.
  - split; [exact Hc|]. split; [reflexivity|]. split; [congruence|].
    intros r' Hr'. injection Hr' as <-. exact (planRoute_inv _ _ _ _ _ _ _ _ Hc Hp).
  - split; [exact Hc|]. split; [reflexivity|]. split; assumption.
Qed.

(** Every handler keeps the invariant. *)
Lemma handle_inv rs cs e s w s' out w' :
  planner_inv s -> enabled s e = true ->
  handle rs cs e s w = (Ok (s', out), w') -> planner_inv s'.
Proof.
  intros Hinv Hen. pose proof Hinv as (Hc & Hg & Hst & Hr).
  destruct e; cbn -[generateRoute Nat.leb] in *; unfold m_ret, set_prefs;
    try (intros H; injection H as <- _ _).
  - destruct (step s); try discriminate.
    apply andb_prop in Hen as [H1 H2]. apply Nat.leb_le in H1, H2.
    unfold planner_inv; cbn. split; [lia|tauto].
  - exact Hinv.
  - exact Hinv.
  - exact Hinv.
  - unfold m_bind. destruct (generateRoute rs cs _ s w) as [[s1|ex] w1] eqn:Hgen;
      intros H; [|discriminate]. injection H as <- _ _.
    exact (generateRoute_inv _ _ _ _ _ _ _ Hinv Hgen).
  - destruct (step s); try discriminate. unfold planner_inv; cbn. intuition congruence.
  - destruct (step s); try discriminate. unfold planner_inv; cbn.
    destruct (plannedRoute s); [intuition congruence|discriminate].
Qed.

(** C1: every state the component reaches satisfies [planner_inv]:
    the count is in [2..6], no generation is pending, the plan and
    refine steps have a route, and every stored route has at most seven
    stops numbered [1..n]. *)
Theorem planner_inv_reachable (s : PlannerState) :
  reachable s -> planner_inv s.
Proof.
  induction 1 as [|s s' _ IH Hstep].
  - unfold planner_inv; cbn. repeat split; try lia; congruence.
  - destruct Hstep as [rs cs e s w s' out w' Hen Hh]. exact (handle_inv _ _ _ _ _ _ _ _ IH Hen Hh).
Qed.

Lemma planner_inv_reachable_witness : reachable initialState /\ planner_inv initialState.
Proof.
  split; [constructor|]. apply planner_inv_reachable. constructor.
Defined.

(** The walk has a non-negative length when its times are whole
    minutes. *)
Lemma span_nonneg (stops : list RouteStop) :
  forallb Itinerary.stop_ok stops = true -> (0 <= Itinerary.span stops)%Z.
Proof.
  induction stops as [|st r IH]; cbn; [lia|]. intros H.
  apply andb_prop in H as [Hst Hr]. apply andb_prop in Hst as [He Ht].
  apply Itinerary.whole_minutes_val in He as [_ He], Ht as [_ Ht].
  specialize (IH Hr). lia.
Qed.

(** C4: with a clock that reads minute [t] of the day while the route
    is planned, the planned route starts at [t], its [k]-th stop is
    reached after the dwell and travel times of the stops before it
    (and its own travel), the total duration is the sum of those times,
    and the end time is [t] plus the total: the end time is the
    departure from the last stop.  This holds whenever every dwell and
    travel time is a whole number of minutes. *)
Theorem planRoute_clock (rs : nat -> Binary64.num) (t : Z) (vs : list Venue) (c : nat)
    (prefs : RoutePreferences) (w : World) (r : PlannedRoute) (w' : World) :
  (0 <= t < 1440)%Z ->
  planRoute rs (fun _ => Clock.clock_string t) vs c prefs w = (Ok r, w') ->
  forallb Itinerary.stop_ok (venues r) = true ->
  startTime r = Clock.clock_string t /\
  map arrivalTime (venues r) = map Itinerary.clock_at (Itinerary.arrivals t (venues r)) /\
  totalDuration r = JInt (Itinerary.span (venues r)) /\
  endTime r = Itinerary.clock_at (t + Itinerary.span (venues r)).
Proof.
  intros Ht. unfold planRoute. unfold m_bind at 1, m_lift.
  destruct (VenueSelection.selectVenues vs c prefs) as [sel|e]; [|discriminate].
  destruct (RouteOrder.optimizeVenueOrder_spec rs sel w) as (opt & w1 & Hopt & _ & _).
  unfold m_bind at 1. rewrite Hopt.
  unfold m_bind at 1, getCurrentTime, read_clock.
  unfold m_bind at 1. cbv beta.
  destruct (Timing.routeDetails rs prefs None 0 (Clock.clock_string t) opt _)
    as [[[stops cur]|e] w2] eqn:Hrd; [|discriminate].
  unfold m_bind, m_ret. intros H. injection H as <- _.
  cbn [startTime endTime venues totalDuration fst]. intros Hok.
  rewrite <- (Itinerary.clock_at_small t Ht) in Hrd.
  destruct (Itinerary.routeDetails_clock rs prefs opt None 0 t _ stops cur w2
              ltac:(lia) (or_introl eq_refl) Hrd Hok) as [Harr _].
  rewrite Itinerary.totalTime_span by exact Hok.
  split; [reflexivity|]. split; [exact Harr|]. split; [reflexivity|].
  rewrite <- (Itinerary.clock_at_small t Ht). apply Itinerary.addMinutes_clock_at.
  now apply span_nonneg.
Qed.

Lemma planRoute_clock_witness :
  match sample_plan with
  | (Ok r, _) =>
      forallb Itinerary.stop_ok (venues r) = true /\
      startTime r = Clock.clock_string 600 /\
      map arrivalTime (venues r) = map Itinerary.clock_at (Itinerary.arrivals 600 (venues r)) /\
      totalDuration r = JInt (Itinerary.span (venues r)) /\
      endTime r = Itinerary.clock_at (600 + Itinerary.span (venues r))
  | (Throw _, _) => False
  end.
Proof.
  unfold sample_plan.
  destruct (planRoute _ _ _ _ _ _) as [[r|e] w'] eqn:E; [|vm_compute in E; discriminate].
  assert (Hok : forallb Itinerary.stop_ok (venues r) = true).
  { vm_compute in E. injection E as <- _. vm_compute. reflexivity. }
  split; [exact Hok|].
  exact (planRoute_clock _ 600 _ _ _ _ r w' ltac:(lia) E Hok).
Defined.

End Planner.
